(* ===== verification/_CoqProject ===== *)
-Q . S2P
Prelude.v
HostTy.v
ChalkIr.v
Lowering.v
ChalkScope.v
ChalkSubst.v
TyCtxt.v
BoundVars.v
WhereClauses.v
Closures.v
AutoTrait.v
WellKnown.v
Datums.v
Queries.v
ImplMatch.v
FnDefDatum.v
OpaqueTy.v
Instantiate.v
Database.v
