(* ===== verification/Prelude.v ===== *)
(** * A Rocq model of [rustc_traits::chalk::db], the rustc/Chalk fact bridge

    The program verified here is one Rust file,
    [src/compiler/rustc_traits/src/chalk/db.rs]: the implementation of
    Chalk's [RustIrDatabase] trait for rustc.  Chalk (the trait solver)
    asks the bridge questions about items ("what is the datum of trait T,
    of ADT A, of impl I?"); the bridge reads the answer from rustc's
    [TyCtxt], rewrites rustc's generic parameters into de Bruijn bound
    variables and returns a Chalk-shaped record.  No component mutates
    state: every query is a pure function of the host context.

    ** Parts of the program and where they are modelled

    - The host type system (rustc_middle, not in [src/]): its types,
      generic arguments, constants, regions and predicates, and the two
      binder-aware rewrites the bridge calls, [shift_vars] and
      [EarlyBinder::subst].  File [HostTy.v], [Module ty]; modelled from
      the spec, marked spec_modelled in the manifest.
    - The Chalk IR (chalk_ir / chalk_solve::rust_ir, not in [src/]): its
      types, binders, where clauses and the datum records the bridge
      builds.  File [ChalkIr.v], [Module chalk_ir] and [Module rust_ir].
    - The lowering from rustc to Chalk ([crate::chalk::lowering], not in
      [src/]): the [LowerInto] instances, lossy on predicates.  File
      [Lowering.v].
    - The host context [TyCtxt]: the queries the bridge asks, as a
      record of functions, and [Module Sample], one concrete host
      context (a small crate), the input of the witnesses.  File [TyCtxt.v].
    - Scope of Chalk terms ([ChalkScope.v], [Module scope]): the
      spec's "each datum is closed under its own binder", sharpened to
      well-kindedness: a visitor over the variables of Chalk terms that
      checks each bound variable against a stack of binders and the
      kind its binder gives it ([bound_ok]; [qwc_scoped] puts a where
      clause's own binder on the stack, so that no level goes
      unchecked), and the lemma that the lowering carries the rustc-side
      property over.
    - How the solver uses a datum (chalk_ir's folders, not in [src/]):
      [Binders::substitute] and the [Shifter], from the spec.  File
      [ChalkSubst.v], [Module cfold], with the theorems that lowering
      commutes with shifting and with substitution.
    - The binder/index builder [bound_vars_for_item] and [binders_for]
      (db.rs 715-760).  File [BoundVars.v].
    - Where-clause lowering [where_clauses_for] and [bounds_for]
      (db.rs 36-61).  File [WhereClauses.v].
    - The closure layout decoder [closure_kind],
      [closure_inputs_and_output], [closure_upvars],
      [closure_fn_substitution] (db.rs 591-659).  File [Closures.v].
    - The auto-trait provision oracle [impl_provided_for]
      (db.rs 371-448).  File [AutoTrait.v].
    - The well-known trait classifier, both directions (db.rs 122-147
      and 552-574).  File [WellKnown.v].
    - The datum builders [associated_ty_data], [trait_datum],
      [adt_datum], [adt_repr], [adt_size_align], [impl_datum] and
      [associated_ty_value] (db.rs 69-259, 303-336, 450-480).  File
      [Datums.v].
    - The variance lookups and the trivial or unimplemented queries
      (db.rs 482-491, 576-589, 661-708).  File [Queries.v].
    - The impl shape pre-filter [impls_for_trait] (db.rs 338-369), with
      Chalk's [could_match] as the class [CouldMatch] whose law is
      that an instance of the impl's self type (its binder substituted
      by Chalk) is never rejected; the spec's head-shape test is an
      instance.  File [ImplMatch.v].
    - The function datum [fn_def_datum] (db.rs 261-301), with its
      nested signature binder.  File [FnDefDatum.v].
    - The opaque datum [opaque_ty_data] and [ReplaceOpaqueTyFolder]
      (db.rs 493-543, 762-794).  File [OpaqueTy.v].
    - The composition of the datum builders with the solver's
      instantiation: [Instantiate.v], which states what the datums mean,
      the opaque datum instantiated with its hidden type included.
    - The two trait impls themselves (db.rs 64-67, 675-677, 687): chalk's
      [RustIrDatabase] and [UnificationDatabase] traits as records of
      their methods, the bridge's impls as the records of the
      definitions above, [interner] and [unification_database] as their
      accessor fields.  File [Database.v].

    Every query is a function of the host context: each mapped
    definition takes [tcx : TyCtxt] as its first argument, and the
    Section that proves its lemmas fixes it with [Context (tcx : TyCtxt)]
    and abbreviates the definitions applied to it.  A query returns
    [res] when the
    Rust code can panic: each [bug!], [unimplemented!], [expect],
    [unwrap], [assert_eq!] and slice index is an error value, so the
    error paths are branches of the model.  All recursion is structural;
    no fuel is needed.

    ** What the theorems show

    1. binder consistency ([BoundVars.v]): [bound_vars_for_item] maps
       parameter i to the bound variable (INNERMOST, i) of its kind,
       [binders_for] has one kind per parameter, and substituting the
       result into a well-kinded term of the item gives a term with no
       parameter whose free bound variables are variables of the item
       binder, each used at the kind of the parameter it replaces;
    2. where-clause lowering ([WhereClauses.v]) is the filter_map of the
       lowering over the substituted predicates, in order, total on
       well-formed items, and each clause is scoped binder by binder
       (its own binder, then the item's) when the predicates declare
       their late-bound variables;
    3. the closure decoder ([Closures.v]) inverts the trailing-slot
       encoding and fails with the code's panics on malformed layouts;
    4. the auto-trait oracle ([AutoTrait.v]) is an existential scan of
       the structural tag table, which refines the spec's tag equality;
    5. the well-known classifier ([WellKnown.v]) round-trips on the
       eleven roles the forward chain tests (the two others are never
       recognised, a lemma behind a finding);
    6. the datum invariant ([Datums.v]): on well-formed items every
       datum builder succeeds, its binder has one variable per generic
       parameter, and everything under it is well-kinded under it; the
       precondition panics fire exactly where, and in the order, the
       code checks them; the spec's [Pair<T>] scenario evaluates to the
       expected datum;
    7. the variance lookups ([Queries.v]) fail exactly on bivariance;
    8. the impl pre-filter ([ImplMatch.v]) keeps, in order, the impls
       the matcher accepts, and, for any matcher with the law, never
       drops an impl whose self type, substituted by rustc with some
       arguments and lowered, is the query: the filter's own
       substituted self type has the query as an instance;
    9. the function datum ([FnDefDatum.v]) is scoped binder by binder
       (the signature's binder, then the item's, each variable at the
       kind its binder declares), and its second substitution is the
       identity;
    10. the opaque datum ([OpaqueTy.v]) has the item's variables and one
       existential variable, and each bound and where clause is scoped
       binder by binder (its own binder, the hidden type, the item's);
       the bounds being substituted before they are folded, the folder
       never fires on a generic opaque type, and it does not look
       inside the types it visits;
    11. the binder encoding is faithful ([ChalkSubst.v]): lowering
       commutes with shifting, and substituting [bound_vars_for_item],
       lowering, then letting Chalk substitute the lowered arguments of
       a goal is rustc's own substitution of those arguments, lowered;
       rustc's substitution of arguments of the declared kinds never
       fails ([HostTy.v]);
    12. the datums mean what rustc means ([Instantiate.v]): the ADT,
       trait, impl, function and associated-type datums and the
       associated-type values, instantiated by Chalk with the arguments
       of a goal, give the lowering of rustc's [field.ty(tcx, args)], of
       the substituted predicates and item bounds (in order, the
       inexpressible ones dropped on both sides), of
       [impl_trait_ref(impl).subst(args)], of [fn_sig(def).subst(args)]
       and of [type_of(value).subst(args)]; the opaque datum of a
       non-generic opaque type, instantiated with a closed hidden type,
       gives the lowering of its bounds with each visited
       self-reference replaced by that type ([Instantiate.v]);
    13. the database is safe ([Database.v]): for every host and every
       sound [could_match], no method of the bridge's database panics
       on an item of its kind that is well formed as rustc guarantees;
       only the [unimplemented!] gaps remain (generators, the
       discriminant type, coherence, bivariance, associated items that
       are not types).

    The sample crate of [TyCtxt.v] gives each theorem with a
    hypothesis a witness: [Pair<T>], [S<'a, T, const N>], an auto
    trait with one impl, a generic trait with an associated type and an
    impl, [fn id<T>], [fn first<'a, T>] with a late-bound lifetime, two
    opaque types and the lang items of [core];
    the head-shape test of [ImplMatch.v] stands for [could_match].

    ** Not modelled, and why

    - [program_clauses_for_env]: a call into chalk_solve;
    - the [Debug] impl: output only;
    - the collection of late-bound variables of a signature
      ([collect_bound_vars], lowering.rs) is taken from the spec: the
      signature's declared variables, in order;
    - Chalk's real [could_match] (a structural zip) is not modelled;
      the theorems on [impls_for_trait] hold for every matcher that
      satisfies the law of [CouldMatch];
    - Chalk's folders are modelled on the constructors of the Chalk
      model only, and the type of a constant whose value is a free
      bound variable is not folded, as in chalk; the refinement
      theorems therefore ask the goal's constants to have closed types,
      which rustc's const generics guarantee.

    This file, the prelude, holds what the components share: the
    [Fatal] conditions of the Rust code ([unimplemented!], [bug!],
    [expect], index panics) and the result monad [res] that carries them,
    the [LowerInto] class, generic lemmas on [mapM] and [omap], the
    hint database [chalk] and the tactics of the development. *)

From stdpp Require Export base list option strings.
From Stdlib Require Export ZArith.

Declare Scope chalk_scope.
Delimit Scope chalk_scope with chalk.
Open Scope chalk_scope.

Create HintDb chalk.
Create Rewrite HintDb chalk_rw.

(** ** Fatal conditions of the Rust code *)

(** A panic of the bridge: the Rust code aborts the compiler on each of
    these.  They are values here, so that every error path of the code
    is a branch of the model. *)
Inductive Fatal :=
| Unimplemented (msg : string)   (** [unimplemented!(msg)] *)
| Bug (msg : string)             (** [bug!(msg)], [span_bug!] *)
| Panic (msg : string)           (** [panic!(msg)] *)
| ExpectFailed (msg : string)    (** [Option::expect(msg)] on [None] *)
| UnwrapNone                     (** [Option::unwrap] on [None] *)
| IndexOutOfBounds               (** slice indexing or [usize] underflow *)
| AssertFailed (msg : string).   (** [assert_eq!] *)

#[export] Instance Fatal_eq_dec : EqDecision Fatal.
Proof. solve_decision. Defined.

(** The result of a query that may panic. *)
Inductive res (A : Type) : Type :=
| Ok (a : A)
| Err (e : Fatal).
Arguments Ok {A} a.
Arguments Err {A} e.

#[export] Instance res_ret : MRet res := @Ok.
#[export] Instance res_bind : MBind res := λ A B f m,
  match m with Ok a => f a | Err e => Err e end.
#[export] Instance res_fmap : FMap res := λ A B f m,
  match m with Ok a => Ok (f a) | Err e => Err e end.

(** [o.expect(msg)] *)
Definition expect {A} (msg : string) (o : option A) : res A :=
  match o with Some a => Ok a | None => Err (ExpectFailed msg) end.

(** [o.unwrap()] *)
Definition unwrap {A} (o : option A) : res A :=
  match o with Some a => Ok a | None => Err UnwrapNone end.

(** [l[l.len() - k]] on a slice: the subtraction underflows, or the
    index is out of range, when [l] has fewer than [k] elements. *)
Definition index_from_end {A} (l : list A) (k : nat) : res A :=
  if decide (k ≤ length l) then
    match l !! (length l - k) with Some a => Ok a | None => Err IndexOutOfBounds end
  else Err IndexOutOfBounds.

Lemma index_from_end_app {A} (l : list A) (suffix : list A) k a :
  suffix !! (length suffix - k) = Some a → 1 ≤ k ≤ length suffix →
  index_from_end (l ++ suffix) k = Ok a.
Proof.
  intros Ha Hk. unfold index_from_end. rewrite length_app, decide_True by lia.
  rewrite lookup_app_r by lia.
  by replace (length l + length suffix - k - length l) with (length suffix - k) by lia; rewrite Ha.
Qed.

Lemma index_from_end_short {A} (l : list A) k : length l < k → index_from_end l k = Err IndexOutOfBounds.
Proof. intros H. unfold index_from_end. by rewrite decide_False by lia. Qed.

(** [&l[..l.len() - k]]: the subtraction underflows when [l] has fewer
    than [k] elements. *)
Definition slice_until_from_end {A} (l : list A) (k : nat) : res (list A) :=
  if decide (k ≤ length l) then Ok (take (length l - k) l) else Err IndexOutOfBounds.

(** [l[i]] on a slice: out of range panics. *)
Definition slice_index {A} (l : list A) (i : nat) : res A :=
  match l !! i with Some a => Ok a | None => Err IndexOutOfBounds end.

(** A [None] of a host query that rustc turns into [bug!]. *)
Definition or_bug {A} (msg : string) (o : option A) : res A :=
  match o with Some a => Ok a | None => Err (Bug msg) end.

(** [Ok]-ness as a boolean, for statements about the error paths. *)
Definition is_ok {A} (r : res A) : bool :=
  match r with Ok _ => true | Err _ => false end.

(** ** The [LowerInto] trait of [crate::chalk::lowering] *)

Class LowerInto (A B : Type) := lower_into : A → B.
Arguments lower_into {_ _ _} _.

(** ** Lemmas on the result monad *)

Section ResLemmas.
Context {A B : Type}.

Lemma res_bind_Ok (m : res A) (f : A → res B) b :
    (m ≫= f) = Ok b ↔ ∃ a, m = Ok a ∧ f a = Ok b.
  Proof. destruct m; simpl; split; [eauto|by intros (?&[=->]&?)|done|by intros (?&?&?)]. Qed.

Lemma res_fmap_Ok (m : res A) (f : A → B) b :
    (f <$> m) = Ok b ↔ ∃ a, m = Ok a ∧ b = f a.
  Proof. destruct m; simpl; split; [intros [=<-]; eauto|by intros (?&[=->]&->)|done|by intros (?&?&?)]. Qed.

  (** [mapM] over [res] is the Rust [collect::<Result<Vec<_>,_>>()]
      (and the sequence of panicking [map]s): it succeeds exactly when
      every element does, and keeps the order. *)
Lemma mapM_res_Ok (f : A → res B) (l : list A) (k : list B) :
    mapM f l = Ok k ↔ Forall2 (λ x y, f x = Ok y) l k.
  Proof.
    revert k; induction l as [|x l IH]; intros k; simpl.
    - split; [intros [=<-]; constructor|by inversion 1].
    - destruct (f x) as [y|e] eqn:Hf; simpl.
      + destruct (mapM f l) as [k'|e] eqn:Hl; simpl.
        * split; [intros [=<-]; constructor; [done|by apply IH]|].
          intros Hk. inversion Hk as [|? y' ? l' Hy Hl']; subst.
          rewrite Hf in Hy. injection Hy as ->.
          apply IH in Hl'. by injection Hl' as ->.
        * split; [done|]. intros Hk. inversion Hk as [|? y' ? l' Hy Hl']; subst.
          by apply IH in Hl'.
      + split; [done|]. intros Hk. inversion Hk; congruence.
  Qed.

Lemma mapM_res_length (f : A → res B) l k :
    mapM f l = Ok k → length k = length l.
  Proof. intros H%mapM_res_Ok. symmetry. by eapply Forall2_length. Qed.

Lemma mapM_res_ext (f g : A → res B) l :
    (∀ x, x ∈ l → f x = g x) → mapM f l = mapM g l.
  Proof.
    induction l as [|x l IH]; intros H; simpl; [done|].
    rewrite H by apply list_elem_of_here.
    rewrite IH; [done|]. intros y Hy. apply H. by apply list_elem_of_further.
  Qed.

Lemma mapM_res_Ok_map (f : A → B) l : mapM (λ x, Ok (f x)) l = Ok (map f l).
  Proof. induction l as [|x l IH]; simpl; [done|]. by rewrite IH. Qed.

  (** A failing [collect] fails with the error of one of the elements. *)
Lemma mapM_res_Err (f : A → res B) l e :
    mapM f l = Err e → ∃ x, x ∈ l ∧ f x = Err e.
  Proof.
    induction l as [|x l IH]; simpl; [done|].
    destruct (f x) as [y|e'] eqn:Hf; simpl.
    - destruct (mapM f l) as [k|e''] eqn:Hl; simpl; [done|].
      intros [= ->]. destruct IH as (z&Hz&Hfz); [done|]. exists z. split; [by apply list_elem_of_further|done].
    - intros [= ->]. exists x. split; [apply list_elem_of_here|done].
  Qed.
End ResLemmas.

(** ** Lookup in a [map]ped list *)

Lemma lookup_map {A B} (f : A → B) (l : list A) (i : nat) : map f l !! i = f <$> l !! i.
Proof. revert i; induction l as [|x l IH]; intros [|i]; simpl; auto. Qed.

(** ** Lemmas on [filter_map], i.e. stdpp's [omap] *)

Section OmapLemmas.
Context {A B : Type} (f : A → option B).

Lemma omap_cons x (l : list A) :
    omap f (x :: l) = match f x with Some y => y :: omap f l | None => omap f l end.
  Proof. done. Qed.

  (** [filter_map] never produces more elements than it reads. *)
Lemma length_omap_le (l : list A) : length (omap f l) ≤ length l.
  Proof.
    induction l as [|x l IH]; [done|].
    rewrite omap_cons. destruct (f x); simpl; lia.
  Qed.

  (** It produces exactly as many when nothing is dropped. *)
Lemma length_omap_all_Some (l : list A) :
    Forall (λ x, is_Some (f x)) l → length (omap f l) = length l.
  Proof.
    induction 1 as [|x l [y Hy] _ IH]; [done|].
    rewrite omap_cons, Hy. simpl. lia.
  Qed.

Lemma omap_app (l1 l2 : list A) : omap f (l1 ++ l2) = omap f l1 ++ omap f l2.
  Proof.
    induction l1 as [|x l IH]; [done|].
    rewrite <-app_comm_cons, !omap_cons. destruct (f x); by rewrite IH.
  Qed.

  (** What holds of every image holds of the whole output. *)
Lemma forallb_omap (q : B → bool) (l : list A) :
    Forall (λ x, ∀ y, f x = Some y → q y = true) l → forallb q (omap f l) = true.
  Proof.
    induction 1 as [|x l Hx _ IH]; [done|]. rewrite omap_cons.
    destruct (f x) eqn:Hfx; [|done]. simpl. by rewrite (Hx _ eq_refl), IH.
  Qed.
End OmapLemmas.


(** ** [mapM] over [option] with boolean pre- and postconditions *)

Section OptionMapM.
Context {A B : Type}.

Lemma mapM_Some_fmap (f : A → B) l : mapM (λ x, Some (f x)) l = Some (f <$> l).
  Proof. induction l as [|x l IH]; simpl; [done|]. by rewrite IH. Qed.

  (** If [f] maps each element satisfying [pre] to a value satisfying
      [post], [mapM f] maps a list satisfying [pre] everywhere. *)
Lemma mapM_Some_forallb (f : A → option B) (pre : A → bool) (post : B → bool) l :
    Forall (λ x, pre x = true → ∃ y, f x = Some y ∧ post y = true) l →
    forallb pre l = true → ∃ l', mapM f l = Some l' ∧ forallb post l' = true.
  Proof.
    induction 1 as [|x l Hx _ IH]; simpl; [by exists []|].
    intros [Hp Hl]%andb_prop.
    destruct (Hx Hp) as (y&Hy&Hpy). destruct (IH Hl) as (l'&Hl'&Hpl').
    exists (y :: l'). rewrite Hy, Hl'. simpl. by rewrite Hpy, Hpl'.
  Qed.

  (** If [f] is the identity on each element satisfying [pre]. *)
Lemma mapM_Some_id (f : A → option A) (pre : A → bool) l :
    Forall (λ x, pre x = true → f x = Some x) l →
    forallb pre l = true → mapM f l = Some l.
  Proof.
    induction 1 as [|x l Hx _ IH]; simpl; [done|].
    intros [Hp Hl]%andb_prop. by rewrite (Hx Hp), (IH Hl).
  Qed.

  (** The same, for families indexed by a depth [c], as the inductions
      over binders use it. *)
Lemma mapM_Some_forallb_at (f : nat → A → option B) (pre : nat → A → bool)
      (post : nat → B → bool) c l :
    Forall (λ x, ∀ c, pre c x = true → ∃ y, f c x = Some y ∧ post c y = true) l →
    forallb (pre c) l = true → ∃ l', mapM (f c) l = Some l' ∧ forallb (post c) l' = true.
  Proof. intros H. apply mapM_Some_forallb. eapply Forall_impl; [exact H|]. eauto. Qed.
End OptionMapM.

Lemma forallb_ext_Forall {A} (p q : A → bool) (l : list A) :
  Forall (λ x, p x = q x) l → forallb p l = forallb q l.
Proof. induction 1; simpl; congruence. Qed.

Lemma forallb_map_Forall {A B} (p : B → bool) (h : A → B) (q : A → bool) (l : list A) :
  Forall (λ x, q x = true → p (h x) = true) l → forallb q l = true → forallb p (map h l) = true.
Proof. induction 1; simpl; [done|]. intros [??]%andb_prop. apply andb_true_intro; auto. Qed.

(** The outputs of a successful [mapM] over [option] satisfy what every
    output of [f] on the list satisfies. *)
Lemma mapM_Some_forallb_post {A B} (f : A → option B) (post : B → bool) l l' :
  Forall (λ x, ∀ y, f x = Some y → post y = true) l → mapM f l = Some l' → forallb post l' = true.
Proof.
  intros Hl Hm. apply mapM_Some_1 in Hm. revert Hl.
  induction Hm as [|x y l l' Hxy _ IH]; simpl; [done|]. intros [Hx Hl]%Forall_cons.
  rewrite (Hx y Hxy). by apply IH.
Qed.

Lemma forallb_Forall_impl {A} (p q : A → bool) (l : list A) :
  Forall (λ x, p x = true → q x = true) l → forallb p l = true → forallb q l = true.
Proof. induction 1; simpl; [done|]. intros [? ?]%andb_prop. apply andb_true_intro; auto. Qed.

(** [map f] is the identity on a list where [f] fixes each element
    satisfying [p]. *)
Lemma map_id_Forall {A} (f : A → A) (p : A → bool) (l : list A) :
  forallb p l = true → Forall (λ x, p x = true → f x = x) l → map f l = l.
Proof. intros Hp Hl. revert Hp. induction Hl; simpl; [done|]. intros [? ?]%andb_prop. f_equal; auto. Qed.

Lemma map_ext_Forall_pre {A B} (f g : A → B) (p : A → bool) (l : list A) :
  forallb p l = true → Forall (λ x, p x = true → f x = g x) l → map f l = map g l.
Proof. intros Hp Hl. revert Hp. induction Hl; simpl; [done|]. intros [? ?]%andb_prop. f_equal; auto. Qed.

(** Rewriting [option] binds and maps into one normal form. *)
Section OptionNorm.
Context {A B C : Type}.

Lemma opt_bind_fmap (F : A → B) (m : option A) (g : B → option C) :
  (F <$> m) ≫= g = m ≫= (λ x, g (F x)).
Proof. by destruct m. Qed.

Lemma opt_fmap_fmap (F : A → B) (G : B → C) (m : option A) : G <$> (F <$> m) = (λ x, G (F x)) <$> m.
Proof. by destruct m. Qed.

Lemma opt_fmap_bind (g : A → option B) (G : B → C) (m : option A) :
  G <$> (m ≫= g) = m ≫= (λ x, G <$> g x).
Proof. by destruct m. Qed.

Lemma opt_bind_assoc (g : A → option B) (h : B → option C) (m : option A) :
  (m ≫= g) ≫= h = m ≫= (λ x, g x ≫= h).
Proof. by destruct m. Qed.

Lemma opt_bind_fmap_out (F : B → C) (m : option A) (g : A → option B) (r : option B) :
  m ≫= g = r → m ≫= (λ x, F <$> g x) = F <$> r.
Proof. intros <-. by destruct m. Qed.

Lemma opt_bind_ext (g h : A → option B) (m : option A) :
  (∀ x, m = Some x → g x = h x) → m ≫= g = m ≫= h.
Proof. destruct m; simpl; auto. Qed.
End OptionNorm.

Lemma Forall_forallb_pre {A} (P : A → Prop) (p : A → bool) (l : list A) :
  forallb p l = true → Forall (λ x, p x = true → P x) l → Forall P l.
Proof. intros Hp Hl. revert Hp. induction Hl; simpl; [done|]. intros [? ?]%andb_prop. constructor; auto. Qed.

(** Two [mapM]s in sequence, the second over a mapped list, agree with
    one [mapM] followed by a [map] when they agree element by element:
    the shape of every "substitute, then lower" = "lower, then
    substitute" argument over the lists of a term. *)
Lemma mapM_bind_map {A B C D E} (f : A → option B) (m : B → E) (g : E → option C)
    (h : A → option D) (k : D → C) (l : list A) :
  Forall (λ x, f x ≫= (λ y, g (m y)) = k <$> h x) l →
  mapM f l ≫= (λ ys, mapM g (map m ys)) = map k <$> mapM h l.
Proof.
  induction 1 as [|x l Hx _ IH]; [done|]. simpl.
  destruct (f x) as [y|]; simpl in Hx; [|destruct (h x); simpl in *; congruence].
  destruct (h x) as [z|]; simpl in Hx.
  - destruct (mapM f l) as [ys|]; simpl in IH |- *.
    + rewrite Hx. simpl. rewrite IH. by destruct (mapM h l).
    + destruct (mapM h l); simpl in *; congruence.
  - destruct (mapM f l) as [ys|]; simpl; [by rewrite Hx|done].
Qed.

Lemma mapM_bind_map_fmap {A B C D E F} (f : A → option B) (m : B → E) (g : E → option C)
    (h : A → option D) (k : D → C) (G : list C → F) (l : list A) :
  Forall (λ x, f x ≫= (λ y, g (m y)) = k <$> h x) l →
  mapM f l ≫= (λ ys, G <$> mapM g (map m ys)) = (λ zs, G (map k zs)) <$> mapM h l.
Proof.
  intros Hl. rewrite <-opt_fmap_fmap, <-(mapM_bind_map f m g h k l Hl), opt_fmap_bind.
  done.
Qed.

Lemma mapM_bind_map_fmap2 {A B C D E F F'} (f : A → option B) (m : B → E) (g : E → option C)
    (h : A → option D) (k : D → C) (G : list C → F) (G' : F → F') (l : list A) :
  Forall (λ x, f x ≫= (λ y, g (m y)) = k <$> h x) l →
  mapM f l ≫= (λ ys, G' <$> (G <$> mapM g (map m ys))) = (λ zs, G' (G (map k zs))) <$> mapM h l.
Proof.
  intros Hl. rewrite <-(mapM_bind_map_fmap f m g h k (λ x, G' (G x)) l Hl).
  apply opt_bind_ext. intros ys _. apply opt_fmap_fmap.
Qed.

(** The same when the outer constructor also records the length of
    the list (a tuple's arity). *)
Lemma mapM_bind_map_fmap_len {A B C D E F} (f : A → option B) (m : B → E) (g : E → option C)
    (h : A → option D) (k : D → C) (G : nat → list C → F) (l : list A) :
  Forall (λ x, f x ≫= (λ y, g (m y)) = k <$> h x) l →
  mapM f l ≫= (λ ys, G (length ys) <$> mapM g (map m ys)) =
  (λ zs, G (length zs) (map k zs)) <$> mapM h l.
Proof.
  intros Hl. transitivity (mapM f l ≫= (λ ys, G (length l) <$> mapM g (map m ys))).
  { apply opt_bind_ext. intros ys Hys. apply mapM_Some_1, Forall2_length in Hys. by rewrite Hys. }
  rewrite (mapM_bind_map_fmap f m g h k (G (length l)) l Hl).
  destruct (mapM h l) as [zs|] eqn:Hzs; [|done]. simpl.
  apply mapM_Some_1, Forall2_length in Hzs. by rewrite Hzs.
Qed.

Lemma mapM_drop_Some {A B} (f : A → option B) (n : nat) (l : list A) (k : list B) :
  mapM f l = Some k → mapM f (drop n l) = Some (drop n k).
Proof. intros H%mapM_Some_1. by apply mapM_Some_2, Forall2_drop. Qed.

Lemma forallb_drop {A} (p : A → bool) (n : nat) (l : list A) :
  forallb p l = true → forallb p (drop n l) = true.
Proof.
  revert l; induction n as [|n IH]; intros [|x l]; simpl; try done.
  intros [_ ?]%andb_prop. by apply IH.
Qed.

(** Two traversals agree when their elements, paired, do. *)
Lemma mapM_Forall2_eq {A B C} (g : B → option C) (h : A → option C) (l : list A) (k : list B) :
  Forall2 (λ x y, g y = h x) l k → mapM g k = mapM h l.
Proof. induction 1 as [|x y l k Hxy _ IH]; simpl; [done|]. by rewrite Hxy, IH. Qed.

Lemma mapM_fmap_out {A B C} (F : B → C) (f : A → option B) (l : list A) :
  mapM (λ x, F <$> f x) l = map F <$> mapM f l.
Proof.
  induction l as [|x l IH]; simpl; [done|]. rewrite IH.
  destruct (f x), (mapM f l); done.
Qed.

(** Traversing what a [filter_map] kept, against traversing the source
    then filtering: each element either is kept on both sides, related
    through [g], or is dropped on both sides. *)
Lemma mapM_omap {A B D} (f : A → option B) (g : B → option B) (h : D → option A)
    (l : list D) (l' : list A) :
  Forall2 (λ x y, match f y with Some w => Some <$> g w | None => Some None end = f <$> h x) l l' →
  mapM g (omap f l') = omap f <$> mapM h l.
Proof.
  induction 1 as [|x y l l' Hxy _ IH]; simpl; [done|].
  destruct (f y) as [w|]; [destruct (g w) as [z|] eqn:Hg|]; simpl in *;
    destruct (h x) as [a|]; simpl in *; simplify_eq; simpl.
  all: change (list_omap A B f l') with (omap f l'); rewrite ?Hg, IH;
    destruct (mapM h l); simpl; rewrite <-?Hxy; done.
Qed.

(** A relation on pairs, from one on the pairs and a property of the
    left elements. *)
Lemma Forall2_Forall_impl {A B} (P : A → B → Prop) (Q : A → Prop) (R : A → B → Prop)
    (l : list A) (k : list B) :
  Forall2 P l k → Forall Q l → (∀ x y, P x y → Q x → R x y) → Forall2 R l k.
Proof. intros H1 H2 HR. induction H1; inversion H2; constructor; auto. Qed.

#[export] Hint Resolve length_omap_le mapM_res_length : chalk.
#[export] Hint Rewrite @mapM_res_Ok_map @omap_app @lookup_map : chalk_rw.

(** ** Tactics *)

(** Split every successful [res] bind in the hypotheses into its parts. *)
Ltac res_inv :=
  repeat match goal with
  | H : (_ ≫= _) = Ok _ |- _ =>
      apply res_bind_Ok in H as (?&?&?)
  | H : (_ <$> _) = Ok _ |- _ =>
      apply res_fmap_Ok in H as (?&?&?)
  | H : Ok _ = Ok _ |- _ => injection H as H
  | H : Err _ = Ok _ |- _ => discriminate H
  end.
