(* ===== verification/HostTy.v ===== *)
(** * The host type system: rustc's [ty] as the bridge sees it

    The bridge of [db.rs] reads rustc types ([Ty<'tcx>]), generic
    arguments ([GenericArg]), constants, regions and predicates, and
    rewrites them with two functions of [rustc_middle::ty]: the binder
    shifter [ty::fold::shift_vars] and the substitution
    [EarlyBinder::subst].  This file models those data and the two
    rewrites (they are not in [src/]: they follow the spec's description
    of binders and of de Bruijn levels, and are marked spec_modelled),
    with the facts on them that the binder theorems of [BoundVars.v]
    need: a substitution of the bound-variable identity
    [bound_vars_for_item] builds succeeds and gives a well-kinded term
    ([subst_bound_identity_mut], stated for a term under any stack of
    inner binders [inner] whose variables it checks against [wf_in],
    so that a signature or a predicate is checked at its own binder's
    level too: [pred_scoped]), and a substitution of arguments of
    the declared kinds never fails ([subst_total_mut],
    [subst_predicate_total]).  Only the constructors the bridge inspects or produces are
    kept; [Dynamic], [Generator], inference variables and placeholders of
    rustc are not modelled. *)

From S2P Require Import Prelude.

(** [rustc_span::def_id::DefId]: a crate number and an index in it. *)
Record DefId := mkDefId { krate : nat; def_index : nat }.

#[global] Instance DefId_eq_dec : EqDecision DefId.
Proof. solve_decision. Defined.

(** [LOCAL_CRATE] is crate 0; [def_id.is_local()] compares with it. *)
Definition LOCAL_CRATE : nat := 0.
Definition is_local (d : DefId) : bool := bool_decide (krate d = LOCAL_CRATE).

(** [rustc_span::Symbol], by its text. *)
Abbreviation Symbol := string.

Module ty.

(** ** Scalars and mutability ([rustc_type_ir], [rustc_ast]) *)
Inductive IntTy := Isize | I8 | I16 | I32 | I64 | I128.
Inductive UintTy := Usize | U8 | U16 | U32 | U64 | U128.
Inductive FloatTy := F32 | F64.
Inductive Mutability := Mut | Not.

(** [rustc_target::spec::abi::Abi], as far as the bridge tells ABIs
    apart, and [hir::Unsafety]. *)
Inductive Abi := AbiRust | AbiC | AbiOther.
Inductive Unsafety := Normal | Unsafe.

(** ** Bound variables and regions

    A bound variable is a pair (de Bruijn index of its binder, position
    in that binder).  [INNERMOST] is index 0. *)
Definition DebruijnIndex := nat.
Definition INNERMOST : DebruijnIndex := 0.

Inductive BoundRegionKind := BrAnon (n : nat) | BrNamed (d : DefId) (name : Symbol) | BrEnv.
Record BoundRegion := mkBoundRegion { br_var : nat; br_kind : BoundRegionKind }.

Inductive Region :=
| ReEarlyBound (index : nat) (name : Symbol)
| ReLateBound (db : DebruijnIndex) (br : BoundRegion)
| ReStatic
| ReErased.

Inductive BoundTyKind := BtAnon | BtParam (name : Symbol).
Record BoundTy := mkBoundTy { bt_var : nat; bt_kind : BoundTyKind }.

Inductive ConstKind :=
| CkParam (index : nat) (name : Symbol)
| CkBound (db : DebruijnIndex) (var : nat)
| CkValue (v : Z).

(** The kinds of the variables of a [ty::Binder]. *)
Inductive BoundVariableKind :=
| BvTy (k : BoundTyKind)
| BvRegion (k : BoundRegionKind)
| BvConst.

(** ** Types, generic arguments and constants ([ty::TyKind]) *)

Unset Elimination Schemes.
Inductive Ty :=
| Bool
| Char
| Int (i : IntTy)
| Uint (u : UintTy)
| Float (f : FloatTy)
| Adt (did : DefId) (substs : list GenericArg)
| Foreign (did : DefId)
| Str
| Array (t : Ty) (len : Const)
| Slice (t : Ty)
| RawPtr (m : Mutability) (t : Ty)
| Ref (r : Region) (t : Ty) (m : Mutability)
| FnDef (did : DefId) (substs : list GenericArg)
(** [FnPtr(PolyFnSig)]: a binder over the signature's inputs and output *)
| FnPtr (bound_vars : list BoundVariableKind) (inputs_and_output : list Ty)
| Closure (did : DefId) (substs : list GenericArg)
| Never
| Tuple (tys : list Ty)
| Projection (item_def_id : DefId) (substs : list GenericArg)
| Opaque (did : DefId) (substs : list GenericArg)
| Param (index : nat) (name : Symbol)
| Bound (db : DebruijnIndex) (bt : BoundTy)
| Error
with GenericArg :=
| GaLifetime (r : Region)
| GaType (t : Ty)
| GaConst (c : Const)
with Const :=
| mkConst (kind : ConstKind) (cty : Ty).
Set Elimination Schemes.

(** [SubstsRef]: the arguments of an item's parameters, in order. *)
Abbreviation SubstsRef := (list GenericArg).

(** [Const::ty] *)
Definition const_ty (c : Const) : Ty := match c with mkConst _ t => t end.

(** ** Induction over types

    One principle for the three mutual types, with [Forall] for the
    nested lists of arguments and of types. *)
Section TyInd.
Variables (P : Ty → Prop) (Q : GenericArg → Prop) (R : Const → Prop).
Hypotheses
    (H_bool : P Bool) (H_char : P Char) (H_int : ∀ i, P (Int i))
    (H_uint : ∀ u, P (Uint u)) (H_float : ∀ f, P (Float f))
    (H_adt : ∀ d s, Forall Q s → P (Adt d s))
    (H_foreign : ∀ d, P (Foreign d)) (H_str : P Str)
    (H_array : ∀ t c, P t → R c → P (Array t c))
    (H_slice : ∀ t, P t → P (Slice t))
    (H_raw : ∀ m t, P t → P (RawPtr m t))
    (H_ref : ∀ r t m, P t → P (Ref r t m))
    (H_fndef : ∀ d s, Forall Q s → P (FnDef d s))
    (H_fnptr : ∀ bvs io, Forall P io → P (FnPtr bvs io))
    (H_closure : ∀ d s, Forall Q s → P (Closure d s))
    (H_never : P Never)
    (H_tuple : ∀ tys, Forall P tys → P (Tuple tys))
    (H_proj : ∀ d s, Forall Q s → P (Projection d s))
    (H_opaque : ∀ d s, Forall Q s → P (Opaque d s))
    (H_param : ∀ i n, P (Param i n))
    (H_bound : ∀ db bt, P (Bound db bt))
    (H_error : P Error)
    (H_lt : ∀ r, Q (GaLifetime r))
    (H_ty : ∀ t, P t → Q (GaType t))
    (H_ct : ∀ c, R c → Q (GaConst c))
    (H_const : ∀ k t, P t → R (mkConst k t)).

Fixpoint Ty_ind (t : Ty) : P t :=
    let fix args (s : list GenericArg) : Forall Q s :=
      match s with
      | [] => ListDef.Forall_nil Q
      | a :: s => ListDef.Forall_cons Q a s (GenericArg_ind a) (args s) end in
    let fix tys (l : list Ty) : Forall P l :=
      match l with
      | [] => ListDef.Forall_nil P
      | t :: l => ListDef.Forall_cons P t l (Ty_ind t) (tys l) end in
    match t with
    | Bool => H_bool | Char => H_char | Int i => H_int i | Uint u => H_uint u
    | Float f => H_float f | Adt d s => H_adt d s (args s) | Foreign d => H_foreign d
    | Str => H_str | Array t c => H_array t c (Ty_ind t) (Const_ind c)
    | Slice t => H_slice t (Ty_ind t) | RawPtr m t => H_raw m t (Ty_ind t)
    | Ref r t m => H_ref r t m (Ty_ind t) | FnDef d s => H_fndef d s (args s)
    | FnPtr bvs io => H_fnptr bvs io (tys io) | Closure d s => H_closure d s (args s)
    | Never => H_never | Tuple l => H_tuple l (tys l)
    | Projection d s => H_proj d s (args s) | Opaque d s => H_opaque d s (args s)
    | Param i n => H_param i n | Bound db bt => H_bound db bt | Error => H_error
    end
with GenericArg_ind (a : GenericArg) : Q a :=
    match a with
    | GaLifetime r => H_lt r
    | GaType t => H_ty t (Ty_ind t)
    | GaConst c => H_ct c (Const_ind c)
    end
with Const_ind (c : Const) : R c :=
    match c with mkConst k t => H_const k t (Ty_ind t) end.

  (** The three conclusions at once. *)
Lemma Ty_mut_ind : (∀ t, P t) ∧ (∀ a, Q a) ∧ (∀ c, R c).
  Proof. split; [exact Ty_ind|split; [exact GenericArg_ind|exact Const_ind]]. Qed.
End TyInd.

(** ** Decidable equality

    rustc compares interned types by pointer, which is structural
    equality; [ReplaceOpaqueTyFolder] compares substitutions with [==]. *)
#[global] Instance IntTy_eq_dec : EqDecision IntTy. Proof. solve_decision. Defined.
#[global] Instance UintTy_eq_dec : EqDecision UintTy. Proof. solve_decision. Defined.
#[global] Instance FloatTy_eq_dec : EqDecision FloatTy. Proof. solve_decision. Defined.
#[global] Instance Mutability_eq_dec : EqDecision Mutability. Proof. solve_decision. Defined.
#[global] Instance BoundRegionKind_eq_dec : EqDecision BoundRegionKind. Proof. solve_decision. Defined.
#[global] Instance BoundRegion_eq_dec : EqDecision BoundRegion. Proof. solve_decision. Defined.
#[global] Instance Region_eq_dec : EqDecision Region. Proof. solve_decision. Defined.
#[global] Instance BoundTyKind_eq_dec : EqDecision BoundTyKind. Proof. solve_decision. Defined.
#[global] Instance BoundTy_eq_dec : EqDecision BoundTy. Proof. solve_decision. Defined.
#[global] Instance ConstKind_eq_dec : EqDecision ConstKind. Proof. solve_decision. Defined.
#[global] Instance BoundVariableKind_eq_dec : EqDecision BoundVariableKind.
Proof. solve_decision. Defined.

Fixpoint Ty_eq_dec (a b : Ty) {struct a} : Decision (a = b)
with GenericArg_eq_dec (a b : GenericArg) {struct a} : Decision (a = b)
with Const_eq_dec (a b : Const) {struct a} : Decision (a = b).
Proof.
  - refine
      (match a, b with
       | Bool, Bool | Char, Char | Str, Str | Never, Never | Error, Error => left _
       | Int i, Int i' => cast_if (decide (i = i'))
       | Uint u, Uint u' => cast_if (decide (u = u'))
       | Float f, Float f' => cast_if (decide (f = f'))
       | Adt d s, Adt d' s' | FnDef d s, FnDef d' s' | Closure d s, Closure d' s'
       | Projection d s, Projection d' s' | Opaque d s, Opaque d' s' =>
           cast_if_and (decide (d = d')) (@list_eq_dec _ GenericArg_eq_dec s s')
       | Foreign d, Foreign d' => cast_if (decide (d = d'))
       | Array t c, Array t' c' => cast_if_and (Ty_eq_dec t t') (Const_eq_dec c c')
       | Slice t, Slice t' => cast_if (Ty_eq_dec t t')
       | RawPtr m t, RawPtr m' t' => cast_if_and (decide (m = m')) (Ty_eq_dec t t')
       | Ref r t m, Ref r' t' m' =>
           cast_if_and3 (decide (r = r')) (Ty_eq_dec t t') (decide (m = m'))
       | FnPtr bv io, FnPtr bv' io' =>
           cast_if_and (decide (bv = bv')) (@list_eq_dec _ Ty_eq_dec io io')
       | Tuple l, Tuple l' => cast_if (@list_eq_dec _ Ty_eq_dec l l')
       | Param i n, Param i' n' => cast_if_and (decide (i = i')) (decide (n = n'))
       | Bound db bt, Bound db' bt' => cast_if_and (decide (db = db')) (decide (bt = bt'))
       | _, _ => right _
       end); abstract (subst; congruence).
  - refine
      (match a, b with
       | GaLifetime r, GaLifetime r' => cast_if (decide (r = r'))
       | GaType t, GaType t' => cast_if (Ty_eq_dec t t')
       | GaConst c, GaConst c' => cast_if (Const_eq_dec c c')
       | _, _ => right _
       end); abstract (subst; congruence).
  - refine
      (match a, b with
       | mkConst k t, mkConst k' t' => cast_if_and (decide (k = k')) (Ty_eq_dec t t')
       end); abstract (subst; congruence).
Defined.
#[global] Existing Instances Ty_eq_dec GenericArg_eq_dec Const_eq_dec.
#[global] Instance Ty_EqDecision : EqDecision Ty := Ty_eq_dec.
#[global] Instance GenericArg_EqDecision : EqDecision GenericArg := GenericArg_eq_dec.
#[global] Instance Const_EqDecision : EqDecision Const := Const_eq_dec.

(** ** Predicates ([ty::Predicate]: a binder over a [PredicateKind]) *)

Record TraitRef := mkTraitRef { tr_def_id : DefId; tr_substs : SubstsRef }.
Record ProjectionTy := mkProjectionTy { proj_substs : SubstsRef; proj_item_def_id : DefId }.
Inductive Term := TermTy (t : Ty) | TermConst (c : Const).

Inductive PredicateKind :=
| PkTrait (trait_ref : TraitRef)
| PkRegionOutlives (a b : Region)
| PkTypeOutlives (t : Ty) (r : Region)
| PkProjection (projection_ty : ProjectionTy) (term : Term)
| PkWellFormed (arg : GenericArg)
| PkObjectSafe (trait_def_id : DefId)
| PkClosureKind (closure_def_id : DefId) (substs : SubstsRef)
| PkSubtype (a b : Ty)
| PkCoerce (a b : Ty)
| PkConstEvaluatable (c : Const)
| PkConstEquate (a b : Const)
| PkTypeWellFormedFromEnv (t : Ty).

Record Predicate := mkPredicate {
  pred_bound_vars : list BoundVariableKind;
  pred_kind : PredicateKind
}.

(** [substs.type_at(i)]: indexing panics out of range, and a non-type
    argument is a [bug!]. *)
Definition type_at (s : SubstsRef) (i : nat) : res Ty :=
  match s !! i with
  | Some (GaType t) => Ok t
  | Some _ => Err (Bug "expected type for param")
  | None => Err IndexOutOfBounds
  end.

(** [TraitRef::self_ty] *)
Definition self_ty (tr : TraitRef) : res Ty := type_at (tr_substs tr) 0.

(** ** Generic parameters ([ty::GenericParamDef]) *)

Inductive GenericParamDefKind := GpLifetime | GpType | GpConst.

Record GenericParamDef := mkGenericParamDef {
  param_name : Symbol;
  param_def_id : DefId;
  param_index : nat;
  param_kind : GenericParamDefKind
}.

#[global] Instance GenericParamDefKind_eq_dec : EqDecision GenericParamDefKind.
Proof. solve_decision. Defined.

(** ** Variable occurrences

    A visitor in the style of rustc's [TypeVisitor]: [ty_vars_all f c t]
    checks [f] on every parameter and bound variable that occurs in [t],
    together with the number [c] of binders crossed to reach it
    ([FnPtr] is the only binder inside a type). *)
Inductive VarOcc :=
| VTyParam (index : nat)
| VTyBound (db : nat) (var : nat)
| VReParam (index : nat)
| VReBound (db : nat) (var : nat)
| VCtParam (index : nat)
| VCtBound (db : nat) (var : nat).

Definition region_vars_all (f : nat → VarOcc → bool) (c : nat) (r : Region) : bool :=
  match r with
  | ReEarlyBound i _ => f c (VReParam i)
  | ReLateBound db br => f c (VReBound db (br_var br))
  | _ => true
  end.

Definition const_kind_vars_all (f : nat → VarOcc → bool) (c : nat) (k : ConstKind) : bool :=
  match k with
  | CkParam i _ => f c (VCtParam i)
  | CkBound db v => f c (VCtBound db v)
  | CkValue _ => true
  end.

Fixpoint ty_vars_all (f : nat → VarOcc → bool) (c : nat) (t : Ty) : bool :=
  match t with
  | Adt _ s | FnDef _ s | Closure _ s | Projection _ s | Opaque _ s =>
      forallb (arg_vars_all f c) s
  | Array t k => ty_vars_all f c t && const_vars_all f c k
  | Slice t | RawPtr _ t => ty_vars_all f c t
  | Ref r t _ => region_vars_all f c r && ty_vars_all f c t
  | FnPtr _ io => forallb (ty_vars_all f (S c)) io
  | Tuple l => forallb (ty_vars_all f c) l
  | Param i _ => f c (VTyParam i)
  | Bound db bt => f c (VTyBound db (bt_var bt))
  | _ => true
  end
with arg_vars_all (f : nat → VarOcc → bool) (c : nat) (a : GenericArg) : bool :=
  match a with
  | GaLifetime r => region_vars_all f c r
  | GaType t => ty_vars_all f c t
  | GaConst k => const_vars_all f c k
  end
with const_vars_all (f : nat → VarOcc → bool) (c : nat) (k : Const) : bool :=
  match k with mkConst ck t => const_kind_vars_all f c ck && ty_vars_all f c t end.

(** No generic parameter occurs ([!needs_subst()]). *)
Definition no_param (_ : nat) (v : VarOcc) : bool :=
  match v with VTyParam _ | VReParam _ | VCtParam _ => false | _ => true end.

(** Every bound variable is bound inside the term, or by the binder just
    outside it ([db] equal to the depth) at a position below [n]: the
    term is closed under one binder of [n] variables. *)
Definition bound_below (n : nat) (c : nat) (v : VarOcc) : bool :=
  match v with
  | VTyBound db var | VReBound db var | VCtBound db var =>
      bool_decide (db < c ∨ (db = c ∧ var < n))
  | _ => true
  end.

(** Every parameter has the kind its index has in [g]. *)
Definition param_kind_ok (g : list GenericParamDef) (_ : nat) (v : VarOcc) : bool :=
  let has k i := match g !! i with Some p => bool_decide (param_kind p = k) | None => false end in
  match v with
  | VTyParam i => has GpType i
  | VReParam i => has GpLifetime i
  | VCtParam i => has GpConst i
  | _ => true
  end.

(** The visitor on predicates: the predicate's own binder is crossed. *)
Definition term_vars_all (f : nat → VarOcc → bool) (c : nat) (x : Term) : bool :=
  match x with TermTy t => ty_vars_all f c t | TermConst k => const_vars_all f c k end.

Definition predicate_kind_vars_all (f : nat → VarOcc → bool) (c : nat) (pk : PredicateKind) : bool :=
  match pk with
  | PkTrait tr => forallb (arg_vars_all f c) (tr_substs tr)
  | PkRegionOutlives a b => region_vars_all f c a && region_vars_all f c b
  | PkTypeOutlives t r => ty_vars_all f c t && region_vars_all f c r
  | PkProjection p x => forallb (arg_vars_all f c) (proj_substs p) && term_vars_all f c x
  | PkWellFormed a => arg_vars_all f c a
  | PkObjectSafe _ => true
  | PkClosureKind _ xs => forallb (arg_vars_all f c) xs
  | PkSubtype a b | PkCoerce a b => ty_vars_all f c a && ty_vars_all f c b
  | PkConstEvaluatable k => const_vars_all f c k
  | PkConstEquate a b => const_vars_all f c a && const_vars_all f c b
  | PkTypeWellFormedFromEnv t => ty_vars_all f c t
  end.

Definition predicate_vars_all (f : nat → VarOcc → bool) (p : Predicate) : bool :=
  predicate_kind_vars_all f 1 (pred_kind p).

(** ** [ty::fold::shift_vars]: the [Shifter] folder

    Shifts by [amount] every bound variable that escapes the [cur]
    binders crossed so far. *)
Definition shift_region (amount cur : nat) (r : Region) : Region :=
  match r with
  | ReLateBound db br => if decide (db < cur) then r else ReLateBound (db + amount) br
  | _ => r
  end.

Fixpoint shift_ty (amount cur : nat) (t : Ty) : Ty :=
  match t with
  | Adt d s => Adt d (map (shift_arg amount cur) s)
  | Array t k => Array (shift_ty amount cur t) (shift_const amount cur k)
  | Slice t => Slice (shift_ty amount cur t)
  | RawPtr m t => RawPtr m (shift_ty amount cur t)
  | Ref r t m => Ref (shift_region amount cur r) (shift_ty amount cur t) m
  | FnDef d s => FnDef d (map (shift_arg amount cur) s)
  | FnPtr bvs io => FnPtr bvs (map (shift_ty amount (S cur)) io)
  | Closure d s => Closure d (map (shift_arg amount cur) s)
  | Tuple l => Tuple (map (shift_ty amount cur) l)
  | Projection d s => Projection d (map (shift_arg amount cur) s)
  | Opaque d s => Opaque d (map (shift_arg amount cur) s)
  | Bound db bt => if decide (db < cur) then t else Bound (db + amount) bt
  | _ => t
  end
with shift_arg (amount cur : nat) (a : GenericArg) : GenericArg :=
  match a with
  | GaLifetime r => GaLifetime (shift_region amount cur r)
  | GaType t => GaType (shift_ty amount cur t)
  | GaConst k => GaConst (shift_const amount cur k)
  end
(** a bound constant is rebuilt with its type untouched, as [Shifter::fold_const] does *)
with shift_const (amount cur : nat) (k : Const) : Const :=
  match k with
  | mkConst (CkBound db v) t =>
      if decide (db < cur) then k else mkConst (CkBound (db + amount) v) t
  | mkConst ck t => mkConst ck (shift_ty amount cur t)
  end.

Definition shift_vars (amount : nat) (s : SubstsRef) : SubstsRef :=
  map (shift_arg amount INNERMOST) s.

(** ** [EarlyBinder::subst]: the [SubstFolder]

    Replaces parameter [i] by [s[i]], shifted through the [bp] binders
    passed ([shift_vars_through_binders]).  A parameter out of range,
    or whose argument has the wrong kind, is a [span_bug!]: [None]. *)
Definition subst_region (s : SubstsRef) (bp : nat) (r : Region) : option Region :=
  match r with
  | ReEarlyBound i _ =>
      match s !! i with Some (GaLifetime r') => Some (shift_region bp 0 r') | _ => None end
  | _ => Some r
  end.

Fixpoint subst_ty (s : SubstsRef) (bp : nat) (t : Ty) : option Ty :=
  match t with
  | Adt d xs => Adt d <$> mapM (subst_arg s bp) xs
  | Array t k => t' ← subst_ty s bp t; k' ← subst_const s bp k; Some (Array t' k')
  | Slice t => Slice <$> subst_ty s bp t
  | RawPtr m t => RawPtr m <$> subst_ty s bp t
  | Ref r t m => r' ← subst_region s bp r; t' ← subst_ty s bp t; Some (Ref r' t' m)
  | FnDef d xs => FnDef d <$> mapM (subst_arg s bp) xs
  | FnPtr bvs io => FnPtr bvs <$> mapM (subst_ty s (S bp)) io
  | Closure d xs => Closure d <$> mapM (subst_arg s bp) xs
  | Tuple l => Tuple <$> mapM (subst_ty s bp) l
  | Projection d xs => Projection d <$> mapM (subst_arg s bp) xs
  | Opaque d xs => Opaque d <$> mapM (subst_arg s bp) xs
  | Param i _ =>
      match s !! i with Some (GaType t') => Some (shift_ty bp 0 t') | _ => None end
  | _ => Some t
  end
with subst_arg (s : SubstsRef) (bp : nat) (a : GenericArg) : option GenericArg :=
  match a with
  | GaLifetime r => GaLifetime <$> subst_region s bp r
  | GaType t => GaType <$> subst_ty s bp t
  | GaConst k => GaConst <$> subst_const s bp k
  end
with subst_const (s : SubstsRef) (bp : nat) (k : Const) : option Const :=
  match k with
  | mkConst (CkParam i _) _ =>
      match s !! i with Some (GaConst k') => Some (shift_const bp 0 k') | _ => None end
  | mkConst ck t => mkConst ck <$> subst_ty s bp t
  end.

Definition subst_substs (s : SubstsRef) (bp : nat) (xs : SubstsRef) : option SubstsRef :=
  mapM (subst_arg s bp) xs.

Definition subst_trait_ref (s : SubstsRef) (bp : nat) (tr : TraitRef) : option TraitRef :=
  mkTraitRef (tr_def_id tr) <$> subst_substs s bp (tr_substs tr).

Definition subst_term (s : SubstsRef) (bp : nat) (x : Term) : option Term :=
  match x with
  | TermTy t => TermTy <$> subst_ty s bp t
  | TermConst k => TermConst <$> subst_const s bp k
  end.

Definition subst_predicate_kind (s : SubstsRef) (bp : nat) (pk : PredicateKind)
    : option PredicateKind :=
  match pk with
  | PkTrait tr => PkTrait <$> subst_trait_ref s bp tr
  | PkRegionOutlives a b =>
      a' ← subst_region s bp a; b' ← subst_region s bp b; Some (PkRegionOutlives a' b')
  | PkTypeOutlives t r =>
      t' ← subst_ty s bp t; r' ← subst_region s bp r; Some (PkTypeOutlives t' r')
  | PkProjection p x =>
      xs ← subst_substs s bp (proj_substs p); x' ← subst_term s bp x;
      Some (PkProjection (mkProjectionTy xs (proj_item_def_id p)) x')
  | PkWellFormed a => PkWellFormed <$> subst_arg s bp a
  | PkObjectSafe d => Some (PkObjectSafe d)
  | PkClosureKind d xs => PkClosureKind d <$> subst_substs s bp xs
  | PkSubtype a b => a' ← subst_ty s bp a; b' ← subst_ty s bp b; Some (PkSubtype a' b')
  | PkCoerce a b => a' ← subst_ty s bp a; b' ← subst_ty s bp b; Some (PkCoerce a' b')
  | PkConstEvaluatable k => PkConstEvaluatable <$> subst_const s bp k
  | PkConstEquate a b =>
      a' ← subst_const s bp a; b' ← subst_const s bp b; Some (PkConstEquate a' b')
  | PkTypeWellFormedFromEnv t => PkTypeWellFormedFromEnv <$> subst_ty s bp t
  end.

(** A predicate is a binder: the substitution passes it ([fold_binder]). *)
Definition subst_predicate (s : SubstsRef) (p : Predicate) : option Predicate :=
  mkPredicate (pred_bound_vars p) <$> subst_predicate_kind s 1 (pred_kind p).

(** The types of the constants of a term mention no variable: what
    rustc's const generics guarantee ([const N: usize]). *)
Fixpoint const_tys_closed (t : Ty) : bool :=
  match t with
  | Adt _ s | FnDef _ s | Closure _ s | Projection _ s | Opaque _ s =>
      forallb const_tys_closed_arg s
  | Array t k => const_tys_closed t && const_ty_closed k
  | Slice t | RawPtr _ t | Ref _ t _ => const_tys_closed t
  | FnPtr _ l | Tuple l => forallb const_tys_closed l
  | _ => true
  end
with const_tys_closed_arg (a : GenericArg) : bool :=
  match a with
  | GaLifetime _ => true
  | GaType t => const_tys_closed t
  | GaConst k => const_ty_closed k
  end
with const_ty_closed (k : Const) : bool :=
  match k with mkConst _ t => ty_vars_all (λ _ _, false) 0 t end.

(** ** Facts on the visitor, the shifter and the substitution *)

(** The common step of the inductions below: split the boolean
    hypotheses and the [Forall] induction hypotheses over lists. *)
Ltac vars_split :=
  repeat match goal with
  | H : _ && _ = true |- _ => apply andb_prop in H as [? ?]
  | |- _ && _ = true => apply andb_true_intro; split
  end.

(** Substitution leaves a term without parameters unchanged: the second
    [subst] that [fn_def_datum] applies to already-substituted types is
    the identity. *)
Lemma subst_no_param_mut (s : SubstsRef) :
  (∀ t bp c, ty_vars_all no_param c t = true → subst_ty s bp t = Some t) ∧
  (∀ a bp c, arg_vars_all no_param c a = true → subst_arg s bp a = Some a) ∧
  (∀ k bp c, const_vars_all no_param c k = true → subst_const s bp k = Some k).
Proof.
  apply Ty_mut_ind; intros; simpl in *; vars_split; try done;
    repeat match goal with
    | IH : Forall _ ?l, H : forallb _ ?l = true |- _ =>
        erewrite (mapM_Some_id _ _ l); [clear IH H|eapply Forall_impl; [exact IH|]; eauto|exact H]
    | r : Region |- _ => destruct r; simpl in *; try done
    | IH : ∀ bp c, ty_vars_all _ c ?t = true → _, H : ty_vars_all _ ?c ?t = true |- _ =>
        rewrite (IH _ _ H); clear IH
    | IH : ∀ bp c, const_vars_all _ c ?k = true → _, H : const_vars_all _ ?c ?k = true |- _ =>
        rewrite (IH _ _ H); clear IH
    end; try done.
  destruct k; simpl in *; vars_split; try done; by erewrite H.
Qed.

Lemma subst_ty_no_param s bp c t :
  ty_vars_all no_param c t = true → subst_ty s bp t = Some t.
Proof. apply subst_no_param_mut. Qed.

(** The visitor is monotone in the property it checks. *)
Lemma vars_all_mono_mut (f g : nat → VarOcc → bool) :
  (∀ c v, f c v = true → g c v = true) →
  (∀ t c, ty_vars_all f c t = true → ty_vars_all g c t = true) ∧
  (∀ a c, arg_vars_all f c a = true → arg_vars_all g c a = true) ∧
  (∀ k c, const_vars_all f c k = true → const_vars_all g c k = true).
Proof.
  intros Hfg. apply Ty_mut_ind; intros; simpl in *; vars_split; auto;
    repeat match goal with
    | IH : Forall _ ?l, H : forallb _ ?l = true |- forallb _ ?l = true =>
        refine (forallb_Forall_impl _ _ _ _ H); eapply Forall_impl; [exact IH|]; eauto
    | r : Region |- _ => destruct r; simpl in *; auto
    | ck : ConstKind |- _ => destruct ck; simpl in *; vars_split; auto
    end.
Qed.

Lemma ty_vars_all_mono (f g : nat → VarOcc → bool) c t :
  (∀ c v, f c v = true → g c v = true) →
  ty_vars_all f c t = true → ty_vars_all g c t = true.
Proof. intros H. by apply vars_all_mono_mut. Qed.

Lemma predicate_vars_all_mono (f g : nat → VarOcc → bool) p :
  (∀ c v, f c v = true → g c v = true) →
  predicate_vars_all f p = true → predicate_vars_all g p = true.
Proof.
  intros Hfg. destruct (vars_all_mono_mut f g Hfg) as (Ht&Ha&Hk).
  assert (Hl : ∀ c xs, forallb (arg_vars_all f c) xs = true → forallb (arg_vars_all g c) xs = true).
  { intros c xs H. refine (forallb_Forall_impl _ _ _ _ H). apply Forall_forall. eauto. }
  destruct p as [bvs pk]. unfold predicate_vars_all. simpl.
  destruct pk as [[]| | |[] []| | | | | | | |]; simpl; intros; vars_split; eauto;
    repeat match goal with r : Region |- _ => destruct r; simpl in *; auto end.
Qed.

(** A check that ignores the depth gives the same answer at every depth. *)
Lemma vars_all_depth_mut (f : VarOcc → bool) :
  (∀ t c c', ty_vars_all (λ _, f) c t = ty_vars_all (λ _, f) c' t) ∧
  (∀ a c c', arg_vars_all (λ _, f) c a = arg_vars_all (λ _, f) c' a) ∧
  (∀ k c c', const_vars_all (λ _, f) c k = const_vars_all (λ _, f) c' k).
Proof.
  apply Ty_mut_ind; intros; simpl in *; try done;
    repeat match goal with
    | r : Region |- _ => destruct r
    | ck : ConstKind |- _ => destruct ck
    end; simpl;
    try (apply forallb_ext_Forall; eapply Forall_impl; [eassumption|]; intros; by eauto);
    first [by eauto | f_equal; by eauto].
Qed.

Lemma ty_vars_all_depth (f : VarOcc → bool) c c' t :
  ty_vars_all (λ _, f) c t = ty_vars_all (λ _, f) c' t.
Proof. apply vars_all_depth_mut. Qed.

(** Shifting keeps a term free of parameters. *)
Lemma shift_no_param_mut (amount : nat) :
  (∀ t c cur, ty_vars_all no_param c t = true → ty_vars_all no_param c (shift_ty amount cur t) = true) ∧
  (∀ a c cur, arg_vars_all no_param c a = true → arg_vars_all no_param c (shift_arg amount cur a) = true) ∧
  (∀ k c cur, const_vars_all no_param c k = true → const_vars_all no_param c (shift_const amount cur k) = true).
Proof.
  apply Ty_mut_ind; intros; simpl in *; vars_split; try done;
    repeat match goal with
    | IH : Forall _ ?l, H : forallb _ ?l = true |- forallb _ (map _ ?l) = true =>
        refine (forallb_map_Forall _ _ _ _ _ H); eapply Forall_impl; [exact IH|]; eauto
    | r : Region |- _ => destruct r; simpl in *; try case_decide; try done
    | |- context [decide ?P] => case_decide
    end; eauto.
  destruct k; simpl in *; vars_split; try case_decide; simpl; vars_split; eauto.
Qed.

(** A term without any variable is left alone by the shifter, and the
    types of its constants are closed. *)
Lemma shift_closed_mut (amount : nat) :
  (∀ t cur c, ty_vars_all (λ _ _, false) c t = true → shift_ty amount cur t = t) ∧
  (∀ a cur c, arg_vars_all (λ _ _, false) c a = true → shift_arg amount cur a = a) ∧
  (∀ k cur c, const_vars_all (λ _ _, false) c k = true → shift_const amount cur k = k).
Proof.
  apply Ty_mut_ind; intros; simpl in *; vars_split; try done;
    repeat match goal with
    | IH : Forall _ ?l, H : forallb _ ?l = true |- _ =>
        erewrite (map_id_Forall _ _ l); [clear IH H|exact H|eapply Forall_impl; [exact IH|]; eauto]
    | r : Region |- _ => destruct r; simpl in *; try done
    | IH : ∀ cur c, ty_vars_all _ c ?t = true → _, H : ty_vars_all _ ?c ?t = true |- _ =>
        rewrite (IH _ _ H); clear IH
    | IH : ∀ cur c, const_vars_all _ c ?k = true → _, H : const_vars_all _ ?c ?k = true |- _ =>
        rewrite (IH _ _ H); clear IH
    end; try done.
  destruct k; simpl in *; vars_split; try done.
Qed.

Lemma closed_const_tys_closed_mut :
  (∀ t c, ty_vars_all (λ _ _, false) c t = true → const_tys_closed t = true) ∧
  (∀ a c, arg_vars_all (λ _ _, false) c a = true → const_tys_closed_arg a = true) ∧
  (∀ k c, const_vars_all (λ _ _, false) c k = true → const_ty_closed k = true).
Proof.
  apply Ty_mut_ind; intros; simpl in *; vars_split; try done;
    repeat match goal with
    | IH : Forall _ ?l, H : forallb _ ?l = true |- _ =>
        refine (forallb_Forall_impl _ _ l _ H); eapply Forall_impl; [exact IH|]; eauto
    end; eauto.
  by rewrite (ty_vars_all_depth (λ _, false) 0 c).
Qed.

Lemma subst_region_no_param s bp c r x :
  (∀ i a c, s !! i = Some a → arg_vars_all no_param c a = true) →
  subst_region s bp r = Some x → region_vars_all no_param c x = true.
Proof.
  intros Hsi. destruct r as [i n| | |]; simpl; try (intros [= <-]; done).
  destruct (s !! i) as [[r'| |]|] eqn:Hi; try done. intros [= <-].
  specialize (Hsi i _ c Hi). destruct r'; simpl in *; try case_decide; done.
Qed.

Lemma subst_predicate_no_param s p :
  predicate_vars_all no_param p = true → subst_predicate s p = Some p.
Proof.
  destruct p as [bvs pk]. unfold predicate_vars_all, subst_predicate. simpl. intros Hpk.
  cut (subst_predicate_kind s 1 pk = Some pk); [by intros ->|].
  destruct (subst_no_param_mut s) as (Ht&Ha&Hk).
  destruct pk as [[d xs]| | |[xs d] []| | | | | | | |]; simpl in *; vars_split;
    unfold subst_trait_ref, subst_term, subst_substs;
    repeat match goal with
    | H : forallb _ ?xs = true |- _ =>
        erewrite (mapM_Some_id _ _ xs); [clear H|eapply Forall_forall; intros; by eapply Ha|exact H]
    | H : ty_vars_all _ _ ?t = true |- _ => rewrite (Ht t 1 _ H); clear H
    | H : const_vars_all _ _ ?k = true |- _ => rewrite (Hk k 1 _ H); clear H
    | H : arg_vars_all _ _ ?a = true |- _ => rewrite (Ha a 1 _ H); clear H
    | H : region_vars_all _ _ ?r = true |- _ => destruct r; simpl in *; try done; clear H
    end; done.
Qed.

(** Substituting arguments without parameters leaves none. *)
Lemma subst_no_param_result_mut (s : SubstsRef) :
  forallb (arg_vars_all no_param 0) s = true →
  (∀ t bp c t', subst_ty s bp t = Some t' → ty_vars_all no_param c t' = true) ∧
  (∀ a bp c a', subst_arg s bp a = Some a' → arg_vars_all no_param c a' = true) ∧
  (∀ k bp c k', subst_const s bp k = Some k' → const_vars_all no_param c k' = true).
Proof.
  intros Hs. assert (Hsi : ∀ i a c, s !! i = Some a → arg_vars_all no_param c a = true).
  { intros i a c Ha. rewrite forallb_forall in Hs.
    pose proof (Hs a (proj1 (list_elem_of_In _ _) (list_elem_of_lookup_2 _ _ _ Ha))) as Ha'.
    destruct a as [r|t|k]; simpl in *; [by destruct r|..].
    - by rewrite (ty_vars_all_depth (no_param 0) c 0).
    - destruct k as [ck t]; destruct ck; simpl in *; vars_split; try done;
        by rewrite (ty_vars_all_depth (no_param 0) c 0). }
  apply Ty_mut_ind; intros; simpl in *;
    repeat match goal with
    | H : _ <$> _ = Some _ |- _ => apply fmap_Some in H as (?&?&->)
    | H : mbind _ _ = Some _ |- _ => apply bind_Some in H as (?&?&?)
    | H : Some _ = Some _ |- _ => injection H as <-
    end; simpl; vars_split; eauto;
    try (eapply mapM_Some_forallb_post; [|eassumption]; eapply Forall_impl; [eassumption|]; eauto).
  all: try match goal with
    | H : match ?l !! ?i with _ => _ end = Some _ |- _ =>
        destruct (l !! i) as [[]|] eqn:Hi; try done; injection H as <-
    end.
  all: try (eapply subst_region_no_param; [exact Hsi|eassumption]).
  - apply shift_no_param_mut. exact (Hsi _ _ c Hi).
  - destruct k as [i n|db v|z]; simpl in H0.
    + destruct (s !! i) as [[| |k0]|] eqn:Hi; try done. injection H0 as <-.
      apply shift_no_param_mut. exact (Hsi _ _ c Hi).
    + apply fmap_Some in H0 as (t'&Ht'&->). simpl. eauto.
    + apply fmap_Some in H0 as (t'&Ht'&->). simpl. eauto.
Qed.

Lemma subst_ty_no_param_result s bp c t t' :
  forallb (arg_vars_all no_param 0) s = true →
  subst_ty s bp t = Some t' → ty_vars_all no_param c t' = true.
Proof. intros Hs. by apply subst_no_param_result_mut. Qed.

Lemma subst_predicate_no_param_result s p p' :
  forallb (arg_vars_all no_param 0) s = true →
  subst_predicate s p = Some p' → predicate_vars_all no_param p' = true.
Proof.
  intros Hs. destruct (subst_no_param_result_mut s Hs) as (Ht&Ha&Hk).
  assert (Hsi : ∀ i a c, s !! i = Some a → arg_vars_all no_param c a = true).
  { intros i a c Hi. rewrite forallb_forall in Hs.
    pose proof (Hs a (proj1 (list_elem_of_In _ _) (list_elem_of_lookup_2 _ _ _ Hi))) as Ha'.
    exact (eq_trans (proj1 (proj2 (vars_all_depth_mut (no_param 0))) a c 0) Ha'). }
  assert (Hxs : ∀ bp c xs xs', mapM (subst_arg s bp) xs = Some xs' →
    forallb (arg_vars_all no_param c) xs' = true).
  { intros bp c xs xs'. apply mapM_Some_forallb_post, Forall_forall. intros a _ a'. apply Ha. }
  destruct p as [bvs pk]. unfold subst_predicate, predicate_vars_all. simpl.
  intros (pk'&Hpk&->)%fmap_Some. simpl.
  destruct pk as [[d xs]| | |[xs d] []| | | | | | | |]; simpl in *;
    unfold subst_trait_ref, subst_substs, subst_term in *;
    repeat match goal with
    | H : _ <$> _ = Some _ |- _ => apply fmap_Some in H as (?&?&->)
    | H : mbind _ _ = Some _ |- _ => apply bind_Some in H as (?&?&?)
    | H : Some _ = Some _ |- _ => injection H as <-
    end; simpl; vars_split; eauto using subst_region_no_param.
Qed.

(** The kind of a generic argument. *)
Definition arg_kind (a : GenericArg) : GenericParamDefKind :=
  match a with GaLifetime _ => GpLifetime | GaType _ => GpType | GaConst _ => GpConst end.

(** [s] maps index [i] to the bound variable [(k, i)] of its kind, and
    the type of a bound constant mentions no variable: the shape
    [bound_vars_for_item] produces ([k = INNERMOST]), and the one
    [opaque_ty_data] makes of it with [shift_vars(.., 1)] ([k = 1]). *)
Definition bound_identity_arg (k i : nat) (a : GenericArg) : Prop :=
  match a with
  | GaType (Bound db bt) => db = k ∧ bt_var bt = i
  | GaLifetime (ReLateBound db br) => db = k ∧ br_var br = i
  | GaConst (mkConst (CkBound db v) t) => db = k ∧ v = i ∧ ty_vars_all (λ _ _, false) 0 t = true
  | _ => False
  end.

Definition bound_identity_at (k : nat) (s : SubstsRef) : Prop :=
  ∀ i a, s !! i = Some a → bound_identity_arg k i a.

Notation bound_identity := (bound_identity_at INNERMOST).

Definition kinds_match (g : list GenericParamDef) (s : SubstsRef) : Prop :=
  Forall2 (λ p a, param_kind p = arg_kind a) g s.

Lemma kinds_match_kinds g s : kinds_match g s → arg_kind <$> s = param_kind <$> g.
Proof. induction 1; simpl; by f_equal. Qed.

(** What an item's own types satisfy: no bound variable escapes, and
    every parameter has its declared kind. *)
Definition wf_pre (g : list GenericParamDef) (c : nat) (v : VarOcc) : bool :=
  bound_below 0 c v && param_kind_ok g c v.

(** The kind of variable an occurrence is. *)
Definition occ_kind (v : VarOcc) : GenericParamDefKind :=
  match v with
  | VTyParam _ | VTyBound _ _ => GpType
  | VReParam _ | VReBound _ _ => GpLifetime
  | VCtParam _ | VCtBound _ _ => GpConst
  end.

(** What the substituted terms satisfy, under the binders [kss] just
    outside the term (innermost first, each the list of the kinds of
    its variables): no parameter, and every bound variable is bound
    inside the term or is a variable of one of the binders of [kss], of
    the kind that binder gives it. *)
Definition bound_post (kss : list (list GenericParamDefKind)) (c : nat) (v : VarOcc) : bool :=
  match v with
  | VTyBound db var | VReBound db var | VCtBound db var =>
      bool_decide (db < c ∨ kss !! (db - c) ≫= (.!! var) = Some (occ_kind v))
  | _ => false
  end.

(** What a term under the binders [inner] (innermost first, each the
    list of the kinds of its variables) satisfies before substitution:
    every bound variable is bound inside the term or is a variable one
    of [inner] declares, of that kind; every parameter has the kind its
    index has in [g].  With no inner binder this is [wf_pre]. *)
Definition wf_in (inner : list (list GenericParamDefKind)) (g : list GenericParamDef) (c : nat)
    (v : VarOcc) : bool :=
  match v with
  | VTyParam _ | VReParam _ | VCtParam _ => param_kind_ok g c v
  | _ => bound_post inner c v
  end.

Lemma wf_pre_wf_in g c v : wf_pre g c v = true → wf_in [] g c v = true.
Proof.
  unfold wf_pre. destruct v; simpl; rewrite ?andb_true_r; try done;
    intros [Hc|[_ ?]]%bool_decide_eq_true; apply bool_decide_eq_true; [by left|lia|by left|lia|by left|lia].
Qed.

(** A variable declared by an inner binder stays declared when more
    binders are added outside. *)
Lemma bound_post_app inner kss c v : bound_post inner c v = true → bound_post (inner ++ kss) c v = true.
Proof.
  destruct v as [|db var| |db var| |db var]; simpl; try done;
    intros [Hc|Hl]%bool_decide_eq_true; apply bool_decide_eq_true; [by left| |by left| |by left|];
    right; destruct (inner !! (db - c)) eqn:Hi; simpl in Hl; try done;
    by rewrite (lookup_app_l_Some _ _ _ _ Hi).
Qed.

(** The kind of a late-bound variable. *)
Definition bvk_kind (k : BoundVariableKind) : GenericParamDefKind :=
  match k with BvTy _ => GpType | BvRegion _ => GpLifetime | BvConst => GpConst end.

(** The kinds a predicate's own binder declares. *)
Definition pred_kinds (p : Predicate) : list GenericParamDefKind := bvk_kind <$> pred_bound_vars p.

(** A predicate whose own bound variables are all declared by its
    binder, at their kinds, and whose parameters have their declared
    kinds. *)
Definition pred_scoped (g : list GenericParamDef) (p : Predicate) : bool :=
  predicate_kind_vars_all (wf_in [pred_kinds p] g) 0 (pred_kind p).

Section BoundIdentity.
Context (g : list GenericParamDef) (s : SubstsRef) (k : nat) (kss : list (list GenericParamDefKind)).
Hypotheses (Hid : bound_identity_at k s) (Hk : kinds_match g s)
  (Hkss : kss !! k = Some (arg_kind <$> s)).

Lemma kinds_match_lookup i kd :
  match g !! i with Some p => bool_decide (param_kind p = kd) | None => false end = true →
  ∃ a, s !! i = Some a ∧ arg_kind a = kd.
Proof.
  destruct (g !! i) as [p|] eqn:Hg; [|done]. intros Hpk%bool_decide_eq_true.
  destruct (Forall2_lookup_l _ _ _ _ _ Hk Hg) as (a&Ha&Hpa). exists a. split; [done|congruence].
Qed.

(** The term sits under the binders [inner], inside the item binder:
    the substitution crosses them ([c + length inner] binders at depth
    [c]), and the result is checked under [inner ++ kss]. *)
Context (inner : list (list GenericParamDefKind)).

(** The variable [(k + c + length inner, i)] that parameter [i] becomes
    is one of [kss], of the kind of [s[i]]. *)
Lemma bound_post_param c i a v :
  s !! i = Some a → occ_kind v = arg_kind a →
  (v = VTyBound (k + (c + length inner)) i ∨ v = VReBound (k + (c + length inner)) i ∨
   v = VCtBound (k + (c + length inner)) i) →
  bound_post (inner ++ kss) c v = true.
Proof.
  intros Ha Hv Hshape.
  assert (Hl : (inner ++ kss) !! (k + (c + length inner) - c) ≫= (.!! i) = Some (arg_kind a)).
  { replace (k + (c + length inner) - c) with (length inner + k) by lia.
    rewrite lookup_app_r, Nat.add_sub_swap, Nat.sub_diag by lia. simpl. rewrite Hkss. simpl.
    by rewrite list_lookup_fmap, Ha. }
  destruct Hshape as [Hv0|[Hv0|Hv0]]; subst v; simpl in *; apply bool_decide_eq_true; right;
    by rewrite Hl, Hv.
Qed.

Lemma subst_region_bound_identity c r :
  region_vars_all (wf_in inner g) c r = true →
  ∃ r', subst_region s (c + length inner) r = Some r' ∧
    region_vars_all (bound_post (inner ++ kss)) c r' = true.
Proof.
  destruct r as [i n|db br| |]; simpl; eauto.
  - intros (a&Ha&Hka)%kinds_match_lookup. rewrite Ha. pose proof (Hid _ _ Ha) as Hi.
    destruct a as [[| db' br| |]| |]; simpl in *; try done. destruct Hi as [-> <-].
    eexists; split; [done|]. eapply bound_post_param; [exact Ha|done|]. by right; left.
  - intros H. eexists; split; [done|]. by apply bound_post_app.
Qed.

(** The parameter case: [Param i] becomes [Bound(k + c + length inner, i)]. *)
Lemma subst_param_bound_identity c i :
  param_kind_ok g c (VTyParam i) = true →
  ∃ t', (match s !! i with Some (GaType t') => Some (shift_ty (c + length inner) 0 t') | _ => None end)
    = Some t' ∧ ty_vars_all (bound_post (inner ++ kss)) c t' = true.
Proof.
  simpl. intros (a&Ha&Hka)%kinds_match_lookup. rewrite Ha. pose proof (Hid _ _ Ha) as Hi.
  destruct a as [|t|]; simpl in *; try done.
  destruct t as [| | | | | | | | | | | | | | | | | | | |db bt|]; try done. destruct Hi as [-> <-].
  eexists; split; [done|]. eapply bound_post_param; [exact Ha|done|]. by left.
Qed.

Lemma subst_const_param_bound_identity c i :
  param_kind_ok g c (VCtParam i) = true →
  ∃ k', (match s !! i with Some (GaConst k') => Some (shift_const (c + length inner) 0 k') | _ => None end)
    = Some k' ∧ const_vars_all (bound_post (inner ++ kss)) c k' = true.
Proof.
  simpl. intros (a&Ha&Hka)%kinds_match_lookup. rewrite Ha. pose proof (Hid _ _ Ha) as Hi.
  destruct a as [| |[[|db' v|] t]]; simpl in *; try done. destruct Hi as (->&<-&Ht).
  eexists; split; [done|]. simpl. vars_split.
  - apply (bound_post_param c _ _ (VCtBound (k + (c + length inner)) v) Ha); [done|by right; right].
  - eapply ty_vars_all_mono; [|rewrite (ty_vars_all_depth (λ _, false) c 0); apply Ht]. done.
Qed.

(** Substituting [s] into a well-formed term under [inner] succeeds,
    and the result has no parameter and is well-kinded under
    [inner ++ kss]. *)
Lemma subst_bound_identity_mut :
  (∀ t c, ty_vars_all (wf_in inner g) c t = true →
     ∃ t', subst_ty s (c + length inner) t = Some t' ∧
       ty_vars_all (bound_post (inner ++ kss)) c t' = true) ∧
  (∀ a c, arg_vars_all (wf_in inner g) c a = true →
     ∃ a', subst_arg s (c + length inner) a = Some a' ∧
       arg_vars_all (bound_post (inner ++ kss)) c a' = true) ∧
  (∀ k c, const_vars_all (wf_in inner g) c k = true →
     ∃ k', subst_const s (c + length inner) k = Some k' ∧
       const_vars_all (bound_post (inner ++ kss)) c k' = true).
Proof.
  apply Ty_mut_ind; intros; simpl in *; vars_split;
    repeat match goal with
    | IH : Forall _ ?l, H : forallb _ ?l = true |- _ =>
        destruct (mapM_Some_forallb_at _ _ _ _ _ IH H) as (?&?&?); clear IH H
    | IH : ∀ c, ty_vars_all _ c ?t = true → _, H : ty_vars_all _ ?c ?t = true |- _ =>
        destruct (IH _ H) as (?&?&?); clear IH H
    | IH : ∀ c, const_vars_all _ c ?t = true → _, H : const_vars_all _ ?c ?t = true |- _ =>
        destruct (IH _ H) as (?&?&?); clear IH H
    | H : region_vars_all _ ?c ?r = true |- _ =>
        destruct (subst_region_bound_identity _ _ H) as (?&?&?); clear H
    end;
    repeat match goal with
    | H : context [λ a : GenericArg, subst_arg ?s ?d a] |- _ =>
        change (λ a : GenericArg, subst_arg s d a) with (subst_arg s d) in H
    | H : context [λ a : Ty, subst_ty ?s ?d a] |- _ =>
        change (λ a : Ty, subst_ty s d a) with (subst_ty s d) in H
    | H : context [S ?c + ?m] |- _ => change (S c + m) with (S (c + m)) in H
    end;
    try (eexists; split;
         [repeat match goal with H : ?a = Some _ |- context [?a] => rewrite H end; reflexivity
         |simpl; vars_split; assumption]).
  - (* Param *) by apply subst_param_bound_identity.
  - (* Bound *) eexists; split; [done|]. by apply bound_post_app.
  - (* Const *) destruct k0; simpl in *; vars_split.
    + by apply subst_const_param_bound_identity.
    + match goal with Hs : subst_ty _ _ _ = Some _ |- _ => rewrite Hs end.
      eexists; split; [done|]. simpl. vars_split; [|done].
      match goal with H : bool_decide _ = true |- _ => exact (bound_post_app inner kss c (VCtBound _ _) H) end.
    + match goal with Hs : subst_ty _ _ _ = Some _ |- _ => rewrite Hs end.
      eexists; split; [done|]. simpl. by vars_split.
Qed.

Lemma subst_substs_bound_identity_in c xs :
  forallb (arg_vars_all (wf_in inner g) c) xs = true →
  ∃ xs', subst_substs s (c + length inner) xs = Some xs' ∧
    forallb (arg_vars_all (bound_post (inner ++ kss)) c) xs' = true.
Proof.
  apply mapM_Some_forallb, Forall_forall. intros a _. apply subst_bound_identity_mut.
Qed.

Lemma subst_predicate_kind_bound_identity c pk :
  predicate_kind_vars_all (wf_in inner g) c pk = true →
  ∃ pk', subst_predicate_kind s (c + length inner) pk = Some pk' ∧
    predicate_kind_vars_all (bound_post (inner ++ kss)) c pk' = true.
Proof.
  destruct pk as [[d xs]| | |[xs d] []| | | | | | | |]; simpl in *; intros; vars_split;
    repeat match goal with
    | H : forallb _ ?xs = true |- _ =>
        destruct (subst_substs_bound_identity_in _ _ H) as (?&?&?); clear H
    | H : ty_vars_all _ _ _ = true |- _ =>
        destruct (proj1 subst_bound_identity_mut _ _ H) as (?&?&?); clear H
    | H : const_vars_all _ _ _ = true |- _ =>
        destruct (proj2 (proj2 subst_bound_identity_mut) _ _ H) as (?&?&?); clear H
    | H : region_vars_all _ _ _ = true |- _ =>
        destruct (subst_region_bound_identity _ _ H) as (?&?&?); clear H
    | H : arg_vars_all _ _ _ = true |- _ =>
        destruct (proj1 (proj2 subst_bound_identity_mut) _ _ H) as (?&?&?); clear H
    end;
    unfold subst_trait_ref, subst_term in *; simpl;
    repeat match goal with H : ?a = Some _ |- context [?a] => rewrite H end;
    (eexists; split; [reflexivity|]); simpl; by vars_split.
Qed.

End BoundIdentity.

(** The item-level forms: no inner binder but the ones the term
    crosses itself. *)
Section BoundIdentityItem.
Context (g : list GenericParamDef) (s : SubstsRef) (k : nat) (kss : list (list GenericParamDefKind)).
Hypotheses (Hid : bound_identity_at k s) (Hk : kinds_match g s)
  (Hkss : kss !! k = Some (arg_kind <$> s)).

Lemma subst_ty_bound_identity c t :
  ty_vars_all (wf_pre g) c t = true →
  ∃ t', subst_ty s c t = Some t' ∧ ty_vars_all (bound_post kss) c t' = true.
Proof.
  intros Ht. pose proof (proj1 (subst_bound_identity_mut g s k kss Hid Hk Hkss []) t c) as H.
  cbn [length app] in H. rewrite Nat.add_0_r in H. apply H.
  eapply ty_vars_all_mono; [|exact Ht]. apply wf_pre_wf_in.
Qed.

Lemma subst_const_bound_identity c k' :
  const_vars_all (wf_pre g) c k' = true →
  ∃ k'', subst_const s c k' = Some k'' ∧ const_vars_all (bound_post kss) c k'' = true.
Proof.
  intros Hk'. pose proof (proj2 (proj2 (subst_bound_identity_mut g s k kss Hid Hk Hkss [])) k' c) as H.
  cbn [length app] in H. rewrite Nat.add_0_r in H. apply H.
  refine (proj2 (proj2 (vars_all_mono_mut _ _ _)) _ _ Hk'). apply wf_pre_wf_in.
Qed.

Lemma subst_substs_bound_identity c xs :
  forallb (arg_vars_all (wf_pre g) c) xs = true →
  ∃ xs', subst_substs s c xs = Some xs' ∧ forallb (arg_vars_all (bound_post kss) c) xs' = true.
Proof.
  intros Hxs. pose proof (subst_substs_bound_identity_in g s k kss Hid Hk Hkss [] c xs) as H.
  cbn [length app] in H. rewrite Nat.add_0_r in H. apply H.
  refine (forallb_Forall_impl _ _ _ _ Hxs). apply Forall_forall. intros a _.
  apply vars_all_mono_mut, wf_pre_wf_in.
Qed.

Lemma subst_predicate_bound_identity p :
  predicate_vars_all (wf_pre g) p = true →
  ∃ p', subst_predicate s p = Some p' ∧ predicate_vars_all (bound_post kss) p' = true.
Proof.
  destruct p as [bvs pk]. unfold predicate_vars_all, subst_predicate. simpl. intros Hpk.
  destruct (subst_predicate_kind_bound_identity g s k kss Hid Hk Hkss [] 1 pk) as (pk'&Hs&Hp).
  - refine (predicate_vars_all_mono _ _ (mkPredicate bvs pk) _ Hpk). apply wf_pre_wf_in.
  - cbn [length app] in Hs, Hp. rewrite Nat.add_0_r in Hs. rewrite Hs. by eexists.
Qed.

(** A predicate whose own variables are declared: after substitution,
    it is well-kinded under its own binder inside [kss]. *)
Lemma subst_predicate_scoped p :
  pred_scoped g p = true →
  ∃ p', subst_predicate s p = Some p' ∧ pred_bound_vars p' = pred_bound_vars p ∧
    predicate_kind_vars_all (bound_post (pred_kinds p :: kss)) 0 (pred_kind p') = true.
Proof.
  destruct p as [bvs pk]. unfold pred_scoped, subst_predicate. simpl. intros Hpk.
  destruct (subst_predicate_kind_bound_identity g s k kss Hid Hk Hkss [pred_kinds (mkPredicate bvs pk)] 0 pk Hpk)
    as (pk'&Hs&Hp).
  simpl in Hs. rewrite Hs. by eexists.
Qed.

End BoundIdentityItem.

(** ** Substituting arguments of the declared kinds

    rustc's [SubstFolder] only [span_bug!]s on a parameter whose index
    is out of range or whose argument has another kind: with one
    argument per parameter, of its kind, substitution is total. *)
Section SubstTotal.
Context (g : list GenericParamDef) (s : SubstsRef).
Hypothesis (Hk : kinds_match g s).

Lemma mapM_is_Some_forallb {A B} (f : A → option B) (p : A → bool) (l : list A) :
  forallb p l = true → Forall (λ x, p x = true → is_Some (f x)) l → is_Some (mapM f l).
Proof. intros Hp Hl. apply mapM_is_Some_2. exact (Forall_forallb_pre _ _ _ Hp Hl). Qed.

Lemma subst_total_mut :
  (∀ t c, ty_vars_all (param_kind_ok g) c t = true → is_Some (subst_ty s c t)) ∧
  (∀ a c, arg_vars_all (param_kind_ok g) c a = true → is_Some (subst_arg s c a)) ∧
  (∀ k c, const_vars_all (param_kind_ok g) c k = true → is_Some (subst_const s c k)).
Proof.
  apply Ty_mut_ind; intros; simpl in *; vars_split;
    repeat match goal with
    | IH : Forall _ ?l, H : forallb _ ?l = true |- _ =>
        destruct (mapM_is_Some_forallb _ _ l H (Forall_impl _ _ _ IH (λ x Hx, Hx _)))
          as [? ->]; clear IH H
    | IH : ∀ c, _ → is_Some _, H : _ = true |- _ => destruct (IH _ H) as [? ->]; clear IH H
    | r : Region |- _ => destruct r; simpl in *
    | ck : ConstKind |- _ => destruct ck; simpl in *; vars_split
    | Hp : match g !! ?i with Some p => _ | None => false end = true |- _ =>
        destruct (kinds_match_lookup g s Hk i _ Hp) as ([]&->&?); simpl in *; try done; clear Hp
    end; simpl; try by eexists.
Qed.

Lemma subst_region_total c r :
  region_vars_all (param_kind_ok g) c r = true → is_Some (subst_region s c r).
Proof.
  destruct r as [i n| | |]; simpl; try by eexists.
  intros Hp. destruct (kinds_match_lookup g s Hk i _ Hp) as ([]&->&?); simpl in *; try done.
Qed.

Lemma subst_substs_total c xs :
  forallb (arg_vars_all (param_kind_ok g) c) xs = true → is_Some (mapM (subst_arg s c) xs).
Proof.
  intros H. apply (mapM_is_Some_forallb _ _ _ H), Forall_forall. intros a _.
  apply subst_total_mut.
Qed.

Lemma subst_predicate_total p :
  predicate_vars_all (param_kind_ok g) p = true → is_Some (subst_predicate s p).
Proof.
  destruct p as [bvs pk]. unfold predicate_vars_all, subst_predicate. simpl.
  intros Hpk. apply fmap_is_Some.
  destruct pk as [[d xs]| | |[xs d] []| | | | | | | |]; simpl in *; vars_split;
    repeat match goal with
    | H : forallb _ ?xs = true |- _ => destruct (subst_substs_total _ _ H) as [? ?]; clear H
    | H : ty_vars_all _ _ _ = true |- _ => destruct (proj1 subst_total_mut _ _ H) as [? ?]; clear H
    | H : const_vars_all _ _ _ = true |- _ =>
        destruct (proj2 (proj2 subst_total_mut) _ _ H) as [? ?]; clear H
    | H : arg_vars_all _ _ _ = true |- _ =>
        destruct (proj1 (proj2 subst_total_mut) _ _ H) as [? ?]; clear H
    | H : region_vars_all _ _ _ = true |- _ => destruct (subst_region_total _ _ H) as [? ?]; clear H
    end;
    unfold subst_trait_ref, subst_term, subst_substs in *; simpl;
    repeat match goal with H : ?a = Some _ |- context [?a] => rewrite H end; by eexists.
Qed.

End SubstTotal.

(** [shift_vars(.., a)] of a bound-variable identity at level [k] is the
    identity at level [k + a], with the same kinds. *)
Lemma shift_vars_identity k a s : bound_identity_at k s → bound_identity_at (k + a) (shift_vars a s).
Proof.
  intros Hid i x. unfold shift_vars. rewrite list_lookup_fmap.
  destruct (s !! i) as [y|] eqn:Hi; simpl; [|done]. intros [= <-]. specialize (Hid i y Hi).
  destruct y as [[| db br| |]|[| | | | | | | | | | | | | | | | | | | |db bt|]|[[|db v|] t]];
    simpl in *; try done; destruct Hid as [-> ?]; simpl; done.
Qed.

Lemma shift_vars_kinds a s : arg_kind <$> shift_vars a s = arg_kind <$> s.
Proof. induction s as [|[] s IH]; simpl; by f_equal. Qed.

Lemma kinds_match_shift g a s : kinds_match g s → kinds_match g (shift_vars a s).
Proof. induction 1; constructor; [by destruct y|done]. Qed.

(** A bound-variable identity holds no parameter. *)
Lemma bound_identity_no_param k s : bound_identity_at k s → forallb (arg_vars_all no_param 0) s = true.
Proof.
  intros Hid. apply forallb_forall. intros a Ha. apply list_elem_of_In, list_elem_of_lookup in Ha as [i Hi].
  specialize (Hid i a Hi).
  destruct a as [[| db br| |]|[| | | | | | | | | | | | | | | | | | | |db bt|]|[[|db v|] t]];
    simpl in *; try done. destruct Hid as (_&_&Ht). eapply ty_vars_all_mono; [|exact Ht]. done.
Qed.

End ty.
