(* ===== verification/ChalkIr.v ===== *)
(** * The Chalk side: [chalk_ir] terms and the [rust_ir] datum records

    What the bridge of [db.rs] hands back to the solver.  [chalk_ir] and
    [chalk_solve] are crates the bridge only calls; their types are given
    here with the constructors the bridge builds or inspects (the
    [RustInterner] interning is the identity).  [Module chalk_ir] holds
    the terms (types, lifetimes, constants, binders, where clauses);
    [Module rust_ir] the records of one datum per queried entity. *)

From S2P Require Import Prelude HostTy.

Module chalk_ir.

Inductive IntTy := Isize | I8 | I16 | I32 | I64 | I128.
Inductive UintTy := Usize | U8 | U16 | U32 | U64 | U128.
Inductive FloatTy := F32 | F64.
Inductive ScalarTy := Bool | Char | Int (i : IntTy) | Uint (u : UintTy) | Float (f : FloatTy).
Inductive Mutability := Mut | Not.

#[global] Instance IntTy_eq_dec : EqDecision IntTy. Proof. solve_decision. Defined.
#[global] Instance UintTy_eq_dec : EqDecision UintTy. Proof. solve_decision. Defined.
#[global] Instance FloatTy_eq_dec : EqDecision FloatTy. Proof. solve_decision. Defined.
#[global] Instance ScalarTy_eq_dec : EqDecision ScalarTy. Proof. solve_decision. Defined.
#[global] Instance Mutability_eq_dec : EqDecision Mutability. Proof. solve_decision. Defined.

(** [BoundVar { debruijn, index }] *)
Record BoundVar := mkBoundVar { debruijn : nat; bv_index : nat }.

Inductive Lifetime :=
| LtBoundVar (bv : BoundVar)
| LtPlaceholder (idx : nat)
| LtStatic
| LtErased.

Inductive TyVariableKind := General | Integer | FloatVar.

Inductive ConstValue :=
| CvBoundVar (bv : BoundVar)
| CvPlaceholder (idx : nat)
| CvConcrete (v : Z).

(** [TyKind]; [FnPointer { num_binders, substitution }] is [Function]. *)
Inductive Ty :=
| Adt (id : DefId) (substitution : list GenericArg)
| AssociatedType (id : DefId) (substitution : list GenericArg)
| Scalar (s : ScalarTy)
| Tuple (arity : nat) (substitution : list GenericArg)
| Array (t : Ty) (c : Const)
| Slice (t : Ty)
| Raw (m : Mutability) (t : Ty)
| Ref (m : Mutability) (lt : Lifetime) (t : Ty)
| OpaqueType (id : DefId) (substitution : list GenericArg)
| FnDef (id : DefId) (substitution : list GenericArg)
| Str
| Never
| Closure (id : DefId) (substitution : list GenericArg)
| Foreign (id : DefId)
| Function (num_binders : nat) (substitution : list GenericArg)
| BoundVarTy (bv : BoundVar)
| Placeholder (idx : nat)
| InferenceVar (v : nat) (kind : TyVariableKind)
| Alias (a : AliasTy)
| Error
with AliasTy :=
| AliasProjection (associated_ty_id : DefId) (substitution : list GenericArg)
| AliasOpaque (opaque_ty_id : DefId) (substitution : list GenericArg)
with GenericArg :=
| GaTy (t : Ty)
| GaLifetime (l : Lifetime)
| GaConst (c : Const)
with Const :=
| mkConst (ty : Ty) (value : ConstValue).

Inductive VariableKind :=
| VkTy (k : TyVariableKind)
| VkLifetime
| VkConst (t : Ty).

(** [Binders<T>]: "for all these variables, [value] holds". *)
Record Binders (A : Type) := mkBinders { binders : list VariableKind; value : A }.
Arguments mkBinders {A} binders value.
Arguments binders {A} b.
Arguments value {A} b.

(** [Binders::map_ref]: the same variables over a new value. *)
Definition map_ref {A B} (f : A → B) (b : Binders A) : Binders B :=
  mkBinders (binders b) (f (value b)).

Record TraitRef := mkTraitRef { trait_id : DefId; tr_substitution : list GenericArg }.
Record AliasEq := mkAliasEq { alias : AliasTy; alias_ty : Ty }.

Inductive WhereClause :=
| Implemented (tr : TraitRef)
| AliasEqWc (ae : AliasEq)
| LifetimeOutlives (a b : Lifetime)
| TypeOutlives (t : Ty) (lt : Lifetime).

Definition QuantifiedWhereClause := Binders WhereClause.

Inductive Variance := Covariant | Invariant | Contravariant.

Inductive Safety := Safe | Unsafe.

(** [FnSig]: the ABI (the interner's, rustc's [Abi]), safety and
    variadicity of a function. *)
Record FnSig := mkFnSig { abi : ty.Abi; safety : Safety; variadic : bool }.

End chalk_ir.

Module rust_ir.
Import chalk_ir.

Inductive WellKnownTrait :=
| Sized | Copy | Clone | Drop | FnOnce | FnMut | Fn | Unsize | Unpin
| CoerceUnsized | DiscriminantKind | Generator | DispatchFromDyn.

#[global] Instance WellKnownTrait_eq_dec : EqDecision WellKnownTrait.
Proof. solve_decision. Defined.

Inductive ClosureKind := ClosureFn | ClosureFnMut | ClosureFnOnce.

#[global] Instance ClosureKind_eq_dec : EqDecision ClosureKind.
Proof. solve_decision. Defined.

Record TraitFlags := mkTraitFlags {
  auto : bool; marker : bool; upstream : bool; fundamental : bool;
  non_enumerable : bool; coinductive : bool
}.

Record TraitDatumBound := mkTraitDatumBound { trait_where_clauses : list QuantifiedWhereClause }.

Record TraitDatum := mkTraitDatum {
  trait_datum_id : DefId;
  trait_binders : Binders TraitDatumBound;
  trait_flags : TraitFlags;
  associated_ty_ids : list DefId;
  well_known : option WellKnownTrait
}.

Inductive AdtKind := Struct | Union | Enum.
Record AdtFlags := mkAdtFlags { adt_upstream : bool; adt_fundamental : bool; phantom_data : bool }.
Record AdtVariantDatum := mkAdtVariantDatum { fields : list Ty }.
Record AdtDatumBound := mkAdtDatumBound {
  variants : list AdtVariantDatum; adt_where_clauses : list QuantifiedWhereClause
}.
Record AdtDatum := mkAdtDatum {
  adt_datum_id : DefId; adt_binders : Binders AdtDatumBound;
  adt_flags : AdtFlags; adt_kind : AdtKind
}.
Record AdtRepr := mkAdtRepr { repr_c : bool; repr_packed : bool; repr_int : option Ty }.
Record AdtSizeAlign := mkAdtSizeAlign { one_zst : bool }.

Record FnDefInputsAndOutputDatum := mkFnDefInputsAndOutputDatum {
  argument_types : list Ty; return_type : Ty
}.
Record FnDefDatumBound := mkFnDefDatumBound {
  inputs_and_output : Binders FnDefInputsAndOutputDatum;
  fn_where_clauses : list QuantifiedWhereClause
}.
Record FnDefDatum := mkFnDefDatum {
  fn_def_datum_id : DefId; fn_def_sig : FnSig; fn_binders : Binders FnDefDatumBound
}.

Inductive Polarity := Positive | Negative.
Inductive ImplType := Local | External.
Record ImplDatumBound := mkImplDatumBound {
  impl_trait_ref : TraitRef; impl_where_clauses : list QuantifiedWhereClause
}.
Record ImplDatum := mkImplDatum {
  polarity : Polarity; impl_binders : Binders ImplDatumBound;
  impl_type : ImplType; associated_ty_value_ids : list DefId
}.

(** [InlineBound]: a bound on an associated type, without its self type. *)
Inductive InlineBound :=
| TraitBound (trait_id : DefId) (args_no_self : list GenericArg)
(** the trait of the associated type is the parent of [associated_ty_id] *)
| AliasEqBound (associated_ty_id : DefId) (args_no_self : list GenericArg) (value : Ty).
Definition QuantifiedInlineBound := Binders InlineBound.

Record AssociatedTyDatumBound := mkAssociatedTyDatumBound {
  assoc_bounds : list QuantifiedInlineBound; assoc_where_clauses : list QuantifiedWhereClause
}.
Record AssociatedTyDatum := mkAssociatedTyDatum {
  assoc_trait_id : DefId; assoc_id : DefId; assoc_binders : Binders AssociatedTyDatumBound
}.

Record AssociatedTyValueBound := mkAssociatedTyValueBound { assoc_value_ty : Ty }.
Record AssociatedTyValue := mkAssociatedTyValue {
  value_impl_id : DefId; value_associated_ty_id : DefId;
  assoc_value : Binders AssociatedTyValueBound
}.

Record OpaqueTyDatumBound := mkOpaqueTyDatumBound {
  opaque_bounds : Binders (list QuantifiedWhereClause);
  opaque_where_clauses : Binders (list QuantifiedWhereClause)
}.
Record OpaqueTyDatum := mkOpaqueTyDatum {
  opaque_ty_id : DefId; opaque_bound : Binders OpaqueTyDatumBound
}.

End rust_ir.
