(* ===== verification/Lowering.v ===== *)
(** * [crate::chalk::lowering]: from rustc terms to Chalk terms

    The [LowerInto] instances the bridge of [db.rs] calls.  The lowering
    module is part of the repository but not of [src/]; it is modelled
    from the spec: types, regions and constants lower structurally
    (a rustc parameter becomes a Chalk placeholder, a rustc bound
    variable the Chalk bound variable with the same de Bruijn index and
    position), and predicates lower to an optional where clause, the
    shapes the solver cannot express giving [None]. *)

From S2P Require Import Prelude HostTy ChalkIr.

#[local] Instance lower_int_ty : LowerInto ty.IntTy chalk_ir.IntTy := λ i,
  match i with
  | ty.Isize => chalk_ir.Isize | ty.I8 => chalk_ir.I8 | ty.I16 => chalk_ir.I16
  | ty.I32 => chalk_ir.I32 | ty.I64 => chalk_ir.I64 | ty.I128 => chalk_ir.I128
  end.

#[local] Instance lower_uint_ty : LowerInto ty.UintTy chalk_ir.UintTy := λ u,
  match u with
  | ty.Usize => chalk_ir.Usize | ty.U8 => chalk_ir.U8 | ty.U16 => chalk_ir.U16
  | ty.U32 => chalk_ir.U32 | ty.U64 => chalk_ir.U64 | ty.U128 => chalk_ir.U128
  end.

#[local] Instance lower_float_ty : LowerInto ty.FloatTy chalk_ir.FloatTy := λ f,
  match f with ty.F32 => chalk_ir.F32 | ty.F64 => chalk_ir.F64 end.

#[local] Instance lower_mutability : LowerInto ty.Mutability chalk_ir.Mutability := λ m,
  match m with ty.Mut => chalk_ir.Mut | ty.Not => chalk_ir.Not end.

(** An early-bound region is a parameter, lowered like type parameters. *)
#[local] Instance lower_region : LowerInto ty.Region chalk_ir.Lifetime := λ r,
  match r with
  | ty.ReEarlyBound i _ => chalk_ir.LtPlaceholder i
  | ty.ReLateBound db br => chalk_ir.LtBoundVar (chalk_ir.mkBoundVar db (ty.br_var br))
  | ty.ReStatic => chalk_ir.LtStatic
  | ty.ReErased => chalk_ir.LtErased
  end.

Definition lower_const_kind (k : ty.ConstKind) : chalk_ir.ConstValue :=
  match k with
  | ty.CkParam i _ => chalk_ir.CvPlaceholder i
  | ty.CkBound db v => chalk_ir.CvBoundVar (chalk_ir.mkBoundVar db v)
  | ty.CkValue z => chalk_ir.CvConcrete z
  end.

Fixpoint lower_ty (t : ty.Ty) : chalk_ir.Ty :=
  match t with
  | ty.Bool => chalk_ir.Scalar chalk_ir.Bool
  | ty.Char => chalk_ir.Scalar chalk_ir.Char
  | ty.Int i => chalk_ir.Scalar (chalk_ir.Int (lower_into i))
  | ty.Uint u => chalk_ir.Scalar (chalk_ir.Uint (lower_into u))
  | ty.Float f => chalk_ir.Scalar (chalk_ir.Float (lower_into f))
  | ty.Adt d s => chalk_ir.Adt d (map lower_arg s)
  | ty.Foreign d => chalk_ir.Foreign d
  | ty.Str => chalk_ir.Str
  | ty.Array t c => chalk_ir.Array (lower_ty t) (lower_const c)
  | ty.Slice t => chalk_ir.Slice (lower_ty t)
  | ty.RawPtr m t => chalk_ir.Raw (lower_into m) (lower_ty t)
  | ty.Ref r t m => chalk_ir.Ref (lower_into m) (lower_into r) (lower_ty t)
  | ty.FnDef d s => chalk_ir.FnDef d (map lower_arg s)
  | ty.FnPtr bvs io =>
      chalk_ir.Function (length bvs) (map (λ t, chalk_ir.GaTy (lower_ty t)) io)
  | ty.Closure d s => chalk_ir.Closure d (map lower_arg s)
  | ty.Never => chalk_ir.Never
  | ty.Tuple l => chalk_ir.Tuple (length l) (map (λ t, chalk_ir.GaTy (lower_ty t)) l)
  | ty.Projection d s => chalk_ir.Alias (chalk_ir.AliasProjection d (map lower_arg s))
  | ty.Opaque d s => chalk_ir.Alias (chalk_ir.AliasOpaque d (map lower_arg s))
  | ty.Param i _ => chalk_ir.Placeholder i
  | ty.Bound db bt => chalk_ir.BoundVarTy (chalk_ir.mkBoundVar db (ty.bt_var bt))
  | ty.Error => chalk_ir.Error
  end
with lower_arg (a : ty.GenericArg) : chalk_ir.GenericArg :=
  match a with
  | ty.GaLifetime r => chalk_ir.GaLifetime (lower_into r)
  | ty.GaType t => chalk_ir.GaTy (lower_ty t)
  | ty.GaConst c => chalk_ir.GaConst (lower_const c)
  end
with lower_const (c : ty.Const) : chalk_ir.Const :=
  match c with ty.mkConst k t => chalk_ir.mkConst (lower_ty t) (lower_const_kind k) end.

#[local] Instance lower_ty_inst : LowerInto ty.Ty chalk_ir.Ty := lower_ty.
#[local] Instance lower_substs : LowerInto ty.SubstsRef (list chalk_ir.GenericArg) := map lower_arg.

#[local] Instance lower_trait_ref : LowerInto ty.TraitRef chalk_ir.TraitRef := λ tr,
  chalk_ir.mkTraitRef (ty.tr_def_id tr) (lower_into (ty.tr_substs tr)).

(** The variables of a predicate's binder ([collect_bound_vars]).  A
    late-bound constant has no type of its own in rustc; it is given the
    error type. *)
#[local] Instance lower_bound_var_kind : LowerInto ty.BoundVariableKind chalk_ir.VariableKind := λ k,
  match k with
  | ty.BvTy _ => chalk_ir.VkTy chalk_ir.General
  | ty.BvRegion _ => chalk_ir.VkLifetime
  | ty.BvConst => chalk_ir.VkConst chalk_ir.Error
  end.

Definition lower_binders (bvs : list ty.BoundVariableKind) : list chalk_ir.VariableKind :=
  map lower_into bvs.

Definition lower_projection (p : ty.ProjectionTy) : chalk_ir.AliasTy :=
  chalk_ir.AliasProjection (ty.proj_item_def_id p) (lower_into (ty.proj_substs p)).

(** [Predicate: LowerInto<Option<QuantifiedWhereClause>>]: trait,
    outlives and projection predicates have a where clause; the other
    kinds (and a projection onto a constant) are dropped. *)
#[local] Instance lower_where_clause
    : LowerInto ty.Predicate (option chalk_ir.QuantifiedWhereClause) := λ p,
  let wc :=
    match ty.pred_kind p with
    | ty.PkTrait tr => Some (chalk_ir.Implemented (lower_into tr))
    | ty.PkRegionOutlives a b => Some (chalk_ir.LifetimeOutlives (lower_into a) (lower_into b))
    | ty.PkTypeOutlives t r => Some (chalk_ir.TypeOutlives (lower_into t) (lower_into r))
    | ty.PkProjection pr (ty.TermTy t) =>
        Some (chalk_ir.AliasEqWc (chalk_ir.mkAliasEq (lower_projection pr) (lower_into t)))
    | _ => None
    end in
  chalk_ir.mkBinders (lower_binders (ty.pred_bound_vars p)) <$> wc.

(** [Predicate: LowerInto<Option<QuantifiedInlineBound>>]: the bounds of
    an associated type, without their self type. *)
#[local] Instance lower_inline_bound
    : LowerInto ty.Predicate (option rust_ir.QuantifiedInlineBound) := λ p,
  let b :=
    match ty.pred_kind p with
    | ty.PkTrait tr =>
        Some (rust_ir.TraitBound (ty.tr_def_id tr) (lower_into (drop 1 (ty.tr_substs tr))))
    | ty.PkProjection pr (ty.TermTy t) =>
        match ty.proj_substs pr with
        | _ :: args =>
            Some (rust_ir.AliasEqBound (ty.proj_item_def_id pr) (lower_into args) (lower_into t))
        | [] => None
        end
    | _ => None
    end in
  chalk_ir.mkBinders (lower_binders (ty.pred_bound_vars p)) <$> b.


#[export] Existing Instances lower_int_ty lower_uint_ty lower_float_ty lower_mutability
  lower_region lower_ty_inst lower_substs lower_trait_ref lower_bound_var_kind
  lower_where_clause lower_inline_bound.
