(* ===== verification/ChalkScope.v ===== *)
(** * Scope and kinds of Chalk terms, and their preservation by the lowering

    The spec's datum invariant: "each Datum is independently closed (no
    free variables escape its own binder)", and "every bound-variable
    reference appearing in the item's Datum has an index within [0, N)".
    This file states it on the Chalk side, together with the kinds the
    binders declare: a visitor over the variables of a Chalk term
    ([BoundVar]s, each with the kind of the position it occurs at, and
    placeholders), tracking the binder depth through [Function] types
    and through the binder of a quantified where clause; the predicate
    [bound_ok kss] of a term well-scoped and well-kinded under the stack
    of binders [kss] (innermost first); [qwc_scoped], the same check on
    a quantified where clause with the clause's own binder pushed on
    the stack, so that every level a variable escapes to is checked;
    and [closed_in n], the spec's
    closedness under one binder of [n] variables, which [bound_ok]
    implies ([bound_ok_closed_in]).

    The lowering of [Lowering.v] maps each variable of a rustc term to
    the variable of the same de Bruijn coordinates and kind
    ([lower_occ]), so any property of the rustc variables transfers to
    the lowered term ([lower_ty_vars]); with the well-kindedness
    [ty.subst_bound_identity_mut] gives after substitution
    ([bound_post_lower]), the lowered where clauses, bounds and types of
    every datum are well-kinded under the datum's binders. *)

From S2P Require Import Prelude HostTy ChalkIr Lowering.

Module scope.
Import chalk_ir.

(** A variable of a Chalk term, a bound one with the kind of the
    position it occurs at (type, lifetime or constant). *)
Inductive COcc := CBound (kind : ty.GenericParamDefKind) (bv : BoundVar) | CPlaceholder (idx : nat).

Definition lifetime_occs_all (f : nat → COcc → bool) (c : nat) (l : Lifetime) : bool :=
  match l with
  | LtBoundVar bv => f c (CBound ty.GpLifetime bv)
  | LtPlaceholder i => f c (CPlaceholder i)
  | LtStatic | LtErased => true
  end.

Definition const_value_occs_all (f : nat → COcc → bool) (c : nat) (v : ConstValue) : bool :=
  match v with
  | CvBoundVar bv => f c (CBound ty.GpConst bv)
  | CvPlaceholder i => f c (CPlaceholder i)
  | CvConcrete _ => true
  end.

(** [f c o] for every variable [o] of the term, at the binder depth [c]
    where it occurs; a [Function] type binds its substitution. *)
Fixpoint cty_all (f : nat → COcc → bool) (c : nat) (t : Ty) : bool :=
  match t with
  | Adt _ s | AssociatedType _ s | Tuple _ s | OpaqueType _ s | FnDef _ s | Closure _ s =>
      forallb (carg_all f c) s
  | Array t k => cty_all f c t && cconst_all f c k
  | Slice t | Raw _ t => cty_all f c t
  | Ref _ l t => lifetime_occs_all f c l && cty_all f c t
  | Function _ s => forallb (carg_all f (S c)) s
  | BoundVarTy bv => f c (CBound ty.GpType bv)
  | Placeholder i => f c (CPlaceholder i)
  | Alias a => calias_all f c a
  | Scalar _ | Str | Never | Foreign _ | InferenceVar _ _ | Error => true
  end
with calias_all (f : nat → COcc → bool) (c : nat) (a : AliasTy) : bool :=
  match a with
  | AliasProjection _ s | AliasOpaque _ s => forallb (carg_all f c) s
  end
with carg_all (f : nat → COcc → bool) (c : nat) (a : GenericArg) : bool :=
  match a with
  | GaTy t => cty_all f c t
  | GaLifetime l => lifetime_occs_all f c l
  | GaConst k => cconst_all f c k
  end
with cconst_all (f : nat → COcc → bool) (c : nat) (k : Const) : bool :=
  match k with mkConst t v => cty_all f c t && const_value_occs_all f c v end.

Definition where_clause_all (f : nat → COcc → bool) (c : nat) (wc : WhereClause) : bool :=
  match wc with
  | Implemented tr => forallb (carg_all f c) (tr_substitution tr)
  | AliasEqWc ae => calias_all f c (alias ae) && cty_all f c (alias_ty ae)
  | LifetimeOutlives a b => lifetime_occs_all f c a && lifetime_occs_all f c b
  | TypeOutlives t l => cty_all f c t && lifetime_occs_all f c l
  end.

Definition inline_bound_all (f : nat → COcc → bool) (c : nat) (b : rust_ir.InlineBound) : bool :=
  match b with
  | rust_ir.TraitBound _ args => forallb (carg_all f c) args
  | rust_ir.AliasEqBound _ args v => forallb (carg_all f c) args && cty_all f c v
  end.

(** Closed under one binder of [n] variables: no placeholder, and every
    bound variable is bound inside the term or is one of the [n]
    variables of the binder just outside it. *)
Definition closed_in (n : nat) (c : nat) (o : COcc) : bool :=
  match o with
  | CBound _ bv => bool_decide (debruijn bv < c ∨ (debruijn bv = c ∧ bv_index bv < n))
  | CPlaceholder _ => false
  end.

(** The kind of variable a binder declares. *)
Definition vk_sort (vk : VariableKind) : ty.GenericParamDefKind :=
  match vk with VkTy _ => ty.GpType | VkLifetime => ty.GpLifetime | VkConst _ => ty.GpConst end.

(** The kinds of a stack of binders. *)
Definition sorts (kss : list (list VariableKind)) : list (list ty.GenericParamDefKind) :=
  (λ ks : list VariableKind, vk_sort <$> ks) <$> kss.

(** Well-scoped and well-kinded under the binders [kss] just outside
    the term, innermost first: no placeholder, and every bound variable
    is bound inside the term or is a variable one of the binders of
    [kss] declares, of the kind of the position it occurs at. *)
Definition bound_ok (kss : list (list VariableKind)) (c : nat) (o : COcc) : bool :=
  match o with
  | CBound k bv =>
      bool_decide (debruijn bv < c ∨
        vk_sort <$> (kss !! (debruijn bv - c) ≫= (.!! bv_index bv)) = Some k)
  | CPlaceholder _ => false
  end.

(** A quantified where clause (or bound) sits under its own binder: its
    body is one level deeper than the binders outside it. *)
Definition qwc_ok (kss : list (list VariableKind)) (wc : QuantifiedWhereClause) : bool :=
  where_clause_all (bound_ok kss) 1 (value wc).

(** The strict form: the where clause's own binder is part of the
    stack, so a variable at its level must be one it declares, at its
    kind; every binder a variable escapes to is checked. *)
Definition qwc_scoped (kss : list (list VariableKind)) (wc : QuantifiedWhereClause) : bool :=
  where_clause_all (bound_ok (binders wc :: kss)) 0 (value wc).

Definition qib_ok (kss : list (list VariableKind)) (b : rust_ir.QuantifiedInlineBound) : bool :=
  inline_bound_all (bound_ok kss) 1 (value b).

(** The Chalk variable a rustc variable is lowered to. *)
Definition lower_occ (v : ty.VarOcc) : COcc :=
  match v with
  | ty.VTyParam i | ty.VReParam i | ty.VCtParam i => CPlaceholder i
  | ty.VTyBound db var => CBound ty.GpType (mkBoundVar db var)
  | ty.VReBound db var => CBound ty.GpLifetime (mkBoundVar db var)
  | ty.VCtBound db var => CBound ty.GpConst (mkBoundVar db var)
  end.

(** ** The lowering preserves every property of the variables *)

Section Transfer.
Context (f : nat → ty.VarOcc → bool) (g : nat → COcc → bool).
Hypothesis Hfg : ∀ c v, f c v = true → g c (lower_occ v) = true.

Lemma lower_region_vars c r :
  ty.region_vars_all f c r = true → lifetime_occs_all g c (lower_into r) = true.
Proof. destruct r; simpl; try done; intros H; apply (Hfg _ _ H). Qed.

Lemma lower_vars_mut :
  (∀ t c, ty.ty_vars_all f c t = true → cty_all g c (lower_ty t) = true) ∧
  (∀ a c, ty.arg_vars_all f c a = true → carg_all g c (lower_arg a) = true) ∧
  (∀ k c, ty.const_vars_all f c k = true → cconst_all g c (lower_const k) = true).
Proof.
  apply ty.Ty_mut_ind; intros; simpl in *; ty.vars_split; auto using lower_region_vars;
    try solve [match goal with H : f _ _ = true |- _ => exact (Hfg _ _ H) end];
    try (eapply forallb_map_Forall; [|eassumption]; eapply Forall_impl; [eassumption|]; eauto).
  match goal with k : ty.ConstKind |- _ => destruct k end; simpl in *; ty.vars_split; auto;
    match goal with H : f _ _ = true |- _ => exact (Hfg _ _ H) end.
Qed.

Lemma lower_ty_vars c t : ty.ty_vars_all f c t = true → cty_all g c (lower_ty t) = true.
Proof. apply lower_vars_mut. Qed.

Lemma lower_args_vars c s :
  forallb (ty.arg_vars_all f c) s = true → forallb (carg_all g c) (lower_into s) = true.
Proof.
  apply forallb_map_Forall, Forall_forall. intros a _. apply lower_vars_mut.
Qed.

Lemma lower_where_clause_kind_vars c p wc :
  ty.predicate_kind_vars_all f c (ty.pred_kind p) = true → lower_into p = Some wc →
  where_clause_all g c (value wc) = true.
Proof.
  destruct p as [bvs pk]. unfold lower_into, lower_where_clause. simpl.
  destruct pk as [[d xs]| | | [xs d] [t|k] | | | | | | | |]; simpl; intros H [= <-]; simpl;
    ty.vars_split; auto using lower_args_vars, lower_region_vars, lower_ty_vars.
Qed.

Lemma lower_where_clause_vars p wc :
  ty.predicate_vars_all f p = true → lower_into p = Some wc →
  where_clause_all g 1 (value wc) = true.
Proof. apply lower_where_clause_kind_vars. Qed.

Lemma lower_inline_bound_vars p b :
  ty.predicate_vars_all f p = true → lower_into p = Some b →
  inline_bound_all g 1 (value b) = true.
Proof.
  destruct p as [bvs pk]. unfold ty.predicate_vars_all, lower_into, lower_inline_bound. simpl.
  destruct pk as [[d xs]| | | [xs d] [t|k] | | | | | | | |]; simpl; try done.
  - intros H [= <-]. simpl. by apply lower_args_vars, forallb_drop.
  - destruct xs as [|a args]; [done|]. simpl. intros H [= <-]. simpl. ty.vars_split;
      auto using lower_args_vars, lower_ty_vars.
Qed.

End Transfer.

(** What [bound_post] guarantees on the rustc side is well-kindedness of the lowered
    term under the Chalk binders of the same kinds. *)
Lemma bound_post_lower (kss : list (list ty.GenericParamDefKind)) (kss' : list (list VariableKind)) c v :
  kss = sorts kss' → ty.bound_post kss c v = true → bound_ok kss' c (lower_occ v) = true.
Proof.
  intros ->. assert (Hl : ∀ n var, sorts kss' !! n ≫= (.!! var) =
    vk_sort <$> (kss' !! n ≫= (.!! var))).
  { intros n var. unfold sorts. rewrite list_lookup_fmap. destruct (kss' !! n); simpl; [|done].
    by rewrite list_lookup_fmap. }
  destruct v; simpl; try done; rewrite Hl; done.
Qed.

(** The kinds of a lowered binder are the kinds of rustc's bound
    variables. *)
Lemma sorts_lower_binders bvs : vk_sort <$> lower_binders bvs = ty.bvk_kind <$> bvs.
Proof. induction bvs as [|b bvs IH]; [done|]. simpl. f_equal; [by destruct b|exact IH]. Qed.

(** The binder of a lowered where clause declares the kinds of the
    predicate's own bound variables. *)
Lemma lower_where_clause_binders p (wc : QuantifiedWhereClause) :
  lower_into p = Some wc → sorts [binders wc] = [ty.pred_kinds p].
Proof.
  destruct p as [bvs pk]. unfold lower_into, lower_where_clause. simpl.
  intros (w&_&->)%fmap_Some. simpl. unfold ty.pred_kinds. by rewrite sorts_lower_binders.
Qed.

(** A predicate well-kinded under its own binder inside the rustc form
    of [kss] lowers to a where clause scoped under [kss]: the strict
    check, with the clause's binder part of the stack. *)
Lemma lower_where_clause_scoped kss p wc :
  ty.predicate_kind_vars_all (ty.bound_post (ty.pred_kinds p :: sorts kss)) 0 (ty.pred_kind p) = true →
  lower_into p = Some wc → qwc_scoped kss wc = true.
Proof.
  intros Hp Hw. unfold qwc_scoped. eapply lower_where_clause_kind_vars; [|exact Hp|exact Hw].
  intros c v. apply bound_post_lower. pose proof (lower_where_clause_binders p wc Hw) as Hb.
  simpl in *. by injection Hb as ->.
Qed.

(** Well-kindedness under one binder is stronger than the closedness
    of the spec. *)
Lemma bound_ok_closed_in ks c o : bound_ok [ks] c o = true → closed_in (length ks) c o = true.
Proof.
  destruct o as [k [db idx]|]; simpl; [|done]. intros [Hc|Hk]%bool_decide_eq_true; apply bool_decide_eq_true;
    [by left|]. destruct (decide (db < c)); [by left|right].
  destruct (db - c) eqn:Hd; simpl in Hk; [|done]. split; [lia|].
  destruct (ks !! idx) eqn:Hi; [|done]. by eapply lookup_lt_Some.
Qed.

End scope.
