(* ===== verification/ChalkSubst.v ===== *)
(** * Chalk's shifter and substitution, and the lowering between the two sides

    When the solver uses a datum, it instantiates the datum's binder
    with the parameters of its goal: [Binders::substitute], chalk_ir's
    [Subst] folder, which replaces the variable [(outer_binder, i)] by
    parameter [i] shifted in through the binders crossed
    ([shifted_in_from], the [Shifter] folder) and shifts the variables
    bound further out one level down, as the binder is gone.  Both
    folders are in chalk_ir, outside the repository; they are given
    here as the spec describes them ([Module cfold]), with the
    constant conventions of chalk's folders: the type of a constant
    whose value is a free bound variable or a placeholder is not
    folded.

    The theorems relate them to rustc's [shift_vars] and
    [EarlyBinder::subst] through the lowering: lowering commutes with
    shifting ([lower_shift_mut]), and substituting the bound variables
    [bound_vars_for_item] builds, lowering, then letting Chalk
    substitute the lowered arguments, gives the lowering of rustc's own
    substitution of those arguments ([lower_subst_ty]): the binder
    encoding of the bridge is faithful. *)

From S2P Require Import Prelude HostTy ChalkIr Lowering.

Module cfold.
Import chalk_ir.

(** ** [Shifter]: [shifted_in_from] *)

Definition shift_bv (amount cur : nat) (bv : BoundVar) : BoundVar :=
  if decide (debruijn bv < cur) then bv else mkBoundVar (debruijn bv + amount) (bv_index bv).

Definition shift_lifetime (amount cur : nat) (l : Lifetime) : Lifetime :=
  match l with LtBoundVar bv => LtBoundVar (shift_bv amount cur bv) | _ => l end.

Fixpoint shift_ty (amount cur : nat) (t : Ty) : Ty :=
  match t with
  | Adt id s => Adt id (map (shift_arg amount cur) s)
  | AssociatedType id s => AssociatedType id (map (shift_arg amount cur) s)
  | Tuple n s => Tuple n (map (shift_arg amount cur) s)
  | Array t k => Array (shift_ty amount cur t) (shift_const amount cur k)
  | Slice t => Slice (shift_ty amount cur t)
  | Raw m t => Raw m (shift_ty amount cur t)
  | Ref m l t => Ref m (shift_lifetime amount cur l) (shift_ty amount cur t)
  | OpaqueType id s => OpaqueType id (map (shift_arg amount cur) s)
  | FnDef id s => FnDef id (map (shift_arg amount cur) s)
  | Closure id s => Closure id (map (shift_arg amount cur) s)
  | Function n s => Function n (map (shift_arg amount (S cur)) s)
  | BoundVarTy bv => BoundVarTy (shift_bv amount cur bv)
  | Alias a => Alias (shift_alias amount cur a)
  | Scalar _ | Str | Never | Foreign _ | Placeholder _ | InferenceVar _ _ | Error => t
  end
with shift_alias (amount cur : nat) (a : AliasTy) : AliasTy :=
  match a with
  | AliasProjection id s => AliasProjection id (map (shift_arg amount cur) s)
  | AliasOpaque id s => AliasOpaque id (map (shift_arg amount cur) s)
  end
with shift_arg (amount cur : nat) (a : GenericArg) : GenericArg :=
  match a with
  | GaTy t => GaTy (shift_ty amount cur t)
  | GaLifetime l => GaLifetime (shift_lifetime amount cur l)
  | GaConst k => GaConst (shift_const amount cur k)
  end
with shift_const (amount cur : nat) (k : Const) : Const :=
  match k with
  | mkConst t (CvBoundVar bv) =>
      if decide (debruijn bv < cur) then mkConst (shift_ty amount cur t) (CvBoundVar bv)
      else mkConst t (CvBoundVar (shift_bv amount cur bv))
  | mkConst _ (CvPlaceholder _) => k
  | mkConst t (CvConcrete v) => mkConst (shift_ty amount cur t) (CvConcrete v)
  end.

(** ** [Subst]: [Binders::substitute] at the binder [c] levels out

    A kind mismatch or a missing parameter panics in chalk
    ([parameters[index]], "mismatched kinds in substitution"): [None]. *)

(** A free variable that is not the substituted binder's, one level
    down. *)
Definition shift_out_bv (bv : BoundVar) : BoundVar := mkBoundVar (debruijn bv - 1) (bv_index bv).

Definition subst_lifetime (ps : list GenericArg) (c : nat) (l : Lifetime) : option Lifetime :=
  match l with
  | LtBoundVar bv =>
      if decide (debruijn bv < c) then Some l
      else if decide (debruijn bv = c) then
        match ps !! bv_index bv with Some (GaLifetime l') => Some (shift_lifetime c 0 l') | _ => None end
      else Some (LtBoundVar (shift_out_bv bv))
  | _ => Some l
  end.

Fixpoint subst_ty (ps : list GenericArg) (c : nat) (t : Ty) : option Ty :=
  match t with
  | Adt id s => Adt id <$> mapM (subst_arg ps c) s
  | AssociatedType id s => AssociatedType id <$> mapM (subst_arg ps c) s
  | Tuple n s => Tuple n <$> mapM (subst_arg ps c) s
  | Array t k => t' ← subst_ty ps c t; k' ← subst_const ps c k; Some (Array t' k')
  | Slice t => Slice <$> subst_ty ps c t
  | Raw m t => Raw m <$> subst_ty ps c t
  | Ref m l t => l' ← subst_lifetime ps c l; t' ← subst_ty ps c t; Some (Ref m l' t')
  | OpaqueType id s => OpaqueType id <$> mapM (subst_arg ps c) s
  | FnDef id s => FnDef id <$> mapM (subst_arg ps c) s
  | Closure id s => Closure id <$> mapM (subst_arg ps c) s
  | Function n s => Function n <$> mapM (subst_arg ps (S c)) s
  | BoundVarTy bv =>
      if decide (debruijn bv < c) then Some t
      else if decide (debruijn bv = c) then
        match ps !! bv_index bv with Some (GaTy t') => Some (shift_ty c 0 t') | _ => None end
      else Some (BoundVarTy (shift_out_bv bv))
  | Alias a => Alias <$> subst_alias ps c a
  | Scalar _ | Str | Never | Foreign _ | Placeholder _ | InferenceVar _ _ | Error => Some t
  end
with subst_alias (ps : list GenericArg) (c : nat) (a : AliasTy) : option AliasTy :=
  match a with
  | AliasProjection id s => AliasProjection id <$> mapM (subst_arg ps c) s
  | AliasOpaque id s => AliasOpaque id <$> mapM (subst_arg ps c) s
  end
with subst_arg (ps : list GenericArg) (c : nat) (a : GenericArg) : option GenericArg :=
  match a with
  | GaTy t => GaTy <$> subst_ty ps c t
  | GaLifetime l => GaLifetime <$> subst_lifetime ps c l
  | GaConst k => GaConst <$> subst_const ps c k
  end
with subst_const (ps : list GenericArg) (c : nat) (k : Const) : option Const :=
  match k with
  | mkConst t (CvBoundVar bv) =>
      if decide (debruijn bv < c) then (λ t', mkConst t' (CvBoundVar bv)) <$> subst_ty ps c t
      else if decide (debruijn bv = c) then
        match ps !! bv_index bv with Some (GaConst k') => Some (shift_const c 0 k') | _ => None end
      else Some (mkConst t (CvBoundVar (shift_out_bv bv)))
  | mkConst _ (CvPlaceholder _) => Some k
  | mkConst t (CvConcrete v) => (λ t', mkConst t' (CvConcrete v)) <$> subst_ty ps c t
  end.

Definition subst_where_clause (ps : list GenericArg) (c : nat) (wc : WhereClause)
    : option WhereClause :=
  match wc with
  | Implemented tr => (λ s, Implemented (mkTraitRef (trait_id tr) s)) <$> mapM (subst_arg ps c) (tr_substitution tr)
  | AliasEqWc ae =>
      a ← subst_alias ps c (alias ae); t ← subst_ty ps c (alias_ty ae); Some (AliasEqWc (mkAliasEq a t))
  | LifetimeOutlives a b =>
      a' ← subst_lifetime ps c a; b' ← subst_lifetime ps c b; Some (LifetimeOutlives a' b')
  | TypeOutlives t l => t' ← subst_ty ps c t; l' ← subst_lifetime ps c l; Some (TypeOutlives t' l')
  end.

(** A quantified where clause is a binder: its body is one level in. *)
Definition subst_qwc (ps : list GenericArg) (c : nat) (wc : QuantifiedWhereClause)
    : option QuantifiedWhereClause :=
  mkBinders (binders wc) <$> subst_where_clause ps (S c) (value wc).

(** [InlineBound::fold_with]: the bounds of an associated type, under
    their own binder. *)
Definition subst_inline_bound (ps : list GenericArg) (c : nat) (b : rust_ir.InlineBound)
    : option rust_ir.InlineBound :=
  match b with
  | rust_ir.TraitBound id xs => rust_ir.TraitBound id <$> mapM (subst_arg ps c) xs
  | rust_ir.AliasEqBound id xs t =>
      xs' ← mapM (subst_arg ps c) xs; t' ← subst_ty ps c t; Some (rust_ir.AliasEqBound id xs' t')
  end.

Definition subst_qib (ps : list GenericArg) (c : nat) (b : rust_ir.QuantifiedInlineBound)
    : option rust_ir.QuantifiedInlineBound :=
  mkBinders (binders b) <$> subst_inline_bound ps (S c) (value b).

End cfold.

(** ** Lowering commutes with shifting *)

Section LowerShift.
Context (amount : nat).

Lemma lower_shift_bv cur db var :
  chalk_ir.mkBoundVar (if decide (db < cur) then db else db + amount) var =
  cfold.shift_bv amount cur (chalk_ir.mkBoundVar db var).
Proof. unfold cfold.shift_bv. simpl. by destruct (decide (db < cur)). Qed.

Lemma lower_shift_region cur r :
  lower_into (ty.shift_region amount cur r) = cfold.shift_lifetime amount cur (lower_into r).
Proof.
  destruct r as [|db br| |]; simpl; try done. rewrite <-lower_shift_bv.
  by destruct (decide (db < cur)).
Qed.

(** Lowering and shifting commute on terms whose constants have
    closed types: rustc's [shift_vars] folds the type of a bound
    constant, Chalk's [Shifter] does not, and the two agree because
    that type has no variable. *)
Lemma lower_shift_mut :
  (∀ t cur, ty.const_tys_closed t = true →
     lower_ty (ty.shift_ty amount cur t) = cfold.shift_ty amount cur (lower_ty t)) ∧
  (∀ a cur, ty.const_tys_closed_arg a = true →
     lower_arg (ty.shift_arg amount cur a) = cfold.shift_arg amount cur (lower_arg a)) ∧
  (∀ k cur, ty.const_ty_closed k = true →
     lower_const (ty.shift_const amount cur k) = cfold.shift_const amount cur (lower_const k)).
Proof.
  apply ty.Ty_mut_ind; intros; simpl in *; ty.vars_split; try done;
    rewrite ?map_map, ?length_map;
    repeat match goal with |- ?C _ = ?C _ => f_equal end;
    repeat match goal with
    | IH : Forall _ ?l, H : forallb _ ?l = true |- map _ ?l = map _ ?l =>
        apply (map_ext_Forall_pre _ _ _ _ H); eapply Forall_impl; [exact IH|];
        simpl; intros; f_equal; eauto
    end; eauto using lower_shift_region.
  all: try (f_equal; eauto using lower_shift_region; fail).
  - unfold cfold.shift_bv. simpl. by destruct (decide (db < cur)).
  - pose proof (proj1 (ty.shift_closed_mut amount) t cur 0 H0) as Hsh.
    pose proof (proj1 ty.closed_const_tys_closed_mut t 0 H0) as Hct.
    destruct k as [i n|db v|z]; simpl; rewrite ?Hsh; try done.
    + unfold cfold.shift_bv. simpl. destruct (decide (db < cur)); simpl; [|done].
      by rewrite <-(H cur Hct), Hsh.
    + by rewrite <-(H cur Hct), Hsh.
Qed.
End LowerShift.

(** ** Lowering commutes with substitution *)

Ltac opt_norm := rewrite ?opt_bind_fmap, ?opt_fmap_fmap, ?opt_fmap_bind, ?opt_bind_assoc; simpl.

Section LowerSubst.
Context (bv args : ty.SubstsRef).
Hypotheses (Hid : ty.bound_identity bv) (Hkinds : ty.arg_kind <$> bv = ty.arg_kind <$> args)
  (Hargs : forallb ty.const_tys_closed_arg args = true).
Local Notation ps := (map lower_arg args).

(** Parameter [i] is an argument of the same kind on both sides. *)
Lemma subst_lookup_kinds i :
  match bv !! i, args !! i with
  | Some a, Some b => ty.arg_kind a = ty.arg_kind b ∧ ty.bound_identity_arg 0 i a ∧ ty.const_tys_closed_arg b = true
  | None, None => True
  | _, _ => False
  end.
Proof.
  pose proof (f_equal (.!! i) Hkinds) as Hl. simpl in Hl. rewrite !list_lookup_fmap in Hl.
  destruct (bv !! i) as [a|] eqn:Ha, (args !! i) as [b|] eqn:Hb; simpl in Hl; try done.
  injection Hl as Hl. split_and!; [done|by apply Hid|].
  rewrite forallb_forall in Hargs. apply Hargs, list_elem_of_In. by eapply list_elem_of_lookup_2.
Qed.

Lemma lower_subst_region c r :
  ty.region_vars_all (ty.bound_below 0) c r = true →
  ty.subst_region bv c r ≫= (λ r', cfold.subst_lifetime ps c (lower_into r')) =
  lower_into <$> ty.subst_region args c r.
Proof.
  destruct r as [i n|db br| |]; simpl; try done.
  - intros _. pose proof (subst_lookup_kinds i) as Hk.
    destruct (bv !! i) as [[[| db' br| |]| |]|], (args !! i) as [[r| |]|] eqn:Ha;
      simpl in *; try done; try (by destruct Hk as (?&?&?)).
    destruct Hk as (_&[-> <-]&_). simpl. rewrite decide_False, decide_True by lia.
    simpl. rewrite Prelude.lookup_map, Ha. simpl. f_equal. by rewrite <-lower_shift_region.
  - intros [?|[_ ?]]%bool_decide_eq_true; [|lia]. simpl. by rewrite decide_True.
Qed.
Ltac case_substs :=
  repeat (match goal with
  | |- context [ty.subst_ty ?s ?c ?t] => destruct (ty.subst_ty s c t)
  | |- context [ty.subst_const ?s ?c ?t] => destruct (ty.subst_const s c t)
  | |- context [ty.subst_region ?s ?c ?t] => destruct (ty.subst_region s c t)
  end; simpl in *); try congruence;
  repeat match goal with H : cfold.subst_ty _ _ _ = _ |- _ => rewrite H; clear H
  | H : cfold.subst_const _ _ _ = _ |- _ => rewrite H; clear H
  | H : cfold.subst_lifetime _ _ _ = _ |- _ => rewrite H; clear H end; simpl; congruence.

Ltac wrap_ih :=
  match goal with
  | |- ?m ≫= (λ x, ?F <$> @?g x) = _ =>
      rewrite <-(opt_fmap_bind _ F m);
      first [rewrite lower_subst_region by done
            |match goal with IH : ∀ c, _ → _ |- _ => rewrite IH by done end];
      rewrite opt_fmap_fmap; reflexivity
  end.

Lemma lower_subst_mut :
  (∀ t c, ty.ty_vars_all (ty.bound_below 0) c t = true →
     ty.subst_ty bv c t ≫= (λ t', cfold.subst_ty ps c (lower_ty t')) = lower_ty <$> ty.subst_ty args c t) ∧
  (∀ a c, ty.arg_vars_all (ty.bound_below 0) c a = true →
     ty.subst_arg bv c a ≫= (λ a', cfold.subst_arg ps c (lower_arg a')) = lower_arg <$> ty.subst_arg args c a) ∧
  (∀ k c, ty.const_vars_all (ty.bound_below 0) c k = true →
     ty.subst_const bv c k ≫= (λ k', cfold.subst_const ps c (lower_const k')) = lower_const <$> ty.subst_const args c k).
Proof.
  apply ty.Ty_mut_ind; intros; simpl in *; ty.vars_split; try done; opt_norm.
  all: try (erewrite mapM_bind_map_fmap_len || erewrite mapM_bind_map_fmap2 || erewrite mapM_bind_map_fmap;
    [done|]; refine (Forall_forallb_pre _ _ _ _ _); [eassumption|];
    eapply Forall_impl; [eassumption|]; simpl; intros; opt_norm; eauto).
  all: try wrap_ih.
  - specialize (H c0 H1). specialize (H0 c0 H2). case_substs.
  - match goal with Hr : ty.region_vars_all _ _ _ = true |- _ =>
      pose proof (lower_subst_region _ _ Hr) end. specialize (H c H1). case_substs.
  - pose proof (subst_lookup_kinds i) as Hk.
    destruct (bv !! i) as [a|], (args !! i) as [b|] eqn:Hb; simpl in Hk; try done.
    destruct Hk as (Hkd&Hba&Hcl).
    destruct a as [|[]|], b; simpl in Hkd, Hba; try discriminate; try done.
    destruct Hba as [-> <-]. simpl. rewrite decide_False, decide_True by lia.
    rewrite Prelude.lookup_map, Hb. simpl. f_equal.
    by rewrite (proj1 (lower_shift_mut c)).
  - apply bool_decide_eq_true in H as [?|[_ ?]]; [|lia]. by rewrite decide_True.
  - destruct k as [i n|db v|z]; simpl in *; ty.vars_split; opt_norm.
    + pose proof (subst_lookup_kinds i) as Hk.
      destruct (bv !! i) as [a|], (args !! i) as [b|] eqn:Hb; simpl in Hk; try done.
      destruct Hk as (Hkd&Hba&Hcl).
      destruct a as [| |[[] t']], b; simpl in Hkd, Hba; try discriminate; try done.
      destruct Hba as (-> & <- & _). simpl.
      rewrite decide_False, decide_True by lia.
      rewrite Prelude.lookup_map, Hb. simpl. f_equal.
      by rewrite (proj2 (proj2 (lower_shift_mut c))).
    + match goal with Hb : bool_decide _ = true |- _ =>
        apply bool_decide_eq_true in Hb as [?|[_ ?]]; [|lia] end.
      destruct (decide (db < c)); [|lia].
      wrap_ih.
    + wrap_ih.
Qed.
(** The same, once rustc's substitution of [bv] is known to succeed:
    the forms the clients rewrite with. *)
Lemma lower_subst_ty_Some c t t' :
  ty.ty_vars_all (ty.bound_below 0) c t = true → ty.subst_ty bv c t = Some t' →
  cfold.subst_ty ps c (lower_ty t') = lower_ty <$> ty.subst_ty args c t.
Proof. intros Ht Hs. pose proof (proj1 lower_subst_mut t c Ht) as H. by rewrite Hs in H. Qed.

Lemma lower_subst_region_Some c r r' :
  ty.region_vars_all (ty.bound_below 0) c r = true → ty.subst_region bv c r = Some r' →
  cfold.subst_lifetime ps c (lower_into r') = lower_into <$> ty.subst_region args c r.
Proof. intros Hr Hs. pose proof (lower_subst_region c r Hr) as H. by rewrite Hs in H. Qed.

Lemma lower_subst_args_Some c xs ys :
  forallb (ty.arg_vars_all (ty.bound_below 0) c) xs = true → mapM (ty.subst_arg bv c) xs = Some ys →
  mapM (cfold.subst_arg ps c) (map lower_arg ys) = map lower_arg <$> mapM (ty.subst_arg args c) xs.
Proof.
  intros Hxs Hs.
  pose proof (mapM_bind_map (ty.subst_arg bv c) lower_arg (cfold.subst_arg ps c) (ty.subst_arg args c) lower_arg xs)
    as H. rewrite Hs in H. apply H. refine (Forall_forallb_pre _ _ _ Hxs _).
  apply Forall_forall. intros a _. apply lower_subst_mut.
Qed.

Lemma lower_subst_tys_Some c ts ts' :
  forallb (ty.ty_vars_all (ty.bound_below 0) c) ts = true → mapM (ty.subst_ty bv c) ts = Some ts' →
  mapM (cfold.subst_ty ps c) (map lower_ty ts') = map lower_ty <$> mapM (ty.subst_ty args c) ts.
Proof.
  intros Hts Hs.
  pose proof (mapM_bind_map (ty.subst_ty bv c) lower_ty (cfold.subst_ty ps c) (ty.subst_ty args c)
    lower_ty ts) as H. rewrite Hs in H. apply H. refine (Forall_forallb_pre _ _ _ Hts _).
  apply Forall_forall. intros t _. apply lower_subst_mut.
Qed.

End LowerSubst.

(** Substituting [bv] (the shape [bound_vars_for_item] builds), lowering,
    and letting Chalk substitute the lowered [args] is rustc's own
    substitution of [args], lowered. *)
Lemma lower_subst_ty bv args c t t' :
  ty.bound_identity bv → ty.arg_kind <$> bv = ty.arg_kind <$> args →
  forallb ty.const_tys_closed_arg args = true →
  ty.ty_vars_all (ty.bound_below 0) c t = true → ty.subst_ty bv c t = Some t' →
  cfold.subst_ty (map lower_arg args) c (lower_ty t') = lower_ty <$> ty.subst_ty args c t.
Proof. intros Hid Hk Ha. by apply lower_subst_ty_Some. Qed.
