(* ===== verification/TyCtxt.v ===== *)
(** * The host context [TyCtxt]: the queries the bridge asks rustc

    Every function of [db.rs] reads its facts through
    [self.interner.tcx], an immutable snapshot of rustc's type context.
    It is modelled as a record of query functions, the interface between
    the bridge and the host: the theorems of the other files hold for
    every [TyCtxt], and assume of it only what they state (well-formed
    generics, for instance).  The item metadata the queries return
    ([AdtDef], [AssocItem], [TraitDef], ...) is given with the fields the
    bridge reads.

    [generics_of] returns the parameters of an item with those of its
    parents first, in declaration order: the list [InternalSubsts::
    for_item] walks through [fill_item].

    [Module Sample], at the end of the file, is one concrete host
    context: the input of the witnesses. *)

From S2P Require Import Prelude HostTy.

(** [ty::AssocKind], [ty::AssocItemContainer], [ty::AssocItem] *)
Inductive AssocKind := AssocConst | AssocFn | AssocType.
Inductive AssocItemContainer := TraitContainer | ImplContainer.

#[export] Instance AssocKind_eq_dec : EqDecision AssocKind.
Proof. solve_decision. Defined.

Record AssocItem := mkAssocItem {
  assoc_def_id : DefId;
  assoc_kind : AssocKind;
  container : AssocItemContainer;
  (** [tcx.parent(def_id)], the trait or impl the item belongs to *)
  assoc_container_id : DefId;
  (** for an item of an impl, the trait item it implements *)
  trait_item_def_id : option DefId
}.

(** [AssocItem::trait_container] *)
Definition trait_container (a : AssocItem) : option DefId :=
  match container a with
  | TraitContainer => Some (assoc_container_id a)
  | ImplContainer => None
  end.

(** [AssocItem::container_id] *)
Definition container_id (a : AssocItem) : DefId := assoc_container_id a.

(** [ty::TraitDef] *)
Record TraitDef := mkTraitDef { has_auto_impl : bool; is_marker : bool }.

(** [ty::AdtKind], [ty::ReprOptions] (with [attr::IntType]),
    [ty::FieldDef], [ty::VariantDef], [ty::AdtDef] *)
Inductive AdtKind := Struct | Union | Enum.

Inductive IntType := SignedInt (i : ty.IntTy) | UnsignedInt (u : ty.UintTy).

Record ReprOptions := mkReprOptions { repr_c : bool; repr_packed : bool; repr_int : option IntType }.

Record FieldDef := mkFieldDef { field_did : DefId }.
Record VariantDef := mkVariantDef { variant_fields : list FieldDef }.

Record AdtDef := mkAdtDef {
  adt_did : DefId;
  adt_variants : list VariantDef;
  adt_kind : AdtKind;
  adt_repr : ReprOptions;
  adt_is_fundamental : bool;
  adt_is_phantom_data : bool
}.

(** [ty::ImplPolarity] *)
Inductive ImplPolarity := ImplPositive | ImplNegative.

(** [ty::Variance] *)
Inductive Variance := Covariant | Invariant | Contravariant | Bivariant.

(** [ty::PolyFnSig]: a binder over the signature. *)
Record PolyFnSig := mkPolyFnSig {
  sig_bound_vars : list ty.BoundVariableKind;
  sig_inputs_and_output : list ty.Ty;
  sig_c_variadic : bool;
  sig_unsafety : ty.Unsafety;
  sig_abi : ty.Abi
}.

(** [rustc_target::abi::Layout], as far as [is_zst] and [align] go. *)
Record Layout := mkLayout { layout_size : nat; layout_align_bytes : nat }.
Definition is_zst (l : Layout) : bool := bool_decide (layout_size l = 0).

(** The lang items the well-known trait tables read. *)
Record LangItems := mkLangItems {
  sized_trait : option DefId;
  copy_trait : option DefId;
  clone_trait : option DefId;
  drop_trait : option DefId;
  fn_trait : option DefId;
  fn_mut_trait : option DefId;
  fn_once_trait : option DefId;
  gen_trait : option DefId;
  unsize_trait : option DefId;
  unpin_trait : option DefId;
  coerce_unsized_trait : option DefId;
  discriminant_kind_trait : option DefId;
  dispatch_from_dyn_trait : option DefId
}.

(** The symbol of the [#[fundamental]] attribute ([sym::fundamental]). *)
Definition sym_fundamental : Symbol := "fundamental".

Record TyCtxt := mkTyCtxt {
  predicates_defined_on : DefId → list ty.Predicate;
  explicit_item_bounds : DefId → list ty.Predicate;
  generics_of : DefId → list ty.GenericParamDef;
  type_of : DefId → ty.Ty;
  trait_def : DefId → TraitDef;
  has_attr : DefId → Symbol → bool;
  associated_item : DefId → AssocItem;
  (** [associated_items(def_id).in_definition_order()] *)
  associated_items : DefId → list AssocItem;
  fn_sig : DefId → PolyFnSig;
  (** [impl_trait_ref] and [bound_impl_trait_ref] *)
  impl_trait_ref : DefId → option ty.TraitRef;
  impl_polarity : DefId → ImplPolarity;
  all_impls : DefId → list DefId;
  lang_items : LangItems;
  (** [layout_of(param_env(did).and(ty))]; [None] is a [LayoutError] *)
  layout_of : DefId → ty.Ty → option Layout;
  variances_of : DefId → list Variance;
  is_object_safe : DefId → bool
}.

(** ** A sample host context, the concrete input of the witnesses

    A small crate as rustc would present it to the bridge:
    - [struct Pair<T> { a: T, b: T }] with the predicate [T: Sized]
      and a well-formedness predicate that Chalk cannot express;
    - [struct S<'a, T, const N: usize>];
    - an auto trait [Marker] with one impl, [impl Marker for u32];
    - a trait [trait Tr<T> { type Out: Sized; }] and its impl
      [impl<T> Tr<T> for Pair<T> { type Out = T; }];
    - a function [fn id<T>(x: T) -> T], and a malformed function item
      whose signature has no type at all;
    - two opaque types, [type Opq = impl Sized] and
      [type OpqG<T> = impl Sized], each bounded by [Self: Sized];
    - the lang items of [core], all distinct.
    The theorems of the other files are proved for every [TyCtxt]; their
    witnesses apply them to [tcx] below. *)

Module Sample.
Import ty.

Definition local (i : nat) : DefId := mkDefId LOCAL_CRATE i.
Definition core (i : nat) : DefId := mkDefId 1 i.

Definition pair_did := local 1.
Definition field_a := local 2.
Definition field_b := local 3.
Definition param_t := local 4.
Definition s_did := local 5.
Definition s_lifetime := local 6.
Definition s_ty := local 7.
Definition s_const := local 8.
Definition marker_did := local 9.
Definition marker_impl := local 10.

Definition tr_did := local 11.
Definition tr_self := local 12.
Definition tr_t := local 13.
Definition out_decl := local 14.
Definition tr_impl := local 15.
Definition impl_t := local 16.
Definition out_value := local 17.

Definition id_fn := local 18.
Definition id_t := local 19.
Definition bad_fn := local 20.

Definition opq := local 21.
Definition opq_gen := local 22.
Definition opq_t := local 23.

Definition first_fn := local 24.
Definition first_t := local 25.
Definition first_a := local 26.

Definition sized_did := core 1.

Definition lang : LangItems :=
  mkLangItems (Some (core 1)) (Some (core 2)) (Some (core 3)) (Some (core 4))
    (Some (core 5)) (Some (core 6)) (Some (core 7)) (Some (core 8)) (Some (core 9))
    (Some (core 10)) (Some (core 11)) (Some (core 12)) (Some (core 13)).

Definition t_param : GenericParamDef := mkGenericParamDef "T" param_t 0 GpType.

Definition s_generics : list GenericParamDef :=
  [mkGenericParamDef "'a" s_lifetime 0 GpLifetime;
   mkGenericParamDef "T" s_ty 1 GpType;
   mkGenericParamDef "N" s_const 2 GpConst].

(** [T: Sized], and [WF(T)], which has no where-clause form. *)
Definition pair_predicates : list Predicate :=
  [mkPredicate [] (PkTrait (mkTraitRef sized_did [GaType (Param 0 "T")]));
   mkPredicate [] (PkWellFormed (GaType (Param 0 "T")))].

(** The generics of [Tr] ([Self] first) are those of [Out] too. *)
Definition tr_generics : list GenericParamDef :=
  [mkGenericParamDef "Self" tr_self 0 GpType; mkGenericParamDef "T" tr_t 1 GpType].

Definition tr_predicates : list Predicate :=
  [mkPredicate [] (PkTrait (mkTraitRef sized_did [GaType (Param 1 "T")]))].

(** [<Self as Tr<T>>::Out: Sized] *)
Definition out_bounds : list Predicate :=
  [mkPredicate [] (PkTrait (mkTraitRef sized_did
     [GaType (Projection out_decl [GaType (Param 0 "Self"); GaType (Param 1 "T")])]))].

Definition impl_generics : list GenericParamDef := [mkGenericParamDef "T" impl_t 0 GpType].

(** [Tr<T> for Pair<T>] *)
Definition tr_impl_trait_ref : TraitRef :=
  mkTraitRef tr_did [GaType (Adt pair_did [GaType (Param 0 "T")]); GaType (Param 0 "T")].

Definition out_decl_item : AssocItem := mkAssocItem out_decl AssocType TraitContainer tr_did None.
Definition out_value_item : AssocItem :=
  mkAssocItem out_value AssocType ImplContainer tr_impl (Some out_decl).

Definition id_generics : list GenericParamDef := [mkGenericParamDef "T" id_t 0 GpType].
Definition id_sig : PolyFnSig := mkPolyFnSig [] [Param 0 "T"; Param 0 "T"] false Normal AbiRust.

(** [fn first<'a, T>(x: &'a T) -> &'a T], ['a] late-bound: the
    signature's binder declares it. *)
Definition first_generics : list GenericParamDef := [mkGenericParamDef "T" first_t 0 GpType].
Definition first_a_region : Region := ReLateBound 0 (mkBoundRegion 0 (BrNamed first_a "'a")).
Definition first_sig : PolyFnSig :=
  mkPolyFnSig [BvRegion (BrNamed first_a "'a")]
    [Ref first_a_region (Param 0 "T") Not; Ref first_a_region (Param 0 "T") Not] false Normal AbiRust.

Definition opq_bounds : list Predicate :=
  [mkPredicate [] (PkTrait (mkTraitRef sized_did [GaType (Opaque opq [])]))].
Definition opq_gen_generics : list GenericParamDef := [mkGenericParamDef "T" opq_t 0 GpType].
Definition opq_gen_bounds : list Predicate :=
  [mkPredicate [] (PkTrait (mkTraitRef sized_did [GaType (Opaque opq_gen [GaType (Param 0 "T")])]))].

Definition pair_adt : AdtDef :=
  mkAdtDef pair_did [mkVariantDef [mkFieldDef field_a; mkFieldDef field_b]] Struct
    (mkReprOptions false false None) false false.

Definition marker_trait_ref : TraitRef := mkTraitRef marker_did [GaType (Uint U32)].

Definition tcx : TyCtxt := {|
  predicates_defined_on := λ d,
    if decide (d = pair_did) then pair_predicates
    else if decide (d = tr_did) then tr_predicates else [];
  explicit_item_bounds := λ d,
    if decide (d = out_decl) then out_bounds
    else if decide (d = opq) then opq_bounds
    else if decide (d = opq_gen) then opq_gen_bounds else [];
  generics_of := λ d,
    if decide (d = pair_did) then [t_param]
    else if decide (d = s_did) then s_generics
    else if decide (d = tr_did) then tr_generics
    else if decide (d = out_decl) then tr_generics
    else if decide (d = tr_impl) then impl_generics
    else if decide (d = out_value) then impl_generics
    else if decide (d = id_fn) then id_generics
    else if decide (d = first_fn) then first_generics
    else if decide (d = opq_gen) then opq_gen_generics else [];
  type_of := λ d,
    if decide (d = field_a) then Param 0 "T"
    else if decide (d = field_b) then Param 0 "T"
    else if decide (d = s_const) then Uint Usize
    else if decide (d = out_value) then Param 0 "T"
    else Error;
  trait_def := λ d, mkTraitDef (bool_decide (d = marker_did)) false;
  has_attr := λ _ _, false;
  associated_item := λ d,
    if decide (d = out_decl) then out_decl_item
    else if decide (d = out_value) then out_value_item
    else mkAssocItem d AssocType ImplContainer d None;
  associated_items := λ d,
    if decide (d = tr_did) then [out_decl_item]
    else if decide (d = tr_impl) then [out_value_item] else [];
  fn_sig := λ d,
    if decide (d = id_fn) then id_sig
    else if decide (d = first_fn) then first_sig
    else if decide (d = bad_fn) then mkPolyFnSig [] [] false Normal AbiRust
    else mkPolyFnSig [] [Bool] false Normal AbiRust;
  impl_trait_ref := λ d,
    if decide (d = marker_impl) then Some marker_trait_ref
    else if decide (d = tr_impl) then Some tr_impl_trait_ref else None;
  impl_polarity := λ _, ImplPositive;
  all_impls := λ d,
    if decide (d = marker_did) then [marker_impl]
    else if decide (d = tr_did) then [tr_impl] else [];
  lang_items := lang;
  layout_of := λ _ _, None;
  variances_of := λ _, [];
  is_object_safe := λ _, true
|}.

End Sample.
