(* ===== verification/BoundVars.v ===== *)
(** * The binder/index builder: [bound_vars_for_item] and [binders_for]

    [db.rs] lines 711-760.  For an item with generic parameters
    [g = generics_of tcx def_id], [bound_vars_for_item] builds the
    substitution that maps each parameter to a bound variable of the
    innermost binder: a type parameter to [Bound(INNERMOST, index)], a
    lifetime to [ReLateBound(INNERMOST, substs.len())], a constant to
    [Bound(INNERMOST, index)] with its declared type.  [binders_for]
    lists the Chalk variable kinds of that substitution: the binder under
    which every datum of the bridge is stated.

    The theorems: the builder succeeds exactly on well-formed generics
    (each parameter's index is its position, the assertion of
    [InternalSubsts::fill_single]); it then maps parameter [i] to the
    bound variable [(INNERMOST, i)] of the parameter's kind; the kinds of
    [binders_for] are the parameters' kinds, one per parameter; and
    substituting the builder's result into a term of the item yields a
    term with no parameter, well-kinded under the item binder: each of
    its free bound variables is a variable of that binder, used at the
    kind of the parameter it replaces. *)

From S2P Require Import Prelude HostTy ChalkIr Lowering ChalkScope TyCtxt.
Import ty.

(** [InternalSubsts::fill_single]: each parameter's argument is built
    from the arguments built so far, and its index must be their number. *)
Fixpoint fill_single (mk_kind : GenericParamDef → SubstsRef → GenericArg)
    (params : list GenericParamDef) (substs : SubstsRef) : res SubstsRef :=
  match params with
  | [] => Ok substs
  | param :: params =>
      let kind := mk_kind param substs in
      if decide (param_index param = length substs)
      then fill_single mk_kind params (substs ++ [kind])
      else Err (AssertFailed "param.index as usize == substs.len()")
  end.

(** [InternalSubsts::for_item] *)
Definition for_item (tcx : TyCtxt) (def_id : DefId) (mk_kind : GenericParamDef → SubstsRef → GenericArg)
    : res SubstsRef :=
  fill_single mk_kind (generics_of tcx def_id) [].

(** The closure [bound_vars_for_item] passes to [for_item]. *)
Definition bound_var_for_param (tcx : TyCtxt) (param : GenericParamDef) (substs : SubstsRef) : GenericArg :=
  match param_kind param with
  | GpType =>
      GaType (Bound INNERMOST (mkBoundTy (param_index param) (BtParam (param_name param))))
  | GpLifetime =>
      GaLifetime (ReLateBound INNERMOST (mkBoundRegion (length substs) (BrAnon (length substs))))
  | GpConst =>
      GaConst (mkConst (CkBound INNERMOST (param_index param)) (type_of tcx (param_def_id param)))
  end.

Definition bound_vars_for_item (tcx : TyCtxt) (def_id : DefId) : res SubstsRef :=
  for_item tcx def_id (bound_var_for_param tcx).

(** [binders_for]: the variable kinds of a substitution. *)
Definition binders_for (bound_vars : SubstsRef) : list chalk_ir.VariableKind :=
  map (λ arg,
    match arg with
    | GaLifetime _ => chalk_ir.VkLifetime
    | GaType _ => chalk_ir.VkTy chalk_ir.General
    | GaConst c => chalk_ir.VkConst (lower_into (const_ty c))
    end) bound_vars.

(** The kinds of the binder [binders_for] builds are the kinds of the
    substitution. *)
Lemma binders_for_sorts s : scope.vk_sort <$> binders_for s = arg_kind <$> s.
Proof. induction s as [|[] s IH]; simpl; by f_equal. Qed.

(** A variable well-kinded under the kinds of a substitution lowers to
    one well-kinded under the binder [binders_for] builds from it. *)
Lemma bound_post_lower_binders s c v :
  bound_post [arg_kind <$> s] c v = true → scope.bound_ok [binders_for s] c (scope.lower_occ v) = true.
Proof. apply scope.bound_post_lower. simpl. by rewrite binders_for_sorts. Qed.

(** ** Specification *)

Section BoundVars.
Context (tcx : TyCtxt).
Local Abbreviation for_item := (for_item tcx).
Local Abbreviation bound_var_for_param := (bound_var_for_param tcx).
Local Abbreviation bound_vars_for_item := (bound_vars_for_item tcx).

(** Well-formed generics: each parameter's index is its position. *)
Definition generics_wf (g : list GenericParamDef) : Prop :=
  ∀ i p, g !! i = Some p → param_index p = i.

(** The bound variable parameter [p] at position [i] stands for. *)
Definition bound_var_of_param (p : GenericParamDef) (i : nat) : GenericArg :=
  match param_kind p with
  | GpType => GaType (Bound INNERMOST (mkBoundTy i (BtParam (param_name p))))
  | GpLifetime => GaLifetime (ReLateBound INNERMOST (mkBoundRegion i (BrAnon i)))
  | GpConst => GaConst (mkConst (CkBound INNERMOST i) (type_of tcx (param_def_id p)))
  end.

(** The Chalk kind of the variable parameter [p] introduces. *)
Definition variable_kind_of_param (p : GenericParamDef) : chalk_ir.VariableKind :=
  match param_kind p with
  | GpType => chalk_ir.VkTy chalk_ir.General
  | GpLifetime => chalk_ir.VkLifetime
  | GpConst => chalk_ir.VkConst (lower_into (type_of tcx (param_def_id p)))
  end.

(** ** [fill_single] *)

Lemma fill_single_spec mk ps acc :
  (∀ j p, ps !! j = Some p → param_index p = length acc + j) →
  ∃ s, fill_single mk ps acc = Ok s ∧ length s = length acc + length ps ∧
    (∀ i a, acc !! i = Some a → s !! i = Some a) ∧
    (∀ j p, ps !! j = Some p →
       ∃ pre, length pre = length acc + j ∧ s !! (length acc + j) = Some (mk p pre)).
Proof.
  revert acc; induction ps as [|p ps IH]; intros acc Hix; simpl.
  - exists acc. split_and!; [done|lia|done|by intros ??].
  - rewrite decide_True by (rewrite (Hix 0 p) by done; lia).
    destruct (IH (acc ++ [mk p acc])) as (s&Hs&Hlen&Hpre&Hps).
    { intros j p' Hj. rewrite (Hix (S j) p') by done. rewrite length_app. simpl. lia. }
    rewrite length_app in Hlen, Hps. simpl in Hlen, Hps.
    exists s. split_and!; [done|lia| |].
    + intros i a Ha. apply Hpre. by apply lookup_app_l_Some.
    + intros [|j] p' Hj; simpl in Hj.
      * injection Hj as <-. exists acc. split; [lia|]. rewrite Nat.add_0_r.
        apply Hpre. by rewrite lookup_app_r, Nat.sub_diag by lia.
      * destruct (Hps j p' Hj) as (pre&Hl&Hp). exists pre.
        split; [lia|]. by replace (length acc + S j) with (length acc + 1 + j) by lia.
Qed.

Lemma fill_single_Ok_wf mk ps acc s :
  fill_single mk ps acc = Ok s → ∀ j p, ps !! j = Some p → param_index p = length acc + j.
Proof.
  revert acc; induction ps as [|p ps IH]; intros acc; simpl; [by intros _ ??|].
  case_decide as Hp; [|done]. intros Hs [|j] p' Hj; simpl in Hj.
  - injection Hj as <-. lia.
  - rewrite (IH _ Hs j p' Hj), length_app. simpl. lia.
Qed.

Lemma fill_single_Err mk ps acc e :
  fill_single mk ps acc = Err e → e = AssertFailed "param.index as usize == substs.len()".
Proof.
  revert acc; induction ps as [|p ps IH]; intros acc; simpl; [done|].
  case_decide; [apply IH|congruence].
Qed.

(** ** Theorems *)

Lemma bound_vars_for_item_Ok_of_wf (def_id : DefId) :
  generics_wf (generics_of tcx def_id) →
  ∃ s, bound_vars_for_item def_id = Ok s ∧ length s = length (generics_of tcx def_id) ∧
    ∀ i p, generics_of tcx def_id !! i = Some p → s !! i = Some (bound_var_of_param p i).
Proof.
  intros Hwf. destruct (fill_single_spec bound_var_for_param (generics_of tcx def_id) [])
    as (s&Hs&Hlen&_&Hps); [intros j p Hj; simpl; by apply Hwf|].
  exists s. split_and!; [done|done|]. intros i p Hi.
  destruct (Hps i p Hi) as (pre&Hl&Hsi). simpl in Hl, Hsi. rewrite Hsi.
  unfold bound_var_for_param, bound_var_of_param. rewrite Hl, (Hwf i p Hi).
  by destruct (param_kind p).
Qed.

(** C1: on well-formed generics, [bound_vars_for_item] succeeds, has one
    argument per parameter, and maps parameter [i] to the bound variable
    [(INNERMOST, i)] of the parameter's kind; lifetimes are numbered by
    their position like types and constants. *)
Theorem bound_vars_for_item_spec (def_id : DefId) :
  generics_wf (generics_of tcx def_id) →
  ∃ s, bound_vars_for_item def_id = Ok s ∧ length s = length (generics_of tcx def_id) ∧
    ∀ i p, generics_of tcx def_id !! i = Some p → s !! i = Some (bound_var_of_param p i).
Proof. apply bound_vars_for_item_Ok_of_wf. Qed.

(** C4: [bound_vars_for_item] fails exactly on generics whose indices
    are not their positions, and then with the assertion of
    [fill_single]. *)
Theorem bound_vars_for_item_err (def_id : DefId) (e : Fatal) :
  bound_vars_for_item def_id = Err e ↔
    ¬ generics_wf (generics_of tcx def_id) ∧
    e = AssertFailed "param.index as usize == substs.len()".
Proof.
  split.
  - intros He. split; [|by eapply fill_single_Err].
    intros Hwf. destruct (bound_vars_for_item_Ok_of_wf def_id Hwf) as (s&Hs&_). congruence.
  - intros [Hnwf ->]. destruct (bound_vars_for_item def_id) as [s|e'] eqn:Hb.
    + exfalso. apply Hnwf. intros i p Hi. by rewrite (fill_single_Ok_wf _ _ _ _ Hb i p Hi).
    + by rewrite (fill_single_Err _ _ _ _ Hb).
Qed.

Lemma bound_vars_for_item_Ok_wf def_id s :
  bound_vars_for_item def_id = Ok s → generics_wf (generics_of tcx def_id).
Proof. intros Hb i p Hi. by rewrite (fill_single_Ok_wf _ _ _ _ Hb i p Hi). Qed.

Lemma bound_vars_for_item_Ok_spec def_id s :
  bound_vars_for_item def_id = Ok s →
  length s = length (generics_of tcx def_id) ∧
  ∀ i p, generics_of tcx def_id !! i = Some p → s !! i = Some (bound_var_of_param p i).
Proof.
  intros Hb. destruct (bound_vars_for_item_Ok_of_wf def_id) as (s'&Hs'&?&?);
    [by eapply bound_vars_for_item_Ok_wf|]. rewrite Hb in Hs'. by injection Hs' as <-.
Qed.

(** The kinds of a substitution that holds the bound variable of each
    parameter are the parameters' kinds. *)
Lemma binders_for_spec (g : list GenericParamDef) (s : SubstsRef) :
  length s = length g → (∀ i p, g !! i = Some p → s !! i = Some (bound_var_of_param p i)) →
  binders_for s = map variable_kind_of_param g.
Proof.
  intros Hlen Hs. apply list_eq. intros i. unfold binders_for. rewrite !lookup_map.
  destruct (g !! i) as [p|] eqn:Hp.
  - rewrite (Hs i p Hp). simpl. unfold bound_var_of_param, variable_kind_of_param.
    by destruct (param_kind p).
  - apply lookup_ge_None in Hp. rewrite (proj2 (lookup_ge_None s i)) by lia. done.
Qed.

Lemma bound_vars_for_item_Err def_id e :
  bound_vars_for_item def_id = Err e → e = AssertFailed "param.index as usize == substs.len()".
Proof. apply fill_single_Err. Qed.

(** C2: binder consistency.  The binder [binders_for] builds from the
    result of [bound_vars_for_item] has exactly one variable per generic
    parameter, of the parameter's kind, in declaration order. *)
Theorem binders_for_bound_vars (def_id : DefId) (s : SubstsRef) :
  bound_vars_for_item def_id = Ok s →
  binders_for s = map variable_kind_of_param (generics_of tcx def_id).
Proof. intros (Hlen&Hs)%bound_vars_for_item_Ok_spec. by apply binders_for_spec. Qed.

(** The types of an item's constant parameters mention no variable:
    rustc does not let them depend on other parameters. *)
Definition const_param_types_closed (g : list GenericParamDef) : Prop :=
  ∀ p, p ∈ g → param_kind p = GpConst →
    ty_vars_all (λ _ _, false) 0 (type_of tcx (param_def_id p)) = true.

(** Both hypotheses are decidable; these checkers decide them. *)
Fixpoint generics_wf_from (k : nat) (g : list GenericParamDef) : bool :=
  match g with
  | [] => true
  | p :: g => bool_decide (param_index p = k) && generics_wf_from (S k) g
  end.

Lemma generics_wf_from_spec k g :
  generics_wf_from k g = true → ∀ i p, g !! i = Some p → param_index p = k + i.
Proof.
  revert k; induction g as [|q g IH]; intros k; simpl; [done|].
  intros [Hq%bool_decide_eq_true Hg]%andb_prop [|i] p Hi; simpl in Hi.
  - injection Hi as <-. lia.
  - rewrite (IH _ Hg i p Hi). lia.
Qed.

Lemma generics_wf_check g : generics_wf_from 0 g = true → generics_wf g.
Proof. intros H i p Hi. apply (generics_wf_from_spec 0 g H i p Hi). Qed.

Definition const_param_types_closedb (g : list GenericParamDef) : bool :=
  forallb (λ p, match param_kind p with
                | GpConst => ty_vars_all (λ _ _, false) 0 (type_of tcx (param_def_id p))
                | _ => true
                end) g.

Lemma const_param_types_closed_check g :
  const_param_types_closedb g = true → const_param_types_closed g.
Proof.
  intros H p Hp Hk. unfold const_param_types_closedb in H.
  rewrite forallb_forall in H. apply list_elem_of_In in Hp.
  specialize (H p Hp). by rewrite Hk in H.
Qed.

Lemma bound_vars_for_item_identity def_id s :
  const_param_types_closed (generics_of tcx def_id) →
  bound_vars_for_item def_id = Ok s →
  bound_identity s ∧ kinds_match (generics_of tcx def_id) s.
Proof.
  intros Hc Hb. destruct (bound_vars_for_item_Ok_spec def_id s Hb) as (Hlen&Hs). split.
  - intros i a Ha. destruct (generics_of tcx def_id !! i) as [p|] eqn:Hp.
    + rewrite (Hs i p Hp) in Ha. injection Ha as <-. unfold bound_var_of_param.
      destruct (param_kind p) eqn:Hk; simpl; try done. split_and!; [done|done|].
      apply Hc; [by eapply list_elem_of_lookup_2|done].
    + apply lookup_ge_None in Hp. apply lookup_lt_Some in Ha. lia.
  - apply Forall2_same_length_lookup. split; [done|]. intros i p a Hp Ha.
    rewrite (Hs i p Hp) in Ha. injection Ha as <-. unfold bound_var_of_param.
    by destruct (param_kind p).
Qed.

(** C3: closedness and kinds.  Substituting the result of
    [bound_vars_for_item] into a term of the item (at any binder depth
    [c]) whose parameters have their declared kinds and whose bound
    variables are bound inside it succeeds; the result mentions no
    parameter, and each of its bound variables is bound inside it or is
    a variable of the item binder, at a position that binder has, used
    at the kind of the parameter it replaces (a type as a type, a
    lifetime as a lifetime, a constant as a constant). *)
Theorem bound_vars_subst_closed (def_id : DefId) (c : nat) (t : Ty) :
  generics_wf (generics_of tcx def_id) →
  const_param_types_closed (generics_of tcx def_id) →
  ty_vars_all (wf_pre (generics_of tcx def_id)) c t = true →
  ∃ s t', bound_vars_for_item def_id = Ok s ∧ subst_ty s c t = Some t' ∧
    ty_vars_all (bound_post [param_kind <$> generics_of tcx def_id]) c t' = true.
Proof.
  intros Hwf Hc Ht. destruct (bound_vars_for_item_Ok_of_wf def_id Hwf) as (s&Hs&_).
  destruct (bound_vars_for_item_identity def_id s Hc Hs) as [Hid Hk].
  destruct (subst_ty_bound_identity _ s 0 [param_kind <$> generics_of tcx def_id] Hid Hk) with c t
    as (t'&Ht'&Hpost); [by rewrite (kinds_match_kinds _ _ Hk)|done|].
  by exists s, t'.
Qed.

End BoundVars.

(** ** Witnesses, on the sample crate of [TyCtxt.v] *)

(** [struct S<'a, T, const N: usize>]: the lifetime, the type and the
    constant become the bound variables 0, 1 and 2. *)
Lemma bound_vars_for_item_spec_witness :
  generics_wf (generics_of Sample.tcx Sample.s_did) ∧
  ∃ s, bound_vars_for_item Sample.tcx Sample.s_did = Ok s ∧
    length s = length (generics_of Sample.tcx Sample.s_did) ∧
    ∀ i p, generics_of Sample.tcx Sample.s_did !! i = Some p →
      s !! i = Some (bound_var_of_param Sample.tcx p i).
Proof.
  split; [apply generics_wf_check; reflexivity|].
  apply bound_vars_for_item_spec. apply generics_wf_check; reflexivity.
Defined.

Lemma binders_for_bound_vars_witness :
  bound_vars_for_item Sample.tcx Sample.s_did = Ok
    [GaLifetime (ReLateBound 0 (mkBoundRegion 0 (BrAnon 0)));
     GaType (Bound 0 (mkBoundTy 1 (BtParam "T")));
     GaConst (mkConst (CkBound 0 2) (Uint Usize))] ∧
  binders_for
    [GaLifetime (ReLateBound 0 (mkBoundRegion 0 (BrAnon 0)));
     GaType (Bound 0 (mkBoundTy 1 (BtParam "T")));
     GaConst (mkConst (CkBound 0 2) (Uint Usize))]
  = map (variable_kind_of_param Sample.tcx) (generics_of Sample.tcx Sample.s_did).
Proof.
  assert (H : bound_vars_for_item Sample.tcx Sample.s_did = Ok
    [GaLifetime (ReLateBound 0 (mkBoundRegion 0 (BrAnon 0)));
     GaType (Bound 0 (mkBoundTy 1 (BtParam "T")));
     GaConst (mkConst (CkBound 0 2) (Uint Usize))]) by reflexivity.
  split; [exact H|]. exact (binders_for_bound_vars Sample.tcx Sample.s_did _ H).
Defined.

(** The field type [T] of [Pair<T>] becomes [Bound(INNERMOST, 0)]. *)
Lemma bound_vars_subst_closed_witness :
  generics_wf (generics_of Sample.tcx Sample.pair_did) ∧
  const_param_types_closed Sample.tcx (generics_of Sample.tcx Sample.pair_did) ∧
  ty_vars_all (wf_pre (generics_of Sample.tcx Sample.pair_did)) 0 (Param 0 "T") = true ∧
  ∃ s t', bound_vars_for_item Sample.tcx Sample.pair_did = Ok s ∧ subst_ty s 0 (Param 0 "T") = Some t' ∧
    ty_vars_all (bound_post [param_kind <$> generics_of Sample.tcx Sample.pair_did]) 0 t' = true.
Proof.
  assert (Hwf : generics_wf (generics_of Sample.tcx Sample.pair_did))
    by (apply generics_wf_check; reflexivity).
  assert (Hc : const_param_types_closed Sample.tcx (generics_of Sample.tcx Sample.pair_did))
    by (apply const_param_types_closed_check; reflexivity).
  assert (Ht : ty_vars_all (wf_pre (generics_of Sample.tcx Sample.pair_did)) 0 (Param 0 "T") = true)
    by reflexivity.
  split_and!; [exact Hwf|exact Hc|exact Ht|].
  exact (bound_vars_subst_closed Sample.tcx Sample.pair_did 0 (Param 0 "T") Hwf Hc Ht).
Defined.
