(* ===== verification/WhereClauses.v ===== *)
(** * Where-clause lowering: [where_clauses_for] and [bounds_for]

    [db.rs] lines 35-62.  Both helpers read a list of rustc predicates of
    an item ([predicates_defined_on], [explicit_item_bounds]), substitute
    the item's bound-variable mapping into each one
    ([EarlyBinder(wc).subst]) and keep the lowerings that exist
    ([filter_map] over [LowerInto<Option<_>>]).  A substitution failure
    is rustc's [span_bug!]; a predicate with no Chalk form is dropped.

    The theorems: the output is the lowering of the substituted
    predicates, in declaration order, without deduplication (it may
    have fewer clauses than predicates: the lossy drop); and on a well-formed
    item the helpers do not fail, and every clause and bound they build
    is well-kinded under the item binder (the lemmas
    [where_clauses_for_ok] and [bounds_for_ok] the datum builders use). *)

From S2P Require Import Prelude HostTy ChalkIr Lowering ChalkScope TyCtxt BoundVars.
Import ty.

(** [EarlyBinder(pred).subst(tcx, bound_vars)], panicking like rustc. *)
Definition subst_pred_or_bug (bound_vars : SubstsRef) (p : Predicate) : res Predicate :=
  or_bug "type parameter out of range when substituting" (subst_predicate bound_vars p).

Definition where_clauses_for (tcx : TyCtxt) (def_id : DefId) (bound_vars : SubstsRef)
    : res (list chalk_ir.QuantifiedWhereClause) :=
  let predicates := predicates_defined_on tcx def_id in
  wcs ← mapM (subst_pred_or_bug bound_vars) predicates;
  Ok (omap lower_into wcs).

(** [bounds_for<T>], for every [T] that predicates lower into. *)
Definition bounds_for (tcx : TyCtxt) {T} `{!LowerInto Predicate (option T)} (def_id : DefId)
    (bound_vars : SubstsRef) : res (list T) :=
  bounds ← mapM (subst_pred_or_bug bound_vars) (explicit_item_bounds tcx def_id);
  Ok (omap lower_into bounds).

(** ** Lemmas shared by the two helpers *)

Section WhereClauses.
Context (tcx : TyCtxt).
Local Abbreviation where_clauses_for := (where_clauses_for tcx).
Local Abbreviation bounds_for := (bounds_for tcx).

Lemma lower_preds_Ok {T} `{!LowerInto Predicate (option T)} bound_vars ps (out : list T) :
  (wcs ← mapM (subst_pred_or_bug bound_vars) ps; Ok (omap lower_into wcs)) = Ok out ↔
  ∃ ps', Forall2 (λ p p', subst_predicate bound_vars p = Some p') ps ps' ∧
    out = omap lower_into ps'.
Proof.
  split.
  - intros (ps'&Hps&[= <-])%res_bind_Ok. exists ps'. split; [|done].
    apply mapM_res_Ok in Hps. eapply Forall2_impl; [exact Hps|].
    intros p p'. unfold subst_pred_or_bug, or_bug. by case_match; [intros [= ->]|].
  - intros (ps'&Hps&->). apply res_bind_Ok. exists ps'. split; [|done].
    apply mapM_res_Ok. eapply Forall2_impl; [exact Hps|].
    intros p p' Hp. unfold subst_pred_or_bug, or_bug. by rewrite Hp.
Qed.

(** The only failure of the helpers is the substitution's [span_bug!]. *)
Lemma lower_preds_Err {T} `{!LowerInto Predicate (option T)} bound_vars ps e :
  (wcs ← mapM (subst_pred_or_bug bound_vars) ps; Ok (omap lower_into wcs) : res (list T)) = Err e →
  e = Bug "type parameter out of range when substituting".
Proof.
  destruct (mapM (subst_pred_or_bug bound_vars) ps) as [ps'|e'] eqn:Hm; simpl; [done|].
  intros [= ->]. destruct (mapM_res_Err _ _ _ Hm) as (p&_&Hp).
  unfold subst_pred_or_bug, or_bug in Hp. destruct (subst_predicate bound_vars p); congruence.
Qed.

(** Substituting a bound-variable identity at level [k] into the
    predicates of a well-formed item never fails, and every substituted
    predicate is well-kinded under binders [kss] whose [k]-th one has
    the identity's kinds. *)
Lemma subst_preds_ok g k kss bound_vars ps :
  bound_identity_at k bound_vars → kinds_match g bound_vars → kss !! k = Some (arg_kind <$> bound_vars) →
  Forall (λ p, predicate_vars_all (wf_pre g) p = true) ps →
  ∃ ps', mapM (subst_pred_or_bug bound_vars) ps = Ok ps' ∧
    Forall (λ p, predicate_vars_all (bound_post kss) p = true) ps'.
Proof.
  intros Hid Hk Hkss. induction 1 as [|p ps Hp _ (ps'&IH&Hps')]; [by exists []|].
  destruct (subst_predicate_bound_identity g bound_vars k kss Hid Hk Hkss p Hp) as (p'&Hp'&Hc).
  exists (p' :: ps'). split; [|by constructor]. simpl. rewrite IH.
  unfold subst_pred_or_bug, or_bug. by rewrite Hp'.
Qed.

Lemma lower_preds_total {T} `{!LowerInto Predicate (option T)} g k bound_vars ps :
  bound_identity_at k bound_vars → kinds_match g bound_vars →
  Forall (λ p, predicate_vars_all (wf_pre g) p = true) ps →
  ∃ out : list T, (wcs ← mapM (subst_pred_or_bug bound_vars) ps; Ok (omap lower_into wcs)) = Ok out.
Proof.
  intros Hid Hk Hps.
  destruct (subst_preds_ok g k (replicate (S k) (arg_kind <$> bound_vars)) bound_vars ps Hid Hk)
    as (ps'&Hm&_); [by apply lookup_replicate_2; lia|done|].
  exists (omap lower_into ps'). by rewrite Hm.
Qed.

(** Under a bound-variable identity at level [k], every clause or bound
    the lowering produces satisfies [ok], for any property [ok] the
    lowering of a predicate well-kinded under [kss] has, [kss] having
    the kinds of the identity at position [k]. *)
Lemma lower_preds_ok {T} `{!LowerInto Predicate (option T)} (ok : T → bool)
    g k kss bound_vars ps out :
  (∀ p x, predicate_vars_all (bound_post kss) p = true → lower_into p = Some x → ok x = true) →
  bound_identity_at k bound_vars → kinds_match g bound_vars → kss !! k = Some (arg_kind <$> bound_vars) →
  Forall (λ p, predicate_vars_all (wf_pre g) p = true) ps →
  (wcs ← mapM (subst_pred_or_bug bound_vars) ps; Ok (omap lower_into wcs)) = Ok out →
  forallb ok out = true.
Proof.
  intros Hlow Hid Hk Hkss Hps. destruct (subst_preds_ok g k kss bound_vars ps Hid Hk Hkss Hps)
    as (ps'&Hm&Hc).
  rewrite Hm. simpl. intros [= <-]. apply forallb_omap.
  eapply Forall_impl; [exact Hc|]. intros p Hp x Hx. by apply (Hlow p x).
Qed.

(** ** Theorems *)

(** C5: [where_clauses_for] is the [filter_map] of the lowering over the
    substituted predicates, in declaration order: a clause for each
    predicate that has a Chalk form, nothing for the others, no
    deduplication; it fails only when a substitution does. *)
Theorem where_clauses_for_spec (def_id : DefId) (bound_vars : SubstsRef)
    (wcs : list chalk_ir.QuantifiedWhereClause) :
  where_clauses_for def_id bound_vars = Ok wcs ↔
  ∃ ps', Forall2 (λ p p', subst_predicate bound_vars p = Some p')
           (predicates_defined_on tcx def_id) ps' ∧
         wcs = omap lower_into ps'.
Proof. apply lower_preds_Ok. Qed.

(** An item is well formed when its generics are, the types of its
    constant parameters are closed, and its predicates (under their own
    binder) mention only parameters of their declared kinds and no
    escaping bound variable. *)
Definition item_wf (def_id : DefId) (ps : list Predicate) : Prop :=
  generics_wf (generics_of tcx def_id) ∧
  const_param_types_closed tcx (generics_of tcx def_id) ∧
  Forall (λ p, predicate_vars_all (wf_pre (generics_of tcx def_id)) p = true) ps.

Definition item_wfb (def_id : DefId) (ps : list Predicate) : bool :=
  generics_wf_from 0 (generics_of tcx def_id) &&
  const_param_types_closedb tcx (generics_of tcx def_id) &&
  forallb (predicate_vars_all (wf_pre (generics_of tcx def_id))) ps.

Lemma item_wf_check def_id ps : item_wfb def_id ps = true → item_wf def_id ps.
Proof.
  intros [[Hg Hc]%andb_prop Hps]%andb_prop. split_and!.
  - by apply generics_wf_check.
  - by apply const_param_types_closed_check.
  - apply Forall_forall. intros p Hp. rewrite forallb_forall in Hps.
    apply Hps. by apply list_elem_of_In.
Qed.

(** C7: on a well-formed item, building the bound variables and
    lowering the where clauses under them does not panic. *)
Theorem where_clauses_for_total (def_id : DefId) :
  item_wf def_id (predicates_defined_on tcx def_id) →
  ∃ s wcs, bound_vars_for_item tcx def_id = Ok s ∧ where_clauses_for def_id s = Ok wcs.
Proof.
  intros (Hwf&Hc&Hps). destruct (bound_vars_for_item_Ok_of_wf tcx def_id Hwf) as (s&Hs&_).
  destruct (bound_vars_for_item_identity tcx def_id s Hc Hs) as [Hid Hk].
  destruct (lower_preds_total (T := chalk_ir.QuantifiedWhereClause) _ _ _ _ Hid Hk Hps)
    as (wcs&Hwcs). by exists s, wcs.
Qed.

Lemma bounds_for_total {T} `{!LowerInto Predicate (option T)} def_id :
  item_wf def_id (explicit_item_bounds tcx def_id) →
  ∃ s (bs : list T), bound_vars_for_item tcx def_id = Ok s ∧ bounds_for def_id s = Ok bs.
Proof.
  intros (Hwf&Hc&Hps). destruct (bound_vars_for_item_Ok_of_wf tcx def_id Hwf) as (s&Hs&_).
  destruct (bound_vars_for_item_identity tcx def_id s Hc Hs) as [Hid Hk].
  destruct (lower_preds_total (T := T) _ _ _ _ Hid Hk Hps) as (bs&Hbs). by exists s, bs.
Qed.

(** The lowered where clauses and bounds of a predicate list
    substituted under a bound-variable identity at level [k] are
    well-kinded under the binders [kss], whose [k]-th one is the binder
    [binders_for] builds from the identity. *)
Lemma lower_where_clauses_ok g k kss bound_vars ps wcs :
  bound_identity_at k bound_vars → kinds_match g bound_vars →
  kss !! k = Some (binders_for bound_vars) →
  Forall (λ p, predicate_vars_all (wf_pre g) p = true) ps →
  (wcs' ← mapM (subst_pred_or_bug bound_vars) ps; Ok (omap lower_into wcs')) = Ok wcs →
  forallb (scope.qwc_ok kss) wcs = true.
Proof.
  intros Hid Hk Hkss. eapply (lower_preds_ok _ g k); [|exact Hid|exact Hk|].
  - intros p x Hp Hx. eapply scope.lower_where_clause_vars; [|exact Hp|exact Hx].
    intros c v. by apply scope.bound_post_lower.
  - unfold scope.sorts. rewrite list_lookup_fmap, Hkss. simpl. by rewrite binders_for_sorts.
Qed.

Lemma lower_bounds_ok g k kss bound_vars ps (bs : list rust_ir.QuantifiedInlineBound) :
  bound_identity_at k bound_vars → kinds_match g bound_vars →
  kss !! k = Some (binders_for bound_vars) →
  Forall (λ p, predicate_vars_all (wf_pre g) p = true) ps →
  (bs' ← mapM (subst_pred_or_bug bound_vars) ps; Ok (omap lower_into bs')) = Ok bs →
  forallb (scope.qib_ok kss) bs = true.
Proof.
  intros Hid Hk Hkss. eapply (lower_preds_ok _ g k); [|exact Hid|exact Hk|].
  - intros p x Hp Hx. eapply scope.lower_inline_bound_vars; [|exact Hp|exact Hx].
    intros c v. by apply scope.bound_post_lower.
  - unfold scope.sorts. rewrite list_lookup_fmap, Hkss. simpl. by rewrite binders_for_sorts.
Qed.

(** On a well-formed item, the where clauses built under the item's
    bound variables are well-kinded under the item binder, and so are
    the bounds. *)
Lemma where_clauses_for_ok def_id s wcs :
  item_wf def_id (predicates_defined_on tcx def_id) →
  bound_vars_for_item tcx def_id = Ok s → where_clauses_for def_id s = Ok wcs →
  forallb (scope.qwc_ok [binders_for s]) wcs = true.
Proof.
  intros (Hwf&Hc&Hps) Hs Hw. destruct (bound_vars_for_item_identity tcx def_id s Hc Hs) as [Hid Hk].
  by eapply lower_where_clauses_ok.
Qed.

(** The predicates of an item whose own bound variables are all
    declared by their binders: what rustc's [Binder] guarantees. *)
Definition preds_scoped (def_id : DefId) (ps : list Predicate) : bool :=
  forallb (pred_scoped (generics_of tcx def_id)) ps.

Lemma subst_preds_scoped g k kss bound_vars ps :
  bound_identity_at k bound_vars → kinds_match g bound_vars → kss !! k = Some (arg_kind <$> bound_vars) →
  forallb (pred_scoped g) ps = true →
  ∃ ps', mapM (subst_pred_or_bug bound_vars) ps = Ok ps' ∧
    Forall (λ p, predicate_kind_vars_all (bound_post (pred_kinds p :: kss)) 0 (pred_kind p) = true) ps'.
Proof.
  intros Hid Hk Hkss. induction ps as [|p ps IH]; simpl; [by exists []|].
  intros [Hp (ps'&Hm&Hps')%IH]%andb_prop.
  destruct (subst_predicate_scoped g bound_vars k kss Hid Hk Hkss p Hp) as (p'&Hp'&Hbv&Hc).
  exists (p' :: ps'). split.
  - rewrite Hm. unfold subst_pred_or_bug, or_bug. by rewrite Hp'.
  - constructor; [|done]. unfold pred_kinds. by rewrite Hbv.
Qed.

(** The strict form of [lower_where_clauses_ok]: each lowered where
    clause is scoped under its own binder, then [kss]. *)
Lemma lower_where_clauses_scoped g k kss bound_vars ps wcs :
  bound_identity_at k bound_vars → kinds_match g bound_vars →
  kss !! k = Some (binders_for bound_vars) →
  forallb (pred_scoped g) ps = true →
  (wcs' ← mapM (subst_pred_or_bug bound_vars) ps; Ok (omap lower_into wcs')) = Ok wcs →
  forallb (scope.qwc_scoped kss) wcs = true.
Proof.
  intros Hid Hk Hkss Hps. destruct (subst_preds_scoped g k (scope.sorts kss) bound_vars ps Hid Hk)
    as (ps'&Hm&Hc); [|done|].
  { unfold scope.sorts. rewrite list_lookup_fmap, Hkss. simpl. by rewrite binders_for_sorts. }
  rewrite Hm. simpl. intros [= <-]. apply forallb_omap.
  eapply Forall_impl; [exact Hc|]. intros p Hp x Hx. by apply (scope.lower_where_clause_scoped kss p x).
Qed.

Lemma where_clauses_for_scoped def_id k kss bound_vars wcs :
  preds_scoped def_id (predicates_defined_on tcx def_id) = true →
  bound_identity_at k bound_vars → kinds_match (generics_of tcx def_id) bound_vars →
  kss !! k = Some (binders_for bound_vars) →
  where_clauses_for def_id bound_vars = Ok wcs → forallb (scope.qwc_scoped kss) wcs = true.
Proof. intros Hps Hid Hk Hkss. by eapply lower_where_clauses_scoped. Qed.

Lemma bounds_for_ok def_id s (bs : list rust_ir.QuantifiedInlineBound) :
  item_wf def_id (explicit_item_bounds tcx def_id) →
  bound_vars_for_item tcx def_id = Ok s → bounds_for def_id s = Ok bs →
  forallb (scope.qib_ok [binders_for s]) bs = true.
Proof.
  intros (Hwf&Hc&Hps) Hs Hw. destruct (bound_vars_for_item_identity tcx def_id s Hc Hs) as [Hid Hk].
  by eapply lower_bounds_ok.
Qed.

(** C6: on a well-formed item whose predicates declare their own
    late-bound variables, [where_clauses_for] under the item's bound
    variables succeeds, the item binder has one variable per generic
    parameter, of its kind, and every where clause is scoped binder by
    binder: a variable at the level of the clause's own binder is one
    that binder declares, one level up a variable of the item binder,
    each at the kind its binder gives, and nothing escapes further. *)
Theorem where_clauses_for_closed (def_id : DefId) :
  item_wf def_id (predicates_defined_on tcx def_id) →
  preds_scoped def_id (predicates_defined_on tcx def_id) = true →
  ∃ s wcs, bound_vars_for_item tcx def_id = Ok s ∧ where_clauses_for def_id s = Ok wcs ∧
    binders_for s = map (variable_kind_of_param tcx) (generics_of tcx def_id) ∧
    forallb (scope.qwc_scoped [binders_for s]) wcs = true.
Proof.
  intros (Hwf&Hc&Hps) Hsc. destruct (bound_vars_for_item_Ok_of_wf tcx def_id Hwf) as (s&Hs&_).
  destruct (bound_vars_for_item_identity tcx def_id s Hc Hs) as [Hid Hk].
  destruct (lower_preds_total (T := chalk_ir.QuantifiedWhereClause) _ _ _ _ Hid Hk Hps) as (wcs&Hwcs).
  exists s, wcs. split_and!; [done|done| |].
  - destruct (bound_vars_for_item_Ok_spec tcx def_id s Hs) as [Hlen Hl]. by apply binders_for_spec.
  - exact (where_clauses_for_scoped def_id 0 [binders_for s] s wcs Hsc Hid Hk eq_refl Hwcs).
Qed.

End WhereClauses.

(** ** Witnesses: [Pair<T>] has [T: Sized] and [WF(T)]; only the first
    has a where clause, [Implemented(Sized, ^1.0)], its [T] bound by the
    item binder one level above the predicate's own binder. *)

Definition pair_where_clauses : list chalk_ir.QuantifiedWhereClause :=
  [chalk_ir.mkBinders []
     (chalk_ir.Implemented (chalk_ir.mkTraitRef Sample.sized_did
        [chalk_ir.GaTy (chalk_ir.BoundVarTy (chalk_ir.mkBoundVar 1 0))]))].

Lemma where_clauses_for_total_witness :
  item_wf Sample.tcx Sample.pair_did (predicates_defined_on Sample.tcx Sample.pair_did) ∧
  ∃ s wcs, bound_vars_for_item Sample.tcx Sample.pair_did = Ok s ∧
    where_clauses_for Sample.tcx Sample.pair_did s = Ok wcs.
Proof.
  assert (H : item_wf Sample.tcx Sample.pair_did (predicates_defined_on Sample.tcx Sample.pair_did))
    by (apply item_wf_check; reflexivity).
  split; [exact H|]. exact (where_clauses_for_total Sample.tcx Sample.pair_did H).
Defined.

Lemma where_clauses_for_closed_witness :
  item_wf Sample.tcx Sample.pair_did (predicates_defined_on Sample.tcx Sample.pair_did) ∧
  preds_scoped Sample.tcx Sample.pair_did (predicates_defined_on Sample.tcx Sample.pair_did) = true ∧
  ∃ s wcs, bound_vars_for_item Sample.tcx Sample.pair_did = Ok s ∧
    where_clauses_for Sample.tcx Sample.pair_did s = Ok wcs ∧
    binders_for s = map (variable_kind_of_param Sample.tcx) (generics_of Sample.tcx Sample.pair_did) ∧
    forallb (scope.qwc_scoped [binders_for s]) wcs = true.
Proof.
  assert (H1 : item_wf Sample.tcx Sample.pair_did (predicates_defined_on Sample.tcx Sample.pair_did))
    by (apply item_wf_check; reflexivity).
  assert (H2 : preds_scoped Sample.tcx Sample.pair_did (predicates_defined_on Sample.tcx Sample.pair_did) = true)
    by reflexivity.
  split; [exact H1|split; [exact H2|exact (where_clauses_for_closed Sample.tcx Sample.pair_did H1 H2)]].
Defined.
