(* ===== verification/Closures.v ===== *)
(** * The closure layout decoder

    [db.rs] lines 591-659: [closure_kind], [closure_inputs_and_output],
    [closure_upvars] and [closure_fn_substitution].  A closure's Chalk
    substitution is its parent's substitution followed by three slots:
    the kind marker (an [i8], [i16] or [i32] for [Fn], [FnMut],
    [FnOnce]), the signature as a function-pointer type whose arguments
    are tupled, and the tuple of captured upvars.  The decoder reads the
    slots from the end of the list; each malformed shape is a panic of
    the Rust code, an [Err] here.

    The theorems: decoding a substitution built with the convention
    gives back the kind, the argument types, the return type, the upvars
    and the parent substitution (a round trip); the kind slot accepts
    exactly the three markers; the signature slot must be a function
    type with a tuple first; a substitution of fewer than three slots
    panics in every decoder. *)

From S2P Require Import Prelude HostTy ChalkIr.
Import chalk_ir.

(** [GenericArg::assert_ty_ref]: [self.ty(interner).unwrap()]. *)
Definition assert_ty_ref (a : GenericArg) : res Ty :=
  match a with GaTy t => Ok t | _ => Err UnwrapNone end.

Definition closure_kind (substs : list GenericArg) : res rust_ir.ClosureKind :=
  kind ← index_from_end substs 3;
  kind_ty ← assert_ty_ref kind;
  match kind_ty with
  | Scalar (Int int_ty) =>
      match int_ty with
      | I8 => Ok rust_ir.ClosureFn
      | I16 => Ok rust_ir.ClosureFnMut
      | I32 => Ok rust_ir.ClosureFnOnce
      | _ => Err (Bug "bad closure kind")
      end
  | _ => Err (Bug "bad closure kind")
  end.

Definition closure_inputs_and_output (substs : list GenericArg)
    : res (Binders rust_ir.FnDefInputsAndOutputDatum) :=
  sig ← index_from_end substs 2;
  sig_ty ← assert_ty_ref sig;
  match sig_ty with
  | Function num_binders substitution =>
      return_type ← unwrap (last substitution) ≫= assert_ty_ref;
      (* Closure arguments are tupled *)
      argument_tuple ← (match substitution !! 0 with
                        | Some a => Ok a
                        | None => Err IndexOutOfBounds
                        end) ≫= assert_ty_ref;
      argument_types ←
        match argument_tuple with
        | Tuple _len substitution => mapM assert_ty_ref substitution
        | _ => Err (Bug "Expecting closure FnSig args to be tupled.")
        end;
      Ok (mkBinders (replicate num_binders VkLifetime)
            (rust_ir.mkFnDefInputsAndOutputDatum argument_types return_type))
  | _ => Err (Panic "Invalid sig.")
  end.

Definition closure_upvars (substs : list GenericArg) : res (Binders Ty) :=
  inputs_and_output ← closure_inputs_and_output substs;
  tuple ← unwrap (last substs) ≫= assert_ty_ref;
  Ok (map_ref (λ _, tuple) inputs_and_output).

Definition closure_fn_substitution (substs : list GenericArg) : res (list GenericArg) :=
  if decide (3 ≤ length substs) then Ok (take (length substs - 3) substs)
  else Err IndexOutOfBounds.

(** ** The layout convention *)

(** The marker type of each closure kind. *)
Definition kind_marker (k : rust_ir.ClosureKind) : Ty :=
  Scalar (Int (match k with
               | rust_ir.ClosureFn => I8
               | rust_ir.ClosureFnMut => I16
               | rust_ir.ClosureFnOnce => I32
               end)).

(** The signature slot of a closure with [num_binders] late-bound
    lifetimes, arguments [args] and return type [ret]. *)
Definition closure_sig_ty (num_binders : nat) (args : list Ty) (ret : Ty) : Ty :=
  Function num_binders [GaTy (Tuple (length args) (map GaTy args)); GaTy ret].

(** The substitution of a closure, as rustc lays it out. *)
Definition closure_substs (parent : list GenericArg) (k : rust_ir.ClosureKind)
    (num_binders : nat) (args : list Ty) (ret : Ty) (upvars : Ty) : list GenericArg :=
  parent ++ [GaTy (kind_marker k); GaTy (closure_sig_ty num_binders args ret); GaTy upvars].

Section Closures.

(** ** Lemmas *)

Lemma mapM_assert_ty_ref (l : list Ty) : mapM assert_ty_ref (map GaTy l) = Ok l.
Proof. induction l as [|t l IH]; simpl; [done|]. by rewrite IH. Qed.

(** The three trailing slots, read from the end. *)
Lemma index_from_end_slots (parent : list GenericArg) a b c :
  index_from_end (parent ++ [a; b; c]) 3 = Ok a ∧
  index_from_end (parent ++ [a; b; c]) 2 = Ok b ∧
  last (parent ++ [a; b; c]) = Some c.
Proof.
  split_and!; [apply index_from_end_app; [done|simpl; lia]..|].
  rewrite last_app. done.
Qed.

Ltac closure_slots :=
  repeat match goal with
  | |- context [index_from_end (?p ++ [?a; ?b; ?c]) 3] =>
      rewrite (proj1 (index_from_end_slots p a b c))
  | |- context [index_from_end (?p ++ [?a; ?b; ?c]) 2] =>
      rewrite (proj1 (proj2 (index_from_end_slots p a b c)))
  | |- context [last (?p ++ [?a; ?b; ?c])] =>
      rewrite (proj2 (proj2 (index_from_end_slots p a b c)))
  end.

(** No decoder panics on a substitution laid out by rustc. *)
Lemma closure_substs_decode_ok parent k num_binders args ret upvars :
  let substs := closure_substs parent k num_binders args ret upvars in
  is_ok (closure_kind substs) && is_ok (closure_inputs_and_output substs) &&
  is_ok (closure_upvars substs) && is_ok (closure_fn_substitution substs) = true.
Proof.
  unfold closure_substs, closure_upvars, closure_kind, closure_inputs_and_output,
    closure_fn_substitution.
  closure_slots. simpl. rewrite mapM_assert_ty_ref, length_app, decide_True by (simpl; lia).
  by destruct k.
Qed.

(** ** Theorems *)

(** C8: the decoders invert the layout.  For every parent substitution,
    kind, number of late-bound lifetimes, argument types, return type
    and upvar tuple, decoding the substitution rustc builds gives back
    each of them. *)
Theorem closure_decode_roundtrip (parent : list GenericArg) (k : rust_ir.ClosureKind)
    (num_binders : nat) (args : list Ty) (ret upvars : Ty) :
  let substs := closure_substs parent k num_binders args ret upvars in
  closure_kind substs = Ok k ∧
  closure_inputs_and_output substs =
    Ok (mkBinders (replicate num_binders VkLifetime) (rust_ir.mkFnDefInputsAndOutputDatum args ret)) ∧
  closure_upvars substs = Ok (mkBinders (replicate num_binders VkLifetime) upvars) ∧
  closure_fn_substitution substs = Ok parent.
Proof.
  unfold closure_substs, closure_upvars, closure_kind, closure_inputs_and_output,
    closure_fn_substitution.
  closure_slots. simpl. rewrite mapM_assert_ty_ref. simpl. split_and!.
  - by destruct k.
  - done.
  - done.
  - rewrite length_app, decide_True by (simpl; lia). simpl.
    rewrite Nat.add_sub, take_app_length. done.
Qed.

(** C9: the kind slot accepts exactly the three markers, each decoded
    to its own kind. *)
Theorem closure_kind_spec (parent : list GenericArg) (t : Ty) (sig upvars : GenericArg)
    (k : rust_ir.ClosureKind) :
  closure_kind (parent ++ [GaTy t; sig; upvars]) = Ok k ↔ t = kind_marker k.
Proof.
  unfold closure_kind. closure_slots. simpl.
  split; [|intros ->; by destruct k].
  destruct t as [| |[| |[]| |] | | | | | | | | | | | | | | | | |]; try done;
    intros [= <-]; done.
Qed.

(** Any other type in the kind slot is [bug!("bad closure kind")]. *)
Theorem closure_kind_bad (parent : list GenericArg) (t : Ty) (sig upvars : GenericArg) :
  (∀ k, t ≠ kind_marker k) →
  closure_kind (parent ++ [GaTy t; sig; upvars]) = Err (Bug "bad closure kind").
Proof.
  intros Hk. unfold closure_kind. closure_slots. simpl.
  destruct t as [| |[| |[]| |] | | | | | | | | | | | | | | | | |]; try done;
    exfalso; [apply (Hk rust_ir.ClosureFn)|apply (Hk rust_ir.ClosureFnMut)
             |apply (Hk rust_ir.ClosureFnOnce)]; done.
Qed.

(** C10: a signature slot that is not a function type panics with
    "Invalid sig.", in [closure_inputs_and_output] and in
    [closure_upvars], which decodes the signature first. *)
Theorem closure_sig_not_fn (parent : list GenericArg) (kind : GenericArg) (t : Ty)
    (upvars : GenericArg) :
  (∀ n xs, t ≠ Function n xs) →
  closure_inputs_and_output (parent ++ [kind; GaTy t; upvars]) = Err (Panic "Invalid sig.") ∧
  closure_upvars (parent ++ [kind; GaTy t; upvars]) = Err (Panic "Invalid sig.").
Proof.
  intros Ht. unfold closure_upvars, closure_inputs_and_output. closure_slots. simpl.
  destruct t; try done. exfalso. by eapply Ht.
Qed.

(** A signature whose first argument is not a tuple is
    [bug!("Expecting closure FnSig args to be tupled.")]. *)
Theorem closure_sig_untupled (parent : list GenericArg) (kind : GenericArg) (num_binders : nat)
    (a ret : Ty) (upvars : GenericArg) :
  (∀ n xs, a ≠ Tuple n xs) →
  closure_inputs_and_output (parent ++ [kind; GaTy (Function num_binders [GaTy a; GaTy ret]); upvars])
  = Err (Bug "Expecting closure FnSig args to be tupled.").
Proof.
  intros Ha. unfold closure_inputs_and_output. closure_slots. simpl.
  destruct a; try done. exfalso. by eapply Ha.
Qed.

(** The signature slot is not checked to have exactly two entries: with
    a single tuple, the tuple is both the arguments and the return type;
    entries between the first and the last are ignored. *)
Lemma closure_sig_single_slot (parent : list GenericArg) (kind : GenericArg) (num_binders : nat)
    (args : list Ty) (upvars : GenericArg) :
  closure_inputs_and_output
    (parent ++ [kind; GaTy (Function num_binders [GaTy (Tuple (length args) (map GaTy args))]); upvars])
  = Ok (mkBinders (replicate num_binders VkLifetime)
          (rust_ir.mkFnDefInputsAndOutputDatum args (Tuple (length args) (map GaTy args)))).
Proof.
  unfold closure_inputs_and_output. closure_slots. simpl. by rewrite mapM_assert_ty_ref.
Qed.

Lemma closure_sig_extra_slots (parent : list GenericArg) (kind : GenericArg) (num_binders : nat)
    (args : list Ty) (extra : list GenericArg) (ret : Ty) (upvars : GenericArg) :
  closure_inputs_and_output
    (parent ++ [kind; GaTy (Function num_binders
       (GaTy (Tuple (length args) (map GaTy args)) :: extra ++ [GaTy ret])); upvars])
  = Ok (mkBinders (replicate num_binders VkLifetime) (rust_ir.mkFnDefInputsAndOutputDatum args ret)).
Proof.
  unfold closure_inputs_and_output. closure_slots. simpl.
  rewrite app_comm_cons, last_app. simpl. by rewrite mapM_assert_ty_ref.
Qed.

(** A substitution of fewer than three slots has no layout: the kind
    and the parent substitution cannot be read. *)
Lemma closure_short_substs (substs : list GenericArg) :
  length substs < 3 →
  closure_kind substs = Err IndexOutOfBounds ∧ closure_fn_substitution substs = Err IndexOutOfBounds.
Proof.
  intros H. unfold closure_kind, closure_fn_substitution.
  rewrite index_from_end_short by done. simpl. by rewrite decide_False by lia.
Qed.

(** ** Witnesses *)

Lemma closure_kind_bad_witness :
  (∀ k, Scalar (Int I64) ≠ kind_marker k) ∧
  closure_kind ([] ++ [GaTy (Scalar (Int I64)); GaTy Str; GaTy Never]) = Err (Bug "bad closure kind").
Proof.
  assert (H : ∀ k, Scalar (Int I64) ≠ kind_marker k) by (intros [] Heq; inversion Heq).
  split; [exact H|]. exact (closure_kind_bad [] _ _ _ H).
Defined.

Lemma closure_sig_not_fn_witness :
  (∀ n xs, Str ≠ Function n xs) ∧
  closure_inputs_and_output ([] ++ [GaTy Never; GaTy Str; GaTy Never]) = Err (Panic "Invalid sig.") ∧
  closure_upvars ([] ++ [GaTy Never; GaTy Str; GaTy Never]) = Err (Panic "Invalid sig.").
Proof.
  assert (H : ∀ n xs, Str ≠ Function n xs) by (intros n xs Heq; inversion Heq).
  split; [exact H|]. exact (closure_sig_not_fn [] _ _ _ H).
Defined.

Lemma closure_sig_untupled_witness :
  (∀ n xs, Str ≠ Tuple n xs) ∧
  closure_inputs_and_output ([] ++ [GaTy Never; GaTy (Function 0 [GaTy Str; GaTy Never]); GaTy Never])
  = Err (Bug "Expecting closure FnSig args to be tupled.").
Proof.
  assert (H : ∀ n xs, Str ≠ Tuple n xs) by (intros n xs Heq; inversion Heq).
  split; [exact H|]. exact (closure_sig_untupled [] _ 0 _ _ _ H).
Defined.

End Closures.
