(* ===== verification/AutoTrait.v ===== *)
(** * The auto-trait provision oracle: [impl_provided_for]

    [db.rs] lines 371-448.  Given an auto trait and the head of a Chalk
    type, the oracle scans the impls of the trait in the order rustc
    lists them ([all_impls]) and answers [true] at the first impl whose
    self type has the same structural tag as the query, [false] when
    none has.  The tag table ([provides] below, the [match] of the loop
    body) compares ADT, function-item, closure, foreign and opaque
    identities, scalar kinds and widths, tuple arities and pointer
    mutabilities, and never matches an associated-type query or an
    error type.  [impl_trait_ref(..).unwrap()] and [self_ty()] panic on
    an impl without a trait reference or self type.

    The theorems: on impls with self types the oracle is the [existsb]
    of the table over the impls; a [true] answer always names an impl
    whose self type matches; an associated-type query is never
    provided; and the table is the comparison of the lowered self type's
    head with the query, the refinement of the spec's tag equality. *)

From S2P Require Import Prelude HostTy ChalkIr Lowering TyCtxt.

(** The body of the [match (self_ty.kind(), chalk_ty)] of the loop. *)
Definition provides (self_ty : ty.Ty) (chalk_ty : chalk_ir.Ty) : bool :=
  match self_ty, chalk_ty with
  | ty.Adt impl_adt_def _, chalk_ir.Adt id _ => bool_decide (impl_adt_def = id)
  | _, chalk_ir.AssociatedType _ _ => false
  | ty.Bool, chalk_ir.Scalar chalk_ir.Bool => true
  | ty.Char, chalk_ir.Scalar chalk_ir.Char => true
  | ty.Int ty1, chalk_ir.Scalar (chalk_ir.Int ty2) =>
      match ty1, ty2 with
      | ty.Isize, chalk_ir.Isize | ty.I8, chalk_ir.I8 | ty.I16, chalk_ir.I16
      | ty.I32, chalk_ir.I32 | ty.I64, chalk_ir.I64 | ty.I128, chalk_ir.I128 => true
      | _, _ => false
      end
  | ty.Uint ty1, chalk_ir.Scalar (chalk_ir.Uint ty2) =>
      match ty1, ty2 with
      | ty.Usize, chalk_ir.Usize | ty.U8, chalk_ir.U8 | ty.U16, chalk_ir.U16
      | ty.U32, chalk_ir.U32 | ty.U64, chalk_ir.U64 | ty.U128, chalk_ir.U128 => true
      | _, _ => false
      end
  | ty.Float ty1, chalk_ir.Scalar (chalk_ir.Float ty2) =>
      match ty1, ty2 with
      | ty.F32, chalk_ir.F32 | ty.F64, chalk_ir.F64 => true
      | _, _ => false
      end
  | ty.Tuple substs, chalk_ir.Tuple len _ => bool_decide (length substs = len)
  | ty.Array _ _, chalk_ir.Array _ _ => true
  | ty.Slice _, chalk_ir.Slice _ => true
  | ty.RawPtr mutbl _, chalk_ir.Raw mutability _ =>
      match mutbl, mutability with
      | ty.Mut, chalk_ir.Mut => true
      | ty.Mut, chalk_ir.Not => false
      | ty.Not, chalk_ir.Mut => false
      | ty.Not, chalk_ir.Not => true
      end
  | ty.Ref _ _ mutability1, chalk_ir.Ref mutability2 _ _ =>
      match mutability1, mutability2 with
      | ty.Mut, chalk_ir.Mut => true
      | ty.Mut, chalk_ir.Not => false
      | ty.Not, chalk_ir.Mut => false
      | ty.Not, chalk_ir.Not => true
      end
  | ty.Opaque def_id _, chalk_ir.OpaqueType opaque_ty_id _ => bool_decide (def_id = opaque_ty_id)
  | ty.FnDef def_id _, chalk_ir.FnDef fn_def_id _ => bool_decide (def_id = fn_def_id)
  | ty.Str, chalk_ir.Str => true
  | ty.Never, chalk_ir.Never => true
  | ty.Closure def_id _, chalk_ir.Closure closure_id _ => bool_decide (def_id = closure_id)
  | ty.Foreign def_id, chalk_ir.Foreign foreign_def_id => bool_decide (def_id = foreign_def_id)
  | ty.Error, chalk_ir.Error => false
  | _, _ => false
  end.

(** [self.interner.tcx.impl_trait_ref(impl_def_id).unwrap().self_ty()] *)
Definition impl_self_ty (tcx : TyCtxt) (impl_def_id : DefId) : res ty.Ty :=
  trait_ref ← unwrap (impl_trait_ref tcx impl_def_id);
  ty.self_ty trait_ref.

(** The [for] loop, returning at the first impl that provides. *)
Fixpoint impls_provide (tcx : TyCtxt) (impls : list DefId) (chalk_ty : chalk_ir.Ty) : res bool :=
  match impls with
  | [] => Ok false
  | impl_def_id :: impls =>
      self_ty ← impl_self_ty tcx impl_def_id;
      if provides self_ty chalk_ty then Ok true else impls_provide tcx impls chalk_ty
  end.

Definition impl_provided_for (tcx : TyCtxt) (auto_trait_id : DefId) (chalk_ty : chalk_ir.Ty) : res bool :=
  impls_provide tcx (all_impls tcx auto_trait_id) chalk_ty.

Section AutoTrait.
Context (tcx : TyCtxt).
Local Abbreviation impl_self_ty := (impl_self_ty tcx).
Local Abbreviation impls_provide := (impls_provide tcx).
Local Abbreviation impl_provided_for := (impl_provided_for tcx).

(** ** Specification: the structural tag equality of the spec

    Two Chalk types have the same tag when they have the same ADT,
    function-item, closure or foreign identity, the same scalar, the
    same tuple arity, both are arrays, slices, [str] or [!], or both are
    raw pointers or references of the same mutability. *)
Definition same_tag (a b : chalk_ir.Ty) : bool :=
  match a, b with
  | chalk_ir.Adt d1 _, chalk_ir.Adt d2 _
  | chalk_ir.FnDef d1 _, chalk_ir.FnDef d2 _
  | chalk_ir.Closure d1 _, chalk_ir.Closure d2 _
  | chalk_ir.Foreign d1, chalk_ir.Foreign d2 => bool_decide (d1 = d2)
  | chalk_ir.Scalar s1, chalk_ir.Scalar s2 => bool_decide (s1 = s2)
  | chalk_ir.Tuple n1 _, chalk_ir.Tuple n2 _ => bool_decide (n1 = n2)
  | chalk_ir.Array _ _, chalk_ir.Array _ _ | chalk_ir.Slice _, chalk_ir.Slice _
  | chalk_ir.Str, chalk_ir.Str | chalk_ir.Never, chalk_ir.Never => true
  | chalk_ir.Raw m1 _, chalk_ir.Raw m2 _ | chalk_ir.Ref m1 _ _, chalk_ir.Ref m2 _ _ =>
      bool_decide (m1 = m2)
  | _, _ => false
  end.

(** ** Lemmas *)

Lemma impls_provide_existsb impls tys q :
  Forall2 (λ i t, impl_self_ty i = Ok t) impls tys →
  impls_provide impls q = Ok (existsb (λ t, provides t q) tys).
Proof.
  induction 1 as [|i t impls tys Hi _ IH]; simpl; [done|].
  rewrite Hi. simpl. by destruct (provides t q).
Qed.

Lemma impls_provide_true impls q :
  impls_provide impls q = Ok true →
  ∃ i t, i ∈ impls ∧ impl_self_ty i = Ok t ∧ provides t q = true.
Proof.
  induction impls as [|i impls IH]; simpl; [done|].
  destruct (impl_self_ty i) as [t|e] eqn:Hi; simpl; [|done].
  destruct (provides t q) eqn:Hp.
  - intros _. exists i, t. split_and!; [by left|done|done].
  - intros (j&t'&Hj&?&?)%IH. exists j, t'. split_and!; [by right|done|done].
Qed.

(** ** Theorems *)

(** C11: when every impl of the trait has a self type, the oracle
    answers the [existsb] of the tag table over the impls' self types:
    [true] iff some impl's self type has the query's tag. *)
Theorem impl_provided_for_spec (auto_trait_id : DefId) (chalk_ty : chalk_ir.Ty) (tys : list ty.Ty) :
  mapM (impl_self_ty) (all_impls tcx auto_trait_id) = Ok tys →
  impl_provided_for auto_trait_id chalk_ty = Ok (existsb (λ t, provides t chalk_ty) tys).
Proof. intros H%mapM_res_Ok. by apply impls_provide_existsb. Qed.

(** A [true] answer names an impl of the trait whose self type has
    the query's tag. *)
Theorem impl_provided_for_sound (auto_trait_id : DefId) (chalk_ty : chalk_ir.Ty) :
  impl_provided_for auto_trait_id chalk_ty = Ok true →
  ∃ impl_def_id self_ty, impl_def_id ∈ all_impls tcx auto_trait_id ∧
    impl_self_ty impl_def_id = Ok self_ty ∧ provides self_ty chalk_ty = true.
Proof. apply impls_provide_true. Qed.

(** An associated-type query is never provided, whatever impls the
    trait has (the FIXME of the source: the check is incomplete). *)
Theorem impl_provided_for_assoc (auto_trait_id assoc_ty_id : DefId)
    (substitution : list chalk_ir.GenericArg) :
  impl_provided_for auto_trait_id (chalk_ir.AssociatedType assoc_ty_id substitution) ≠ Ok true.
Proof.
  intros (i&t&_&_&Hp)%impls_provide_true. by destruct t.
Qed.

(** C12: refinement.  For every self type that is not an opaque type,
    the tag table agrees with the spec's tag equality between the
    lowered self type and the query. *)
Theorem provides_same_tag (self_ty : ty.Ty) (chalk_ty : chalk_ir.Ty) :
  (∀ d s, self_ty ≠ ty.Opaque d s) →
  provides self_ty chalk_ty = same_tag (lower_into self_ty) chalk_ty.
Proof.
  intros Hop. destruct self_ty; try (exfalso; by eapply Hop);
    destruct chalk_ty; simpl; try done;
    repeat match goal with
    | s : chalk_ir.ScalarTy |- _ => destruct s
    | i : ty.IntTy |- _ => destruct i
    | i : chalk_ir.IntTy |- _ => destruct i
    | u : ty.UintTy |- _ => destruct u
    | u : chalk_ir.UintTy |- _ => destruct u
    | f : ty.FloatTy |- _ => destruct f
    | f : chalk_ir.FloatTy |- _ => destruct f
    | m : ty.Mutability |- _ => destruct m
    | m : chalk_ir.Mutability |- _ => destruct m
    end; simpl; try done;
    apply bool_decide_ext; naive_solver.
Qed.

(** The table also matches opaque types by identity, a row the spec's
    list of tags does not have; a query for an opaque type is provided
    by an impl for that opaque type. *)
Lemma provides_opaque (def_id : DefId) (substs : list ty.GenericArg)
    (substitution : list chalk_ir.GenericArg) :
  provides (ty.Opaque def_id substs) (chalk_ir.OpaqueType def_id substitution) = true.
Proof. simpl. by apply bool_decide_eq_true. Qed.

End AutoTrait.

(** ** Witnesses: [impl Marker for u32] provides [u32] and not [u64]. *)

Lemma impl_provided_for_spec_witness :
  mapM (impl_self_ty Sample.tcx) (all_impls Sample.tcx Sample.marker_did) = Ok [ty.Uint ty.U32] ∧
  impl_provided_for Sample.tcx Sample.marker_did (chalk_ir.Scalar (chalk_ir.Uint chalk_ir.U32)) = Ok true ∧
  impl_provided_for Sample.tcx Sample.marker_did (chalk_ir.Scalar (chalk_ir.Uint chalk_ir.U64)) = Ok false.
Proof.
  assert (H : mapM (impl_self_ty Sample.tcx) (all_impls Sample.tcx Sample.marker_did)
              = Ok [ty.Uint ty.U32]) by reflexivity.
  split_and!; [exact H|exact (impl_provided_for_spec _ _ _ _ H)|exact (impl_provided_for_spec _ _ _ _ H)].
Defined.

Lemma impl_provided_for_sound_witness :
  impl_provided_for Sample.tcx Sample.marker_did (chalk_ir.Scalar (chalk_ir.Uint chalk_ir.U32)) = Ok true ∧
  ∃ impl_def_id self_ty, impl_def_id ∈ all_impls Sample.tcx Sample.marker_did ∧
    impl_self_ty Sample.tcx impl_def_id = Ok self_ty ∧
    provides self_ty (chalk_ir.Scalar (chalk_ir.Uint chalk_ir.U32)) = true.
Proof.
  assert (H : impl_provided_for Sample.tcx Sample.marker_did
                (chalk_ir.Scalar (chalk_ir.Uint chalk_ir.U32)) = Ok true) by reflexivity.
  split; [exact H|exact (impl_provided_for_sound _ _ _ H)].
Defined.

Lemma provides_same_tag_witness :
  (∀ d s, ty.Uint ty.U32 ≠ ty.Opaque d s) ∧
  provides (ty.Uint ty.U32) (chalk_ir.Scalar (chalk_ir.Uint chalk_ir.U64))
  = same_tag (lower_into (ty.Uint ty.U32)) (chalk_ir.Scalar (chalk_ir.Uint chalk_ir.U64)).
Proof.
  assert (H : ∀ d s, ty.Uint ty.U32 ≠ ty.Opaque d s) by (intros d s Heq; inversion Heq).
  split; [exact H|exact (provides_same_tag _ _ H)].
Defined.
