(* ===== verification/WellKnown.v ===== *)
(** * The well-known trait classifier, both directions

    [db.rs] lines 122-147 (inside [trait_datum]: from a trait's [DefId]
    to its [WellKnownTrait] role, by comparing it with the lang items in
    a fixed order) and lines 552-574 ([well_known_trait_id]: from a role
    to the lang item's [DefId]).  Both read [tcx.lang_items()].

    The theorems: when the lang items are distinct, the forward table is
    the inverse of the reverse one on eleven of the thirteen roles; the
    two others, [Generator] and [DiscriminantKind], have a reverse entry
    but are never recognised forward (a divergence from the spec's
    "bidirectional mapping"); and a trait recognised forward is always
    the lang item of its role, distinct or not. *)

From S2P Require Import Prelude HostTy ChalkIr TyCtxt.
Import rust_ir.

(** The [if lang_items.X_trait() == Some(def_id)] chain of
    [trait_datum]. *)
Definition well_known_of (tcx : TyCtxt) (def_id : DefId) : option WellKnownTrait :=
  let lang_items := lang_items tcx in
  if decide (sized_trait lang_items = Some def_id) then Some Sized
  else if decide (copy_trait lang_items = Some def_id) then Some Copy
  else if decide (clone_trait lang_items = Some def_id) then Some Clone
  else if decide (drop_trait lang_items = Some def_id) then Some Drop
  else if decide (fn_trait lang_items = Some def_id) then Some Fn
  else if decide (fn_once_trait lang_items = Some def_id) then Some FnOnce
  else if decide (fn_mut_trait lang_items = Some def_id) then Some FnMut
  else if decide (unsize_trait lang_items = Some def_id) then Some Unsize
  else if decide (unpin_trait lang_items = Some def_id) then Some Unpin
  else if decide (coerce_unsized_trait lang_items = Some def_id) then Some CoerceUnsized
  else if decide (dispatch_from_dyn_trait lang_items = Some def_id) then Some DispatchFromDyn
  else None.

Definition well_known_trait_id (tcx : TyCtxt) (well_known_trait : WellKnownTrait) : option DefId :=
  let lang_items := lang_items tcx in
  match well_known_trait with
  | Sized => sized_trait lang_items
  | Copy => copy_trait lang_items
  | Clone => clone_trait lang_items
  | Drop => drop_trait lang_items
  | Fn => fn_trait lang_items
  | FnMut => fn_mut_trait lang_items
  | FnOnce => fn_once_trait lang_items
  | Generator => gen_trait lang_items
  | Unsize => unsize_trait lang_items
  | Unpin => unpin_trait lang_items
  | CoerceUnsized => coerce_unsized_trait lang_items
  | DiscriminantKind => discriminant_kind_trait lang_items
  | DispatchFromDyn => dispatch_from_dyn_trait lang_items
  end.

(** ** Specification *)

Section WellKnown.
Context (tcx : TyCtxt).
Local Abbreviation well_known_of := (well_known_of tcx).
Local Abbreviation well_known_trait_id := (well_known_trait_id tcx).

Definition all_well_known : list WellKnownTrait :=
  [Sized; Copy; Clone; Drop; FnOnce; FnMut; Fn; Unsize; Unpin; CoerceUnsized;
   DiscriminantKind; Generator; DispatchFromDyn].

Lemma all_well_known_complete wk : wk ∈ all_well_known.
Proof. apply list_elem_of_In. destruct wk; simpl; tauto. Qed.

(** The roles the forward table knows. *)
Definition classified (wk : WellKnownTrait) : bool :=
  match wk with Generator | DiscriminantKind => false | _ => true end.

(** Distinct lang items: no [DefId] is the lang item of two roles. *)
Definition lang_items_distinct : Prop :=
  ∀ wk1 wk2 d, well_known_trait_id wk1 = Some d → well_known_trait_id wk2 = Some d → wk1 = wk2.

Definition lang_items_distinctb : bool :=
  forallb (λ wk1, forallb (λ wk2,
    match well_known_trait_id wk1, well_known_trait_id wk2 with
    | Some d1, Some d2 => bool_decide (d1 ≠ d2) || bool_decide (wk1 = wk2)
    | _, _ => true
    end) all_well_known) all_well_known.

Lemma lang_items_distinct_check : lang_items_distinctb = true → lang_items_distinct.
Proof.
  intros H wk1 wk2 d H1 H2. unfold lang_items_distinctb in H.
  rewrite forallb_forall in H.
  specialize (H wk1 (proj1 (list_elem_of_In _ _) (all_well_known_complete wk1))).
  rewrite forallb_forall in H.
  specialize (H wk2 (proj1 (list_elem_of_In _ _) (all_well_known_complete wk2))).
  rewrite H1, H2 in H. apply orb_true_iff in H as [H|H%bool_decide_eq_true]; [|done].
  by apply bool_decide_eq_true in H.
Qed.

(** ** Theorems *)

(** A trait recognised forward is the lang item of its role, and the
    role is one of the eleven the chain tests. *)
Lemma well_known_of_sound def_id wk :
  well_known_of def_id = Some wk → well_known_trait_id wk = Some def_id ∧ classified wk = true.
Proof. unfold well_known_of. repeat case_decide; intros [= <-]; done. Qed.

(** C13: with distinct lang items, the forward chain is the inverse of
    [well_known_trait_id] on the eleven roles it tests: a trait is
    recognised as [wk] exactly when it is the lang item of [wk]. *)
Theorem well_known_roundtrip (def_id : DefId) (wk : WellKnownTrait) :
  lang_items_distinct →
  well_known_of def_id = Some wk ↔ well_known_trait_id wk = Some def_id ∧ classified wk = true.
Proof.
  intros Hd. split; [apply well_known_of_sound|]. intros [Hid Hcl]. unfold well_known_of.
  repeat (let Hc := fresh "Hc" in case_decide as Hc;
    [f_equal; first [ apply (Hd Sized wk def_id Hc Hid) | apply (Hd Copy wk def_id Hc Hid)
                    | apply (Hd Clone wk def_id Hc Hid) | apply (Hd Drop wk def_id Hc Hid)
                    | apply (Hd Fn wk def_id Hc Hid) | apply (Hd FnOnce wk def_id Hc Hid)
                    | apply (Hd FnMut wk def_id Hc Hid) | apply (Hd Unsize wk def_id Hc Hid)
                    | apply (Hd Unpin wk def_id Hc Hid) | apply (Hd CoerceUnsized wk def_id Hc Hid)
                    | apply (Hd DispatchFromDyn wk def_id Hc Hid) ]|]).
  destruct wk; simpl in Hid, Hcl; congruence.
Qed.

(** [Generator] and [DiscriminantKind] have a lang item in the
    reverse table but, lang items being distinct, the trait datum of
    that lang item carries no well-known role. *)
Theorem well_known_unclassified (wk : WellKnownTrait) (def_id : DefId) :
  lang_items_distinct → classified wk = false →
  well_known_trait_id wk = Some def_id → well_known_of def_id = None.
Proof.
  intros Hd Hcl Hid. destruct (well_known_of def_id) as [wk'|] eqn:Hw; [|done].
  apply well_known_of_sound in Hw as [Hid' Hcl']. rewrite (Hd wk' wk def_id Hid' Hid) in Hcl'.
  congruence.
Qed.

End WellKnown.

(** ** Witnesses, on the lang items of the sample crate *)

Lemma well_known_roundtrip_witness :
  lang_items_distinct Sample.tcx ∧
  (well_known_of Sample.tcx (Sample.core 7) = Some FnOnce ↔
   well_known_trait_id Sample.tcx FnOnce = Some (Sample.core 7) ∧ classified FnOnce = true).
Proof.
  assert (H : lang_items_distinct Sample.tcx) by (apply lang_items_distinct_check; reflexivity).
  split; [exact H|exact (well_known_roundtrip Sample.tcx _ _ H)].
Defined.

Lemma well_known_unclassified_witness :
  lang_items_distinct Sample.tcx ∧ classified Generator = false ∧
  well_known_trait_id Sample.tcx Generator = Some (Sample.core 8) ∧
  well_known_of Sample.tcx (Sample.core 8) = None.
Proof.
  assert (H : lang_items_distinct Sample.tcx) by (apply lang_items_distinct_check; reflexivity).
  assert (H1 : classified Generator = false) by reflexivity.
  assert (H2 : well_known_trait_id Sample.tcx Generator = Some (Sample.core 8)) by reflexivity.
  split_and!; [exact H|exact H1|exact H2|exact (well_known_unclassified Sample.tcx _ _ H H1 H2)].
Defined.
