(* ===== verification/Datums.v ===== *)
(** * The item datum builders

    [db.rs] lines 68-98 ([associated_ty_data]), 100-166 ([trait_datum]),
    168-203 ([adt_datum]), 205-233 ([adt_repr]), 235-255
    ([adt_size_align]), 303-336 ([impl_datum]) and 450-480
    ([associated_ty_value]).  Each builder follows the skeleton of the
    spec (section 4.3): [bound_vars_for_item], [binders_for],
    [where_clauses_for], then the kind-specific content, read from the
    host context and substituted under the item's bound variables.  A
    datum is [Arc::new(...)] of a record; the [Arc] is not modelled.

    The theorems: the fatal precondition checks of each builder, in the
    order the code makes them; totality on well-formed items; the datum
    invariant of the spec, that the binder of a datum has one variable
    per generic parameter of the item and that everything under it is
    closed and well-kinded under it; and the spec's scenario
    [Pair<T>].  What the datums mean once the solver instantiates them
    is in [Instantiate.v]. *)

From S2P Require Import Prelude HostTy ChalkIr Lowering ChalkScope TyCtxt.
From S2P Require Import BoundVars WhereClauses WellKnown.
Import ty.

(** [EarlyBinder(ty).subst(tcx, bound_vars)] on a type, panicking like
    rustc's [SubstFolder]. *)
Definition subst_ty_or_bug (bound_vars : SubstsRef) (t : Ty) : res Ty :=
  or_bug "type parameter out of range when substituting" (subst_ty bound_vars 0 t).

(** [associated_items(def_id).in_definition_order()
    .filter(|i| i.kind == AssocKind::Type).map(|i| i.def_id)], shared by
    [trait_datum] and [impl_datum]. *)
Definition assoc_type_ids (items : list AssocItem) : list DefId :=
  assoc_def_id <$> filter (λ i, assoc_kind i = AssocType) items.

Definition associated_ty_data (tcx : TyCtxt) (assoc_type_id : DefId) : res rust_ir.AssociatedTyDatum :=
  let def_id := assoc_type_id in
  let assoc_item := associated_item tcx def_id in
  match trait_container assoc_item with
  | None => Err (Unimplemented "Not possible??")
  | Some trait_def_id =>
      match assoc_kind assoc_item with
      | AssocType =>
          bound_vars ← bound_vars_for_item tcx def_id;
          let binders := binders_for bound_vars in
          where_clauses ← where_clauses_for tcx def_id bound_vars;
          bounds ← bounds_for tcx (T := rust_ir.QuantifiedInlineBound) def_id bound_vars;
          Ok (rust_ir.mkAssociatedTyDatum trait_def_id assoc_type_id
                (chalk_ir.mkBinders binders (rust_ir.mkAssociatedTyDatumBound bounds where_clauses)))
      | _ => Err (Unimplemented "Not possible??")
      end
  end.

Definition trait_datum (tcx : TyCtxt) (trait_id : DefId) : res rust_ir.TraitDatum :=
  let def_id := trait_id in
  let tdef := trait_def tcx def_id in
  bound_vars ← bound_vars_for_item tcx def_id;
  let binders := binders_for bound_vars in
  where_clauses ← where_clauses_for tcx def_id bound_vars;
  let associated_ty_ids := assoc_type_ids (associated_items tcx def_id) in
  let well_known := well_known_of tcx def_id in
  Ok (rust_ir.mkTraitDatum trait_id
        (chalk_ir.mkBinders binders (rust_ir.mkTraitDatumBound where_clauses))
        (rust_ir.mkTraitFlags (has_auto_impl tdef) (is_marker tdef) (negb (is_local def_id))
           (has_attr tcx def_id sym_fundamental) true false)
        associated_ty_ids well_known).

(** [field.ty(tcx, bound_vars)]: the field's declared type, substituted. *)
Definition field_ty (tcx : TyCtxt) (field : FieldDef) (bound_vars : SubstsRef) : res Ty :=
  subst_ty_or_bug bound_vars (type_of tcx (field_did field)).

Definition adt_datum (tcx : TyCtxt) (adt_def : AdtDef) : res rust_ir.AdtDatum :=
  bound_vars ← bound_vars_for_item tcx (adt_did adt_def);
  let binders := binders_for bound_vars in
  where_clauses ← where_clauses_for tcx (adt_did adt_def) bound_vars;
  variants ← mapM (λ variant,
      fields ← mapM (λ field, lower_into <$> field_ty tcx field bound_vars) (variant_fields variant);
      Ok (rust_ir.mkAdtVariantDatum fields)) (adt_variants adt_def);
  Ok (rust_ir.mkAdtDatum (adt_did adt_def)
        (chalk_ir.mkBinders binders (rust_ir.mkAdtDatumBound variants where_clauses))
        (rust_ir.mkAdtFlags (negb (is_local (adt_did adt_def))) (adt_is_fundamental adt_def)
           (adt_is_phantom_data adt_def))
        (match adt_kind adt_def with
         | Struct => rust_ir.Struct
         | Union => rust_ir.Union
         | Enum => rust_ir.Enum
         end)).

Definition adt_repr (adt_def : AdtDef) : rust_ir.AdtRepr :=
  let int := λ i, chalk_ir.Scalar (chalk_ir.Int i) in
  let uint := λ i, chalk_ir.Scalar (chalk_ir.Uint i) in
  rust_ir.mkAdtRepr (repr_c (TyCtxt.adt_repr adt_def)) (repr_packed (TyCtxt.adt_repr adt_def))
    ((λ i, match i with
           | SignedInt ty =>
               match ty with
               | Isize => int chalk_ir.Isize
               | I8 => int chalk_ir.I8
               | I16 => int chalk_ir.I16
               | I32 => int chalk_ir.I32
               | I64 => int chalk_ir.I64
               | I128 => int chalk_ir.I128
               end
           | UnsignedInt ty =>
               match ty with
               | Usize => uint chalk_ir.Usize
               | U8 => uint chalk_ir.U8
               | U16 => uint chalk_ir.U16
               | U32 => uint chalk_ir.U32
               | U64 => uint chalk_ir.U64
               | U128 => uint chalk_ir.U128
               end
           end) <$> repr_int (TyCtxt.adt_repr adt_def)).

(** The ADT is a 1-ZST when its layout is zero-sized with alignment 1; a
    layout error makes it not one. *)
Definition adt_size_align (tcx : TyCtxt) (adt_def : AdtDef) : rust_ir.AdtSizeAlign :=
  let did := adt_did adt_def in
  let adt_ty := type_of tcx did in
  let one_zst :=
    match layout_of tcx did adt_ty with
    | Some layout => is_zst layout && bool_decide (layout_align_bytes layout = 1)
    | None => false
    end in
  rust_ir.mkAdtSizeAlign one_zst.

(** [ty::ImplPolarity: LowerInto<Polarity>] *)
Definition lower_polarity (p : ImplPolarity) : rust_ir.Polarity :=
  match p with ImplPositive => rust_ir.Positive | ImplNegative => rust_ir.Negative end.

Definition impl_datum (tcx : TyCtxt) (impl_id : DefId) : res rust_ir.ImplDatum :=
  let def_id := impl_id in
  bound_vars ← bound_vars_for_item tcx def_id;
  let binders := binders_for bound_vars in
  trait_ref ← expect "not an impl" (impl_trait_ref tcx def_id);
  trait_ref ← or_bug "type parameter out of range when substituting"
                (subst_trait_ref bound_vars 0 trait_ref);
  where_clauses ← where_clauses_for tcx def_id bound_vars;
  let value := rust_ir.mkImplDatumBound (lower_into trait_ref) where_clauses in
  let associated_ty_value_ids := assoc_type_ids (associated_items tcx def_id) in
  Ok (rust_ir.mkImplDatum (lower_polarity (impl_polarity tcx def_id))
        (chalk_ir.mkBinders binders value) rust_ir.Local associated_ty_value_ids).

Definition associated_ty_value (tcx : TyCtxt) (associated_ty_id : DefId) : res rust_ir.AssociatedTyValue :=
  let def_id := associated_ty_id in
  let assoc_item := associated_item tcx def_id in
  let impl_id := container_id assoc_item in
  match assoc_kind assoc_item with
  | AssocType =>
      trait_item_id ← expect "assoc_ty with no trait version" (trait_item_def_id assoc_item);
      bound_vars ← bound_vars_for_item tcx def_id;
      let binders := binders_for bound_vars in
      t ← subst_ty_or_bug bound_vars (type_of tcx def_id);
      Ok (rust_ir.mkAssociatedTyValue impl_id trait_item_id
            (chalk_ir.mkBinders binders (rust_ir.mkAssociatedTyValueBound (lower_into t))))
  | _ => Err (Unimplemented "Not possible??")
  end.

Section Datums.
Context (tcx : TyCtxt).
Local Abbreviation associated_ty_data := (associated_ty_data tcx).
Local Abbreviation trait_datum := (trait_datum tcx).
Local Abbreviation field_ty := (field_ty tcx).
Local Abbreviation adt_datum := (adt_datum tcx).
Local Abbreviation adt_size_align := (adt_size_align tcx).
Local Abbreviation impl_datum := (impl_datum tcx).
Local Abbreviation associated_ty_value := (associated_ty_value tcx).

(** ** Lemmas: the skeleton shared by the builders *)

Lemma where_clauses_for_Err def_id s e :
  where_clauses_for tcx def_id s = Err e → e = Bug "type parameter out of range when substituting".
Proof. apply lower_preds_Err. Qed.

Lemma bounds_for_Err def_id s e :
  bounds_for tcx (T := rust_ir.QuantifiedInlineBound) def_id s = Err e →
  e = Bug "type parameter out of range when substituting".
Proof. apply lower_preds_Err. Qed.

Lemma subst_ty_or_bug_Err s t e :
  subst_ty_or_bug s t = Err e → e = Bug "type parameter out of range when substituting".
Proof. unfold subst_ty_or_bug, or_bug. destruct (subst_ty s 0 t); congruence. Qed.

(** On a well-formed item, the common prefix of every builder succeeds:
    the bound variables, their binder (one variable per parameter, of
    its kind) and the where clauses, closed under that binder. *)
Lemma item_skeleton def_id :
  item_wf tcx def_id (predicates_defined_on tcx def_id) →
  ∃ s wcs, bound_vars_for_item tcx def_id = Ok s ∧ where_clauses_for tcx def_id s = Ok wcs ∧
    binders_for s = map (variable_kind_of_param tcx) (generics_of tcx def_id) ∧
    length s = length (generics_of tcx def_id) ∧
    bound_identity s ∧ kinds_match (generics_of tcx def_id) s ∧
    forallb (scope.qwc_ok [binders_for s]) wcs = true.
Proof.
  intros Hwf. pose proof Hwf as (Hg&Hc&Hps).
  destruct (bound_vars_for_item_Ok_of_wf tcx def_id Hg) as (s&Hs&Hlen&Hl).
  destruct (bound_vars_for_item_identity tcx def_id s Hc Hs) as [Hid Hk].
  destruct (lower_preds_total (T := chalk_ir.QuantifiedWhereClause) _ _ _ _ Hid Hk Hps) as (wcs&Hw).
  exists s, wcs. split_and!; try done.
  - by apply binders_for_spec.
  - by apply (where_clauses_for_ok tcx def_id s).
Qed.

(** The type of a well-formed item, substituted under its bound
    variables, lowers to a Chalk type well-kinded under their binder. *)
Lemma subst_lower_ok g s t :
  bound_identity s → kinds_match g s → ty_vars_all (wf_pre g) 0 t = true →
  ∃ t', subst_ty_or_bug s t = Ok t' ∧
    scope.cty_all (scope.bound_ok [binders_for s]) 0 (lower_ty t') = true.
Proof.
  intros Hid Hk Ht. destruct (subst_ty_bound_identity g s 0 [arg_kind <$> s] Hid Hk eq_refl 0 t Ht)
    as (t'&Ht'&Hc).
  exists t'. unfold subst_ty_or_bug, or_bug. rewrite Ht'. split; [done|].
  eapply scope.lower_ty_vars; [apply bound_post_lower_binders|exact Hc].
Qed.

(** ** Theorems: preconditions and error paths *)

(** C26: [associated_ty_data] aborts with [unimplemented!("Not
    possible??")] exactly when the item is not in a trait or is not an
    associated type; its other failures are other panics. *)
Theorem associated_ty_data_unimplemented (assoc_type_id : DefId) :
  associated_ty_data assoc_type_id = Err (Unimplemented "Not possible??") ↔
  trait_container (associated_item tcx assoc_type_id) = None ∨
  assoc_kind (associated_item tcx assoc_type_id) ≠ AssocType.
Proof.
  unfold associated_ty_data.
  destruct (trait_container _) as [tid|]; [|split; [by left|done]].
  destruct (assoc_kind _); [split; [by right|done]..|]. split; [|intros [?|?]; done].
  destruct (bound_vars_for_item tcx assoc_type_id) as [s|e] eqn:Hs; simpl;
    [|intros [= ->]; apply bound_vars_for_item_Err in Hs; discriminate].
  destruct (where_clauses_for tcx assoc_type_id s) as [w|e] eqn:Hw; simpl;
    [|intros [= ->]; apply where_clauses_for_Err in Hw; discriminate].
  destruct (bounds_for tcx assoc_type_id s) as [b|e] eqn:Hb; simpl;
    [done|intros [= ->]; apply bounds_for_Err in Hb; discriminate].
Qed.

(** The [one_zst] fact is true exactly when the layout query
    succeeds with a zero-sized layout of alignment 1; a layout error
    gives [false], not a panic. *)
Theorem adt_size_align_one_zst (adt_def : AdtDef) :
  rust_ir.one_zst (adt_size_align adt_def) = true ↔
  ∃ layout, layout_of tcx (adt_did adt_def) (type_of tcx (adt_did adt_def)) = Some layout ∧
    layout_size layout = 0 ∧ layout_align_bytes layout = 1.
Proof.
  unfold adt_size_align. simpl. destruct (layout_of _ _ _) as [l|].
  - unfold is_zst. rewrite andb_true_iff, !bool_decide_eq_true.
    split; [intros [??]; by exists l|intros (?&[= <-]&?&?); done].
  - split; [done|by intros (?&?&?)].
Qed.

(** C27: [impl_datum] aborts with [expect("not an impl")] exactly when
    the item has no trait reference and its generics are well formed:
    [bound_vars_for_item] runs first, and its assertion fires first on
    malformed generics. *)
Theorem impl_datum_not_an_impl (impl_id : DefId) :
  impl_datum impl_id = Err (ExpectFailed "not an impl") ↔
  generics_wf (generics_of tcx impl_id) ∧ impl_trait_ref tcx impl_id = None.
Proof.
  unfold impl_datum. destruct (bound_vars_for_item tcx impl_id) as [s|e] eqn:Hs; simpl.
  - pose proof (bound_vars_for_item_Ok_wf tcx impl_id s Hs) as Hwf.
    destruct (impl_trait_ref tcx impl_id) as [tr|]; simpl; [|tauto].
    split; [|by intros [_ ?]]. destruct (subst_trait_ref s 0 tr); simpl; [|done].
    destruct (where_clauses_for tcx impl_id s) as [w|e] eqn:Hw; simpl; [done|].
    intros [= ->]. apply where_clauses_for_Err in Hw. discriminate.
  - pose proof (bound_vars_for_item_Err tcx impl_id e Hs) as ->. split; [done|].
    intros [Hwf _]. destruct (bound_vars_for_item_Ok_of_wf tcx impl_id Hwf) as (?&?&_). congruence.
Qed.

(** C28: [associated_ty_value] checks the item kind before the trait
    item: it aborts with [expect("assoc_ty with no trait version")]
    exactly on an associated type with no trait item, and with
    [unimplemented!] on any other kind of item. *)
Theorem associated_ty_value_errors (associated_ty_id : DefId) :
  (associated_ty_value associated_ty_id = Err (ExpectFailed "assoc_ty with no trait version") ↔
   assoc_kind (associated_item tcx associated_ty_id) = AssocType ∧
   trait_item_def_id (associated_item tcx associated_ty_id) = None) ∧
  (associated_ty_value associated_ty_id = Err (Unimplemented "Not possible??") ↔
   assoc_kind (associated_item tcx associated_ty_id) ≠ AssocType).
Proof.
  unfold associated_ty_value. destruct (assoc_kind _); [naive_solver..|].
  destruct (trait_item_def_id _) as [tid|]; simpl; [|naive_solver].
  destruct (bound_vars_for_item tcx associated_ty_id) as [s|e] eqn:Hs; simpl;
    [|pose proof (bound_vars_for_item_Err tcx _ e Hs); naive_solver].
  destruct (subst_ty_or_bug s _) as [t|e] eqn:Ht; simpl;
    [|pose proof (subst_ty_or_bug_Err s _ e Ht)]; naive_solver.
Qed.

(** ** Theorems: totality and the datum invariant *)

(** C14: on a well-formed trait, [trait_datum] succeeds; its binder has
    one variable per generic parameter, of the parameter's kind, and its
    where clauses are closed under that binder. *)
Theorem trait_datum_closed (trait_id : DefId) :
  item_wf tcx trait_id (predicates_defined_on tcx trait_id) →
  ∃ d, trait_datum trait_id = Ok d ∧
    chalk_ir.binders (rust_ir.trait_binders d) = map (variable_kind_of_param tcx) (generics_of tcx trait_id) ∧
    forallb (scope.qwc_ok [chalk_ir.binders (rust_ir.trait_binders d)])
      (rust_ir.trait_where_clauses (chalk_ir.value (rust_ir.trait_binders d))) = true.
Proof.
  intros (s&wcs&Hs&Hw&Hb&_&_&_&Hc)%item_skeleton.
  unfold trait_datum. rewrite Hs. simpl. rewrite Hw. simpl. by eexists.
Qed.

(** The field types of an ADT mention only its parameters, at their
    declared kinds, and no escaping bound variable. *)
Definition fields_wf (adt_def : AdtDef) : bool :=
  forallb (λ v, forallb (λ f,
    ty_vars_all (wf_pre (generics_of tcx (adt_did adt_def))) 0 (type_of tcx (field_did f)))
    (variant_fields v)) (adt_variants adt_def).

Lemma adt_fields_closed g s fs :
  bound_identity s → kinds_match g s →
  forallb (λ f, ty_vars_all (wf_pre g) 0 (type_of tcx (field_did f))) fs = true →
  ∃ cts, mapM (λ field, lower_into <$> field_ty field s) fs = Ok cts ∧
    length cts = length fs ∧ forallb (scope.cty_all (scope.bound_ok [binders_for s]) 0) cts = true.
Proof.
  intros Hid Hk. induction fs as [|f fs IH]; intros Hfs'; [by exists []|].
  apply andb_prop in Hfs' as [Hf Hfs]. destruct (IH Hfs) as (cts&Hcts&Hlen&Hc).
  destruct (subst_lower_ok g s _ Hid Hk Hf) as (t'&Ht'&Hct).
  assert (Hft : field_ty f s = Ok t') by exact Ht'.
  exists (lower_ty t' :: cts). cbn [mapM]. rewrite Hft, Hcts. simpl.
  split_and!; [done|by f_equal|by apply andb_true_intro].
Qed.

(** The variants of an ADT whose fields are well formed: one datum per
    variant, with as many fields, each closed under the binder. *)
Lemma adt_variants_closed g s vs :
  bound_identity s → kinds_match g s →
  forallb (λ v, forallb (λ f, ty_vars_all (wf_pre g) 0 (type_of tcx (field_did f))) (variant_fields v)) vs
    = true →
  ∃ ds, mapM (λ variant,
      fields ← mapM (λ field, lower_into <$> field_ty field s) (variant_fields variant);
      Ok (rust_ir.mkAdtVariantDatum fields)) vs = Ok ds ∧
    map (λ v, length (rust_ir.fields v)) ds = map (λ v, length (variant_fields v)) vs ∧
    forallb (λ v, forallb (scope.cty_all (scope.bound_ok [binders_for s]) 0) (rust_ir.fields v)) ds = true.
Proof.
  intros Hid Hk. induction vs as [|v vs IH]; simpl; intros Hf; [by exists []|].
  apply andb_prop in Hf as [Hv Hvs]. destruct (IH Hvs) as (ds&Hds&Hl&Hcl).
  destruct (adt_fields_closed _ s _ Hid Hk Hv) as (cts&Hcts&Hlc&Hcc).
  rewrite Hcts. simpl. rewrite Hds. simpl. eexists. split; [done|]. simpl.
  rewrite Hlc, Hl. split; [done|]. by apply andb_true_intro.
Qed.

(** C15: on a well-formed ADT, [adt_datum] succeeds; its binder has one
    variable per generic parameter; it has the ADT's variants with
    their numbers of fields, in declaration order; every field type and
    every where clause is closed under the binder. *)
Theorem adt_datum_closed (adt_def : AdtDef) :
  item_wf tcx (adt_did adt_def) (predicates_defined_on tcx (adt_did adt_def)) →
  fields_wf adt_def = true →
  ∃ d, adt_datum adt_def = Ok d ∧
    chalk_ir.binders (rust_ir.adt_binders d) =
      map (variable_kind_of_param tcx) (generics_of tcx (adt_did adt_def)) ∧
    map (λ v, length (rust_ir.fields v)) (rust_ir.variants (chalk_ir.value (rust_ir.adt_binders d))) =
      map (λ v, length (variant_fields v)) (adt_variants adt_def) ∧
    forallb (λ v, forallb (scope.cty_all (scope.bound_ok [chalk_ir.binders (rust_ir.adt_binders d)]) 0)
      (rust_ir.fields v)) (rust_ir.variants (chalk_ir.value (rust_ir.adt_binders d))) = true ∧
    forallb (scope.qwc_ok [chalk_ir.binders (rust_ir.adt_binders d)])
      (rust_ir.adt_where_clauses (chalk_ir.value (rust_ir.adt_binders d))) = true.
Proof.
  intros (s&wcs&Hs&Hw&Hb&Hlen&Hid&Hk&Hc)%item_skeleton Hf.
  destruct (adt_variants_closed _ s _ Hid Hk Hf) as (vs&Hvs&Hl&Hcl).
  unfold adt_datum. rewrite Hs. simpl. rewrite Hw. simpl. rewrite Hvs. simpl. by eexists.
Qed.

(** C16: on a well-formed impl with a trait reference whose arguments
    mention only its parameters, [impl_datum] succeeds; its binder has
    one variable per parameter; the trait reference is the impl's
    trait, with arguments closed under the binder, and so are the where
    clauses. *)
Theorem impl_datum_closed (impl_id : DefId) (tr : TraitRef) :
  item_wf tcx impl_id (predicates_defined_on tcx impl_id) →
  impl_trait_ref tcx impl_id = Some tr →
  forallb (arg_vars_all (wf_pre (generics_of tcx impl_id)) 0) (tr_substs tr) = true →
  ∃ d, impl_datum impl_id = Ok d ∧
    chalk_ir.binders (rust_ir.impl_binders d) = map (variable_kind_of_param tcx) (generics_of tcx impl_id) ∧
    chalk_ir.trait_id (rust_ir.impl_trait_ref (chalk_ir.value (rust_ir.impl_binders d))) = tr_def_id tr ∧
    forallb (scope.carg_all (scope.bound_ok [chalk_ir.binders (rust_ir.impl_binders d)]) 0)
      (chalk_ir.tr_substitution (rust_ir.impl_trait_ref (chalk_ir.value (rust_ir.impl_binders d)))) = true ∧
    forallb (scope.qwc_ok [chalk_ir.binders (rust_ir.impl_binders d)])
      (rust_ir.impl_where_clauses (chalk_ir.value (rust_ir.impl_binders d))) = true.
Proof.
  intros (s&wcs&Hs&Hw&Hb&Hlen&Hid&Hk&Hc)%item_skeleton Htr Hargs.
  destruct (subst_substs_bound_identity _ s 0 [arg_kind <$> s] Hid Hk eq_refl 0 _ Hargs) as (xs'&Hxs&Hxc).
  unfold impl_datum. rewrite Hs. simpl. rewrite Htr. simpl.
  unfold subst_trait_ref. rewrite Hxs. simpl. rewrite Hw. simpl. eexists. split; [done|].
  simpl. split_and!; [done|done| |done].
  eapply scope.lower_args_vars; [apply bound_post_lower_binders|exact Hxc].
Qed.

(** C17: [associated_ty_data] of an associated type declared in a trait,
    with well-formed predicates and bounds, succeeds; the datum names
    the trait; its binder has one variable per generic parameter (the
    trait's, then the type's own), and its bounds and where clauses are
    closed under it. *)
Theorem associated_ty_data_closed (assoc_type_id trait_def_id : DefId) :
  trait_container (associated_item tcx assoc_type_id) = Some trait_def_id →
  assoc_kind (associated_item tcx assoc_type_id) = AssocType →
  item_wf tcx assoc_type_id (predicates_defined_on tcx assoc_type_id) →
  Forall (λ p, predicate_vars_all (wf_pre (generics_of tcx assoc_type_id)) p = true)
    (explicit_item_bounds tcx assoc_type_id) →
  ∃ d, associated_ty_data assoc_type_id = Ok d ∧ rust_ir.assoc_trait_id d = trait_def_id ∧
    chalk_ir.binders (rust_ir.assoc_binders d) =
      map (variable_kind_of_param tcx) (generics_of tcx assoc_type_id) ∧
    forallb (scope.qib_ok [chalk_ir.binders (rust_ir.assoc_binders d)])
      (rust_ir.assoc_bounds (chalk_ir.value (rust_ir.assoc_binders d))) = true ∧
    forallb (scope.qwc_ok [chalk_ir.binders (rust_ir.assoc_binders d)])
      (rust_ir.assoc_where_clauses (chalk_ir.value (rust_ir.assoc_binders d))) = true.
Proof.
  intros Hcont Hkind Hwf Hbs. pose proof Hwf as (Hg&Hcl&_).
  destruct (item_skeleton _ Hwf) as (s&wcs&Hs&Hw&Hb&Hlen&Hid&Hk&Hc).
  destruct (lower_preds_total (T := rust_ir.QuantifiedInlineBound) _ _ _ _ Hid Hk Hbs) as (bs&Hbnd).
  pose proof (bounds_for_ok tcx assoc_type_id s bs (conj Hg (conj Hcl Hbs)) Hs Hbnd) as Hbc.
  unfold associated_ty_data. rewrite Hcont, Hkind, Hs. simpl. rewrite Hw. simpl.
  assert (Hb' : bounds_for tcx (T := rust_ir.QuantifiedInlineBound) assoc_type_id s = Ok bs)
    by exact Hbnd.
  rewrite Hb'. simpl. by eexists.
Qed.

(** C18: the value of an associated type in an impl, when it is an
    associated type implementing a trait item and its type mentions only
    the impl's parameters, is built; it names the impl and the trait
    item, its binder has one variable per parameter, and the type is
    closed under it. *)
Theorem associated_ty_value_closed (associated_ty_id trait_item_id : DefId) :
  assoc_kind (associated_item tcx associated_ty_id) = AssocType →
  trait_item_def_id (associated_item tcx associated_ty_id) = Some trait_item_id →
  generics_wf (generics_of tcx associated_ty_id) →
  const_param_types_closed tcx (generics_of tcx associated_ty_id) →
  ty_vars_all (wf_pre (generics_of tcx associated_ty_id)) 0 (type_of tcx associated_ty_id) = true →
  ∃ v, associated_ty_value associated_ty_id = Ok v ∧
    rust_ir.value_impl_id v = container_id (associated_item tcx associated_ty_id) ∧
    rust_ir.value_associated_ty_id v = trait_item_id ∧
    chalk_ir.binders (rust_ir.assoc_value v) =
      map (variable_kind_of_param tcx) (generics_of tcx associated_ty_id) ∧
    scope.cty_all (scope.bound_ok [chalk_ir.binders (rust_ir.assoc_value v)]) 0
      (rust_ir.assoc_value_ty (chalk_ir.value (rust_ir.assoc_value v))) = true.
Proof.
  intros Hkind Htid Hg Hcl Ht.
  destruct (bound_vars_for_item_Ok_of_wf tcx associated_ty_id Hg) as (s&Hs&Hlen&Hl).
  destruct (bound_vars_for_item_identity tcx associated_ty_id s Hcl Hs) as [Hid Hk].
  destruct (subst_lower_ok _ s _ Hid Hk Ht) as (t'&Ht'&Hc).
  unfold associated_ty_value. rewrite Hkind, Htid. simpl. rewrite Hs. simpl. rewrite Ht'. simpl.
  eexists. split; [done|]. simpl. split_and!; [done|done| |done].
  by apply binders_for_spec.
Qed.

End Datums.

(** ** The integer types of [#[repr]] *)

(** [attr::IntType::to_ty]: the rustc type of a [#[repr]] integer. *)
Definition int_type_to_ty (it : IntType) : Ty :=
  match it with SignedInt i => ty.Int i | UnsignedInt u => ty.Uint u end.

(** The table [adt_repr] writes out inline agrees with the lowering
    of the corresponding rustc integer type: the backing integer type of
    the datum is the Chalk form of the [#[repr]] type. *)
Theorem adt_repr_int_lowering (adt_def : AdtDef) :
  rust_ir.repr_int (adt_repr adt_def) =
  (λ it, lower_ty (int_type_to_ty it)) <$> repr_int (TyCtxt.adt_repr adt_def).
Proof. unfold adt_repr. simpl. by destruct (repr_int _) as [[[]|[]]|]. Qed.

(** ** The spec's scenario, and witnesses on the sample crate *)

(** The spec's scenario: [struct Pair<T> { a: T, b: T }] gives a struct datum with one
    variable of type kind, one variant of two fields, both the bound
    variable [^0.0], the where clause [Implemented(Sized, ^1.0)], and
    no flag set. *)
Example adt_datum_pair :
  adt_datum Sample.tcx Sample.pair_adt =
  Ok (rust_ir.mkAdtDatum Sample.pair_did
        (chalk_ir.mkBinders [chalk_ir.VkTy chalk_ir.General]
           (rust_ir.mkAdtDatumBound
              [rust_ir.mkAdtVariantDatum
                 [chalk_ir.BoundVarTy (chalk_ir.mkBoundVar 0 0);
                  chalk_ir.BoundVarTy (chalk_ir.mkBoundVar 0 0)]]
              pair_where_clauses))
        (rust_ir.mkAdtFlags false false false) rust_ir.Struct).
Proof. reflexivity. Qed.

Lemma trait_datum_closed_witness :
  item_wf Sample.tcx Sample.tr_did (predicates_defined_on Sample.tcx Sample.tr_did) ∧
  ∃ d, trait_datum Sample.tcx Sample.tr_did = Ok d ∧
    chalk_ir.binders (rust_ir.trait_binders d) =
      map (variable_kind_of_param Sample.tcx) (generics_of Sample.tcx Sample.tr_did) ∧
    forallb (scope.qwc_ok [chalk_ir.binders (rust_ir.trait_binders d)])
      (rust_ir.trait_where_clauses (chalk_ir.value (rust_ir.trait_binders d))) = true.
Proof.
  assert (H : item_wf Sample.tcx Sample.tr_did (predicates_defined_on Sample.tcx Sample.tr_did))
    by (apply item_wf_check; reflexivity).
  split; [exact H|exact (trait_datum_closed Sample.tcx _ H)].
Defined.

Lemma adt_datum_closed_witness :
  item_wf Sample.tcx Sample.pair_did (predicates_defined_on Sample.tcx Sample.pair_did) ∧
  fields_wf Sample.tcx Sample.pair_adt = true ∧
  ∃ d, adt_datum Sample.tcx Sample.pair_adt = Ok d ∧
    chalk_ir.binders (rust_ir.adt_binders d) =
      map (variable_kind_of_param Sample.tcx) (generics_of Sample.tcx Sample.pair_did) ∧
    map (λ v, length (rust_ir.fields v)) (rust_ir.variants (chalk_ir.value (rust_ir.adt_binders d))) =
      map (λ v, length (variant_fields v)) (adt_variants Sample.pair_adt) ∧
    forallb (λ v, forallb (scope.cty_all (scope.bound_ok [chalk_ir.binders (rust_ir.adt_binders d)]) 0)
      (rust_ir.fields v)) (rust_ir.variants (chalk_ir.value (rust_ir.adt_binders d))) = true ∧
    forallb (scope.qwc_ok [chalk_ir.binders (rust_ir.adt_binders d)])
      (rust_ir.adt_where_clauses (chalk_ir.value (rust_ir.adt_binders d))) = true.
Proof.
  assert (H : item_wf Sample.tcx Sample.pair_did (predicates_defined_on Sample.tcx Sample.pair_did))
    by (apply item_wf_check; reflexivity).
  assert (Hf : fields_wf Sample.tcx Sample.pair_adt = true) by reflexivity.
  split_and!; [exact H|exact Hf|exact (adt_datum_closed Sample.tcx Sample.pair_adt H Hf)].
Defined.

Lemma impl_datum_closed_witness :
  item_wf Sample.tcx Sample.tr_impl (predicates_defined_on Sample.tcx Sample.tr_impl) ∧
  impl_trait_ref Sample.tcx Sample.tr_impl = Some Sample.tr_impl_trait_ref ∧
  forallb (arg_vars_all (wf_pre (generics_of Sample.tcx Sample.tr_impl)) 0)
    (tr_substs Sample.tr_impl_trait_ref) = true ∧
  ∃ d, impl_datum Sample.tcx Sample.tr_impl = Ok d ∧
    chalk_ir.binders (rust_ir.impl_binders d) =
      map (variable_kind_of_param Sample.tcx) (generics_of Sample.tcx Sample.tr_impl) ∧
    chalk_ir.trait_id (rust_ir.impl_trait_ref (chalk_ir.value (rust_ir.impl_binders d))) =
      tr_def_id Sample.tr_impl_trait_ref ∧
    forallb (scope.carg_all (scope.bound_ok [chalk_ir.binders (rust_ir.impl_binders d)]) 0)
      (chalk_ir.tr_substitution (rust_ir.impl_trait_ref (chalk_ir.value (rust_ir.impl_binders d)))) = true ∧
    forallb (scope.qwc_ok [chalk_ir.binders (rust_ir.impl_binders d)])
      (rust_ir.impl_where_clauses (chalk_ir.value (rust_ir.impl_binders d))) = true.
Proof.
  assert (H : item_wf Sample.tcx Sample.tr_impl (predicates_defined_on Sample.tcx Sample.tr_impl))
    by (apply item_wf_check; reflexivity).
  assert (Ht : impl_trait_ref Sample.tcx Sample.tr_impl = Some Sample.tr_impl_trait_ref)
    by reflexivity.
  assert (Ha : forallb (arg_vars_all (wf_pre (generics_of Sample.tcx Sample.tr_impl)) 0)
    (tr_substs Sample.tr_impl_trait_ref) = true) by reflexivity.
  split_and!; [exact H|exact Ht|exact Ha|exact (impl_datum_closed Sample.tcx _ _ H Ht Ha)].
Defined.

Lemma associated_ty_data_closed_witness :
  trait_container (associated_item Sample.tcx Sample.out_decl) = Some Sample.tr_did ∧
  assoc_kind (associated_item Sample.tcx Sample.out_decl) = AssocType ∧
  item_wf Sample.tcx Sample.out_decl (predicates_defined_on Sample.tcx Sample.out_decl) ∧
  Forall (λ p, predicate_vars_all (wf_pre (generics_of Sample.tcx Sample.out_decl)) p = true)
    (explicit_item_bounds Sample.tcx Sample.out_decl) ∧
  ∃ d, associated_ty_data Sample.tcx Sample.out_decl = Ok d ∧ rust_ir.assoc_trait_id d = Sample.tr_did ∧
    chalk_ir.binders (rust_ir.assoc_binders d) =
      map (variable_kind_of_param Sample.tcx) (generics_of Sample.tcx Sample.out_decl) ∧
    forallb (scope.qib_ok [chalk_ir.binders (rust_ir.assoc_binders d)])
      (rust_ir.assoc_bounds (chalk_ir.value (rust_ir.assoc_binders d))) = true ∧
    forallb (scope.qwc_ok [chalk_ir.binders (rust_ir.assoc_binders d)])
      (rust_ir.assoc_where_clauses (chalk_ir.value (rust_ir.assoc_binders d))) = true.
Proof.
  assert (Hc : trait_container (associated_item Sample.tcx Sample.out_decl) = Some Sample.tr_did)
    by reflexivity.
  assert (Hk : assoc_kind (associated_item Sample.tcx Sample.out_decl) = AssocType) by reflexivity.
  assert (H : item_wf Sample.tcx Sample.out_decl (predicates_defined_on Sample.tcx Sample.out_decl))
    by (apply item_wf_check; reflexivity).
  assert (Hb : item_wf Sample.tcx Sample.out_decl (explicit_item_bounds Sample.tcx Sample.out_decl))
    by (apply item_wf_check; reflexivity).
  destruct Hb as (_&_&Hb).
  split_and!; [exact Hc|exact Hk|exact H|exact Hb|exact (associated_ty_data_closed Sample.tcx _ _ Hc Hk H Hb)].
Defined.

Lemma associated_ty_value_closed_witness :
  assoc_kind (associated_item Sample.tcx Sample.out_value) = AssocType ∧
  trait_item_def_id (associated_item Sample.tcx Sample.out_value) = Some Sample.out_decl ∧
  generics_wf (generics_of Sample.tcx Sample.out_value) ∧
  const_param_types_closed Sample.tcx (generics_of Sample.tcx Sample.out_value) ∧
  ty_vars_all (wf_pre (generics_of Sample.tcx Sample.out_value)) 0 (type_of Sample.tcx Sample.out_value) = true ∧
  ∃ v, associated_ty_value Sample.tcx Sample.out_value = Ok v ∧
    rust_ir.value_impl_id v = container_id (associated_item Sample.tcx Sample.out_value) ∧
    rust_ir.value_associated_ty_id v = Sample.out_decl ∧
    chalk_ir.binders (rust_ir.assoc_value v) =
      map (variable_kind_of_param Sample.tcx) (generics_of Sample.tcx Sample.out_value) ∧
    scope.cty_all (scope.bound_ok [chalk_ir.binders (rust_ir.assoc_value v)]) 0
      (rust_ir.assoc_value_ty (chalk_ir.value (rust_ir.assoc_value v))) = true.
Proof.
  assert (Hk : assoc_kind (associated_item Sample.tcx Sample.out_value) = AssocType) by reflexivity.
  assert (Ht : trait_item_def_id (associated_item Sample.tcx Sample.out_value) = Some Sample.out_decl)
    by reflexivity.
  assert (Hg : generics_wf (generics_of Sample.tcx Sample.out_value))
    by (apply generics_wf_check; reflexivity).
  assert (Hc : const_param_types_closed Sample.tcx (generics_of Sample.tcx Sample.out_value))
    by (apply const_param_types_closed_check; reflexivity).
  assert (Hty : ty_vars_all (wf_pre (generics_of Sample.tcx Sample.out_value)) 0
    (type_of Sample.tcx Sample.out_value) = true) by reflexivity.
  split_and!; [exact Hk|exact Ht|exact Hg|exact Hc|exact Hty|
    exact (associated_ty_value_closed Sample.tcx _ _ Hk Ht Hg Hc Hty)].
Defined.
