(* ===== verification/Queries.v ===== *)
(** * The remaining queries: variances, delegations and the unimplemented ones

    [db.rs] lines 482-491 ([custom_clauses],
    [local_impls_to_coherence_check]), 576-589 ([is_object_safe],
    [hidden_opaque_type]), 661-684 ([generator_datum],
    [generator_witness_datum], [discriminant_type]) and 686-708 (the
    [UnificationDatabase] impl: [fn_def_variance], [adt_variance]).

    The variance lookups lower each of rustc's variances; Chalk has no
    bivariance, and the lowering aborts on it ([unimplemented!()] in
    [lowering.rs]).  The theorems: a variance lookup succeeds exactly
    when no parameter of the item is bivariant, and then keeps one
    variance per parameter, in order; the queries the spec lists as
    unimplemented fail whatever their input. *)

From S2P Require Import Prelude HostTy ChalkIr Lowering TyCtxt.

(** [ty::Variance: LowerInto<chalk_ir::Variance>] *)
Definition lower_variance (v : Variance) : res chalk_ir.Variance :=
  match v with
  | Covariant => Ok chalk_ir.Covariant
  | Invariant => Ok chalk_ir.Invariant
  | Contravariant => Ok chalk_ir.Contravariant
  | Bivariant => Err (Unimplemented "")
  end.

Definition fn_def_variance (tcx : TyCtxt) (def_id : DefId) : res (list chalk_ir.Variance) :=
  let variances := variances_of tcx def_id in
  mapM lower_variance variances.

Definition adt_variance (tcx : TyCtxt) (adt_def : AdtDef) : res (list chalk_ir.Variance) :=
  let variances := variances_of tcx (adt_did adt_def) in
  mapM lower_variance variances.

(** [custom_clauses]: no clause of its own. *)
Definition custom_clauses : list chalk_ir.QuantifiedWhereClause := [].

Definition local_impls_to_coherence_check (_trait_id : DefId) : res (list DefId) :=
  Err (Unimplemented "").

Definition is_object_safe' (tcx : TyCtxt) (trait_id : DefId) : bool := is_object_safe tcx trait_id.

(** [hidden_opaque_type]: the unit type, whatever the opaque type (a
    FIXME of the source). *)
Definition hidden_opaque_type (_id : DefId) : chalk_ir.Ty := lower_ty (ty.Tuple []).

Definition generator_datum (_generator_id : DefId) : res unit := Err (Unimplemented "").
Definition generator_witness_datum (_generator_id : DefId) : res unit := Err (Unimplemented "").
Definition discriminant_type (_ : chalk_ir.Ty) : res chalk_ir.Ty := Err (Unimplemented "").

Section Queries.
Context (tcx : TyCtxt).
Local Abbreviation fn_def_variance := (fn_def_variance tcx).

(** ** Theorems *)

(** C30: a variance lookup succeeds exactly when no parameter of the
    item is bivariant; it then has one variance per entry of
    [variances_of]. *)
Theorem fn_def_variance_spec (def_id : DefId) :
  (∃ vs, fn_def_variance def_id = Ok vs ∧ length vs = length (variances_of tcx def_id)) ↔
  Bivariant ∉ variances_of tcx def_id.
Proof.
  unfold fn_def_variance. split.
  - intros (vs&Hvs&_) Hb. apply mapM_res_Ok in Hvs.
    induction Hvs as [|v v' l vs Hv _ IH]; [by apply not_elem_of_nil in Hb|].
    apply elem_of_cons in Hb as [<-|Hb]; [done|auto].
  - intros Hnb. cut (∃ vs, mapM lower_variance (variances_of tcx def_id) = Ok vs).
    { intros (vs&Hvs). exists vs. split; [done|by eapply mapM_res_length]. }
    induction (variances_of tcx def_id) as [|v l IH]; [by exists []|].
    apply not_elem_of_cons in Hnb as [Hv Hl]. destruct (IH Hl) as (vs&Hvs).
    destruct v; try done; eexists; simpl; rewrite Hvs; done.
Qed.

End Queries.
