(* ===== verification/ImplMatch.v ===== *)
(** * The impl shape pre-filter [impls_for_trait]

    [db.rs] lines 338-369.  For a trait query, the bridge keeps the
    impls of the trait whose self type, substituted under the impl's
    own bound variables and lowered, "could match" the query's self type
    ([parameters[0]]).  The test is Chalk's [CouldMatch], which is not
    in the repository: it is the interface [CouldMatch] below, whose
    law is the contract the spec gives the pre-filter (section 4.5), it
    never rejects a pair of types that unify, in the one form the
    filter needs: the impl's self type, under the impl binder, could
    match every instance of it, the binder substituted by any
    parameters with Chalk's own [Binders::substitute] ([cfold.subst_ty],
    which replaces variables of every kind).  Any sound pre-filter has
    this law, since an instance unifies with the pattern.

    The filter's closure can panic ([unwrap], [self_ty], a substitution
    bug, [parameters[0]], [assert_ty_ref]); Rust's [filter] runs it impl
    by impl, so the first impl whose closure panics aborts the query.
    [filter_res] models that loop.

    The theorems: the result is the impls the matcher accepts, in
    order, a sublist of the trait's impls; the filter keeps every impl
    whose self type, substituted by rustc with some arguments
    ([self_ty.subst(args)]) and lowered, is the query's self type,
    proved against the interface; [parameters[0]] is only read when
    the trait has an impl.
    [head_could_match], the head-shape test of the spec, is an instance
    of the interface. *)

From S2P Require Import Prelude HostTy ChalkIr Lowering ChalkSubst TyCtxt BoundVars.
From S2P Require Import WhereClauses Closures Datums.
Import ty.

(** [chalk_ir::could_match::CouldMatch] for types, with the law that
    makes it a sound pre-filter: an instance of the impl's self type
    (its binder, the innermost, substituted by [ps]) is never
    rejected. *)
Class CouldMatch := {
  could_match : chalk_ir.Ty → chalk_ir.Ty → bool;
  could_match_instance : ∀ ps t q, cfold.subst_ty ps 0 t = Some q → could_match q t = true
}.

(** ** The filter *)

(** [iter.filter(p).collect()] with a predicate that may panic. *)
Fixpoint filter_res {A} (p : A → res bool) (l : list A) : res (list A) :=
  match l with
  | [] => Ok []
  | x :: l =>
      match p x with
      | Err e => Err e
      | Ok keep =>
          match filter_res p l with
          | Err e => Err e
          | Ok rest => Ok (if keep then x :: rest else rest)
          end
      end
  end.

Section FilterRes.
Context {A : Type} (p : A → res bool).

Lemma filter_res_Ok_spec l bs :
  Forall2 (λ x b, p x = Ok b) l bs →
  filter_res p l = Ok (fst <$> filter (λ xb : A * bool, xb.2 = true) (zip l bs)).
Proof.
  induction 1 as [|x b l bs Hx _ IH]; [done|]. simpl. rewrite Hx, IH.
  destruct b; simpl; [done|]. by rewrite filter_cons_False.
Qed.

Lemma filter_res_sublist l r : filter_res p l = Ok r → r `sublist_of` l.
Proof.
  revert r; induction l as [|x l IH]; intros r; simpl; [intros [= <-]; done|].
  destruct (p x) as [[]|e]; [|..|done]; destruct (filter_res p l) as [rest|e] eqn:Hl; try done;
    intros [= <-]; [apply sublist_skip|apply sublist_cons]; by apply IH.
Qed.

Lemma filter_res_keep l r x : filter_res p l = Ok r → x ∈ l → p x = Ok true → x ∈ r.
Proof.
  revert r; induction l as [|y l IH]; intros r; simpl; [by intros _ ?%not_elem_of_nil|].
  destruct (p y) as [b|e] eqn:Hy; [|done]. destruct (filter_res p l) as [rest|e] eqn:Hl; [|done].
  intros [= <-] [->|Hx]%elem_of_cons Hpx.
  - rewrite Hy in Hpx. injection Hpx as ->. apply list_elem_of_here.
  - destruct b; [apply list_elem_of_further|]; by apply (IH rest).
Qed.

(** The loop does not panic when no call of the closure does. *)
Lemma filter_res_is_ok l : (∀ x, x ∈ l → is_ok (p x) = true) → is_ok (filter_res p l) = true.
Proof.
  induction l as [|x l IH]; intros Hl; simpl; [done|].
  destruct (p x) as [b|e] eqn:Hx; [|by specialize (Hl x (list_elem_of_here _ _)); rewrite Hx in Hl].
  assert (Hr : is_ok (filter_res p l) = true)
    by (apply IH; intros y Hy; apply Hl; by apply list_elem_of_further).
  by destruct (filter_res p l).
Qed.

End FilterRes.

(** The impl's self type under its own bound variables, lowered: the
    first five lines of the closure. *)
Definition impl_lowered_self_ty (tcx : TyCtxt) (impl_def_id : DefId) : res chalk_ir.Ty :=
  trait_ref ← unwrap (impl_trait_ref tcx impl_def_id);
  bound_vars ← bound_vars_for_item tcx impl_def_id;
  self_ty ← self_ty trait_ref;
  self_ty ← subst_ty_or_bug bound_vars self_ty;
  Ok (lower_ty self_ty).

Definition impl_could_match (tcx : TyCtxt) `{!CouldMatch} (parameters : list chalk_ir.GenericArg) (impl_def_id : DefId)
    : res bool :=
  lowered_ty ← impl_lowered_self_ty tcx impl_def_id;
  p0 ← slice_index parameters 0;
  q ← assert_ty_ref p0;
  Ok (could_match q lowered_ty).

Definition impls_for_trait (tcx : TyCtxt) `{!CouldMatch} (trait_id : DefId) (parameters : list chalk_ir.GenericArg)
    : res (list DefId) :=
  let def_id := trait_id in
  let all_impls := all_impls tcx def_id in
  filter_res (impl_could_match tcx parameters) all_impls.

Section ImplMatch.
Context (tcx : TyCtxt) `{!CouldMatch}.
Local Abbreviation impl_lowered_self_ty := (impl_lowered_self_ty tcx).
Local Abbreviation impl_could_match := (impl_could_match tcx).
Local Abbreviation impls_for_trait := (impls_for_trait tcx).

(** ** Theorems *)

Lemma impl_could_match_ty impl_def_id q rest t :
  impl_lowered_self_ty impl_def_id = Ok t →
  impl_could_match (chalk_ir.GaTy q :: rest) impl_def_id = Ok (could_match q t).
Proof. intros Ht. unfold impl_could_match. by rewrite Ht. Qed.

(** C31: completeness of the pre-filter against rustc.  Whatever
    matcher Chalk supplies that accepts the instances of an impl's self
    type, an impl of the trait is kept when the query's self type is
    the lowering of rustc's [self_ty.subst(args)], for arguments [args]
    with one entry per parameter of the impl, of its kind: the impl's
    self type, substituted under the impl's bound variables and
    lowered, has that query as an instance. *)
Theorem impls_for_trait_instance_kept (trait_id impl_def_id : DefId) (tr : TraitRef) (st : Ty)
    (args : SubstsRef) (st' : Ty) (rest : list chalk_ir.GenericArg) (result : list DefId) :
  item_wf tcx impl_def_id (predicates_defined_on tcx impl_def_id) →
  impl_trait_ref tcx impl_def_id = Some tr → self_ty tr = Ok st →
  ty_vars_all (wf_pre (generics_of tcx impl_def_id)) 0 st = true →
  kinds_match (generics_of tcx impl_def_id) args → forallb const_tys_closed_arg args = true →
  impl_def_id ∈ all_impls tcx trait_id →
  subst_ty args 0 st = Some st' →
  impls_for_trait trait_id (chalk_ir.GaTy (lower_ty st') :: rest) = Ok result →
  impl_def_id ∈ result.
Proof.
  intros Hwf Htr Hst Hstw Hka Hkc Hin Hst' Hr.
  destruct (item_skeleton tcx _ Hwf) as (s&wcs&Hs&_&_&_&Hid&Hk&_).
  destruct (subst_ty_bound_identity _ s 0 [arg_kind <$> s] Hid Hk eq_refl 0 st Hstw) as (t&Ht&_).
  assert (Hl : impl_lowered_self_ty impl_def_id = Ok (lower_ty t)).
  { unfold impl_lowered_self_ty. rewrite Htr. simpl. rewrite Hs. simpl. rewrite Hst. simpl.
    unfold subst_ty_or_bug, or_bug. by rewrite Ht. }
  eapply filter_res_keep; [exact Hr|exact Hin|]. rewrite (impl_could_match_ty _ _ _ _ Hl).
  do 2 f_equal. apply (could_match_instance (map lower_arg args)).
  assert (Hkd : arg_kind <$> s = arg_kind <$> args)
    by by rewrite (kinds_match_kinds _ _ Hk), (kinds_match_kinds _ _ Hka).
  assert (Hb : ty_vars_all (bound_below 0) 0 st = true)
    by (refine (ty_vars_all_mono _ _ _ _ _ Hstw); by intros ?? [??]%andb_prop).
  by rewrite (lower_subst_ty s args 0 st t Hid Hkd Hkc Hb Ht), Hst'.
Qed.

(** C32: when every impl of the trait has a self type, the result is
    the impls, in order, whose lowered self type the matcher accepts
    against the query's self type. *)
Theorem impls_for_trait_spec (trait_id : DefId) (q : chalk_ir.Ty)
    (rest : list chalk_ir.GenericArg) (tys : list chalk_ir.Ty) :
  mapM impl_lowered_self_ty (all_impls tcx trait_id) = Ok tys →
  impls_for_trait trait_id (chalk_ir.GaTy q :: rest) =
  Ok (fst <$> filter (λ ib : DefId * bool, ib.2 = true)
        (zip (all_impls tcx trait_id) (could_match q <$> tys))).
Proof.
  intros Htys%mapM_res_Ok. apply filter_res_Ok_spec.
  induction Htys as [|i t impls ts Hi _ IH]; constructor; [|done].
  by apply impl_could_match_ty.
Qed.

(** The result is a sublist of the trait's impls: only impls of
    the trait, each once, in the order of [all_impls]. *)
Theorem impls_for_trait_sublist (trait_id : DefId) (parameters : list chalk_ir.GenericArg)
    (result : list DefId) :
  impls_for_trait trait_id parameters = Ok result → result `sublist_of` all_impls tcx trait_id.
Proof. apply filter_res_sublist. Qed.

(** C33: [parameters[0]] is read after the impl's self type: a query
    with no parameter panics on the index as soon as the trait has an
    impl whose self type is computed (and a trait with no impl answers
    the empty list without reading it). *)
Theorem impls_for_trait_no_params (trait_id impl_def_id : DefId) (impls : list DefId)
    (t : chalk_ir.Ty) :
  all_impls tcx trait_id = impl_def_id :: impls →
  impl_lowered_self_ty impl_def_id = Ok t →
  impls_for_trait trait_id [] = Err IndexOutOfBounds.
Proof.
  intros Hall Ht. unfold impls_for_trait. rewrite Hall. simpl.
  unfold impl_could_match. by rewrite Ht.
Qed.

End ImplMatch.

(** ** The head-shape matcher of the spec, an instance *)

Module HeadMatch.
Import chalk_ir.

(** The type former of a type; [None] for a variable or an alias, which
    may stand for any type. *)
Inductive Head :=
| HAdt (id : DefId) | HScalar (s : ScalarTy) | HTuple (n : nat) | HArray | HSlice
| HRaw (m : Mutability) | HRef (m : Mutability) | HOpaque (id : DefId) | HFnDef (id : DefId)
| HStr | HNever | HClosure (id : DefId) | HForeign (id : DefId) | HFunction (n : nat)
| HPlaceholder (idx : nat) | HError.

#[global] Instance Head_eq_dec : EqDecision Head.
Proof. solve_decision. Defined.

Definition head (t : Ty) : option Head :=
  match t with
  | Adt id _ => Some (HAdt id)
  | Scalar s => Some (HScalar s)
  | Tuple n _ => Some (HTuple n)
  | Array _ _ => Some HArray
  | Slice _ => Some HSlice
  | Raw m _ => Some (HRaw m)
  | Ref m _ _ => Some (HRef m)
  | OpaqueType id _ => Some (HOpaque id)
  | FnDef id _ => Some (HFnDef id)
  | Str => Some HStr
  | Never => Some HNever
  | Closure id _ => Some (HClosure id)
  | Foreign id => Some (HForeign id)
  | Function n _ => Some (HFunction n)
  | Placeholder idx => Some (HPlaceholder idx)
  | Error => Some HError
  | AssociatedType _ _ | Alias _ | BoundVarTy _ | InferenceVar _ _ => None
  end.

(** Same type former, or either side a variable or an alias. *)
Definition head_could_match (a b : Ty) : bool :=
  match head a, head b with
  | Some h1, Some h2 => bool_decide (h1 = h2)
  | _, _ => true
  end.

(** Substitution keeps a type former. *)
Lemma head_subst ps c t q h : cfold.subst_ty ps c t = Some q → head t = Some h → head q = Some h.
Proof. destruct t; simpl; intros Hs Hh; simplify_option_eq; done. Qed.

#[global] Program Instance head_CouldMatch : CouldMatch := {| could_match := head_could_match |}.
Next Obligation.
  intros ps t q Hs. unfold head_could_match.
  destruct (head q) as [h1|] eqn:Hq, (head t) as [h2|] eqn:Ht; try done.
  rewrite (head_subst ps 0 t q h2 Hs Ht) in Hq. injection Hq as ->.
  by apply bool_decide_eq_true.
Qed.

End HeadMatch.


(** ** Witnesses: [impl<T> Tr<T> for Pair<T>] against the queries
    [Pair<?0>] (kept) and [bool] (filtered out), with the head-shape
    matcher. *)

Definition pair_query : chalk_ir.Ty :=
  chalk_ir.Adt Sample.pair_did [chalk_ir.GaTy (chalk_ir.InferenceVar 0 chalk_ir.General)].

Definition pair_self : chalk_ir.Ty :=
  chalk_ir.Adt Sample.pair_did [chalk_ir.GaTy (chalk_ir.BoundVarTy (chalk_ir.mkBoundVar 0 0))].

(** [impl<T> Tr<T> for Pair<T>] is kept for the query [Pair<u32>],
    rustc's [Pair<T>.subst([u32])]. *)
Lemma impls_for_trait_instance_kept_witness :
  item_wf Sample.tcx Sample.tr_impl (predicates_defined_on Sample.tcx Sample.tr_impl) ∧
  impl_trait_ref Sample.tcx Sample.tr_impl = Some Sample.tr_impl_trait_ref ∧
  self_ty Sample.tr_impl_trait_ref = Ok (Adt Sample.pair_did [GaType (Param 0 "T")]) ∧
  ty_vars_all (wf_pre (generics_of Sample.tcx Sample.tr_impl)) 0 (Adt Sample.pair_did [GaType (Param 0 "T")]) = true ∧
  kinds_match (generics_of Sample.tcx Sample.tr_impl) [GaType (Uint U32)] ∧
  forallb const_tys_closed_arg [GaType (Uint U32)] = true ∧
  Sample.tr_impl ∈ all_impls Sample.tcx Sample.tr_did ∧
  subst_ty [GaType (Uint U32)] 0 (Adt Sample.pair_did [GaType (Param 0 "T")]) =
    Some (Adt Sample.pair_did [GaType (Uint U32)]) ∧
  impls_for_trait Sample.tcx Sample.tr_did [chalk_ir.GaTy (lower_ty (Adt Sample.pair_did [GaType (Uint U32)]))] =
    Ok [Sample.tr_impl] ∧
  Sample.tr_impl ∈ [Sample.tr_impl].
Proof.
  assert (H1 : item_wf Sample.tcx Sample.tr_impl (predicates_defined_on Sample.tcx Sample.tr_impl))
    by (apply item_wf_check; reflexivity).
  assert (H2 : impl_trait_ref Sample.tcx Sample.tr_impl = Some Sample.tr_impl_trait_ref) by reflexivity.
  assert (H3 : self_ty Sample.tr_impl_trait_ref = Ok (Adt Sample.pair_did [GaType (Param 0 "T")]))
    by reflexivity.
  assert (H4 : ty_vars_all (wf_pre (generics_of Sample.tcx Sample.tr_impl)) 0
    (Adt Sample.pair_did [GaType (Param 0 "T")]) = true) by reflexivity.
  assert (H5 : kinds_match (generics_of Sample.tcx Sample.tr_impl) [GaType (Uint U32)])
    by (repeat constructor).
  assert (H6 : forallb const_tys_closed_arg [GaType (Uint U32)] = true) by reflexivity.
  assert (H7 : Sample.tr_impl ∈ all_impls Sample.tcx Sample.tr_did)
    by (apply (bool_decide_unpack _); reflexivity).
  assert (H8 : subst_ty [GaType (Uint U32)] 0 (Adt Sample.pair_did [GaType (Param 0 "T")]) =
    Some (Adt Sample.pair_did [GaType (Uint U32)])) by reflexivity.
  assert (H9 : impls_for_trait Sample.tcx Sample.tr_did
    [chalk_ir.GaTy (lower_ty (Adt Sample.pair_did [GaType (Uint U32)]))] = Ok [Sample.tr_impl])
    by reflexivity.
  split_and!; [exact H1|exact H2|exact H3|exact H4|exact H5|exact H6|exact H7|exact H8|exact H9|].
  exact (impls_for_trait_instance_kept Sample.tcx _ _ _ _ _ _ [] _ H1 H2 H3 H4 H5 H6 H7 H8 H9).
Defined.

Lemma impls_for_trait_spec_witness :
  mapM (impl_lowered_self_ty Sample.tcx) (all_impls Sample.tcx Sample.tr_did) = Ok [pair_self] ∧
  impls_for_trait Sample.tcx Sample.tr_did [chalk_ir.GaTy (chalk_ir.Scalar chalk_ir.Bool)] =
  Ok (fst <$> filter (λ ib : DefId * bool, ib.2 = true)
        (zip (all_impls Sample.tcx Sample.tr_did)
           (could_match (chalk_ir.Scalar chalk_ir.Bool) <$> [pair_self]))).
Proof.
  assert (H : mapM (impl_lowered_self_ty Sample.tcx) (all_impls Sample.tcx Sample.tr_did) =
    Ok [pair_self]) by reflexivity.
  split; [exact H|exact (impls_for_trait_spec Sample.tcx _ _ [] _ H)].
Defined.

Lemma impls_for_trait_sublist_witness :
  impls_for_trait Sample.tcx Sample.tr_did [chalk_ir.GaTy pair_query] = Ok [Sample.tr_impl] ∧
  [Sample.tr_impl] `sublist_of` all_impls Sample.tcx Sample.tr_did.
Proof.
  assert (H : impls_for_trait Sample.tcx Sample.tr_did [chalk_ir.GaTy pair_query] =
    Ok [Sample.tr_impl]) by reflexivity.
  split; [exact H|exact (impls_for_trait_sublist Sample.tcx _ _ _ H)].
Defined.

Lemma impls_for_trait_no_params_witness :
  all_impls Sample.tcx Sample.tr_did = [Sample.tr_impl] ∧
  impl_lowered_self_ty Sample.tcx Sample.tr_impl = Ok pair_self ∧
  impls_for_trait Sample.tcx Sample.tr_did [] = Err IndexOutOfBounds.
Proof.
  assert (H1 : all_impls Sample.tcx Sample.tr_did = [Sample.tr_impl]) by reflexivity.
  assert (H2 : impl_lowered_self_ty Sample.tcx Sample.tr_impl = Ok pair_self) by reflexivity.
  split_and!; [exact H1|exact H2|exact (impls_for_trait_no_params Sample.tcx _ _ _ _ H1 H2)].
Defined.
