(* ===== verification/FnDefDatum.v ===== *)
(** * The datum of a function item: [fn_def_datum]

    [db.rs] lines 261-301.  A function item has two groups of variables:
    the item's generics (the outer binder, from [bound_vars_for_item])
    and the late-bound variables of its signature (the inner binder,
    from [collect_bound_vars]).  The signature [Binder<&[Ty]>] is
    substituted under its own binder (the substitution crosses one
    binder, so the item's variables land at de Bruijn level 1), split
    into the argument types ([..len - 1]) and the return type
    ([len - 1]), each substituted a second time and lowered.

    [collect_bound_vars] is in [lowering.rs], not in the repository; it
    is modelled from the spec, on signatures whose late-bound variables
    are the declared ones, in order: the inner binder lowers
    [sig_bound_vars].

    The theorems: on a well-formed function item with a non-empty
    signature the datum is built, with one outer variable per generic
    parameter, the signature's variables inside, every type scoped
    binder by binder (a variable at the signature's level is one the
    signature declares, one level up one of the item's, each at its
    kind) and every where clause under its own binder, then the item's;
    the second substitution
    changes nothing ([fn_def_datum_eq] gives the datum outright); an
    empty signature panics on the slice. *)

From S2P Require Import Prelude HostTy ChalkIr Lowering ChalkScope TyCtxt.
From S2P Require Import BoundVars WhereClauses Datums.
Import ty.

(** [Binder<FnSig>: LowerInto<chalk_ir::FnSig>] *)
Definition lower_fn_sig (sig : PolyFnSig) : chalk_ir.FnSig :=
  chalk_ir.mkFnSig (sig_abi sig)
    (match sig_unsafety sig with Normal => chalk_ir.Safe | Unsafe => chalk_ir.Unsafe end)
    (sig_c_variadic sig).

(** [collect_bound_vars(interner, tcx, binder)]: the value under the
    binder and the kinds of its variables. *)
Definition collect_bound_vars (bound_vars : list BoundVariableKind) (value : list Ty)
    : list Ty * list chalk_ir.VariableKind :=
  (value, lower_binders bound_vars).

Definition fn_def_datum (tcx : TyCtxt) (fn_def_id : DefId) : res rust_ir.FnDefDatum :=
  let def_id := fn_def_id in
  bound_vars ← bound_vars_for_item tcx def_id;
  let binders := binders_for bound_vars in
  where_clauses ← where_clauses_for tcx def_id bound_vars;
  let sig := fn_sig tcx def_id in
  io ← or_bug "type parameter out of range when substituting"
         (mapM (subst_ty bound_vars 1) (sig_inputs_and_output sig));
  let '(inputs_and_output, iobinders) := collect_bound_vars (sig_bound_vars sig) io in
  args ← slice_until_from_end inputs_and_output 1;
  argument_types ← mapM (λ t, lower_ty <$> subst_ty_or_bug bound_vars t) args;
  ret ← index_from_end inputs_and_output 1;
  return_type ← lower_ty <$> subst_ty_or_bug bound_vars ret;
  let bound := rust_ir.mkFnDefDatumBound
    (chalk_ir.mkBinders iobinders (rust_ir.mkFnDefInputsAndOutputDatum argument_types return_type))
    where_clauses in
  Ok (rust_ir.mkFnDefDatum fn_def_id (lower_fn_sig sig) (chalk_ir.mkBinders binders bound)).

Section FnDef.
Context (tcx : TyCtxt).
Local Abbreviation fn_def_datum := (fn_def_datum tcx).

(** ** Lemmas *)

(** The signature, substituted under its binder, is closed under the
    item binder one level out. *)
Lemma sig_subst_closed g bv io :
  bound_identity bv → kinds_match g bv → forallb (ty_vars_all (wf_pre g) 1) io = true →
  ∃ io', mapM (subst_ty bv 1) io = Some io' ∧
    forallb (ty_vars_all (bound_post [arg_kind <$> bv]) 1) io' = true.
Proof.
  intros Hid Hk. apply mapM_Some_forallb, Forall_forall. intros t _.
  by apply (subst_ty_bound_identity g bv 0 [arg_kind <$> bv] Hid Hk eq_refl 1).
Qed.

(** The signature of a function whose late-bound variables are
    declared by its binder, substituted under that binder, is
    well-kinded under the two binders: the signature's, then the
    item's. *)
Lemma sig_subst_scoped g bv sk io :
  bound_identity bv → kinds_match g bv → forallb (ty_vars_all (wf_in [sk] g) 0) io = true →
  ∃ io', mapM (subst_ty bv 1) io = Some io' ∧
    forallb (ty_vars_all (bound_post [sk; arg_kind <$> bv]) 0) io' = true.
Proof.
  intros Hid Hk. apply mapM_Some_forallb, Forall_forall. intros t _.
  exact (proj1 (subst_bound_identity_mut g bv 0 [arg_kind <$> bv] Hid Hk eq_refl [sk]) t 0).
Qed.

(** The second substitution of a substituted type is the identity. *)
Lemma second_subst_id bv kss c t :
  ty_vars_all (bound_post kss) c t = true → subst_ty_or_bug bv t = Ok t.
Proof.
  intros Ht. unfold subst_ty_or_bug. rewrite (subst_ty_no_param bv 0 c t); [done|].
  eapply ty_vars_all_mono; [|exact Ht]. intros ? []; done.
Qed.

Lemma second_subst_lower_all bv kss c ts :
  forallb (ty_vars_all (bound_post kss) c) ts = true →
  mapM (λ t, lower_ty <$> subst_ty_or_bug bv t) ts = Ok (lower_ty <$> ts).
Proof.
  intros Hts. rewrite <-(mapM_res_Ok_map lower_ty). apply mapM_res_ext.
  intros t Ht. rewrite (second_subst_id bv kss c t); [done|].
  rewrite forallb_forall in Hts. apply Hts. by apply list_elem_of_In.
Qed.

(** The lowered signature types are scoped under the lowered binders. *)
Lemma bound_post_lower_sig s bvs c v :
  bound_post [bvk_kind <$> bvs; arg_kind <$> s] c v = true →
  scope.bound_ok [lower_binders bvs; binders_for s] c (scope.lower_occ v) = true.
Proof.
  apply scope.bound_post_lower. unfold scope.sorts. simpl.
  by rewrite scope.sorts_lower_binders, binders_for_sorts.
Qed.

Lemma bound_post_lower_sig_all s bvs ts :
  forallb (ty_vars_all (bound_post [bvk_kind <$> bvs; arg_kind <$> s]) 0) ts = true →
  forallb (scope.cty_all (scope.bound_ok [lower_binders bvs; binders_for s]) 0) (lower_ty <$> ts) = true.
Proof.
  intros H. apply (forallb_map_Forall _ lower_ty (ty_vars_all (bound_post [bvk_kind <$> bvs; arg_kind <$> s]) 0));
    [|exact H].
  apply Forall_forall. intros t _. apply scope.lower_ty_vars, bound_post_lower_sig.
Qed.

(** The datum, once the bound variables, the where clauses and the
    substituted signature [io ++ [t0]] are known: the second
    substitution leaves the types as they are. *)
Lemma fn_def_datum_eq fn_def_id s wcs io t0 {kss c} :
  bound_vars_for_item tcx fn_def_id = Ok s → where_clauses_for tcx fn_def_id s = Ok wcs →
  mapM (subst_ty s 1) (sig_inputs_and_output (fn_sig tcx fn_def_id)) = Some (io ++ [t0]) →
  forallb (ty_vars_all (bound_post kss) c) (io ++ [t0]) = true →
  fn_def_datum fn_def_id =
  Ok (rust_ir.mkFnDefDatum fn_def_id (lower_fn_sig (fn_sig tcx fn_def_id))
    (chalk_ir.mkBinders (binders_for s) (rust_ir.mkFnDefDatumBound
      (chalk_ir.mkBinders (lower_binders (sig_bound_vars (fn_sig tcx fn_def_id)))
        (rust_ir.mkFnDefInputsAndOutputDatum (lower_ty <$> io) (lower_ty t0))) wcs))).
Proof.
  intros Hs Hw Hio Hioc. rewrite forallb_app in Hioc. apply andb_prop in Hioc as [Hargs Hret].
  simpl in Hret. rewrite andb_true_r in Hret.
  unfold fn_def_datum. rewrite Hs. simpl. rewrite Hw. simpl. rewrite Hio. simpl.
  unfold slice_until_from_end, index_from_end. rewrite length_app. simpl.
  rewrite !decide_True by lia. replace (length io + 1 - 1) with (length io) by lia.
  rewrite take_app_length, lookup_app_r, Nat.sub_diag by lia. simpl.
  rewrite (second_subst_lower_all s _ _ io Hargs). simpl.
  by rewrite (second_subst_id s _ _ t0 Hret).
Qed.

(** ** Theorems *)

(** C34: on a well-formed function item whose where clauses and
    signature declare their own late-bound variables, whose signature
    mentions only the item's parameters and is not empty,
    [fn_def_datum] succeeds; the outer binder has one variable per
    generic parameter, the inner one the signature's variables; there
    is one argument type per input; the argument and return types are
    scoped under the two binders, checked binder by binder (a variable
    at the signature's level must be one the signature declares, one
    level up one the item declares, each at its kind); and every where
    clause is scoped under its own binder, then the item binder. *)
Theorem fn_def_datum_closed (fn_def_id : DefId) :
  item_wf tcx fn_def_id (predicates_defined_on tcx fn_def_id) →
  preds_scoped tcx fn_def_id (predicates_defined_on tcx fn_def_id) = true →
  forallb (ty_vars_all (wf_in [bvk_kind <$> sig_bound_vars (fn_sig tcx fn_def_id)]
    (generics_of tcx fn_def_id)) 0) (sig_inputs_and_output (fn_sig tcx fn_def_id)) = true →
  sig_inputs_and_output (fn_sig tcx fn_def_id) ≠ [] →
  ∃ d, fn_def_datum fn_def_id = Ok d ∧
    chalk_ir.binders (rust_ir.fn_binders d) = map (variable_kind_of_param tcx) (generics_of tcx fn_def_id) ∧
    chalk_ir.binders (rust_ir.inputs_and_output (chalk_ir.value (rust_ir.fn_binders d))) =
      lower_binders (sig_bound_vars (fn_sig tcx fn_def_id)) ∧
    S (length (rust_ir.argument_types (chalk_ir.value (rust_ir.inputs_and_output
      (chalk_ir.value (rust_ir.fn_binders d)))))) = length (sig_inputs_and_output (fn_sig tcx fn_def_id)) ∧
    forallb (scope.cty_all (scope.bound_ok
        [chalk_ir.binders (rust_ir.inputs_and_output (chalk_ir.value (rust_ir.fn_binders d)));
         chalk_ir.binders (rust_ir.fn_binders d)]) 0)
      (rust_ir.argument_types (chalk_ir.value (rust_ir.inputs_and_output
        (chalk_ir.value (rust_ir.fn_binders d))))) = true ∧
    scope.cty_all (scope.bound_ok
        [chalk_ir.binders (rust_ir.inputs_and_output (chalk_ir.value (rust_ir.fn_binders d)));
         chalk_ir.binders (rust_ir.fn_binders d)]) 0
      (rust_ir.return_type (chalk_ir.value (rust_ir.inputs_and_output
        (chalk_ir.value (rust_ir.fn_binders d))))) = true ∧
    forallb (scope.qwc_scoped [chalk_ir.binders (rust_ir.fn_binders d)])
      (rust_ir.fn_where_clauses (chalk_ir.value (rust_ir.fn_binders d))) = true.
Proof.
  intros Hwf Hps Hsig Hne. destruct (item_skeleton tcx _ Hwf) as (s&wcs&Hs&Hw&Hb&Hlen&Hid&Hk&Hc).
  pose proof (where_clauses_for_scoped tcx _ 0 [binders_for s] s wcs Hps Hid Hk eq_refl Hw) as Hwc.
  destruct (sig_subst_scoped _ s _ _ Hid Hk Hsig) as (io&Hio&Hioc).
  pose proof (Forall2_length _ _ _ (mapM_Some_1 _ _ _ Hio)) as Hiolen.
  destruct io as [|t0 io'] using rev_ind; [destruct (sig_inputs_and_output _); simpl in *; congruence|].
  clear IHio'. rewrite (fn_def_datum_eq _ s wcs io' t0 Hs Hw Hio Hioc).
  rewrite forallb_app in Hioc. apply andb_prop in Hioc as [Hargs Hret]. simpl in Hret.
  rewrite andb_true_r in Hret.
  eexists. split; [done|]. simpl. rewrite length_app in Hiolen. simpl in Hiolen.
  split_and!; [done|done|rewrite length_fmap; lia| | |done].
  - by apply bound_post_lower_sig_all.
  - eapply scope.lower_ty_vars; [apply bound_post_lower_sig|exact Hret].
Qed.

(** C35: the second substitution [fn_def_datum] applies to each type of
    the signature changes nothing: the argument and return types of the
    datum are the lowerings of the signature substituted once. *)
Theorem fn_def_datum_single_subst (fn_def_id : DefId) (s : SubstsRef) (io : list Ty)
    (d : rust_ir.FnDefDatum) :
  item_wf tcx fn_def_id (predicates_defined_on tcx fn_def_id) →
  forallb (ty_vars_all (wf_pre (generics_of tcx fn_def_id)) 1)
    (sig_inputs_and_output (fn_sig tcx fn_def_id)) = true →
  bound_vars_for_item tcx fn_def_id = Ok s →
  mapM (subst_ty s 1) (sig_inputs_and_output (fn_sig tcx fn_def_id)) = Some io →
  fn_def_datum fn_def_id = Ok d →
  ∃ ret, last io = Some ret ∧
    chalk_ir.value (rust_ir.inputs_and_output (chalk_ir.value (rust_ir.fn_binders d))) =
    rust_ir.mkFnDefInputsAndOutputDatum (lower_ty <$> take (length io - 1) io) (lower_ty ret).
Proof.
  intros Hwf Hsig Hs Hio Hd. pose proof Hwf as (_&Hcl&Hps).
  destruct (bound_vars_for_item_identity tcx fn_def_id s Hcl Hs) as [Hid Hk].
  destruct (sig_subst_closed _ s _ Hid Hk Hsig) as (io'&Hio'&Hioc).
  rewrite Hio in Hio'. injection Hio' as <-.
  revert Hd. destruct (where_clauses_for tcx fn_def_id s) as [wcs|e] eqn:Hw.
  2: { unfold fn_def_datum. rewrite Hs. simpl. by rewrite Hw. }
  destruct io as [|t0 io'] using rev_ind.
  { unfold fn_def_datum. rewrite Hs. simpl. rewrite Hw. simpl. by rewrite Hio. }
  clear IHio'. rewrite (fn_def_datum_eq _ s wcs io' t0 Hs Hw Hio Hioc). intros [= <-].
  exists t0. rewrite last_snoc, length_app. simpl. by rewrite Nat.add_sub, take_app_length.
Qed.

(** A signature with no type panics on [len() - 1], after the
    bound variables and the where clauses are built. *)
Theorem fn_def_datum_empty_sig (fn_def_id : DefId) :
  item_wf tcx fn_def_id (predicates_defined_on tcx fn_def_id) →
  sig_inputs_and_output (fn_sig tcx fn_def_id) = [] →
  fn_def_datum fn_def_id = Err IndexOutOfBounds.
Proof.
  intros (s&wcs&Hs&Hw&_)%item_skeleton Hio. unfold fn_def_datum.
  rewrite Hs. simpl. rewrite Hw. simpl. by rewrite Hio.
Qed.

End FnDef.

(** ** Witnesses: [fn first<'a, T>(x: &'a T) -> &'a T] and
    [fn id<T>(x: T) -> T], whose argument and return type are [^1.0]
    inside the (empty) signature binder, and the malformed item with an
    empty signature. *)

Definition id_bound_vars : SubstsRef := [GaType (Bound 0 (mkBoundTy 0 (BtParam "T")))].
Definition id_io : list Ty := [Bound 1 (mkBoundTy 0 (BtParam "T")); Bound 1 (mkBoundTy 0 (BtParam "T"))].

Definition id_datum : rust_ir.FnDefDatum :=
  rust_ir.mkFnDefDatum Sample.id_fn (chalk_ir.mkFnSig AbiRust chalk_ir.Safe false)
    (chalk_ir.mkBinders [chalk_ir.VkTy chalk_ir.General]
       (rust_ir.mkFnDefDatumBound
          (chalk_ir.mkBinders []
             (rust_ir.mkFnDefInputsAndOutputDatum
                [chalk_ir.BoundVarTy (chalk_ir.mkBoundVar 1 0)]
                (chalk_ir.BoundVarTy (chalk_ir.mkBoundVar 1 0))))
          [])).

(** On [fn first<'a, T>(x: &'a T) -> &'a T]: the argument and return
    type [&^0.0 ^1.0] use the signature's lifetime and the item's type. *)
Lemma fn_def_datum_closed_witness :
  item_wf Sample.tcx Sample.first_fn (predicates_defined_on Sample.tcx Sample.first_fn) ∧
  preds_scoped Sample.tcx Sample.first_fn (predicates_defined_on Sample.tcx Sample.first_fn) = true ∧
  forallb (ty_vars_all (wf_in [bvk_kind <$> sig_bound_vars (fn_sig Sample.tcx Sample.first_fn)]
    (generics_of Sample.tcx Sample.first_fn)) 0) (sig_inputs_and_output (fn_sig Sample.tcx Sample.first_fn)) = true ∧
  sig_inputs_and_output (fn_sig Sample.tcx Sample.first_fn) ≠ [] ∧
  ∃ d, fn_def_datum Sample.tcx Sample.first_fn = Ok d ∧
    chalk_ir.binders (rust_ir.fn_binders d) =
      map (variable_kind_of_param Sample.tcx) (generics_of Sample.tcx Sample.first_fn) ∧
    chalk_ir.binders (rust_ir.inputs_and_output (chalk_ir.value (rust_ir.fn_binders d))) =
      lower_binders (sig_bound_vars (fn_sig Sample.tcx Sample.first_fn)) ∧
    S (length (rust_ir.argument_types (chalk_ir.value (rust_ir.inputs_and_output
      (chalk_ir.value (rust_ir.fn_binders d)))))) =
      length (sig_inputs_and_output (fn_sig Sample.tcx Sample.first_fn)) ∧
    forallb (scope.cty_all (scope.bound_ok
        [chalk_ir.binders (rust_ir.inputs_and_output (chalk_ir.value (rust_ir.fn_binders d)));
         chalk_ir.binders (rust_ir.fn_binders d)]) 0)
      (rust_ir.argument_types (chalk_ir.value (rust_ir.inputs_and_output
        (chalk_ir.value (rust_ir.fn_binders d))))) = true ∧
    scope.cty_all (scope.bound_ok
        [chalk_ir.binders (rust_ir.inputs_and_output (chalk_ir.value (rust_ir.fn_binders d)));
         chalk_ir.binders (rust_ir.fn_binders d)]) 0
      (rust_ir.return_type (chalk_ir.value (rust_ir.inputs_and_output
        (chalk_ir.value (rust_ir.fn_binders d))))) = true ∧
    forallb (scope.qwc_scoped [chalk_ir.binders (rust_ir.fn_binders d)])
      (rust_ir.fn_where_clauses (chalk_ir.value (rust_ir.fn_binders d))) = true.
Proof.
  assert (H1 : item_wf Sample.tcx Sample.first_fn (predicates_defined_on Sample.tcx Sample.first_fn))
    by (apply item_wf_check; reflexivity).
  assert (H2 : preds_scoped Sample.tcx Sample.first_fn (predicates_defined_on Sample.tcx Sample.first_fn) = true)
    by reflexivity.
  assert (H3 : forallb (ty_vars_all (wf_in [bvk_kind <$> sig_bound_vars (fn_sig Sample.tcx Sample.first_fn)]
    (generics_of Sample.tcx Sample.first_fn)) 0) (sig_inputs_and_output (fn_sig Sample.tcx Sample.first_fn)) = true)
    by reflexivity.
  assert (H4 : sig_inputs_and_output (fn_sig Sample.tcx Sample.first_fn) ≠ []) by (vm_compute; discriminate).
  split_and!; [exact H1|exact H2|exact H3|exact H4|exact (fn_def_datum_closed Sample.tcx _ H1 H2 H3 H4)].
Defined.

Lemma fn_def_datum_single_subst_witness :
  item_wf Sample.tcx Sample.id_fn (predicates_defined_on Sample.tcx Sample.id_fn) ∧
  forallb (ty_vars_all (wf_pre (generics_of Sample.tcx Sample.id_fn)) 1)
    (sig_inputs_and_output (fn_sig Sample.tcx Sample.id_fn)) = true ∧
  bound_vars_for_item Sample.tcx Sample.id_fn = Ok id_bound_vars ∧
  mapM (subst_ty id_bound_vars 1) (sig_inputs_and_output (fn_sig Sample.tcx Sample.id_fn)) = Some id_io ∧
  fn_def_datum Sample.tcx Sample.id_fn = Ok id_datum ∧
  ∃ ret, last id_io = Some ret ∧
    chalk_ir.value (rust_ir.inputs_and_output (chalk_ir.value (rust_ir.fn_binders id_datum))) =
    rust_ir.mkFnDefInputsAndOutputDatum (lower_ty <$> take (length id_io - 1) id_io) (lower_ty ret).
Proof.
  assert (H1 : item_wf Sample.tcx Sample.id_fn (predicates_defined_on Sample.tcx Sample.id_fn))
    by (apply item_wf_check; reflexivity).
  assert (H2 : forallb (ty_vars_all (wf_pre (generics_of Sample.tcx Sample.id_fn)) 1)
    (sig_inputs_and_output (fn_sig Sample.tcx Sample.id_fn)) = true) by reflexivity.
  assert (H3 : bound_vars_for_item Sample.tcx Sample.id_fn = Ok id_bound_vars) by reflexivity.
  assert (H4 : mapM (subst_ty id_bound_vars 1) (sig_inputs_and_output (fn_sig Sample.tcx Sample.id_fn)) =
    Some id_io) by reflexivity.
  assert (H5 : fn_def_datum Sample.tcx Sample.id_fn = Ok id_datum) by reflexivity.
  split_and!; [exact H1|exact H2|exact H3|exact H4|exact H5|
    exact (fn_def_datum_single_subst Sample.tcx _ _ _ _ H1 H2 H3 H4 H5)].
Defined.

Lemma fn_def_datum_empty_sig_witness :
  item_wf Sample.tcx Sample.bad_fn (predicates_defined_on Sample.tcx Sample.bad_fn) ∧
  sig_inputs_and_output (fn_sig Sample.tcx Sample.bad_fn) = [] ∧
  fn_def_datum Sample.tcx Sample.bad_fn = Err IndexOutOfBounds.
Proof.
  assert (H1 : item_wf Sample.tcx Sample.bad_fn (predicates_defined_on Sample.tcx Sample.bad_fn))
    by (apply item_wf_check; reflexivity).
  assert (H2 : sig_inputs_and_output (fn_sig Sample.tcx Sample.bad_fn) = []) by reflexivity.
  split_and!; [exact H1|exact H2|exact (fn_def_datum_empty_sig Sample.tcx _ H1 H2)].
Defined.
