(* ===== verification/OpaqueTy.v ===== *)
(** * The opaque-type datum and [ReplaceOpaqueTyFolder]

    [db.rs] lines 493-543 ([opaque_ty_data]) and 762-794 (the folder).
    The datum of an opaque type [impl Trait] binds the item's variables,
    then one existential type variable (the hidden type); the bound
    variables of the item are shifted by one ([shift_vars(.., 1)]) to
    make room for it.  Each explicit bound is substituted, folded with
    [ReplaceOpaqueTyFolder] (which replaces the opaque type applied to
    its identity substitution by the existential variable) and lowered.

    The folder is written as the source writes it: [fold_binder] shifts
    the binder index in and out, [fold_ty] looks at the type it is given
    and does not recurse into it; regions are kept, and a constant is
    folded through its type ([super_fold_with]).  So only the types met
    directly by the predicate's fields are candidates.

    The theorems: on a well-formed opaque type the datum is built, and
    each bound and where clause is scoped binder by binder (its own
    binder, then the existential binder, then the item's); a
    self-reference met by the folder becomes the existential variable
    [^1.0] (the predicate's own binder is level 0), and one nested in
    another type is kept ([fold_nested_self_kept]); the bounds are
    substituted before they are folded, and the identity substitution
    has parameters: for an opaque type with generic parameters nothing
    is ever replaced, and the datum's bounds are the plain lowering of
    the substituted bounds (a divergence from the spec, section 4.8). *)

From S2P Require Import Prelude HostTy ChalkIr Lowering ChalkScope TyCtxt BoundVars.
From S2P Require Import WhereClauses.
Import ty.

(** ** The folder *)

Record ReplaceOpaqueTyFolder := mkReplaceOpaqueTyFolder {
  opaque_ty_id : DefId;
  identity_substs : SubstsRef;
  binder_index : nat
}.

(** [fold_ty]: the opaque type applied to the identity substitution
    becomes the existential variable; no recursion into [t]. *)
Definition fold_ty (folder : ReplaceOpaqueTyFolder) (t : Ty) : Ty :=
  match t with
  | Opaque def_id substs =>
      if decide (def_id = opaque_ty_id folder ∧ substs = identity_substs folder)
      then Bound (binder_index folder) (mkBoundTy 0 BtAnon)
      else t
  | _ => t
  end.

(** [fold_const]'s default, [super_fold_with]: the type of the constant. *)
Definition fold_const (folder : ReplaceOpaqueTyFolder) (k : Const) : Const :=
  match k with mkConst ck t => mkConst ck (fold_ty folder t) end.

Definition fold_arg (folder : ReplaceOpaqueTyFolder) (a : GenericArg) : GenericArg :=
  match a with
  | GaLifetime r => GaLifetime r
  | GaType t => GaType (fold_ty folder t)
  | GaConst k => GaConst (fold_const folder k)
  end.

Definition fold_term (folder : ReplaceOpaqueTyFolder) (x : Term) : Term :=
  match x with
  | TermTy t => TermTy (fold_ty folder t)
  | TermConst k => TermConst (fold_const folder k)
  end.

(** [PredicateKind::super_fold_with]: every field. *)
Definition fold_predicate_kind (folder : ReplaceOpaqueTyFolder) (pk : PredicateKind)
    : PredicateKind :=
  let fold_ty := fold_ty folder in
  let fold_const := fold_const folder in
  let fold_arg := fold_arg folder in
  match pk with
  | PkTrait tr => PkTrait (mkTraitRef (tr_def_id tr) (map fold_arg (tr_substs tr)))
  | PkRegionOutlives a b => PkRegionOutlives a b
  | PkTypeOutlives t r => PkTypeOutlives (fold_ty t) r
  | PkProjection p x =>
      PkProjection (mkProjectionTy (map fold_arg (proj_substs p)) (proj_item_def_id p))
        (fold_term folder x)
  | PkWellFormed a => PkWellFormed (fold_arg a)
  | PkObjectSafe d => PkObjectSafe d
  | PkClosureKind d xs => PkClosureKind d (map fold_arg xs)
  | PkSubtype a b => PkSubtype (fold_ty a) (fold_ty b)
  | PkCoerce a b => PkCoerce (fold_ty a) (fold_ty b)
  | PkConstEvaluatable k => PkConstEvaluatable (fold_const k)
  | PkConstEquate a b => PkConstEquate (fold_const a) (fold_const b)
  | PkTypeWellFormedFromEnv t => PkTypeWellFormedFromEnv (fold_ty t)
  end.

(** [fold_binder]: [shift_in(1)], fold the contents, [shift_out(1)]. *)
Definition shift_in (folder : ReplaceOpaqueTyFolder) : ReplaceOpaqueTyFolder :=
  mkReplaceOpaqueTyFolder (opaque_ty_id folder) (identity_substs folder) (S (binder_index folder)).

(** A predicate is a binder over its kind. *)
Definition fold_predicate (folder : ReplaceOpaqueTyFolder) (p : Predicate) : Predicate :=
  mkPredicate (pred_bound_vars p) (fold_predicate_kind (shift_in folder) (pred_kind p)).

(** ** The datum *)

(** [tcx.mk_param_from_def(param)] *)
Definition mk_param_from_def (tcx : TyCtxt) (param : GenericParamDef) : GenericArg :=
  match param_kind param with
  | GpLifetime => GaLifetime (ReEarlyBound (param_index param) (param_name param))
  | GpType => GaType (Param (param_index param) (param_name param))
  | GpConst =>
      GaConst (mkConst (CkParam (param_index param) (param_name param)) (type_of tcx (param_def_id param)))
  end.

(** [InternalSubsts::identity_for_item] *)
Definition identity_for_item (tcx : TyCtxt) (def_id : DefId) : res SubstsRef :=
  for_item tcx def_id (λ param _, mk_param_from_def tcx param).

Definition opaque_ty_data (tcx : TyCtxt) (opaque_ty_id : DefId) : res rust_ir.OpaqueTyDatum :=
  bv ← bound_vars_for_item tcx opaque_ty_id;
  let bound_vars := shift_vars 1 bv in
  where_clauses ← where_clauses_for tcx opaque_ty_id bound_vars;
  identity_substs ← identity_for_item tcx opaque_ty_id;
  bounds ← mapM (subst_pred_or_bug bound_vars) (explicit_item_bounds tcx opaque_ty_id);
  let bounds := omap lower_into
    (fold_predicate (mkReplaceOpaqueTyFolder opaque_ty_id identity_substs INNERMOST) <$> bounds) in
  let existential_binder := [chalk_ir.VkTy chalk_ir.General] in
  let value := rust_ir.mkOpaqueTyDatumBound (chalk_ir.mkBinders existential_binder bounds)
    (chalk_ir.mkBinders existential_binder where_clauses) in
  let binders := binders_for bound_vars in
  Ok (rust_ir.mkOpaqueTyDatum opaque_ty_id (chalk_ir.mkBinders binders value)).

Section Opaque.
Context (tcx : TyCtxt).
Local Abbreviation mk_param_from_def := (mk_param_from_def tcx).
Local Abbreviation identity_for_item := (identity_for_item tcx).
Local Abbreviation opaque_ty_data := (opaque_ty_data tcx).

(** ** Lemmas *)

Lemma identity_for_item_param def_id :
  generics_wf (generics_of tcx def_id) → generics_of tcx def_id ≠ [] →
  ∃ ids, identity_for_item def_id = Ok ids ∧ forallb (arg_vars_all no_param 0) ids = false.
Proof.
  intros Hwf Hne.
  destruct (fill_single_spec (λ param _, mk_param_from_def param) (generics_of tcx def_id) [])
    as (ids&Hids&_&_&Hps); [intros j p Hj; simpl; by apply Hwf|].
  exists ids. split; [done|].
  destruct (generics_of tcx def_id) as [|p0 g]; [done|].
  destruct (Hps 0 p0 eq_refl) as (pre&_&H0). simpl in H0.
  destruct (forallb _ ids) eqn:Hf; [exfalso|done].
  rewrite forallb_forall in Hf.
  specialize (Hf _ (proj1 (list_elem_of_In _ _) (list_elem_of_lookup_2 _ _ _ H0))).
  unfold mk_param_from_def in Hf. by destruct (param_kind p0).
Qed.

Lemma bound_vars_shifted_no_param def_id bv :
  const_param_types_closed tcx (generics_of tcx def_id) → bound_vars_for_item tcx def_id = Ok bv →
  forallb (arg_vars_all no_param 0) (shift_vars 1 bv) = true.
Proof.
  intros Hc Hb. destruct (bound_vars_for_item_identity tcx def_id bv Hc Hb) as [Hid _].
  apply (bound_identity_no_param 1). by apply (shift_vars_identity 0 1).
Qed.

(** [identity_for_item] succeeds on well-formed generics. *)
Lemma identity_for_item_total def_id :
  generics_wf (generics_of tcx def_id) → ∃ ids, identity_for_item def_id = Ok ids.
Proof.
  intros Hwf. destruct (fill_single_spec (λ param _, mk_param_from_def param) (generics_of tcx def_id) [])
    as (ids&Hids&_); [intros j p Hj; simpl; by apply Hwf|]. by exists ids.
Qed.

End Opaque.

(** The folder is the identity on a predicate without parameters when
    the identity substitution it looks for has one. *)
Section NoSelf.
Context (folder : ReplaceOpaqueTyFolder).
Hypothesis Hids : forallb (arg_vars_all no_param 0) (identity_substs folder) = false.

Lemma fold_ty_no_param c t : ty_vars_all no_param c t = true → fold_ty folder t = t.
Proof.
  destruct t; simpl; try done. intros Hxs. case_decide as Hd; [|done].
  destruct Hd as [_ Heq]. rewrite Heq in Hxs. exfalso.
  rewrite (forallb_ext_Forall _ (arg_vars_all no_param 0)) in Hxs; [congruence|].
  apply Forall_forall. intros a _. exact (proj1 (proj2 (vars_all_depth_mut (no_param 0))) a c 0).
Qed.

Lemma fold_const_no_param c k : const_vars_all no_param c k = true → fold_const folder k = k.
Proof. destruct k as [ck t]. simpl. intros [_ Ht]%andb_prop. by rewrite (fold_ty_no_param c t). Qed.

Lemma fold_arg_no_param c a : arg_vars_all no_param c a = true → fold_arg folder a = a.
Proof.
  destruct a; simpl; intros H; [done|by rewrite (fold_ty_no_param c)|by rewrite (fold_const_no_param c)].
Qed.

Lemma map_fold_arg_no_param c xs : forallb (arg_vars_all no_param c) xs = true → map (fold_arg folder) xs = xs.
Proof.
  induction xs as [|a xs IH]; simpl; [done|]. intros [Ha Hxs]%andb_prop.
  by rewrite (fold_arg_no_param c a Ha), IH.
Qed.

Lemma fold_predicate_kind_no_param c pk :
  predicate_kind_vars_all no_param c pk = true → fold_predicate_kind folder pk = pk.
Proof.
  destruct pk as [[d xs]| | |[xs d] [t|k]| | | | | | | |]; simpl; intros H; vars_split;
    repeat first
      [ rewrite (map_fold_arg_no_param c) by done
      | rewrite (fold_ty_no_param c) by done
      | rewrite (fold_const_no_param c) by done
      | rewrite (fold_arg_no_param c) by done ]; done.
Qed.

End NoSelf.

Lemma fold_predicate_no_param folder p :
  forallb (arg_vars_all no_param 0) (identity_substs folder) = false →
  predicate_vars_all no_param p = true → fold_predicate folder p = p.
Proof.
  intros Hids Hp. destruct p as [bvs pk]. unfold fold_predicate. simpl. f_equal.
  by apply (fold_predicate_kind_no_param (shift_in folder) Hids 1).
Qed.

(** What the spec asks of each visited type: the opaque type applied to
    its identity substitution becomes the variable bound [binder_index]
    levels up; anything else is kept. *)
Definition replace_self (folder : ReplaceOpaqueTyFolder) (t : Ty) : Ty :=
  if decide (t = Opaque (opaque_ty_id folder) (identity_substs folder))
  then Bound (binder_index folder) (mkBoundTy 0 BtAnon) else t.

Lemma fold_ty_replace_self folder t : fold_ty folder t = replace_self folder t.
Proof.
  unfold replace_self. case_decide as Hs.
  - rewrite Hs. simpl. by rewrite decide_True.
  - destruct t; simpl; try done. case_decide as Hd; [|done]. destruct Hd as [-> ->]. done.
Qed.

(** An item without generic parameters has no parameter to substitute. *)
Lemma wf_pre_nil_no_param c v : wf_pre [] c v = true → no_param c v = true.
Proof. destruct v; unfold wf_pre, param_kind_ok; simpl; rewrite ?andb_false_r; done. Qed.

Lemma subst_preds_no_param s ps :
  Forall (λ p, predicate_vars_all no_param p = true) ps → mapM (subst_pred_or_bug s) ps = Ok ps.
Proof.
  intros H. apply mapM_res_Ok. induction H as [|p ps Hp _ IH]; constructor; [|done].
  unfold subst_pred_or_bug, or_bug. by rewrite subst_predicate_no_param.
Qed.

(** The datum of an opaque type without generic parameters: no item
    variable; under the existential binder, the lowered folded bounds
    and the lowered predicates, which substitution leaves as they are. *)
Lemma opaque_ty_data_nongeneric tcx opaque_ty_id :
  generics_of tcx opaque_ty_id = [] →
  item_wf tcx opaque_ty_id (predicates_defined_on tcx opaque_ty_id) →
  Forall (λ p, predicate_vars_all (wf_pre []) p = true) (explicit_item_bounds tcx opaque_ty_id) →
  opaque_ty_data tcx opaque_ty_id =
  Ok (rust_ir.mkOpaqueTyDatum opaque_ty_id (chalk_ir.mkBinders []
    (rust_ir.mkOpaqueTyDatumBound
      (chalk_ir.mkBinders [chalk_ir.VkTy chalk_ir.General]
        (omap lower_into (fold_predicate (mkReplaceOpaqueTyFolder opaque_ty_id [] INNERMOST) <$>
          explicit_item_bounds tcx opaque_ty_id)))
      (chalk_ir.mkBinders [chalk_ir.VkTy chalk_ir.General]
        (omap lower_into (predicates_defined_on tcx opaque_ty_id)))))).
Proof.
  intros Hg Hwf Hbs. destruct Hwf as (_&_&Hps). rewrite Hg in Hps.
  assert (Hnp : ∀ ps, Forall (λ p, predicate_vars_all (wf_pre []) p = true) ps →
    ∀ s, mapM (subst_pred_or_bug s) ps = Ok ps).
  { intros ps Hps' s. apply subst_preds_no_param. eapply Forall_impl; [exact Hps'|].
    intros p. apply predicate_vars_all_mono, wf_pre_nil_no_param. }
  assert (Hb : bound_vars_for_item tcx opaque_ty_id = Ok []) by (unfold bound_vars_for_item, for_item; by rewrite Hg).
  assert (Hids : identity_for_item tcx opaque_ty_id = Ok []) by (unfold identity_for_item, for_item; by rewrite Hg).
  unfold opaque_ty_data. rewrite Hb. simpl. unfold where_clauses_for. rewrite (Hnp _ Hps). simpl.
  rewrite Hids. simpl. by rewrite (Hnp _ Hbs).
Qed.

(** ** Theorems *)

(** C36: the folder never fires on a generic opaque type.  The bounds
    are substituted before they are folded, so they hold no parameter,
    while the identity substitution the folder looks for does: the
    bounds of the datum are the plain lowering of the substituted
    bounds, and a self-reference [Opaque(def_id, identity)] is never
    replaced by the existential variable. *)
Theorem opaque_ty_data_generic_unfolded (tcx : TyCtxt) (opaque_ty_id : DefId)
    (d : rust_ir.OpaqueTyDatum) :
  generics_of tcx opaque_ty_id ≠ [] →
  const_param_types_closed tcx (generics_of tcx opaque_ty_id) →
  opaque_ty_data tcx opaque_ty_id = Ok d →
  ∃ bv bs, bound_vars_for_item tcx opaque_ty_id = Ok bv ∧
    mapM (subst_pred_or_bug (shift_vars 1 bv)) (explicit_item_bounds tcx opaque_ty_id) = Ok bs ∧
    chalk_ir.value (rust_ir.opaque_bounds (chalk_ir.value (rust_ir.opaque_bound d))) = omap lower_into bs.
Proof.
  intros Hne Hc. unfold opaque_ty_data.
  destruct (bound_vars_for_item tcx opaque_ty_id) as [bv|e] eqn:Hb; simpl; [|done].
  destruct (where_clauses_for tcx opaque_ty_id _) as [wcs|e]; simpl; [|done].
  destruct (identity_for_item_param tcx opaque_ty_id) as (ids&Hids&Hnp);
    [by eapply bound_vars_for_item_Ok_wf|done|]. rewrite Hids. simpl.
  destruct (mapM _ (explicit_item_bounds _ _)) as [bs|e] eqn:Hbs; simpl; [|done].
  intros [= <-]. exists bv, bs. split_and!; [done|done|]. simpl. f_equal.
  pose proof (bound_vars_shifted_no_param tcx opaque_ty_id bv Hc Hb) as Hsnp.
  apply mapM_res_Ok in Hbs. clear -Hbs Hsnp Hnp.
  induction Hbs as [|p b ps bs Hp _ IH]; [done|]. rewrite fmap_cons, IH. f_equal.
  apply fold_predicate_no_param; [done|]. apply (subst_predicate_no_param_result _ p b Hsnp).
  unfold subst_pred_or_bug, or_bug in Hp. destruct (subst_predicate _ p); congruence.
Qed.

Lemma binders_for_shift_identity s a :
  bound_identity s → binders_for (shift_vars a s) = binders_for s.
Proof.
  intros Hid. apply list_eq. intros i. unfold binders_for, shift_vars. rewrite !lookup_map.
  destruct (s !! i) as [x|] eqn:Hi; simpl; [|done]. specialize (Hid i x Hi).
  destruct x as [[| db br| |]|[| | | | | | | | | | | | | | | | | | | |db bt|]|[[|db v|] t]];
    simpl in *; try done; destruct Hid as [-> ?]; done.
Qed.

(** ** The folder keeps a property of the variables its replacement has *)

Section FoldVars.
Context (f : nat → VarOcc → bool) (folder : ReplaceOpaqueTyFolder) (c : nat).
Hypothesis Hrep : f c (VTyBound (binder_index folder) 0) = true.

Lemma fold_ty_vars t : ty_vars_all f c t = true → ty_vars_all f c (fold_ty folder t) = true.
Proof. rewrite fold_ty_replace_self. unfold replace_self. by case_decide. Qed.

Lemma fold_const_vars k : const_vars_all f c k = true → const_vars_all f c (fold_const folder k) = true.
Proof. destruct k as [ck t]. simpl. intros [? ?]%andb_prop. vars_split; [done|by apply fold_ty_vars]. Qed.

Lemma fold_arg_vars a : arg_vars_all f c a = true → arg_vars_all f c (fold_arg folder a) = true.
Proof. destruct a; simpl; auto using fold_ty_vars, fold_const_vars. Qed.

Lemma map_fold_arg_vars xs :
  forallb (arg_vars_all f c) xs = true → forallb (arg_vars_all f c) (map (fold_arg folder) xs) = true.
Proof.
  intros H. apply (forallb_map_Forall _ _ (arg_vars_all f c)); [|exact H].
  apply Forall_forall. intros a _. apply fold_arg_vars.
Qed.

Lemma fold_predicate_kind_vars pk :
  predicate_kind_vars_all f c pk = true →
  predicate_kind_vars_all f c (fold_predicate_kind folder pk) = true.
Proof.
  destruct pk as [[d xs]| | |[xs d] [t|k]| | | | | | | |]; simpl; intros H; vars_split;
    auto using fold_ty_vars, fold_const_vars, fold_arg_vars, map_fold_arg_vars.
Qed.

End FoldVars.

(** The fold keeps a predicate scoped under its own binder when the
    variable it writes is declared there. *)
Lemma fold_predicate_scoped kss folder p :
  bound_post (pred_kinds p :: kss) 0 (VTyBound (S (binder_index folder)) 0) = true →
  predicate_kind_vars_all (bound_post (pred_kinds p :: kss)) 0 (pred_kind p) = true →
  predicate_kind_vars_all (bound_post (pred_kinds (fold_predicate folder p) :: kss)) 0
    (pred_kind (fold_predicate folder p)) = true.
Proof. intros Hrep. destruct p as [bvs pk]. by apply (fold_predicate_kind_vars _ (shift_in folder) 0). Qed.

(** C37: on a well-formed opaque type whose where clauses and bounds
    declare their own late-bound variables and mention only its
    parameters, [opaque_ty_data] succeeds.  The datum binds one
    variable per generic parameter of the item, of the parameter's kind
    (the shift that makes room for the existential variable changes no
    kind); its bounds and its where clauses each sit under a binder of
    one general type variable, the hidden type; and each bound and
    where clause is scoped binder by binder: a variable at the level of
    its own binder is one that binder declares, one level up it is the
    hidden type (only a replaced self-reference can be), two levels up
    a variable of the item binder, each at the kind its binder gives. *)
Theorem opaque_ty_data_closed (tcx : TyCtxt) (opaque_ty_id : DefId) :
  item_wf tcx opaque_ty_id (predicates_defined_on tcx opaque_ty_id) →
  preds_scoped tcx opaque_ty_id (predicates_defined_on tcx opaque_ty_id) = true →
  preds_scoped tcx opaque_ty_id (explicit_item_bounds tcx opaque_ty_id) = true →
  ∃ d, opaque_ty_data tcx opaque_ty_id = Ok d ∧
    chalk_ir.binders (rust_ir.opaque_bound d) =
      map (variable_kind_of_param tcx) (generics_of tcx opaque_ty_id) ∧
    chalk_ir.binders (rust_ir.opaque_bounds (chalk_ir.value (rust_ir.opaque_bound d))) =
      [chalk_ir.VkTy chalk_ir.General] ∧
    chalk_ir.binders (rust_ir.opaque_where_clauses (chalk_ir.value (rust_ir.opaque_bound d))) =
      [chalk_ir.VkTy chalk_ir.General] ∧
    forallb (scope.qwc_scoped [chalk_ir.binders (rust_ir.opaque_bounds (chalk_ir.value (rust_ir.opaque_bound d)));
                               chalk_ir.binders (rust_ir.opaque_bound d)])
      (chalk_ir.value (rust_ir.opaque_bounds (chalk_ir.value (rust_ir.opaque_bound d)))) = true ∧
    forallb (scope.qwc_scoped [chalk_ir.binders (rust_ir.opaque_where_clauses (chalk_ir.value (rust_ir.opaque_bound d)));
                               chalk_ir.binders (rust_ir.opaque_bound d)])
      (chalk_ir.value (rust_ir.opaque_where_clauses (chalk_ir.value (rust_ir.opaque_bound d)))) = true.
Proof.
  intros Hwf Hps Hbs. pose proof Hwf as (Hg&Hc&Hps').
  destruct (bound_vars_for_item_Ok_of_wf tcx _ Hg) as (bv&Hb&_).
  destruct (bound_vars_for_item_identity tcx _ bv Hc Hb) as [Hid Hk].
  pose proof (shift_vars_identity 0 1 bv Hid) as Hid1. pose proof (kinds_match_shift _ 1 _ Hk) as Hk1.
  set (kss := [[chalk_ir.VkTy chalk_ir.General]; binders_for (shift_vars 1 bv)]).
  destruct (lower_preds_total (T := chalk_ir.QuantifiedWhereClause) _ 1 _ _ Hid1 Hk1 Hps') as (wcs&Hw).
  pose proof (where_clauses_for_scoped tcx _ 1 kss _ wcs Hps Hid1 Hk1 eq_refl Hw) as Hwc.
  destruct (identity_for_item_total tcx opaque_ty_id Hg) as (ids&Hids).
  destruct (subst_preds_scoped _ 1 (scope.sorts kss) (shift_vars 1 bv) (explicit_item_bounds tcx opaque_ty_id)
    Hid1 Hk1) as (bs&Hbs'&Hbc);
    [by unfold scope.sorts; rewrite list_lookup_fmap; simpl; rewrite binders_for_sorts|done|].
  unfold opaque_ty_data. rewrite Hb. simpl.
  assert (Hw' : where_clauses_for tcx opaque_ty_id (shift_vars 1 bv) = Ok wcs) by exact Hw.
  rewrite Hw'. simpl. rewrite Hids. simpl. rewrite Hbs'. simpl.
  eexists. split; [done|]. simpl. split_and!; [|done|done| |exact Hwc].
  - rewrite binders_for_shift_identity by done.
    destruct (bound_vars_for_item_Ok_spec tcx opaque_ty_id bv Hb) as [Hlen Hl].
    by apply binders_for_spec.
  - apply forallb_omap, Forall_fmap. eapply Forall_impl; [exact Hbc|]. intros p Hp b Hlow.
    eapply (scope.lower_where_clause_scoped kss); [|exact Hlow]. by apply fold_predicate_scoped.
Qed.

(** The folder does not look inside the types it visits: a
    self-reference under a slice, [[Opq]: Sized], is kept. *)
Example fold_nested_self_kept :
  fold_predicate (mkReplaceOpaqueTyFolder Sample.opq [] INNERMOST)
    (mkPredicate [] (PkTrait (mkTraitRef Sample.sized_did [GaType (Slice (Opaque Sample.opq []))]))) =
  mkPredicate [] (PkTrait (mkTraitRef Sample.sized_did [GaType (Slice (Opaque Sample.opq []))])).
Proof. reflexivity. Qed.

(** ** Witnesses: [type OpqG<T> = impl Sized], whose bound
    [OpqG<T>: Sized] keeps its self-reference [OpqG<^2.0>]. *)

Definition opq_gen_bound_vars : SubstsRef := [GaType (Bound 0 (mkBoundTy 0 (BtParam "T")))].

Definition opq_gen_substituted : list Predicate :=
  [mkPredicate [] (PkTrait (mkTraitRef Sample.sized_did
     [GaType (Opaque Sample.opq_gen [GaType (Bound 2 (mkBoundTy 0 (BtParam "T")))])]))].

Definition opq_gen_datum : rust_ir.OpaqueTyDatum :=
  rust_ir.mkOpaqueTyDatum Sample.opq_gen
    (chalk_ir.mkBinders [chalk_ir.VkTy chalk_ir.General]
       (rust_ir.mkOpaqueTyDatumBound
          (chalk_ir.mkBinders [chalk_ir.VkTy chalk_ir.General]
             [chalk_ir.mkBinders []
                (chalk_ir.Implemented (chalk_ir.mkTraitRef Sample.sized_did
                   [chalk_ir.GaTy (chalk_ir.Alias (chalk_ir.AliasOpaque Sample.opq_gen
                      [chalk_ir.GaTy (chalk_ir.BoundVarTy (chalk_ir.mkBoundVar 2 0))]))]))])
          (chalk_ir.mkBinders [chalk_ir.VkTy chalk_ir.General] []))).

Definition opq_datum : rust_ir.OpaqueTyDatum :=
  rust_ir.mkOpaqueTyDatum Sample.opq
    (chalk_ir.mkBinders []
       (rust_ir.mkOpaqueTyDatumBound
          (chalk_ir.mkBinders [chalk_ir.VkTy chalk_ir.General]
             [chalk_ir.mkBinders []
                (chalk_ir.Implemented (chalk_ir.mkTraitRef Sample.sized_did
                   [chalk_ir.GaTy (chalk_ir.BoundVarTy (chalk_ir.mkBoundVar 1 0))]))])
          (chalk_ir.mkBinders [chalk_ir.VkTy chalk_ir.General] []))).

Lemma opaque_ty_data_generic_unfolded_witness :
  generics_of Sample.tcx Sample.opq_gen ≠ [] ∧
  const_param_types_closed Sample.tcx (generics_of Sample.tcx Sample.opq_gen) ∧
  opaque_ty_data Sample.tcx Sample.opq_gen = Ok opq_gen_datum ∧
  ∃ bv bs, bound_vars_for_item Sample.tcx Sample.opq_gen = Ok bv ∧
    mapM (subst_pred_or_bug (shift_vars 1 bv)) (explicit_item_bounds Sample.tcx Sample.opq_gen) = Ok bs ∧
    chalk_ir.value (rust_ir.opaque_bounds (chalk_ir.value (rust_ir.opaque_bound opq_gen_datum))) =
      omap lower_into bs.
Proof.
  assert (H1 : generics_of Sample.tcx Sample.opq_gen ≠ []) by (vm_compute; discriminate).
  assert (H2 : const_param_types_closed Sample.tcx (generics_of Sample.tcx Sample.opq_gen))
    by (apply const_param_types_closed_check; reflexivity).
  assert (H3 : opaque_ty_data Sample.tcx Sample.opq_gen = Ok opq_gen_datum) by reflexivity.
  split; [exact H1|split; [exact H2|split; [exact H3|exact (opaque_ty_data_generic_unfolded _ _ _ H1 H2 H3)]]].
Defined.

(** On [type Opq = impl Sized], whose bound [Opq: Sized] is folded to
    [Implemented(Sized, ^1.0)]: the hidden type. *)
Lemma opaque_ty_data_closed_witness :
  item_wf Sample.tcx Sample.opq (predicates_defined_on Sample.tcx Sample.opq) ∧
  preds_scoped Sample.tcx Sample.opq (predicates_defined_on Sample.tcx Sample.opq) = true ∧
  preds_scoped Sample.tcx Sample.opq (explicit_item_bounds Sample.tcx Sample.opq) = true ∧
  opaque_ty_data Sample.tcx Sample.opq = Ok opq_datum ∧
  ∃ d, opaque_ty_data Sample.tcx Sample.opq = Ok d ∧
    chalk_ir.binders (rust_ir.opaque_bound d) =
      map (variable_kind_of_param Sample.tcx) (generics_of Sample.tcx Sample.opq) ∧
    chalk_ir.binders (rust_ir.opaque_bounds (chalk_ir.value (rust_ir.opaque_bound d))) =
      [chalk_ir.VkTy chalk_ir.General] ∧
    chalk_ir.binders (rust_ir.opaque_where_clauses (chalk_ir.value (rust_ir.opaque_bound d))) =
      [chalk_ir.VkTy chalk_ir.General] ∧
    forallb (scope.qwc_scoped [chalk_ir.binders (rust_ir.opaque_bounds (chalk_ir.value (rust_ir.opaque_bound d)));
                               chalk_ir.binders (rust_ir.opaque_bound d)])
      (chalk_ir.value (rust_ir.opaque_bounds (chalk_ir.value (rust_ir.opaque_bound d)))) = true ∧
    forallb (scope.qwc_scoped [chalk_ir.binders (rust_ir.opaque_where_clauses (chalk_ir.value (rust_ir.opaque_bound d)));
                               chalk_ir.binders (rust_ir.opaque_bound d)])
      (chalk_ir.value (rust_ir.opaque_where_clauses (chalk_ir.value (rust_ir.opaque_bound d)))) = true.
Proof.
  assert (H1 : item_wf Sample.tcx Sample.opq (predicates_defined_on Sample.tcx Sample.opq))
    by (apply item_wf_check; reflexivity).
  assert (H2 : preds_scoped Sample.tcx Sample.opq (predicates_defined_on Sample.tcx Sample.opq) = true)
    by reflexivity.
  assert (H3 : preds_scoped Sample.tcx Sample.opq (explicit_item_bounds Sample.tcx Sample.opq) = true)
    by reflexivity.
  split_and!; [exact H1|exact H2|exact H3|reflexivity|exact (opaque_ty_data_closed _ _ H1 H2 H3)].
Defined.
