(* ===== verification/Instantiate.v ===== *)
(** * Instantiating a datum: Chalk's substitution against rustc's

    The solver never uses a datum's binder as it is: it instantiates it
    with the parameters of its goal ([Binders::substitute], modelled in
    [ChalkSubst.cfold]).  rustc answers the same question directly, by
    substituting the goal's arguments into the item's declared types
    ([field.ty(tcx, args)], [EarlyBinder::subst]).  This file shows that
    the datums [db.rs] builds make the two agree: instantiating the
    datum with the lowered arguments gives the lowering of rustc's own
    substitution.  This is the refinement the binder encoding of
    [bound_vars_for_item] and [binders_for] exists for, stated on the
    builders of [Datums.v] and [FnDefDatum.v]: the fields of an ADT, the
    where clauses of every item, the trait reference of an impl, the
    signature of a function, the bounds of an associated type and the
    type of an associated-type value.  Predicates go through rustc's
    substitution and the lossy lowering on one side, through the
    lowering and Chalk's substitution on the other: a predicate is kept
    on both sides or dropped on both ([predicate_instantiate]), which
    needs rustc's substitution of the arguments to succeed
    ([HostTy.ty.subst_predicate_total]). *)

From S2P Require Import Prelude HostTy ChalkIr Lowering ChalkScope ChalkSubst TyCtxt.
From S2P Require Import BoundVars WhereClauses Datums FnDefDatum OpaqueTy.
Import ty.

Section Instantiate.
Context (tcx : TyCtxt).

(** The arguments of a goal: one per parameter of the item, of its
    kind, and constants whose types mention no variable (the types of
    const parameters are closed, [const_param_types_closed]). *)
Definition args_ok (g : list GenericParamDef) (args : SubstsRef) : Prop :=
  kinds_match g args ∧ forallb const_tys_closed_arg args = true.

Lemma args_ok_kinds g s args :
  kinds_match g s → args_ok g args → arg_kind <$> s = arg_kind <$> args.
Proof. intros Hs [Ha _]. by rewrite (kinds_match_kinds g s Hs), (kinds_match_kinds g args Ha). Qed.

(** One list of fields, substituted under the item's bound variables
    and lowered, then instantiated by Chalk. *)
Lemma fields_instantiate g s args fs cts :
  bound_identity s → kinds_match g s → args_ok g args →
  forallb (λ f, ty_vars_all (wf_pre g) 0 (type_of tcx (field_did f))) fs = true →
  mapM (λ field, lower_into <$> field_ty tcx field s) fs = Ok cts →
  mapM (cfold.subst_ty (map lower_arg args) 0) cts =
  map lower_ty <$> mapM (λ f, subst_ty args 0 (type_of tcx (field_did f))) fs.
Proof.
  intros Hid Hk Ha Hfs Hm%mapM_res_Ok. rewrite <-mapM_fmap_out. apply mapM_Forall2_eq.
  induction Hm as [|f ct fs cts Hf _ IH]; simpl in *; constructor.
  - apply andb_prop in Hfs as [Hw _]. unfold field_ty, subst_ty_or_bug, or_bug in Hf.
    destruct (subst_ty s 0 (type_of tcx (field_did f))) as [t'|] eqn:Ht; simpl in Hf; [|done].
    injection Hf as <-. apply (lower_subst_ty s); try done.
    + by apply (args_ok_kinds g).
    + apply Ha.
    + refine (ty_vars_all_mono _ _ _ _ _ Hw). intros ?? [??]%andb_prop. done.
  - apply IH. by apply andb_prop in Hfs as [_ ?].
Qed.

(** A where clause of the item: instantiating its lowering is lowering
    rustc's substitution of the arguments, and a predicate the lowering
    drops is dropped on both sides (rustc's substitution of it does
    not fail). *)
Lemma predicate_instantiate g s args p p' :
  bound_identity s → kinds_match g s → args_ok g args →
  predicate_vars_all (wf_pre g) p = true → subst_predicate s p = Some p' →
  match (lower_into p' : option chalk_ir.QuantifiedWhereClause) with
  | Some w => Some <$> cfold.subst_qwc (map lower_arg args) 0 w
  | None => Some None
  end = (lower_into : Predicate → option chalk_ir.QuantifiedWhereClause) <$> subst_predicate args p.
Proof.
  intros Hid Hk Ha Hp Hs. pose proof (args_ok_kinds g s args Hk Ha) as Hkd.
  destruct (subst_predicate_total g args (proj1 Ha) p) as [q Hq].
  { refine (predicate_vars_all_mono _ _ _ _ Hp). by intros ?? [??]%andb_prop. }
  assert (Hb : predicate_vars_all (bound_below 0) p = true).
  { refine (predicate_vars_all_mono _ _ _ _ Hp). by intros ?? [??]%andb_prop. }
  clear Hp. destruct p as [bvs pk]. unfold predicate_vars_all, subst_predicate in *. simpl in *.
  destruct pk as [[d xs]| | |[xs d] []| | | | | | | |]; simpl in *; vars_split;
    unfold subst_trait_ref, subst_term, subst_substs in *;
    repeat match type of Hs with
    | context [mapM (subst_arg s 1) ?xs] => destruct (mapM (subst_arg s 1) xs) eqn:?; simpl in Hs
    | context [subst_ty s 1 ?t] => destruct (subst_ty s 1 t) eqn:?; simpl in Hs
    | context [subst_region s 1 ?r] => destruct (subst_region s 1 r) eqn:?; simpl in Hs
    | context [subst_const s 1 ?k] => destruct (subst_const s 1 k) eqn:?; simpl in Hs
    | context [subst_arg s 1 ?a] => destruct (subst_arg s 1 a) eqn:?; simpl in Hs
    end; simplify_eq; simpl in *; unfold cfold.subst_qwc; simpl;
    repeat match goal with
    | H : mapM (subst_arg s 1) ?xs = Some ?ys |- _ =>
        change (lower_into ys : list chalk_ir.GenericArg) with (map lower_arg ys); rewrite (lower_subst_args_Some s args Hid Hkd (proj2 Ha) 1 xs ys) by done; clear H
    | H : subst_ty s 1 ?t = Some ?t' |- _ =>
        change (lower_into t' : chalk_ir.Ty) with (lower_ty t'); rewrite (lower_subst_ty_Some s args Hid Hkd (proj2 Ha) 1 t t') by done; clear H
    | H : subst_region s 1 ?r = Some ?r' |- _ =>
        rewrite (lower_subst_region_Some s args Hid Hkd (proj2 Ha) 1 r r') by done; clear H
    end;
    repeat match goal with
    | |- context [mapM (subst_arg args 1) ?xs] => destruct (mapM (subst_arg args 1) xs)
    | |- context [subst_ty args 1 ?t] => destruct (subst_ty args 1 t)
    | |- context [subst_region args 1 ?r] => destruct (subst_region args 1 r)
    | |- context [subst_const args 1 ?k] => destruct (subst_const args 1 k)
    | |- context [subst_arg args 1 ?a] => destruct (subst_arg args 1 a)
    end; simpl in *; try done.
Qed.

(** The trait and projection bounds drop the self type: the substituted
    arguments without their first one are the substitution of the
    arguments without their first one. *)
Ltac inst_drop :=
  match goal with
  | Hid : bound_identity ?sv, Hkd : arg_kind <$> ?sv = arg_kind <$> ?av, Ha : args_ok _ ?av,
    H : mapM (subst_arg ?sv 1) ?xs = Some _, Hb : forallb _ ?xs = true |- _ =>
      let Hd := fresh "Hd" in
      pose proof (mapM_drop_Some _ 1 _ _ H) as Hd; simpl in Hd; rewrite ?drop_0 in Hd;
      lazymatch type of Hd with
      | mapM _ _ = Some ?ys => change (@lower_into _ _ lower_substs ys) with (map lower_arg ys)
      end;
      rewrite (lower_subst_args_Some sv av Hid Hkd (proj2 Ha) 1 _ _ (forallb_drop _ 1 _ Hb) Hd)
  end.

Ltac inst_ty :=
  match goal with
  | Hid : bound_identity ?sv, Hkd : arg_kind <$> ?sv = arg_kind <$> ?av, Ha : args_ok _ ?av,
    H : subst_ty ?sv 1 ?t = Some ?t', Hb : ty_vars_all _ 1 ?t = true |- _ =>
      change (@lower_into _ _ lower_ty_inst t') with (lower_ty t');
      rewrite (lower_subst_ty_Some sv av Hid Hkd (proj2 Ha) 1 t t' Hb H)
  end.

(** The arguments substituted on rustc's side: as many as on the
    bound-variable side, and without their first one, the substitution
    of the arguments without their first one. *)
Ltac inst_args :=
  match goal with
  | Ha : args_ok _ ?av, Hs : mapM (subst_arg ?sv 1) ?xs = Some ?l
    |- context [mapM (subst_arg ?av 1) (drop 1 ?xs)] =>
      let zs := fresh "zs" in let Hz := fresh "Hz" in
      destruct (mapM (subst_arg av 1) xs) as [zs|] eqn:Hz;
      [rewrite (mapM_drop_Some _ 1 _ _ Hz);
       pose proof (Forall2_length _ _ _ (mapM_Some_1 _ _ _ Hs));
       pose proof (Forall2_length _ _ _ (mapM_Some_1 _ _ _ Hz));
       destruct zs; simpl in *; rewrite ?drop_0; try lia|]
  end.

(** The remaining substitutions of the arguments, case by case. *)
Ltac inst_rest :=
  match goal with Ha : args_ok _ ?av |- _ =>
    repeat match goal with
    | |- context [subst_ty av 1 ?t] => destruct (subst_ty av 1 t)
    | |- context [subst_region av 1 ?r] => destruct (subst_region av 1 r)
    | |- context [subst_const av 1 ?k] => destruct (subst_const av 1 k)
    | |- context [subst_arg av 1 ?a] => destruct (subst_arg av 1 a)
    | |- context [mapM (subst_arg av 1) ?xs] => destruct (mapM (subst_arg av 1) xs) eqn:?
    end
  end; simpl in *; try done;
  try match goal with
  | H1 : mapM _ ?xs = Some [], H2 : mapM _ ?xs = Some ?b |- _ =>
      apply mapM_Some_1, Forall2_length in H1; apply mapM_Some_1, Forall2_length in H2;
      destruct b; simpl in *; [reflexivity|lia]
  end.

Lemma predicate_instantiate_bound g s args p p' :
  bound_identity s → kinds_match g s → args_ok g args →
  predicate_vars_all (wf_pre g) p = true → subst_predicate s p = Some p' →
  match (lower_into p' : option rust_ir.QuantifiedInlineBound) with
  | Some w => Some <$> cfold.subst_qib (map lower_arg args) 0 w
  | None => Some None
  end = (lower_into : Predicate → option rust_ir.QuantifiedInlineBound) <$> subst_predicate args p.
Proof.
  intros Hid Hk Ha Hp Hs. pose proof (args_ok_kinds g s args Hk Ha) as Hkd.
  destruct (subst_predicate_total g args (proj1 Ha) p) as [q Hq].
  { refine (predicate_vars_all_mono _ _ _ _ Hp). by intros ?? [??]%andb_prop. }
  assert (Hb : predicate_vars_all (bound_below 0) p = true).
  { refine (predicate_vars_all_mono _ _ _ _ Hp). by intros ?? [??]%andb_prop. }
  clear Hp. destruct p as [bvs pk]. unfold predicate_vars_all, subst_predicate in *. simpl in *.
  destruct pk as [[d xs]| | |[xs d] []| | | | | | | |]; simpl in *; vars_split;
    unfold subst_trait_ref, subst_term, subst_substs in *;
    repeat match type of Hs with
    | context [mapM (subst_arg s 1) ?xs] => destruct (mapM (subst_arg s 1) xs) eqn:?; simpl in Hs
    | context [subst_ty s 1 ?t] => destruct (subst_ty s 1 t) eqn:?; simpl in Hs
    | context [subst_region s 1 ?r] => destruct (subst_region s 1 r) eqn:?; simpl in Hs
    | context [subst_const s 1 ?k] => destruct (subst_const s 1 k) eqn:?; simpl in Hs
    | context [subst_arg s 1 ?a] => destruct (subst_arg s 1 a) eqn:?; simpl in Hs
    end; simplify_eq; simpl in *; unfold cfold.subst_qib; simpl.
  4: destruct l as [|y l']; simpl.
  1,5: inst_drop.
  all: try inst_ty; try inst_args; inst_rest.
Qed.

(** The where clauses [where_clauses_for] builds for the item,
    instantiated by Chalk: the [filter_map] of the lowering over rustc's
    substitution of the arguments into the item's predicates. *)
Lemma where_clauses_instantiate g s args def_id wcs :
  bound_identity s → kinds_match g s → args_ok g args →
  Forall (λ p, predicate_vars_all (wf_pre g) p = true) (predicates_defined_on tcx def_id) →
  where_clauses_for tcx def_id s = Ok wcs →
  mapM (cfold.subst_qwc (map lower_arg args) 0) wcs =
  omap lower_into <$> mapM (subst_predicate args) (predicates_defined_on tcx def_id).
Proof.
  intros Hid Hk Ha Hps (ps'&Hs&->)%(where_clauses_for_spec tcx). apply mapM_omap.
  apply (Forall2_Forall_impl _ _ _ _ _ Hs Hps). intros p p' Hp Hwf.
  by apply (predicate_instantiate g s).
Qed.

(** The bounds [bounds_for] builds for an associated type, instantiated
    by Chalk: the [filter_map] of the inline-bound lowering over rustc's
    substitution of the arguments into the item's bounds. *)
Lemma bounds_instantiate g s args def_id bs :
  bound_identity s → kinds_match g s → args_ok g args →
  Forall (λ p, predicate_vars_all (wf_pre g) p = true) (explicit_item_bounds tcx def_id) →
  bounds_for tcx (T := rust_ir.QuantifiedInlineBound) def_id s = Ok bs →
  mapM (cfold.subst_qib (map lower_arg args) 0) bs =
  omap lower_into <$> mapM (subst_predicate args) (explicit_item_bounds tcx def_id).
Proof.
  intros Hid Hk Ha Hps (ps'&Hs&->)%lower_preds_Ok. apply mapM_omap.
  apply (Forall2_Forall_impl _ _ _ _ _ Hs Hps). intros p p' Hp Hwf.
  by apply (predicate_instantiate_bound g s).
Qed.

(** The variants of a well-formed ADT: built, and each instantiates
    like its fields' declared types. *)
Lemma variants_instantiate g s args vs :
  bound_identity s → kinds_match g s → args_ok g args →
  forallb (λ v, forallb (λ f, ty_vars_all (wf_pre g) 0 (type_of tcx (field_did f)))
    (variant_fields v)) vs = true →
  ∃ ds, mapM (λ variant,
      fields ← mapM (λ field, lower_into <$> field_ty tcx field s) (variant_fields variant);
      Ok (rust_ir.mkAdtVariantDatum fields)) vs = Ok ds ∧
    Forall2 (λ v d, mapM (cfold.subst_ty (map lower_arg args) 0) (rust_ir.fields d) =
      map lower_ty <$> mapM (λ f, subst_ty args 0 (type_of tcx (field_did f))) (variant_fields v))
      vs ds.
Proof.
  intros Hid Hk Ha. induction vs as [|v vs IH]; simpl; intros Hf; [by exists []|].
  apply andb_prop in Hf as [Hv Hvs]. destruct (IH Hvs) as (ds&Hds&Hall).
  destruct (adt_fields_closed tcx g s _ Hid Hk Hv) as (cts&Hcts&_&_).
  rewrite Hcts. simpl. rewrite Hds. simpl. eexists. split; [done|].
  constructor; [|done]. simpl. by eapply fields_instantiate.
Qed.

(** C19: refinement of the ADT datum.  On a well-formed ADT, and
    arguments of the goal that have the kinds of its parameters,
    instantiating the fields of [adt_datum] with the lowered arguments
    (Chalk's [Binders::substitute]) gives, variant by variant and field
    by field, the lowering of rustc's own [field.ty(tcx, args)]: the
    datum describes the same field types as rustc. *)
Theorem adt_datum_instantiate (adt_def : AdtDef) (args : SubstsRef) :
  item_wf tcx (adt_did adt_def) (predicates_defined_on tcx (adt_did adt_def)) →
  fields_wf tcx adt_def = true →
  args_ok (generics_of tcx (adt_did adt_def)) args →
  ∃ d, adt_datum tcx adt_def = Ok d ∧
    mapM (λ v, mapM (cfold.subst_ty (map lower_arg args) 0) (rust_ir.fields v))
      (rust_ir.variants (chalk_ir.value (rust_ir.adt_binders d))) =
    map (map lower_ty) <$>
      mapM (λ v, mapM (λ f, subst_ty args 0 (type_of tcx (field_did f))) (variant_fields v))
        (adt_variants adt_def).
Proof.
  intros (s&wcs&Hs&Hw&_&_&Hid&Hk&_)%(item_skeleton tcx) Hf Ha. unfold fields_wf in Hf.
  destruct (variants_instantiate _ s args _ Hid Hk Ha Hf) as (ds&Hds&Hall).
  unfold adt_datum. rewrite Hs. simpl. rewrite Hw. simpl. rewrite Hds. simpl.
  eexists. split; [done|]. simpl. rewrite <-mapM_fmap_out. by apply mapM_Forall2_eq.
Qed.

(** C20: refinement of the trait datum.  On a well-formed trait, and
    arguments of the goal of the kinds of its parameters, instantiating
    the where clauses of [trait_datum] with the lowered arguments gives
    the where-clause lowering of rustc's own substitution of those
    arguments into the trait's predicates, in the same order, the
    predicates Chalk cannot express dropped from both. *)
Theorem trait_datum_instantiate (trait_id : DefId) (args : SubstsRef) :
  item_wf tcx trait_id (predicates_defined_on tcx trait_id) →
  args_ok (generics_of tcx trait_id) args →
  ∃ d, trait_datum tcx trait_id = Ok d ∧
    mapM (cfold.subst_qwc (map lower_arg args) 0)
      (rust_ir.trait_where_clauses (chalk_ir.value (rust_ir.trait_binders d))) =
    omap (lower_into : Predicate → option chalk_ir.QuantifiedWhereClause) <$>
      mapM (subst_predicate args) (predicates_defined_on tcx trait_id).
Proof.
  intros Hwf Ha. pose proof Hwf as (_&_&Hps).
  destruct (item_skeleton tcx _ Hwf) as (s&wcs&Hs&Hw&_&_&Hid&Hk&_).
  unfold trait_datum. rewrite Hs. simpl. rewrite Hw. simpl. eexists. split; [done|].
  by eapply where_clauses_instantiate.
Qed.

(** C21: refinement of the impl datum.  On a well-formed impl whose
    trait reference mentions only its parameters, instantiating
    [impl_datum] with the lowered arguments gives the lowering of
    rustc's [impl_trait_ref(impl).subst(args)] as its trait reference,
    and the where-clause lowering of the impl's predicates substituted
    with [args] as its where clauses. *)
Theorem impl_datum_instantiate (impl_id : DefId) (tr : TraitRef) (args : SubstsRef) :
  item_wf tcx impl_id (predicates_defined_on tcx impl_id) →
  impl_trait_ref tcx impl_id = Some tr →
  forallb (arg_vars_all (wf_pre (generics_of tcx impl_id)) 0) (tr_substs tr) = true →
  args_ok (generics_of tcx impl_id) args →
  ∃ d, impl_datum tcx impl_id = Ok d ∧
    mapM (cfold.subst_arg (map lower_arg args) 0)
      (chalk_ir.tr_substitution (rust_ir.impl_trait_ref (chalk_ir.value (rust_ir.impl_binders d)))) =
    map lower_arg <$> mapM (subst_arg args 0) (tr_substs tr) ∧
    mapM (cfold.subst_qwc (map lower_arg args) 0)
      (rust_ir.impl_where_clauses (chalk_ir.value (rust_ir.impl_binders d))) =
    omap (lower_into : Predicate → option chalk_ir.QuantifiedWhereClause) <$>
      mapM (subst_predicate args) (predicates_defined_on tcx impl_id).
Proof.
  intros Hwf Htr Hargs Ha. pose proof Hwf as (_&_&Hps).
  destruct (item_skeleton tcx _ Hwf) as (s&wcs&Hs&Hw&_&_&Hid&Hk&_).
  destruct (subst_substs_bound_identity _ s 0 [arg_kind <$> s] Hid Hk eq_refl 0 _ Hargs)
    as (xs'&Hxs&_).
  unfold impl_datum. rewrite Hs. simpl. rewrite Htr. simpl.
  unfold subst_trait_ref. rewrite Hxs. simpl. rewrite Hw. simpl. eexists. split; [done|].
  split; [|by eapply where_clauses_instantiate].
  apply (lower_subst_args_Some s args Hid (args_ok_kinds _ _ _ Hk Ha) (proj2 Ha)); [|done].
  refine (forallb_Forall_impl _ _ _ _ Hargs). apply Forall_forall. intros a _.
  apply vars_all_mono_mut. by intros ?? [??]%andb_prop.
Qed.

(** C22: refinement of the function datum.  On a well-formed function
    item with a non-empty signature, instantiating the outer binder of
    [fn_def_datum] with the lowered arguments (one binder deep, under
    the signature's own binder) gives, for the argument types followed
    by the return type, the lowering of rustc's
    [fn_sig(def).subst(args)], and for the where clauses the lowering
    of the item's predicates substituted with [args]. *)
Theorem fn_def_datum_instantiate (fn_def_id : DefId) (args : SubstsRef) :
  item_wf tcx fn_def_id (predicates_defined_on tcx fn_def_id) →
  forallb (ty_vars_all (wf_pre (generics_of tcx fn_def_id)) 1)
    (sig_inputs_and_output (fn_sig tcx fn_def_id)) = true →
  sig_inputs_and_output (fn_sig tcx fn_def_id) ≠ [] →
  args_ok (generics_of tcx fn_def_id) args →
  ∃ d, fn_def_datum tcx fn_def_id = Ok d ∧
    mapM (cfold.subst_ty (map lower_arg args) 1)
      (rust_ir.argument_types (chalk_ir.value (rust_ir.inputs_and_output (chalk_ir.value (rust_ir.fn_binders d))))
       ++ [rust_ir.return_type (chalk_ir.value (rust_ir.inputs_and_output (chalk_ir.value (rust_ir.fn_binders d))))]) =
    map lower_ty <$> mapM (subst_ty args 1) (sig_inputs_and_output (fn_sig tcx fn_def_id)) ∧
    mapM (cfold.subst_qwc (map lower_arg args) 0)
      (rust_ir.fn_where_clauses (chalk_ir.value (rust_ir.fn_binders d))) =
    omap (lower_into : Predicate → option chalk_ir.QuantifiedWhereClause) <$>
      mapM (subst_predicate args) (predicates_defined_on tcx fn_def_id).
Proof.
  intros Hwf Hsig Hne Ha. pose proof Hwf as (_&_&Hps).
  destruct (item_skeleton tcx _ Hwf) as (s&wcs&Hs&Hw&_&_&Hid&Hk&_).
  destruct (sig_subst_closed _ s _ Hid Hk Hsig) as (io&Hio&Hioc).
  destruct io as [|t0 io] using rev_ind.
  { apply mapM_Some_1, Forall2_length in Hio. by destruct (sig_inputs_and_output _). }
  clear IHio. rewrite (fn_def_datum_eq tcx _ s wcs io t0 Hs Hw Hio Hioc).
  eexists. split; [done|]. simpl. split; [|by eapply where_clauses_instantiate].
  replace (_ ++ [_]) with (map lower_ty (io ++ [t0])) by (rewrite map_app; reflexivity).
  apply (lower_subst_tys_Some s args Hid (args_ok_kinds _ _ _ Hk Ha) (proj2 Ha)); [|done].
  refine (forallb_Forall_impl _ _ _ _ Hsig). apply Forall_forall. intros t _.
  apply ty_vars_all_mono. by intros ?? [??]%andb_prop.
Qed.

(** C24: refinement of the value of an associated type: instantiated with
    the lowered arguments of the impl, the type of
    [associated_ty_value] is the lowering of rustc's
    [type_of(value).subst(args)]. *)
Theorem associated_ty_value_instantiate (associated_ty_id trait_item_id : DefId) (args : SubstsRef) :
  assoc_kind (associated_item tcx associated_ty_id) = AssocType →
  trait_item_def_id (associated_item tcx associated_ty_id) = Some trait_item_id →
  generics_wf (generics_of tcx associated_ty_id) →
  const_param_types_closed tcx (generics_of tcx associated_ty_id) →
  ty_vars_all (wf_pre (generics_of tcx associated_ty_id)) 0 (type_of tcx associated_ty_id) = true →
  args_ok (generics_of tcx associated_ty_id) args →
  ∃ v, associated_ty_value tcx associated_ty_id = Ok v ∧
    cfold.subst_ty (map lower_arg args) 0 (rust_ir.assoc_value_ty (chalk_ir.value (rust_ir.assoc_value v))) =
    lower_ty <$> subst_ty args 0 (type_of tcx associated_ty_id).
Proof.
  intros Hkind Htid Hg Hcl Ht Ha.
  destruct (bound_vars_for_item_Ok_of_wf tcx associated_ty_id Hg) as (s&Hs&_&_).
  destruct (bound_vars_for_item_identity tcx associated_ty_id s Hcl Hs) as [Hid Hk].
  destruct (subst_ty_bound_identity _ s 0 [arg_kind <$> s] Hid Hk eq_refl 0 _ Ht) as (t'&Ht'&_).
  unfold associated_ty_value. rewrite Hkind, Htid. simpl. rewrite Hs. simpl.
  unfold subst_ty_or_bug, or_bug. rewrite Ht'. simpl. eexists. split; [done|]. simpl.
  apply (lower_subst_ty_Some s args Hid (args_ok_kinds _ _ _ Hk Ha) (proj2 Ha)); [|done].
  refine (ty_vars_all_mono _ _ _ _ _ Ht). by intros ?? [??]%andb_prop.
Qed.

(** C23: refinement of the associated type datum.  On an associated type of
    a trait whose item and bounds are well formed, instantiating
    [associated_ty_data] with the lowered arguments gives, for its
    bounds, the inline-bound lowering of rustc's substitution of the
    arguments into [explicit_item_bounds], and for its where clauses the
    lowering of the substituted predicates; in order, the predicates
    Chalk cannot express dropped on both sides. *)
Theorem associated_ty_data_instantiate (assoc_type_id trait_def_id : DefId) (args : SubstsRef) :
  trait_container (associated_item tcx assoc_type_id) = Some trait_def_id →
  assoc_kind (associated_item tcx assoc_type_id) = AssocType →
  item_wf tcx assoc_type_id (predicates_defined_on tcx assoc_type_id) →
  Forall (λ p, predicate_vars_all (wf_pre (generics_of tcx assoc_type_id)) p = true)
    (explicit_item_bounds tcx assoc_type_id) →
  args_ok (generics_of tcx assoc_type_id) args →
  ∃ d, associated_ty_data tcx assoc_type_id = Ok d ∧
    mapM (cfold.subst_qib (map lower_arg args) 0)
      (rust_ir.assoc_bounds (chalk_ir.value (rust_ir.assoc_binders d))) =
    omap (lower_into : Predicate → option rust_ir.QuantifiedInlineBound) <$>
      mapM (subst_predicate args) (explicit_item_bounds tcx assoc_type_id) ∧
    mapM (cfold.subst_qwc (map lower_arg args) 0)
      (rust_ir.assoc_where_clauses (chalk_ir.value (rust_ir.assoc_binders d))) =
    omap (lower_into : Predicate → option chalk_ir.QuantifiedWhereClause) <$>
      mapM (subst_predicate args) (predicates_defined_on tcx assoc_type_id).
Proof.
  intros Hcont Hkind Hwf Hbs Ha. pose proof Hwf as (_&_&Hps).
  destruct (item_skeleton tcx _ Hwf) as (s&wcs&Hs&Hw&_&_&Hid&Hk&_).
  destruct (lower_preds_total (T := rust_ir.QuantifiedInlineBound) _ _ _ _ Hid Hk Hbs) as (bs&Hbnd).
  assert (Hb' : bounds_for tcx (T := rust_ir.QuantifiedInlineBound) assoc_type_id s = Ok bs)
    by exact Hbnd.
  unfold associated_ty_data. rewrite Hcont, Hkind, Hs. simpl. rewrite Hw. simpl. rewrite Hb'.
  simpl. eexists. split; [done|]. simpl.
  split; [by eapply bounds_instantiate|by eapply where_clauses_instantiate].
Qed.

End Instantiate.

(** ** Witnesses on the sample crate *)

(** [Pair<[u32]>]: both fields instantiate to [[u32]]. *)
Lemma adt_datum_instantiate_witness :
  item_wf Sample.tcx Sample.pair_did (predicates_defined_on Sample.tcx Sample.pair_did) ∧
  fields_wf Sample.tcx Sample.pair_adt = true ∧
  args_ok (generics_of Sample.tcx Sample.pair_did) [GaType (Slice (Uint U32))] ∧
  ∃ d, adt_datum Sample.tcx Sample.pair_adt = Ok d ∧
    mapM (λ v, mapM (cfold.subst_ty (map lower_arg [GaType (Slice (Uint U32))]) 0) (rust_ir.fields v))
      (rust_ir.variants (chalk_ir.value (rust_ir.adt_binders d))) =
    map (map lower_ty) <$>
      mapM (λ v, mapM (λ f, subst_ty [GaType (Slice (Uint U32))] 0 (type_of Sample.tcx (field_did f)))
        (variant_fields v)) (adt_variants Sample.pair_adt).
Proof.
  assert (H : item_wf Sample.tcx Sample.pair_did (predicates_defined_on Sample.tcx Sample.pair_did))
    by (apply item_wf_check; reflexivity).
  assert (Hf : fields_wf Sample.tcx Sample.pair_adt = true) by reflexivity.
  assert (Ha : args_ok (generics_of Sample.tcx Sample.pair_did) [GaType (Slice (Uint U32))])
    by (split; [repeat constructor|reflexivity]).
  split_and!; [exact H|exact Hf|exact Ha|exact (adt_datum_instantiate Sample.tcx Sample.pair_adt _ H Hf Ha)].
Defined.

(** [Tr<&str, u32>]: the where clause [T: Sized] instantiates to
    [u32: Sized]. *)
Lemma trait_datum_instantiate_witness :
  item_wf Sample.tcx Sample.tr_did (predicates_defined_on Sample.tcx Sample.tr_did) ∧
  args_ok (generics_of Sample.tcx Sample.tr_did) [GaType Str; GaType (Uint U32)] ∧
  ∃ d, trait_datum Sample.tcx Sample.tr_did = Ok d ∧
    mapM (cfold.subst_qwc (map lower_arg [GaType Str; GaType (Uint U32)]) 0)
      (rust_ir.trait_where_clauses (chalk_ir.value (rust_ir.trait_binders d))) =
    omap (lower_into : Predicate → option chalk_ir.QuantifiedWhereClause) <$>
      mapM (subst_predicate [GaType Str; GaType (Uint U32)])
        (predicates_defined_on Sample.tcx Sample.tr_did).
Proof.
  assert (H : item_wf Sample.tcx Sample.tr_did (predicates_defined_on Sample.tcx Sample.tr_did))
    by (apply item_wf_check; reflexivity).
  assert (Ha : args_ok (generics_of Sample.tcx Sample.tr_did) [GaType Str; GaType (Uint U32)])
    by (split; [repeat constructor|reflexivity]).
  split_and!; [exact H|exact Ha|exact (trait_datum_instantiate Sample.tcx Sample.tr_did _ H Ha)].
Defined.

(** [impl<T> Tr<T> for Pair<T>] at [T = u32]: the trait reference
    instantiates to [Tr<u32> for Pair<u32>]. *)
Lemma impl_datum_instantiate_witness :
  item_wf Sample.tcx Sample.tr_impl (predicates_defined_on Sample.tcx Sample.tr_impl) ∧
  impl_trait_ref Sample.tcx Sample.tr_impl = Some Sample.tr_impl_trait_ref ∧
  forallb (arg_vars_all (wf_pre (generics_of Sample.tcx Sample.tr_impl)) 0)
    (tr_substs Sample.tr_impl_trait_ref) = true ∧
  args_ok (generics_of Sample.tcx Sample.tr_impl) [GaType (Uint U32)] ∧
  ∃ d, impl_datum Sample.tcx Sample.tr_impl = Ok d ∧
    mapM (cfold.subst_arg (map lower_arg [GaType (Uint U32)]) 0)
      (chalk_ir.tr_substitution (rust_ir.impl_trait_ref (chalk_ir.value (rust_ir.impl_binders d)))) =
    map lower_arg <$> mapM (subst_arg [GaType (Uint U32)] 0) (tr_substs Sample.tr_impl_trait_ref) ∧
    mapM (cfold.subst_qwc (map lower_arg [GaType (Uint U32)]) 0)
      (rust_ir.impl_where_clauses (chalk_ir.value (rust_ir.impl_binders d))) =
    omap (lower_into : Predicate → option chalk_ir.QuantifiedWhereClause) <$>
      mapM (subst_predicate [GaType (Uint U32)]) (predicates_defined_on Sample.tcx Sample.tr_impl).
Proof.
  assert (H : item_wf Sample.tcx Sample.tr_impl (predicates_defined_on Sample.tcx Sample.tr_impl))
    by (apply item_wf_check; reflexivity).
  assert (Ht : impl_trait_ref Sample.tcx Sample.tr_impl = Some Sample.tr_impl_trait_ref)
    by reflexivity.
  assert (Hs : forallb (arg_vars_all (wf_pre (generics_of Sample.tcx Sample.tr_impl)) 0)
    (tr_substs Sample.tr_impl_trait_ref) = true) by reflexivity.
  assert (Ha : args_ok (generics_of Sample.tcx Sample.tr_impl) [GaType (Uint U32)])
    by (split; [repeat constructor|reflexivity]).
  split_and!; [exact H|exact Ht|exact Hs|exact Ha|
    exact (impl_datum_instantiate Sample.tcx Sample.tr_impl _ _ H Ht Hs Ha)].
Defined.

(** [fn id<T>(x: T) -> T] at [T = bool]: [bool -> bool]. *)
Lemma fn_def_datum_instantiate_witness :
  item_wf Sample.tcx Sample.id_fn (predicates_defined_on Sample.tcx Sample.id_fn) ∧
  forallb (ty_vars_all (wf_pre (generics_of Sample.tcx Sample.id_fn)) 1)
    (sig_inputs_and_output (fn_sig Sample.tcx Sample.id_fn)) = true ∧
  sig_inputs_and_output (fn_sig Sample.tcx Sample.id_fn) ≠ [] ∧
  args_ok (generics_of Sample.tcx Sample.id_fn) [GaType Bool] ∧
  ∃ d, fn_def_datum Sample.tcx Sample.id_fn = Ok d ∧
    mapM (cfold.subst_ty (map lower_arg [GaType Bool]) 1)
      (rust_ir.argument_types (chalk_ir.value (rust_ir.inputs_and_output (chalk_ir.value (rust_ir.fn_binders d))))
       ++ [rust_ir.return_type (chalk_ir.value (rust_ir.inputs_and_output (chalk_ir.value (rust_ir.fn_binders d))))]) =
    map lower_ty <$> mapM (subst_ty [GaType Bool] 1) (sig_inputs_and_output (fn_sig Sample.tcx Sample.id_fn)) ∧
    mapM (cfold.subst_qwc (map lower_arg [GaType Bool]) 0)
      (rust_ir.fn_where_clauses (chalk_ir.value (rust_ir.fn_binders d))) =
    omap (lower_into : Predicate → option chalk_ir.QuantifiedWhereClause) <$>
      mapM (subst_predicate [GaType Bool]) (predicates_defined_on Sample.tcx Sample.id_fn).
Proof.
  assert (H : item_wf Sample.tcx Sample.id_fn (predicates_defined_on Sample.tcx Sample.id_fn))
    by (apply item_wf_check; reflexivity).
  assert (Hs : forallb (ty_vars_all (wf_pre (generics_of Sample.tcx Sample.id_fn)) 1)
    (sig_inputs_and_output (fn_sig Sample.tcx Sample.id_fn)) = true) by reflexivity.
  assert (Hne : sig_inputs_and_output (fn_sig Sample.tcx Sample.id_fn) ≠ []) by discriminate.
  assert (Ha : args_ok (generics_of Sample.tcx Sample.id_fn) [GaType Bool])
    by (split; [repeat constructor|reflexivity]).
  split_and!; [exact H|exact Hs|exact Hne|exact Ha|
    exact (fn_def_datum_instantiate Sample.tcx Sample.id_fn _ H Hs Hne Ha)].
Defined.

(** [<Self as Tr<T>>::Out: Sized] at [Self = &str, T = u32]. *)
Lemma associated_ty_data_instantiate_witness :
  trait_container (associated_item Sample.tcx Sample.out_decl) = Some Sample.tr_did ∧
  assoc_kind (associated_item Sample.tcx Sample.out_decl) = AssocType ∧
  item_wf Sample.tcx Sample.out_decl (predicates_defined_on Sample.tcx Sample.out_decl) ∧
  Forall (λ p, predicate_vars_all (wf_pre (generics_of Sample.tcx Sample.out_decl)) p = true)
    (explicit_item_bounds Sample.tcx Sample.out_decl) ∧
  args_ok (generics_of Sample.tcx Sample.out_decl) [GaType Str; GaType (Uint U32)] ∧
  ∃ d, associated_ty_data Sample.tcx Sample.out_decl = Ok d ∧
    mapM (cfold.subst_qib (map lower_arg [GaType Str; GaType (Uint U32)]) 0)
      (rust_ir.assoc_bounds (chalk_ir.value (rust_ir.assoc_binders d))) =
    omap (lower_into : Predicate → option rust_ir.QuantifiedInlineBound) <$>
      mapM (subst_predicate [GaType Str; GaType (Uint U32)]) (explicit_item_bounds Sample.tcx Sample.out_decl) ∧
    mapM (cfold.subst_qwc (map lower_arg [GaType Str; GaType (Uint U32)]) 0)
      (rust_ir.assoc_where_clauses (chalk_ir.value (rust_ir.assoc_binders d))) =
    omap (lower_into : Predicate → option chalk_ir.QuantifiedWhereClause) <$>
      mapM (subst_predicate [GaType Str; GaType (Uint U32)]) (predicates_defined_on Sample.tcx Sample.out_decl).
Proof.
  assert (Hc : trait_container (associated_item Sample.tcx Sample.out_decl) = Some Sample.tr_did)
    by reflexivity.
  assert (Hk : assoc_kind (associated_item Sample.tcx Sample.out_decl) = AssocType) by reflexivity.
  assert (H : item_wf Sample.tcx Sample.out_decl (predicates_defined_on Sample.tcx Sample.out_decl))
    by (apply item_wf_check; reflexivity).
  assert (Hb : item_wf Sample.tcx Sample.out_decl (explicit_item_bounds Sample.tcx Sample.out_decl))
    by (apply item_wf_check; reflexivity).
  destruct Hb as (_&_&Hb).
  assert (Ha : args_ok (generics_of Sample.tcx Sample.out_decl) [GaType Str; GaType (Uint U32)])
    by (split; [repeat constructor|reflexivity]).
  split_and!; [exact Hc|exact Hk|exact H|exact Hb|exact Ha|
    exact (associated_ty_data_instantiate Sample.tcx _ _ _ Hc Hk H Hb Ha)].
Defined.

(** [type Out = T] in [impl<T> Tr<T> for Pair<T>], at [T = bool]. *)
Lemma associated_ty_value_instantiate_witness :
  assoc_kind (associated_item Sample.tcx Sample.out_value) = AssocType ∧
  trait_item_def_id (associated_item Sample.tcx Sample.out_value) = Some Sample.out_decl ∧
  generics_wf (generics_of Sample.tcx Sample.out_value) ∧
  const_param_types_closed Sample.tcx (generics_of Sample.tcx Sample.out_value) ∧
  ty_vars_all (wf_pre (generics_of Sample.tcx Sample.out_value)) 0 (type_of Sample.tcx Sample.out_value) = true ∧
  args_ok (generics_of Sample.tcx Sample.out_value) [GaType Bool] ∧
  ∃ v, associated_ty_value Sample.tcx Sample.out_value = Ok v ∧
    cfold.subst_ty (map lower_arg [GaType Bool]) 0 (rust_ir.assoc_value_ty (chalk_ir.value (rust_ir.assoc_value v))) =
    lower_ty <$> subst_ty [GaType Bool] 0 (type_of Sample.tcx Sample.out_value).
Proof.
  assert (Hk : assoc_kind (associated_item Sample.tcx Sample.out_value) = AssocType) by reflexivity.
  assert (Ht : trait_item_def_id (associated_item Sample.tcx Sample.out_value) = Some Sample.out_decl)
    by reflexivity.
  assert (Hg : generics_wf (generics_of Sample.tcx Sample.out_value))
    by (apply generics_wf_check; reflexivity).
  assert (Hc : const_param_types_closed Sample.tcx (generics_of Sample.tcx Sample.out_value))
    by (apply const_param_types_closed_check; reflexivity).
  assert (Hty : ty_vars_all (wf_pre (generics_of Sample.tcx Sample.out_value)) 0
    (type_of Sample.tcx Sample.out_value) = true) by reflexivity.
  assert (Ha : args_ok (generics_of Sample.tcx Sample.out_value) [GaType Bool])
    by (split; [repeat constructor|reflexivity]).
  split_and!; [exact Hk|exact Ht|exact Hg|exact Hc|exact Hty|exact Ha|
    exact (associated_ty_value_instantiate Sample.tcx _ _ _ Hk Ht Hg Hc Hty Ha)].
Defined.

(** ** The opaque datum instantiated with the hidden type

    The datum [opaque_ty_data] ([OpaqueTy.v]) binds one existential type
    variable, the hidden type, over the bounds of [impl Trait]; the
    solver instantiates it ([Binders::substitute], [ChalkSubst.v]) with
    the type that stands for the opaque type.  What the datum means
    (spec, section 4.8): the item's bounds hold of the hidden type once
    each self-reference is replaced by it.  [map_top] applies a
    function to the types the folder visits, [hidden_bounds] is that
    replacement on rustc's side.

    The theorem: on an opaque type without generic parameters,
    instantiating the datum with a closed type [h] gives, bound by
    bound and in order, the lowering of [hidden_bounds h] of the item's
    bounds, and leaves the lowered where clauses as they are.  The proof
    goes through rustc's substitution: the folded bound is the
    substitution of [^0.0] for a parameter standing for the hidden type,
    so the refinement lemma of [Instantiate.v] applies. *)

(** ** Rewriting the types the folder visits *)

Definition map_top_const (f : Ty → Ty) (k : Const) : Const :=
  match k with mkConst ck t => mkConst ck (f t) end.

Definition map_top_arg (f : Ty → Ty) (a : GenericArg) : GenericArg :=
  match a with
  | GaLifetime r => GaLifetime r
  | GaType t => GaType (f t)
  | GaConst k => GaConst (map_top_const f k)
  end.

Definition map_top_kind (f : Ty → Ty) (pk : PredicateKind) : PredicateKind :=
  match pk with
  | PkTrait tr => PkTrait (mkTraitRef (tr_def_id tr) (map (map_top_arg f) (tr_substs tr)))
  | PkRegionOutlives a b => PkRegionOutlives a b
  | PkTypeOutlives t r => PkTypeOutlives (f t) r
  | PkProjection p x =>
      PkProjection (mkProjectionTy (map (map_top_arg f) (proj_substs p)) (proj_item_def_id p))
        (match x with TermTy t => TermTy (f t) | TermConst k => TermConst (map_top_const f k) end)
  | PkWellFormed a => PkWellFormed (map_top_arg f a)
  | PkObjectSafe d => PkObjectSafe d
  | PkClosureKind d xs => PkClosureKind d (map (map_top_arg f) xs)
  | PkSubtype a b => PkSubtype (f a) (f b)
  | PkCoerce a b => PkCoerce (f a) (f b)
  | PkConstEvaluatable k => PkConstEvaluatable (map_top_const f k)
  | PkConstEquate a b => PkConstEquate (map_top_const f a) (map_top_const f b)
  | PkTypeWellFormedFromEnv t => PkTypeWellFormedFromEnv (f t)
  end.

Definition map_top (f : Ty → Ty) (p : Predicate) : Predicate :=
  mkPredicate (pred_bound_vars p) (map_top_kind f (pred_kind p)).

(** [Opaque(def_id, [])] replaced by [h]. *)
Definition replace_opaque (def_id : DefId) (h : Ty) (t : Ty) : Ty :=
  if decide (t = Opaque def_id []) then h else t.

(** The bounds the datum states of the hidden type [h]. *)
Definition hidden_bounds (def_id : DefId) (h : Ty) (p : Predicate) : Predicate :=
  map_top (replace_opaque def_id h) p.

(** ** The folder is a [map_top] *)

Lemma map_top_ext f g p : (∀ t, f t = g t) → map_top f p = map_top g p.
Proof.
  intros Hfg. assert (Ha : ∀ a, map_top_arg f a = map_top_arg g a)
    by (intros [|t|[ck t]]; simpl; by rewrite ?Hfg).
  assert (Hk : ∀ k, map_top_const f k = map_top_const g k) by (intros [ck t]; simpl; by rewrite Hfg).
  assert (Hl : ∀ xs, map (map_top_arg f) xs = map (map_top_arg g) xs)
    by (intros xs; apply map_ext; exact Ha).
  destruct p as [bvs [[d xs]| | |[xs d] [t|k]| | | | | | | |]]; unfold map_top; simpl;
    rewrite ?Hfg, ?Hk, ?Ha, ?Hl; done.
Qed.

Lemma fold_predicate_map_top folder p :
  fold_predicate folder p = map_top (replace_self (shift_in folder)) p.
Proof.
  rewrite <-(map_top_ext (fold_ty (shift_in folder))) by apply fold_ty_replace_self.
  assert (Ha : ∀ a, fold_arg (shift_in folder) a = map_top_arg (fold_ty (shift_in folder)) a)
    by (intros [|t|[ck t]]; done).
  assert (Hl : ∀ xs, map (fold_arg (shift_in folder)) xs = map (map_top_arg (fold_ty (shift_in folder))) xs)
    by (intros xs; apply map_ext; exact Ha).
  destruct p as [bvs [[d xs]| | |[xs d] [t|[ck t]]| | | | | |[ck t]|[ck t] [ck' t']|]];
    unfold fold_predicate, map_top; simpl; rewrite ?Hl; done.
Qed.

(** ** Substituting into a [map_top] *)

Section SubstTop.
Context (s : SubstsRef) (f f' : Ty → Ty).
Hypothesis Hf : ∀ t, ty_vars_all no_param 1 t = true → subst_ty s 1 (f t) = Some (f' t).

Lemma subst_region_np r : region_vars_all no_param 1 r = true → subst_region s 1 r = Some r.
Proof.
  intros Hr. pose proof (proj1 (proj2 (subst_no_param_mut s)) (GaLifetime r) 1 1 Hr) as H.
  change (GaLifetime <$> subst_region s 1 r = Some (GaLifetime r)) in H.
  destruct (subst_region s 1 r); by simplify_eq/=.
Qed.

Lemma subst_map_top_const k :
  const_vars_all no_param 1 k = true → subst_const s 1 (map_top_const f k) = Some (map_top_const f' k).
Proof. destruct k as [[i n|db v|z] t]; simpl; intros H; vars_split; try done; by rewrite Hf. Qed.

Lemma subst_map_top_arg a :
  arg_vars_all no_param 1 a = true → subst_arg s 1 (map_top_arg f a) = Some (map_top_arg f' a).
Proof.
  destruct a as [r|t|k]; simpl; intros H.
  - by rewrite subst_region_np.
  - by rewrite Hf.
  - by rewrite subst_map_top_const.
Qed.

Lemma subst_map_top_args xs :
  forallb (arg_vars_all no_param 1) xs = true →
  mapM (subst_arg s 1) (map (map_top_arg f) xs) = Some (map (map_top_arg f') xs).
Proof.
  induction xs as [|a xs IH]; simpl; intros H; vars_split; [done|].
  by rewrite subst_map_top_arg, IH.
Qed.

Lemma subst_map_top p :
  predicate_vars_all no_param p = true → subst_predicate s (map_top f p) = Some (map_top f' p).
Proof.
  destruct p as [bvs pk]. unfold predicate_vars_all, subst_predicate, map_top. simpl. intros H.
  destruct pk as [[d xs]| | |[xs d] [t|k]| | | | | | | |]; simpl in *; vars_split;
    unfold subst_trait_ref, subst_substs, subst_term; simpl;
    rewrite ?subst_map_top_args, ?subst_map_top_arg, ?subst_map_top_const, ?Hf, ?subst_region_np;
    done.
Qed.

End SubstTop.

(** ** A [map_top] keeps what the visitor checks *)

Section TopVars.
Context (F G : nat → VarOcc → bool) (f : Ty → Ty).
Hypotheses (HFG : ∀ c v, F c v = true → G c v = true)
  (Hf : ∀ t, ty_vars_all F 1 t = true → ty_vars_all G 1 (f t) = true).

Lemma region_vars_mono r : region_vars_all F 1 r = true → region_vars_all G 1 r = true.
Proof. exact (proj1 (proj2 (vars_all_mono_mut F G HFG)) (GaLifetime r) 1). Qed.

Lemma map_top_const_vars k : const_vars_all F 1 k = true → const_vars_all G 1 (map_top_const f k) = true.
Proof.
  destruct k as [ck t]. simpl. intros H. vars_split; [|by apply Hf].
  assert (Hc : const_vars_all F 1 (mkConst ck Bool) = true) by (simpl; by rewrite H).
  apply (proj2 (proj2 (vars_all_mono_mut F G HFG))) in Hc. simpl in Hc. by vars_split.
Qed.

Lemma map_top_arg_vars a : arg_vars_all F 1 a = true → arg_vars_all G 1 (map_top_arg f a) = true.
Proof. destruct a; simpl; auto using region_vars_mono, map_top_const_vars. Qed.

Lemma map_top_args_vars xs :
  forallb (arg_vars_all F 1) xs = true → forallb (arg_vars_all G 1) (map (map_top_arg f) xs) = true.
Proof. induction xs; simpl; intros H; vars_split; auto using map_top_arg_vars. Qed.

Lemma map_top_vars p : predicate_vars_all F p = true → predicate_vars_all G (map_top f p) = true.
Proof.
  destruct p as [bvs pk]. unfold predicate_vars_all, map_top. simpl.
  destruct pk as [[d xs]| | |[xs d] [t|k]| | | | | | | |]; simpl; intros H; vars_split;
    auto using region_vars_mono, map_top_const_vars, map_top_arg_vars, map_top_args_vars.
Qed.

End TopVars.

(** ** The hidden type as a parameter *)

(** One type parameter standing for the hidden type, and the variable
    [^0.0] the datum binds for it. *)
Definition hidden_generics (def_id : DefId) : list GenericParamDef :=
  [mkGenericParamDef "Hidden" def_id 0 GpType].

Definition hidden_var : SubstsRef := [GaType (Bound 0 (mkBoundTy 0 BtAnon))].

Lemma hidden_var_ok def_id h :
  ty_vars_all (λ _ _, false) 0 h = true →
  bound_identity hidden_var ∧ kinds_match (hidden_generics def_id) hidden_var ∧
  args_ok (hidden_generics def_id) [GaType h].
Proof.
  intros Hh. split_and!.
  - intros [|i] a Hi; simplify_eq/=; done.
  - repeat constructor.
  - split; [repeat constructor|]. simpl. rewrite andb_true_r.
    exact (proj1 closed_const_tys_closed_mut h 0 Hh).
Qed.

Lemma wf_pre_nil_hidden def_id c v : wf_pre [] c v = true → wf_pre (hidden_generics def_id) c v = true.
Proof. destruct v; unfold wf_pre, param_kind_ok; simpl; rewrite ?andb_false_r; done. Qed.

(** A bound, folded then instantiated with [h], is the lowering of the
    bound with its visited self-references replaced by [h]. *)
Lemma hidden_bound_instantiate def_id h p :
  predicate_vars_all (wf_pre []) p = true → ty_vars_all (λ _ _, false) 0 h = true →
  match (lower_into (fold_predicate (mkReplaceOpaqueTyFolder def_id [] INNERMOST) p)
           : option chalk_ir.QuantifiedWhereClause) with
  | Some w => Some <$> cfold.subst_qwc [chalk_ir.GaTy (lower_ty h)] 0 w
  | None => Some None
  end = Some (lower_into (hidden_bounds def_id h p)).
Proof.
  intros Hp Hh. destruct (hidden_var_ok def_id h Hh) as (Hid&Hk&Ha).
  assert (Hnp : predicate_vars_all no_param p = true)
    by (eapply predicate_vars_all_mono; [apply wf_pre_nil_no_param|exact Hp]).
  set (q := map_top (replace_opaque def_id (Param 0 "Hidden")) p).
  assert (Hq : subst_predicate hidden_var q = Some (fold_predicate (mkReplaceOpaqueTyFolder def_id [] INNERMOST) p)).
  { rewrite fold_predicate_map_top. apply subst_map_top; [|done]. intros t Ht.
    unfold replace_opaque, replace_self. simpl. case_decide; [done|].
    exact (proj1 (subst_no_param_mut hidden_var) t 1 1 Ht). }
  assert (Hhq : subst_predicate [GaType h] q = Some (hidden_bounds def_id h p)).
  { apply subst_map_top; [|done]. intros t Ht. unfold replace_opaque. case_decide.
    - simpl. f_equal. exact (proj1 (shift_closed_mut 1) h 0 0 Hh).
    - exact (proj1 (subst_no_param_mut _) t 1 1 Ht). }
  assert (Hwf : predicate_vars_all (wf_pre (hidden_generics def_id)) q = true).
  { apply (map_top_vars (wf_pre [])); [apply wf_pre_nil_hidden| |exact Hp].
    intros t Ht. unfold replace_opaque. case_decide; [done|].
    exact (proj1 (vars_all_mono_mut _ _ (wf_pre_nil_hidden def_id)) t 1 Ht). }
  pose proof (predicate_instantiate _ _ _ q _ Hid Hk Ha Hwf Hq) as H. by rewrite Hhq in H.
Qed.

(** A predicate without parameters is left as it is. *)
Lemma where_clause_hidden_fixed h p :
  predicate_vars_all (wf_pre []) p = true → ty_vars_all (λ _ _, false) 0 h = true →
  match (lower_into p : option chalk_ir.QuantifiedWhereClause) with
  | Some w => Some <$> cfold.subst_qwc [chalk_ir.GaTy (lower_ty h)] 0 w
  | None => Some None
  end = Some (lower_into p).
Proof.
  intros Hp Hh. destruct (hidden_var_ok (mkDefId 0 0) h Hh) as (Hid&Hk&Ha).
  assert (Hnp : predicate_vars_all no_param p = true)
    by (eapply predicate_vars_all_mono; [apply wf_pre_nil_no_param|exact Hp]).
  assert (Hwf : predicate_vars_all (wf_pre (hidden_generics (mkDefId 0 0))) p = true)
    by (eapply predicate_vars_all_mono; [apply wf_pre_nil_hidden|exact Hp]).
  pose proof (predicate_instantiate _ _ _ p p Hid Hk Ha Hwf (subst_predicate_no_param _ p Hnp)) as H.
  by rewrite subst_predicate_no_param in H.
Qed.

(** ** Theorem *)

(** C29: refinement of the opaque datum.  On an opaque type without
    generic parameters, with well-formed predicates and bounds,
    [opaque_ty_data] succeeds, and instantiating its existential binder
    with a closed type [h] (Chalk's [Binders::substitute]) gives, bound
    by bound and in order, the lowering of the item's bounds with every
    self-reference the folder visits replaced by [h], the bounds Chalk
    cannot express dropped; its where clauses, which do not mention the
    hidden type, are left as the lowering of the item's predicates. *)
Theorem opaque_ty_data_instantiate (tcx : TyCtxt) (opaque_ty_id : DefId) (h : Ty) :
  generics_of tcx opaque_ty_id = [] →
  item_wf tcx opaque_ty_id (predicates_defined_on tcx opaque_ty_id) →
  Forall (λ p, predicate_vars_all (wf_pre []) p = true) (explicit_item_bounds tcx opaque_ty_id) →
  ty_vars_all (λ _ _, false) 0 h = true →
  ∃ d, opaque_ty_data tcx opaque_ty_id = Ok d ∧
    mapM (cfold.subst_qwc [chalk_ir.GaTy (lower_ty h)] 0)
      (chalk_ir.value (rust_ir.opaque_bounds (chalk_ir.value (rust_ir.opaque_bound d)))) =
    Some (omap lower_into (hidden_bounds opaque_ty_id h <$> explicit_item_bounds tcx opaque_ty_id)) ∧
    mapM (cfold.subst_qwc [chalk_ir.GaTy (lower_ty h)] 0)
      (chalk_ir.value (rust_ir.opaque_where_clauses (chalk_ir.value (rust_ir.opaque_bound d)))) =
    Some (omap lower_into (predicates_defined_on tcx opaque_ty_id)).
Proof.
  intros Hg Hwf Hbs Hh. pose proof Hwf as (_&_&Hps). rewrite Hg in Hps.
  rewrite (opaque_ty_data_nongeneric tcx opaque_ty_id Hg Hwf Hbs).
  eexists. split; [done|]. simpl. split.
  - transitivity (omap (lower_into : Predicate → option chalk_ir.QuantifiedWhereClause) <$> mapM (λ p, Some (hidden_bounds opaque_ty_id h p))
      (explicit_item_bounds tcx opaque_ty_id)); [|by rewrite mapM_Some_fmap].
    apply mapM_omap, Forall2_fmap_r, Forall_Forall2_diag.
    eapply Forall_impl; [exact Hbs|]. intros p Hp. by apply hidden_bound_instantiate.
  - transitivity (omap (lower_into : Predicate → option chalk_ir.QuantifiedWhereClause) <$> mapM (λ p, Some (id p)) (predicates_defined_on tcx opaque_ty_id));
      [|by rewrite mapM_Some_fmap, list_fmap_id].
    apply mapM_omap, Forall_Forall2_diag.
    eapply Forall_impl; [exact Hps|]. intros p Hp. by apply where_clause_hidden_fixed.
Qed.

(** On [type Opq = impl Sized] with hidden type [u32]: the bound
    [Opq: Sized] becomes [u32: Sized]. *)
Lemma opaque_ty_data_instantiate_witness :
  generics_of Sample.tcx Sample.opq = [] ∧
  item_wf Sample.tcx Sample.opq (predicates_defined_on Sample.tcx Sample.opq) ∧
  Forall (λ p, predicate_vars_all (wf_pre []) p = true) (explicit_item_bounds Sample.tcx Sample.opq) ∧
  ty_vars_all (λ _ _, false) 0 (Uint U32) = true ∧
  omap lower_into (hidden_bounds Sample.opq (Uint U32) <$> explicit_item_bounds Sample.tcx Sample.opq) =
    [chalk_ir.mkBinders [] (chalk_ir.Implemented (chalk_ir.mkTraitRef Sample.sized_did
       [chalk_ir.GaTy (chalk_ir.Scalar (chalk_ir.Uint chalk_ir.U32))]))] ∧
  ∃ d, opaque_ty_data Sample.tcx Sample.opq = Ok d ∧
    mapM (cfold.subst_qwc [chalk_ir.GaTy (lower_ty (Uint U32))] 0)
      (chalk_ir.value (rust_ir.opaque_bounds (chalk_ir.value (rust_ir.opaque_bound d)))) =
    Some (omap lower_into (hidden_bounds Sample.opq (Uint U32) <$> explicit_item_bounds Sample.tcx Sample.opq)) ∧
    mapM (cfold.subst_qwc [chalk_ir.GaTy (lower_ty (Uint U32))] 0)
      (chalk_ir.value (rust_ir.opaque_where_clauses (chalk_ir.value (rust_ir.opaque_bound d)))) =
    Some (omap lower_into (predicates_defined_on Sample.tcx Sample.opq)).
Proof.
  assert (H0 : generics_of Sample.tcx Sample.opq = []) by reflexivity.
  assert (H1 : item_wf Sample.tcx Sample.opq (predicates_defined_on Sample.tcx Sample.opq))
    by (apply item_wf_check; reflexivity).
  assert (H2 : item_wf Sample.tcx Sample.opq (explicit_item_bounds Sample.tcx Sample.opq))
    by (apply item_wf_check; reflexivity).
  destruct H2 as (_&_&H2).
  assert (H3 : ty_vars_all (λ _ _, false) 0 (Uint U32) = true) by reflexivity.
  split; [exact H0|split; [exact H1|split; [exact H2|split; [exact H3|split; [reflexivity|]]]]].
  exact (opaque_ty_data_instantiate _ _ _ H0 H1 H2 H3).
Defined.
