(* ===== verification/Database.v ===== *)
(** * The database: the two trait impls of [RustIrDatabase] and their safety

    [db.rs] lines 64-685 implement [chalk_solve::RustIrDatabase] for the
    bridge, and lines 687-709 [chalk_ir::UnificationDatabase].  The two
    traits are chalk's, not the repository's; they are modelled as
    records of operations ([RustIrDatabase], [UnificationDatabase]), one
    field per method the bridge implements, and the impls as the
    records [rust_ir_database tcx] and [unification_database tcx] built
    from the definitions of the other files.  [interner] and
    [unification_database] are accessors: the first hands out the host
    context, the second the bridge itself as a unification database.
    [program_clauses_for_env] only calls into chalk_solve and is left out.

    The law [db_safe] is what chalk relies on when it asks the database:
    on an item of the kind the method is about, well formed as rustc
    guarantees, the method does not panic; the only aborts left are the
    [unimplemented!] gaps of the bridge (generators, the discriminant
    type, coherence, bivariance, associated items that are not types).
    The theorem of this file is that the bridge's database satisfies
    it, whatever the host and whatever sound [could_match] chalk uses. *)

From S2P Require Import Prelude HostTy ChalkIr Lowering ChalkScope TyCtxt BoundVars.
From S2P Require Import WhereClauses Closures AutoTrait WellKnown Datums Queries ImplMatch FnDefDatum OpaqueTy.
Import ty.

(** ** The traits, as records of operations *)

(** [chalk_ir::UnificationDatabase] *)
Record UnificationDatabase := mkUnificationDatabase {
  udb_fn_def_variance : DefId → res (list chalk_ir.Variance);
  udb_adt_variance : AdtDef → res (list chalk_ir.Variance)
}.

(** [chalk_solve::RustIrDatabase], the methods the bridge implements
    (the closure methods also receive the closure's id, which the bridge
    does not read). *)
Record RustIrDatabase := mkRustIrDatabase {
  db_interner : TyCtxt;
  db_associated_ty_data : DefId → res rust_ir.AssociatedTyDatum;
  db_trait_datum : DefId → res rust_ir.TraitDatum;
  db_adt_datum : AdtDef → res rust_ir.AdtDatum;
  db_adt_repr : AdtDef → rust_ir.AdtRepr;
  db_adt_size_align : AdtDef → rust_ir.AdtSizeAlign;
  db_fn_def_datum : DefId → res rust_ir.FnDefDatum;
  db_impl_datum : DefId → res rust_ir.ImplDatum;
  db_impls_for_trait : DefId → list chalk_ir.GenericArg → res (list DefId);
  db_impl_provided_for : DefId → chalk_ir.Ty → res bool;
  db_associated_ty_value : DefId → res rust_ir.AssociatedTyValue;
  db_custom_clauses : list chalk_ir.QuantifiedWhereClause;
  db_local_impls_to_coherence_check : DefId → res (list DefId);
  db_opaque_ty_data : DefId → res rust_ir.OpaqueTyDatum;
  db_well_known_trait_id : rust_ir.WellKnownTrait → option DefId;
  db_is_object_safe : DefId → bool;
  db_hidden_opaque_type : DefId → chalk_ir.Ty;
  db_closure_kind : DefId → list chalk_ir.GenericArg → res rust_ir.ClosureKind;
  db_closure_inputs_and_output :
    DefId → list chalk_ir.GenericArg → res (chalk_ir.Binders rust_ir.FnDefInputsAndOutputDatum);
  db_closure_upvars : DefId → list chalk_ir.GenericArg → res (chalk_ir.Binders chalk_ir.Ty);
  db_closure_fn_substitution : DefId → list chalk_ir.GenericArg → res (list chalk_ir.GenericArg);
  db_generator_datum : DefId → res unit;
  db_generator_witness_datum : DefId → res unit;
  db_unification_database : UnificationDatabase;
  db_discriminant_type : chalk_ir.Ty → res chalk_ir.Ty
}.

(** ** The impls *)

(** [impl chalk_ir::UnificationDatabase for RustIrDatabase] *)
Definition unification_database (tcx : TyCtxt) : UnificationDatabase :=
  mkUnificationDatabase (fn_def_variance tcx) (adt_variance tcx).

(** [impl chalk_solve::RustIrDatabase for RustIrDatabase]: [interner]
    gives the host context, [unification_database] returns [self]. *)
Definition rust_ir_database (tcx : TyCtxt) `{!CouldMatch} : RustIrDatabase := {|
  db_interner := tcx;
  db_associated_ty_data := associated_ty_data tcx;
  db_trait_datum := trait_datum tcx;
  db_adt_datum := adt_datum tcx;
  db_adt_repr := adt_repr;
  db_adt_size_align := adt_size_align tcx;
  db_fn_def_datum := fn_def_datum tcx;
  db_impl_datum := impl_datum tcx;
  db_impls_for_trait := impls_for_trait tcx;
  db_impl_provided_for := impl_provided_for tcx;
  db_associated_ty_value := associated_ty_value tcx;
  db_custom_clauses := custom_clauses;
  db_local_impls_to_coherence_check := local_impls_to_coherence_check;
  db_opaque_ty_data := opaque_ty_data tcx;
  db_well_known_trait_id := well_known_trait_id tcx;
  db_is_object_safe := is_object_safe' tcx;
  db_hidden_opaque_type := hidden_opaque_type;
  db_closure_kind := λ _ substs, closure_kind substs;
  db_closure_inputs_and_output := λ _ substs, closure_inputs_and_output substs;
  db_closure_upvars := λ _ substs, closure_upvars substs;
  db_closure_fn_substitution := λ _ substs, closure_fn_substitution substs;
  db_generator_datum := generator_datum;
  db_generator_witness_datum := generator_witness_datum;
  db_unification_database := unification_database tcx;
  db_discriminant_type := discriminant_type
|}.

(** ** The safety law *)

(** A result that is a value, or an abort of the [unimplemented!] kind:
    a gap of the bridge, not a broken invariant. *)
Definition unimplemented_only {A} (r : res A) : bool :=
  match r with Ok _ | Err (Unimplemented _) => true | Err _ => false end.

(** The bounds of an item mention only its parameters, at their kinds. *)
Definition bounds_wf (tcx : TyCtxt) (def_id : DefId) : Prop :=
  Forall (λ p, predicate_vars_all (wf_pre (generics_of tcx def_id)) p = true)
    (explicit_item_bounds tcx def_id).

(** A well-formed impl of a trait: its trait reference mentions only the
    impl's parameters. *)
Definition impl_wf (tcx : TyCtxt) (impl_id : DefId) (tr : TraitRef) : Prop :=
  item_wf tcx impl_id (predicates_defined_on tcx impl_id) ∧ impl_trait_ref tcx impl_id = Some tr ∧
  forallb (arg_vars_all (wf_pre (generics_of tcx impl_id)) 0) (tr_substs tr) = true.

(** What chalk may rely on: asked about an item of the kind the method
    is about, well formed as rustc guarantees, the database does not
    panic, but for the [unimplemented!] gaps. *)
Record db_safe (tcx : TyCtxt) (db : RustIrDatabase) : Prop := {
  safe_associated_ty_data id :
    item_wf tcx id (predicates_defined_on tcx id) → bounds_wf tcx id →
    unimplemented_only (db_associated_ty_data db id) = true;
  safe_trait_datum id :
    item_wf tcx id (predicates_defined_on tcx id) → is_ok (db_trait_datum db id) = true;
  safe_adt_datum adt :
    item_wf tcx (adt_did adt) (predicates_defined_on tcx (adt_did adt)) → fields_wf tcx adt = true →
    is_ok (db_adt_datum db adt) = true;
  safe_fn_def_datum id :
    item_wf tcx id (predicates_defined_on tcx id) →
    forallb (ty_vars_all (wf_pre (generics_of tcx id)) 1) (sig_inputs_and_output (fn_sig tcx id)) = true →
    sig_inputs_and_output (fn_sig tcx id) ≠ [] →
    is_ok (db_fn_def_datum db id) = true;
  safe_impl_datum id tr : impl_wf tcx id tr → is_ok (db_impl_datum db id) = true;
  safe_impls_for_trait trait_id t ps :
    (∀ i, i ∈ all_impls tcx trait_id → ∃ tr, impl_wf tcx i tr ∧ is_ok (self_ty tr) = true) →
    is_ok (db_impls_for_trait db trait_id (chalk_ir.GaTy t :: ps)) = true;
  safe_impl_provided_for auto_trait_id t :
    (∀ i, i ∈ all_impls tcx auto_trait_id → ∃ tr, impl_trait_ref tcx i = Some tr ∧ is_ok (self_ty tr) = true) →
    is_ok (db_impl_provided_for db auto_trait_id t) = true;
  safe_associated_ty_value id :
    item_wf tcx id (predicates_defined_on tcx id) → is_Some (trait_item_def_id (associated_item tcx id)) →
    ty_vars_all (wf_pre (generics_of tcx id)) 0 (type_of tcx id) = true →
    unimplemented_only (db_associated_ty_value db id) = true;
  safe_local_impls id : unimplemented_only (db_local_impls_to_coherence_check db id) = true;
  safe_opaque_ty_data id :
    item_wf tcx id (predicates_defined_on tcx id) → bounds_wf tcx id → is_ok (db_opaque_ty_data db id) = true;
  safe_closures closure_id parent k num_binders args ret upvars :
    let substs := closure_substs parent k num_binders args ret upvars in
    is_ok (db_closure_kind db closure_id substs) && is_ok (db_closure_inputs_and_output db closure_id substs) &&
    is_ok (db_closure_upvars db closure_id substs) && is_ok (db_closure_fn_substitution db closure_id substs) = true;
  safe_generator_datum id : unimplemented_only (db_generator_datum db id) = true;
  safe_generator_witness_datum id : unimplemented_only (db_generator_witness_datum db id) = true;
  safe_fn_def_variance id : unimplemented_only (udb_fn_def_variance (db_unification_database db) id) = true;
  safe_adt_variance adt : unimplemented_only (udb_adt_variance (db_unification_database db) adt) = true;
  safe_discriminant_type t : unimplemented_only (db_discriminant_type db t) = true
}.

(** ** Lemmas: each method, on its well-formed items *)

Section Safety.
Context (tcx : TyCtxt) `{!CouldMatch}.

Lemma trait_datum_ok id :
  item_wf tcx id (predicates_defined_on tcx id) → is_ok (trait_datum tcx id) = true.
Proof. intros (s&wcs&Hs&Hw&_)%item_skeleton. unfold trait_datum. rewrite Hs. simpl. by rewrite Hw. Qed.

(** The datum of a well-formed impl names the impl's trait. *)
Lemma impl_datum_trait id tr :
  impl_wf tcx id tr →
  ∃ d, impl_datum tcx id = Ok d ∧
    chalk_ir.trait_id (rust_ir.impl_trait_ref (chalk_ir.value (rust_ir.impl_binders d))) = tr_def_id tr.
Proof.
  intros ((s&wcs&Hs&Hw&_&_&Hid&Hk&_)%item_skeleton&Htr&Hargs).
  destruct (subst_substs_bound_identity _ s 0 [arg_kind <$> s] Hid Hk eq_refl 0 _ Hargs) as (xs'&Hxs&_).
  unfold impl_datum. rewrite Hs. simpl. rewrite Htr. simpl.
  unfold subst_trait_ref. rewrite Hxs. simpl. rewrite Hw. simpl. by eexists.
Qed.

Lemma associated_ty_data_ok id :
  item_wf tcx id (predicates_defined_on tcx id) → bounds_wf tcx id →
  unimplemented_only (associated_ty_data tcx id) = true.
Proof.
  intros Hwf Hbs. destruct (item_skeleton tcx _ Hwf) as (s&wcs&Hs&Hw&_&_&Hid&Hk&_).
  destruct (lower_preds_total (T := rust_ir.QuantifiedInlineBound) _ _ _ _ Hid Hk Hbs) as (bs&Hbnd).
  assert (Hb' : bounds_for tcx (T := rust_ir.QuantifiedInlineBound) id s = Ok bs) by exact Hbnd.
  unfold associated_ty_data.
  destruct (trait_container _); [|done]. destruct (assoc_kind _); [done|done|].
  rewrite Hs. simpl. rewrite Hw. simpl. by rewrite Hb'.
Qed.

Lemma associated_ty_value_ok id :
  item_wf tcx id (predicates_defined_on tcx id) → is_Some (trait_item_def_id (associated_item tcx id)) →
  ty_vars_all (wf_pre (generics_of tcx id)) 0 (type_of tcx id) = true →
  unimplemented_only (associated_ty_value tcx id) = true.
Proof.
  intros (s&wcs&Hs&_&_&_&Hid&Hk&_)%item_skeleton [tid Htid] Ht.
  destruct (subst_lower_ok _ s _ Hid Hk Ht) as (t'&Ht'&_).
  unfold associated_ty_value. destruct (assoc_kind _); [done|done|].
  rewrite Htid. simpl. rewrite Hs. simpl. by rewrite Ht'.
Qed.

Lemma adt_datum_ok adt :
  item_wf tcx (adt_did adt) (predicates_defined_on tcx (adt_did adt)) → fields_wf tcx adt = true →
  is_ok (adt_datum tcx adt) = true.
Proof.
  intros (s&wcs&Hs&Hw&_&_&Hid&Hk&_)%item_skeleton Hf.
  destruct (adt_variants_closed tcx _ s _ Hid Hk Hf) as (vs&Hvs&_).
  unfold adt_datum. rewrite Hs. simpl. rewrite Hw. simpl. by rewrite Hvs.
Qed.

Lemma fn_def_datum_ok id :
  item_wf tcx id (predicates_defined_on tcx id) →
  forallb (ty_vars_all (wf_pre (generics_of tcx id)) 1) (sig_inputs_and_output (fn_sig tcx id)) = true →
  sig_inputs_and_output (fn_sig tcx id) ≠ [] → is_ok (fn_def_datum tcx id) = true.
Proof.
  intros (s&wcs&Hs&Hw&_&_&Hid&Hk&_)%item_skeleton Hsig Hne.
  destruct (sig_subst_closed _ s _ Hid Hk Hsig) as (io&Hio&Hioc).
  destruct io as [|t0 io'] using rev_ind.
  - apply mapM_Some_1, Forall2_length in Hio. by destruct (sig_inputs_and_output _).
  - by rewrite (fn_def_datum_eq tcx _ s wcs io' t0 Hs Hw Hio Hioc).
Qed.

Lemma opaque_ty_data_ok id :
  item_wf tcx id (predicates_defined_on tcx id) → bounds_wf tcx id → is_ok (opaque_ty_data tcx id) = true.
Proof.
  intros Hwf Hbs. pose proof Hwf as (Hg&Hc&Hps).
  destruct (bound_vars_for_item_Ok_of_wf tcx _ Hg) as (bv&Hb&_).
  destruct (bound_vars_for_item_identity tcx _ bv Hc Hb) as [Hid Hk].
  pose proof (shift_vars_identity 0 1 bv Hid) as Hid1. pose proof (kinds_match_shift _ 1 _ Hk) as Hk1.
  destruct (lower_preds_total (T := chalk_ir.QuantifiedWhereClause) _ 1 _ _ Hid1 Hk1 Hps) as (wcs&Hw).
  assert (Hw' : where_clauses_for tcx id (shift_vars 1 bv) = Ok wcs) by exact Hw.
  destruct (identity_for_item_total tcx id Hg) as (ids&Hids).
  destruct (subst_preds_ok _ 1 [[]; arg_kind <$> shift_vars 1 bv] _ _ Hid1 Hk1 eq_refl Hbs) as (bs&Hbs'&_).
  unfold opaque_ty_data. rewrite Hb. simpl. rewrite Hw'. simpl. rewrite Hids. simpl. by rewrite Hbs'.
Qed.

(** The self type of a well-formed impl, substituted and lowered. *)
Lemma impl_lowered_self_ty_ok i tr :
  impl_wf tcx i tr → is_ok (self_ty tr) = true → is_ok (impl_lowered_self_ty tcx i) = true.
Proof.
  intros ((s&wcs&Hs&_&_&_&Hid&Hk&_)%item_skeleton&Htr&Hargs) Hself.
  destruct (self_ty tr) as [t|e] eqn:Ht; [|done].
  assert (Htw : ty_vars_all (wf_pre (generics_of tcx i)) 0 t = true).
  { unfold self_ty, type_at in Ht. destruct (tr_substs tr !! 0) as [[|t'|]|] eqn:H0; try done.
    injection Ht as ->. rewrite forallb_forall in Hargs.
    exact (Hargs _ (proj1 (list_elem_of_In _ _) (list_elem_of_lookup_2 _ _ _ H0))). }
  destruct (subst_lower_ok _ s t Hid Hk Htw) as (t'&Ht'&_).
  unfold impl_lowered_self_ty. rewrite Htr. simpl. rewrite Hs. simpl. rewrite Ht. simpl. by rewrite Ht'.
Qed.

Lemma impls_for_trait_ok trait_id t ps :
  (∀ i, i ∈ all_impls tcx trait_id → ∃ tr, impl_wf tcx i tr ∧ is_ok (self_ty tr) = true) →
  is_ok (impls_for_trait tcx trait_id (chalk_ir.GaTy t :: ps)) = true.
Proof.
  intros Hall. apply filter_res_is_ok. intros i Hi. destruct (Hall i Hi) as (tr&Hwf&Hself).
  pose proof (impl_lowered_self_ty_ok i tr Hwf Hself) as Hl. unfold impl_could_match.
  by destruct (impl_lowered_self_ty tcx i).
Qed.

Lemma impl_provided_for_ok auto_trait_id t :
  (∀ i, i ∈ all_impls tcx auto_trait_id → ∃ tr, impl_trait_ref tcx i = Some tr ∧ is_ok (self_ty tr) = true) →
  is_ok (impl_provided_for tcx auto_trait_id t) = true.
Proof.
  unfold impl_provided_for. induction (all_impls tcx auto_trait_id) as [|i l IH]; intros Hall; [done|].
  simpl. destruct (Hall i (list_elem_of_here _ _)) as (tr&Htr&Hself).
  unfold impl_self_ty. rewrite Htr. simpl. destruct (self_ty tr); [|done]. simpl.
  destruct (provides _ _); [done|]. apply IH. intros j Hj. apply Hall. by apply list_elem_of_further.
Qed.

End Safety.

(** ** Theorem *)

(** C25: the bridge's database is safe.  Whatever the host context and
    whatever sound [could_match] chalk uses, asked about an item of the
    kind the method is about and well formed as rustc guarantees, no
    method of [rust_ir_database] panics: the datum builders, the impl
    filters and the closure decoders return a value, and the remaining
    methods (associated items that are not types, variances,
    generators, the discriminant type, coherence) abort only with
    [unimplemented!]. *)
Theorem rust_ir_database_safe (tcx : TyCtxt) `{!CouldMatch} : db_safe tcx (rust_ir_database tcx).
Proof.
  assert (Hv : ∀ vs, unimplemented_only (mapM lower_variance vs) = true).
  { induction vs as [|v vs IH]; [done|]. simpl.
    destruct v; simpl; [..|done]; by destruct (mapM lower_variance vs). }
  split; simpl.
  - apply associated_ty_data_ok.
  - apply trait_datum_ok.
  - apply adt_datum_ok.
  - apply fn_def_datum_ok.
  - intros id tr Hi. by destruct (impl_datum_trait tcx id tr Hi) as (d&->&_).
  - apply impls_for_trait_ok.
  - apply impl_provided_for_ok.
  - apply associated_ty_value_ok.
  - done.
  - apply opaque_ty_data_ok.
  - intros _. apply closure_substs_decode_ok.
  - done.
  - done.
  - intros. apply Hv.
  - intros. apply Hv.
  - done.
Qed.

(** ** Witness: on the sample crate, with the head-shape matcher *)

Lemma rust_ir_database_safe_witness :
  is_ok (db_trait_datum (rust_ir_database Sample.tcx) Sample.tr_did) = true ∧
  is_ok (db_adt_datum (rust_ir_database Sample.tcx) Sample.pair_adt) = true ∧
  is_ok (db_opaque_ty_data (rust_ir_database Sample.tcx) Sample.opq) = true.
Proof.
  pose proof (rust_ir_database_safe Sample.tcx) as Hsafe.
  split_and!.
  - apply (safe_trait_datum _ _ Hsafe). apply item_wf_check. reflexivity.
  - apply (safe_adt_datum _ _ Hsafe); [apply item_wf_check|]; reflexivity.
  - apply (safe_opaque_ty_data _ _ Hsafe); [apply item_wf_check; reflexivity|].
    assert (H : item_wf Sample.tcx Sample.opq (explicit_item_bounds Sample.tcx Sample.opq))
      by (apply item_wf_check; reflexivity).
    exact (proj2 (proj2 H)).
Defined.
